(** * Verification of the research-automation scripts (soen691)

    A shallow embedding of the Python scripts under [RQ1/] and [RQ2/] and the
    properties their specification states about them.

    Conventions of the embedding.
    - A Python [str] is a [string]; a character is a code point below 256.
    - A Python [int] is a [Z]; a JSON number is a rational [Q] (every finite
      float is one, and the scripts only compare scores with constants).
    - The interpreter converts between [str] and [int] no number of more than
      4300 digits: [Py.int] and [Py.str] raise [ValueError] beyond. The
      counts of a numstat line, which git prints from machine integers, and
      the page numbers of a request are taken to be within that limit
      ([Py.int_of_str], [Py.str_of_Z]).
    - A row of a CSV file is a [gmap string value]; a JSON object is the list of
      its items in insertion order; a [list] is a [list].
    - Code that can raise returns a [result]; a [try/except] is a match on it.
    - Code that mutates lists or talks to git, the network or the file system
      passes the state explicitly and records the commands it runs.

    The first part of the file holds the definitions, one module per script;
    the second part holds the lemmas and theorems. *)

From Stdlib Require Import ZArith QArith Qminmax Lqa Ascii String List Lia Bool.
From stdpp Require Import base option list strings gmap.

Open Scope Z_scope.

(* ===================================================================== *)
(** * Part I: definitions *)
(* ===================================================================== *)

(** ** Exceptions *)

Inductive exn : Type :=
| TypeError
| ValueError
| AttributeError
| KeyError
| CalledProcessError (returncode : Z) (stderr : string)
| OSError (msg : string)
| HTTPError (status : Z)
| ConnectionError.

Inductive result (A : Type) : Type :=
| Ok (a : A)
| Raise (e : exn).
Arguments Ok {A} a.
Arguments Raise {A} e.

Definition rbind {A B} (m : result A) (k : A -> result B) : result B :=
  match m with
  | Ok a => k a
  | Raise e => Raise e
  end.

Notation "'do' x <- m ; k" := (rbind m (fun x => k))
  (at level 10, x name, m at level 100, k at level 200).

(** ** The Python built-ins the scripts use *)

Module Py.

Definition code (c : ascii) : N := N_of_ascii c.

(** [\d] on a code point below 256, and what [int] accepts as a digit. *)
Definition is_digit (c : ascii) : bool :=
  (48 <=? code c)%N && (code c <=? 57)%N.

Definition digit_val (c : ascii) : N := (code c - 48)%N.

(** [str.isspace] on a code point below 256. *)
Definition is_space (c : ascii) : bool :=
  let n := code c in
  ((9 <=? n)%N && (n <=? 13)%N) || ((28 <=? n)%N && (n <=? 32)%N)
  || (n =? 133)%N || (n =? 160)%N.

Definition is_empty (s : string) : bool :=
  match s with EmptyString => true | String _ _ => false end.

(** [s.startswith(p)] *)
Fixpoint starts_with (p s : string) : bool :=
  match p, s with
  | EmptyString, _ => true
  | String a p', String b s' => Ascii.eqb a b && starts_with p' s'
  | String _ _, EmptyString => false
  end.

(** [p in s] *)
Fixpoint contains (p s : string) : bool :=
  starts_with p s ||
  match s with
  | EmptyString => false
  | String _ s' => contains p s'
  end.

(** [s.lower()] on code points below 256. *)
Definition lower_char (c : ascii) : ascii :=
  let n := code c in
  if ((65 <=? n)%N && (n <=? 90)%N)
     || ((192 <=? n)%N && (n <=? 222)%N && negb (n =? 215)%N)
  then ascii_of_N (n + 32) else c.

Fixpoint lower (s : string) : string :=
  match s with
  | EmptyString => EmptyString
  | String c s' => String (lower_char c) (lower s')
  end.

(** [s.lstrip(chars)], [s.rstrip(chars)], [s.strip(chars)] for a predicate on
    characters. *)
Fixpoint lstrip_by (f : ascii -> bool) (s : string) : string :=
  match s with
  | EmptyString => EmptyString
  | String c s' => if f c then lstrip_by f s' else s
  end.

Fixpoint rstrip_by (f : ascii -> bool) (s : string) : string :=
  match s with
  | EmptyString => EmptyString
  | String c s' =>
      match rstrip_by f s' with
      | EmptyString => if f c then EmptyString else String c EmptyString
      | r => String c r
      end
  end.

Definition strip_by (f : ascii -> bool) (s : string) : string :=
  rstrip_by f (lstrip_by f s).

(** [s.strip()] *)
Definition strip (s : string) : string := strip_by is_space s.

Fixpoint mem_char (c : ascii) (chars : string) : bool :=
  match chars with
  | EmptyString => false
  | String d r => Ascii.eqb c d || mem_char c r
  end.

(** [s.strip(chars)] *)
Definition strip_chars (chars s : string) : string :=
  strip_by (fun c => mem_char c chars) s.

(** [s.replace(c, "")] for a one-character [c]. *)
Fixpoint remove_char (c : ascii) (s : string) : string :=
  match s with
  | EmptyString => EmptyString
  | String d s' => if Ascii.eqb c d then remove_char c s' else String d (remove_char c s')
  end.

(** [s.split(sep)] for a one-character separator: never empty. *)
Fixpoint split_on (sep : ascii) (s : string) : list string :=
  match s with
  | EmptyString => [EmptyString]
  | String c s' =>
      if Ascii.eqb c sep then EmptyString :: split_on sep s'
      else match split_on sep s' with
           | w :: ws => String c w :: ws
           | [] => [String c EmptyString]
           end
  end.

(** [sep.join(parts)] *)
Fixpoint join (sep : string) (parts : list string) : string :=
  match parts with
  | [] => EmptyString
  | [p] => p
  | p :: ps => p +:+ sep +:+ join sep ps
  end.

(** The white space [int] skips around a number: [str.isspace] without the
    four separators 28 to 31. *)
Definition is_int_space (c : ascii) : bool :=
  is_space c && negb ((28 <=? code c)%N && (code c <=? 31)%N).

(** The number [int(s)] reads from a [str]: surrounding white space, an
    optional sign, then decimal digits, single underscores allowed between
    digits. The interpreter's limit on the number of digits is left to [int]
    below. *)
Fixpoint int_digits (acc : N) (after_digit : bool) (s : string) : option N :=
  match s with
  | EmptyString => if after_digit then Some acc else None
  | String c s' =>
      if is_digit c then int_digits (10 * acc + digit_val c)%N true s'
      else if Ascii.eqb c "_" && after_digit then int_digits acc false s'
      else None
  end.

Definition int_of_str (s : string) : result Z :=
  let t := strip_by is_int_space s in
  let r :=
    match t with
    | String c d =>
        if Ascii.eqb c "+" then Z.of_N <$> int_digits 0 false d
        else if Ascii.eqb c "-" then (fun n => - Z.of_N n) <$> int_digits 0 false d
        else Z.of_N <$> int_digits 0 false t
    | EmptyString => None
    end in
  match r with
  | Some z => Ok z
  | None => Raise ValueError
  end.

(** The text [str(n)] and [f"{n}"] write for an [int]: decimal digits, most
    significant first. [fuel] bounds the number of digits. The interpreter's
    limit on the number of digits is left to [str] below. *)
Definition digit_char (d : N) : ascii := ascii_of_N (48 + d).

Fixpoint digits_of (fuel : nat) (n : N) (acc : string) : string :=
  let acc' := String (digit_char (n mod 10)) acc in
  match fuel with
  | O => acc'
  | S fuel' => if (n / 10 =? 0)%N then acc' else digits_of fuel' (n / 10) acc'
  end.

Definition str_of_N (n : N) : string := digits_of (N.to_nat (N.log2 n)) n EmptyString.

Definition str_of_Z (z : Z) : string :=
  match z with
  | Zneg p => String "-" (str_of_N (Npos p))
  | _ => str_of_N (Z.to_N z)
  end.

(** [re.match(r'(\d+)' + lit, s)]: the digits matched by the group. [\d+] is
    greedy: it first tries to take one more digit and the rest of the match,
    and gives the digit back only when that fails. *)
Fixpoint re_match_digits (lit s : string) : option string :=
  match s with
  | EmptyString => None
  | String c s' =>
      if is_digit c then
        match re_match_digits lit s' with
        | Some g => Some (String c g)
        | None => if starts_with lit s' then Some (String c EmptyString) else None
        end
      else None
  end.

(** [re.search(r'(\d+)' + lit, s)]: the match at the leftmost position that
    has one. *)
Fixpoint re_search_digits (lit s : string) : option string :=
  match re_match_digits lit s with
  | Some g => Some g
  | None =>
      match s with
      | EmptyString => None
      | String _ s' => re_search_digits lit s'
      end
  end.

(** Vocabulary for the statements: a string of decimal digits and the number
    it denotes, most significant digit first. *)
Fixpoint all_digits (s : string) : bool :=
  match s with
  | EmptyString => true
  | String c s' => is_digit c && all_digits s'
  end.

Fixpoint dec_value (acc : N) (s : string) : N :=
  match s with
  | EmptyString => acc
  | String c s' => dec_value (10 * acc + digit_val c)%N s'
  end.

(** The interpreter converts between [str] and [int] no number of more than
    [sys.get_int_max_str_digits()] decimal digits: 4300, which none of the
    scripts changes. Beyond it [int(s)], [str(n)] and [f"{n}"] raise
    [ValueError]. The digits are counted with the leading zeros and without
    the sign, the white space and the underscores. *)
Definition max_str_digits : nat := 4300.

Fixpoint count_digits (s : string) : nat :=
  match s with
  | EmptyString => O
  | String c s' => if is_digit c then S (count_digits s') else count_digits s'
  end.

(** [int(s)] for a [str] *)
Definition int (s : string) : result Z :=
  if (count_digits s <=? max_str_digits)%nat then int_of_str s
  else Raise ValueError.

(** [str(n)] and [f"{n}"] for an [int] *)
Definition str (n : Z) : result string :=
  if (count_digits (str_of_Z n) <=? max_str_digits)%nat then Ok (str_of_Z n)
  else Raise ValueError.

(** The least natural number that has more than [max_str_digits] digits. *)
Definition str_bound : Z := 10 ^ 4300.

(** [c * n] for a one-character [c] *)
Fixpoint repeat_char (c : ascii) (n : nat) : string :=
  match n with
  | O => EmptyString
  | S n' => String c (repeat_char c n')
  end.

End Py.

(** ** RQ1/Scanning/SonarResultsGenerator.py *)

Module Sonar.

(** [parse_time(debt_str)] for a [str] argument. *)
Definition parse_time (debt_str : string) : result Z :=
  if Py.is_empty debt_str then Ok 0 else
  do hours <-
    (if Py.contains "h" debt_str then
       match Py.re_search_digits "h" debt_str with
       | Some g => Py.int g
       | None => Ok 0
       end
     else Ok 0);
  do minutes <-
    (if Py.contains "min" debt_str then
       match Py.re_search_digits "min" debt_str with
       | Some g => Py.int g
       | None => Ok 0
       end
     else Ok 0);
  Ok (hours * 60 + minutes).

(** [format_time(total_minutes)]; [//] and [%] are floor division and its
    remainder, as [Z.div] and [Z.modulo] are for a positive divisor. An
    f-string formats its fields from left to right. *)
Definition format_time (total_minutes : Z) : result string :=
  if total_minutes =? 0 then Ok "0min" else
  let hours := total_minutes / 60 in
  let minutes := total_minutes mod 60 in
  if (0 <? hours) && (0 <? minutes) then
    do h <- Py.str hours;
    do m <- Py.str minutes;
    Ok (h +:+ "h" +:+ m +:+ "min")
  else if 0 <? hours then
    do h <- Py.str hours;
    Ok (h +:+ "h")
  else
    do m <- Py.str minutes;
    Ok (m +:+ "min").

(** The number captured by [(\d+)lit] in [s], 0 when nothing matches, and
    the number of digits it is written with. *)
Definition matched (lit s : string) : Z :=
  match Py.re_search_digits lit s with
  | Some g => Z.of_N (Py.dec_value 0 g)
  | None => 0
  end.

Definition digits_captured (lit s : string) : nat :=
  match Py.re_search_digits lit s with
  | Some g => String.length g
  | None => O
  end.

(** The duration strings of the specification, ["<N>h<N>min"], ["<N>h"] and
    ["<N>min"] with [<N>] a non-empty string of digits, the total minutes
    each denotes, and the number of digits of its longest number. *)
Definition number (ds : string) : Prop :=
  Py.all_digits ds = true /\ Py.is_empty ds = false.

Inductive duration_string : string -> Z -> nat -> Prop :=
| duration_h_min (H M : string) :
    number H -> number M ->
    duration_string (H +:+ "h" +:+ M +:+ "min")
      (60 * Z.of_N (Py.dec_value 0 H) + Z.of_N (Py.dec_value 0 M))
      (Nat.max (String.length H) (String.length M))
| duration_h (H : string) :
    number H ->
    duration_string (H +:+ "h") (60 * Z.of_N (Py.dec_value 0 H)) (String.length H)
| duration_min (M : string) :
    number M ->
    duration_string (M +:+ "min") (Z.of_N (Py.dec_value 0 M)) (String.length M).

(** The formatted duration with its zero-valued components dropped. *)
Definition dropping_zeros (total_minutes : Z) : string :=
  if total_minutes =? 0 then "0min" else
  (if 0 <? total_minutes / 60
   then Py.str_of_Z (total_minutes / 60) +:+ "h" else "")
  +:+ (if 0 <? total_minutes mod 60
       then Py.str_of_Z (total_minutes mod 60) +:+ "min" else "").

End Sonar.

(** ** Python values: what [json.load] and [csv.DictReader] return *)

Set Warnings "-register-all".

Inductive value : Type :=
| VNone
| VBool (b : bool)
| VNum (q : Q)
| VStr (s : string)
| VList (items : list value)
| VDict (fields : list (string * value)).

Module Val.

(** [bool(v)]: what [not v] and [if v] test. *)
Definition truthy (v : value) : bool :=
  match v with
  | VNone => false
  | VBool b => b
  | VNum q => negb (Qeq_bool q 0)
  | VStr s => negb (Py.is_empty s)
  | VList items => match items with [] => false | _ => true end
  | VDict fields => match fields with [] => false | _ => true end
  end.

Fixpoint lookup (k : string) (fields : list (string * value)) : option value :=
  match fields with
  | [] => None
  | (k', v) :: rest => if String.eqb k k' then Some v else lookup k rest
  end.

(** [v.get(k, d)]: only a dict has the method. *)
Definition get (v : value) (k : string) (d : value) : result value :=
  match v with
  | VDict fields => Ok (default d (lookup k fields))
  | _ => Raise AttributeError
  end.

Fixpoint chars (s : string) : list value :=
  match s with
  | EmptyString => []
  | String c s' => VStr (String c EmptyString) :: chars s'
  end.

(** [for x in v]: the elements of a list, the characters of a string, the
    keys of a dict; nothing else is iterable. *)
Definition iter (v : value) : result (list value) :=
  match v with
  | VList items => Ok items
  | VStr s => Ok (chars s)
  | VDict fields => Ok (map (fun kv => VStr (fst kv)) fields)
  | _ => Raise TypeError
  end.

(** The number a comparison with a float sees: [True] is 1, [False] is 0;
    comparing anything else with a float raises. *)
Definition as_number (v : value) : result Q :=
  match v with
  | VNum q => Ok q
  | VBool b => Ok (if b then 1%Q else 0%Q)
  | _ => Raise TypeError
  end.

(** [int(v)]: a string is parsed, a float is truncated towards zero. *)
Definition int (v : value) : result Z :=
  match v with
  | VStr s => Py.int s
  | VNum q => Ok (Z.quot (Qnum q) (Zpos (Qden q)))
  | VBool b => Ok (if b then 1 else 0)
  | _ => Raise TypeError
  end.

(** [len(v)] *)
Definition len (v : value) : result Z :=
  match v with
  | VStr s => Ok (Z.of_nat (String.length s))
  | VList items => Ok (Z.of_nat (length items))
  | VDict fields => Ok (Z.of_nat (length fields))
  | _ => Raise TypeError
  end.

(** [k in v] for a string [k]: a key of a dict, an element of a list, a
    substring of a string. *)
Definition has (k : string) (v : value) : result bool :=
  match v with
  | VDict fields => Ok (bool_decide (is_Some (lookup k fields)))
  | VList items =>
      Ok (List.existsb
            (fun x => match x with VStr s => String.eqb s k | _ => false end) items)
  | VStr s => Ok (Py.contains k s)
  | _ => Raise TypeError
  end.

Definition of_int (z : Z) : value := VNum (inject_Z z).

Definition as_str (v : value) : result string :=
  match v with
  | VStr s => Ok s
  | _ => Raise TypeError
  end.

Fixpoint map_result {A B} (f : A -> result B) (l : list A) : result (list B) :=
  match l with
  | [] => Ok []
  | x :: l' => do y <- f x; do ys <- map_result f l'; Ok (y :: ys)
  end.

(** [sep.join(v)]: [v] must be an iterable of strings. *)
Definition join (sep : string) (v : value) : result string :=
  do items <- iter v;
  do parts <- map_result as_str items;
  Ok (Py.join sep parts).

End Val.

(** [for x in l: body], where the body updates a state and may raise: the
    state reached, and the exception that ended the loop, if any. *)
Fixpoint for_each {A S} (body : A -> S -> S * option exn) (l : list A) (s : S)
  : S * option exn :=
  match l with
  | [] => (s, None)
  | x :: l' =>
      match body x s with
      | (s', None) => for_each body l' s'
      | (s', Some e) => (s', Some e)
      end
  end.

(** ** RQ1/Scanning/ow.py *)

Module Owasp.

Record summary_row := {
  s_projectName : string;
  criticalSeverityCount : Z;
  highSeverityCount : Z;
  mediumSeverityCount : Z;
  lowSeverityCount : Z;
  totalVulnerabilities : Z
}.

Record detail_row := {
  d_projectName : string;
  packageName : value;
  vulnerabilityId : value;
  packagePath : value;
  severity : string;
  cvssScore : value;
  cwe : string;
  description : value;
  references : string;
  published : value
}.

Inductive log_line :=
| ErrorProcessing (project_name : string) (e : exn).

(** The two lists [main] passes to [process_scan_results], and the log. *)
Record store := {
  summary_data : list summary_row;
  detailed_data : list detail_row;
  log : list log_line
}.

(** The local counters of [process_scan_results]. *)
Record counters := {
  critical_count : Z;
  high_count : Z;
  medium_count : Z;
  low_count : Z;
  total_count : Z
}.

Definition no_counts : counters :=
  {| critical_count := 0; high_count := 0; medium_count := 0; low_count := 0;
     total_count := 0 |}.

(** The [if/elif] chain on the score: the severity and the counter it bumps. *)
Definition classify (cvss_score : Q) (c : counters) : string * counters :=
  if Qle_bool 9 cvss_score then
    ("CRITICAL", {| critical_count := critical_count c + 1; high_count := high_count c;
                    medium_count := medium_count c; low_count := low_count c;
                    total_count := total_count c |})
  else if Qle_bool 7 cvss_score then
    ("HIGH", {| critical_count := critical_count c; high_count := high_count c + 1;
                medium_count := medium_count c; low_count := low_count c;
                total_count := total_count c |})
  else if Qle_bool 4 cvss_score then
    ("MEDIUM", {| critical_count := critical_count c; high_count := high_count c;
                  medium_count := medium_count c + 1; low_count := low_count c;
                  total_count := total_count c |})
  else if negb (Qle_bool cvss_score 0) then
    ("LOW", {| critical_count := critical_count c; high_count := high_count c;
               medium_count := medium_count c; low_count := low_count c + 1;
               total_count := total_count c |})
  else ("UNKNOWN", c).

(** [if severity != 'UNKNOWN': total_count += 1] *)
Definition count_total (severity : string) (c : counters) : counters :=
  if negb (String.eqb severity "UNKNOWN") then
    {| critical_count := critical_count c; high_count := high_count c;
       medium_count := medium_count c; low_count := low_count c;
       total_count := total_count c + 1 |}
  else c.

(** The severity derived from a score. *)
Definition severity_of (cvss_score : Q) : string := fst (classify cvss_score no_counts).

Definition loop_state : Type := counters * list detail_row.

Definition raising (st : loop_state) (e : exn) : loop_state * option exn := (st, Some e).

(** The body of [for vuln in vulnerabilities]. *)
Definition process_vuln (project_name : string) (dependency_name dependency_path : value)
    (vuln : value) (st : loop_state) : loop_state * option exn :=
  let '(c, detailed) := st in
  match
    (do cvss_v3 <- Val.get vuln "cvssv3" (VDict []);
     do cvss_v2 <- Val.get vuln "cvssv2" (VDict []);
     do v2_score <- Val.get cvss_v2 "score" (VNum 0);
     do cvss_score <- Val.get cvss_v3 "baseScore" v2_score;
     do q <- Val.as_number cvss_score;
     Ok (cvss_score, q))
  with
  | Raise e => raising st e
  | Ok (cvss_score, q) =>
      let '(sev, c1) := classify q c in
      let c2 := count_total sev c1 in
      match
        (do name <- Val.get vuln "name" (VStr "N/A");
         do cwes <- Val.get vuln "cwes" (VList []);
         do cwe_str <- Val.join ", " cwes;
         do descr <- Val.get vuln "description" (VStr "N/A");
         do refs <- Val.get vuln "references" (VList []);
         do ref_items <- Val.iter refs;
         do urls <- Val.map_result (fun ref => Val.get ref "url" (VStr "")) ref_items;
         do refs_str <- Val.join ", " (VList urls);
         do publ <- Val.get vuln "published" (VStr "N/A");
         Ok {| d_projectName := project_name;
               packageName := dependency_name;
               vulnerabilityId := name;
               packagePath := dependency_path;
               severity := sev;
               cvssScore := cvss_score;
               cwe := cwe_str;
               description := descr;
               references := refs_str;
               published := publ |})
      with
      | Raise e => raising (c2, detailed) e
      | Ok row => ((c2, detailed ++ [row]), None)
      end
  end.

(** The body of [for dependency in dependencies]. *)
Definition process_dependency (project_name : string) (dependency : value)
    (st : loop_state) : loop_state * option exn :=
  match Val.get dependency "vulnerabilities" (VList []) with
  | Raise e => raising st e
  | Ok vulnerabilities =>
      if negb (Val.truthy vulnerabilities) then (st, None)
      else
        match
          (do dependency_name <- Val.get dependency "fileName" (VStr "N/A");
           do dependency_path <- Val.get dependency "filePath" (VStr "N/A");
           do vulns <- Val.iter vulnerabilities;
           Ok (dependency_name, dependency_path, vulns))
        with
        | Raise e => raising st e
        | Ok (dependency_name, dependency_path, vulns) =>
            for_each (process_vuln project_name dependency_name dependency_path) vulns st
        end
  end.

(** The [try] block of [process_scan_results]. *)
Definition try_block (project_name : string) (scan_result : value)
    (st : loop_state) : loop_state * option exn :=
  match
    (do dependencies <- Val.get scan_result "dependencies" (VList []);
     Val.iter dependencies)
  with
  | Raise e => raising st e
  | Ok deps => for_each (process_dependency project_name) deps st
  end.

Definition summary_of (project_name : string) (c : counters) : summary_row :=
  {| s_projectName := project_name;
     criticalSeverityCount := critical_count c;
     highSeverityCount := high_count c;
     mediumSeverityCount := medium_count c;
     lowSeverityCount := low_count c;
     totalVulnerabilities := total_count c |}.

(** [process_scan_results(project_name, scan_result, summary_data, detailed_data)] *)
Definition process_scan_results (project_name : string) (scan_result : value)
    (w : store) : store :=
  if negb (Val.truthy scan_result) then
    {| summary_data := summary_data w ++ [summary_of project_name no_counts];
       detailed_data := detailed_data w;
       log := log w |}
  else
    let '((c, detailed), raised) :=
      try_block project_name scan_result (no_counts, detailed_data w) in
    {| summary_data := summary_data w ++ [summary_of project_name c];
       detailed_data := detailed;
       log := match raised with
              | Some e => log w ++ [ErrorProcessing project_name e]
              | None => log w
              end |}.

(** Vocabulary for the statements: the rows a call appended, and how many of
    them carry a severity other than UNKNOWN. *)
Definition appended {A} (before after : list A) : list A :=
  drop (length before) after.

Definition rated (row : detail_row) : bool :=
  negb (String.eqb (severity row) "UNKNOWN").

Definition count_rated (rows : list detail_row) : Z :=
  Z.of_nat (length (List.filter rated rows)).

Definition severity_sum (r : summary_row) : Z :=
  criticalSeverityCount r + highSeverityCount r
  + mediumSeverityCount r + lowSeverityCount r.

(** The counters agree with the rows appended since [before]: they are not
    negative, the four severities add up to the total, and the total is the
    number of rated rows plus [slack]. *)
Definition agrees (project_name : string) (before : list detail_row) (slack : Z)
    (st : loop_state) : Prop :=
  let c := fst st in
  exists rows,
    snd st = before ++ rows
    /\ Forall (fun r => d_projectName r = project_name) rows
    /\ 0 <= critical_count c /\ 0 <= high_count c
    /\ 0 <= medium_count c /\ 0 <= low_count c
    /\ total_count c
       = critical_count c + high_count c + medium_count c + low_count c
    /\ total_count c = count_rated rows + slack.

(** What a loop body or a loop keeps: exact agreement when it completes; when
    it raises, the counter of the finding at hand may already be bumped. *)
Definition keeps (project_name : string) (before : list detail_row)
    (r : loop_state * option exn) : Prop :=
  match snd r with
  | None => agrees project_name before 0 (fst r)
  | Some _ => agrees project_name before 0 (fst r)
              \/ agrees project_name before 1 (fst r)
  end.

(** The property as the specification words it: the severity counters of the
    summary row add up to the number of detailed rows the call appended. *)
Definition counts_every_finding (project_name : string) (scan_result : value)
    (w : store) : Prop :=
  let w' := process_scan_results project_name scan_result w in
  forall row, last (summary_data w') = Some row ->
  severity_sum row
    = Z.of_nat (length (appended (detailed_data w) (detailed_data w'))).

Definition empty_store : store :=
  {| summary_data := []; detailed_data := []; log := [] |}.

(** A report with one vulnerability that carries no score, and one with a
    scored and an unscored vulnerability. *)
Definition unscored_report : value :=
  VDict [("dependencies",
         VList [VDict [("fileName", VStr "a.jar");
                     ("vulnerabilities",
                      VList [VDict [("name", VStr "CVE-0000-0001")]])]])].

(** A report whose only vulnerability has a score and a malformed [cwes]. *)
Definition malformed_report : value :=
  VDict [("dependencies",
         VList [VDict [("fileName", VStr "a.jar");
                     ("vulnerabilities",
                      VList [VDict [("name", VStr "CVE-0000-0003");
                                  ("cvssv3", VDict [("baseScore", VNum 9.8)]);
                                  ("cwes", VList [VNum 79])]])]])].

Definition mixed_report : value :=
  VDict [("dependencies",
         VList [VDict [("fileName", VStr "a.jar");
                     ("vulnerabilities",
                      VList [VDict [("name", VStr "CVE-0000-0001")];
                            VDict [("name", VStr "CVE-0000-0002");
                                  ("cvssv3", VDict [("baseScore", VNum 7.5)])]])]])].

End Owasp.

(** ** [subprocess.run] *)

Module Subprocess.

(** What a command does when it is run: it completes with an exit code and
    its two outputs, or the call itself raises (no such program, output that
    cannot be decoded). *)
Inductive run : Type :=
| Completed (returncode : Z) (stdout stderr : string)
| Fails (e : exn).

(** [subprocess.run(cmd, check=True, capture_output=True, ...).stdout] *)
Definition checked (r : run) : result string :=
  match r with
  | Completed rc out err => if rc =? 0 then Ok out else Raise (CalledProcessError rc err)
  | Fails e => Raise e
  end.

End Subprocess.

(** ** RQ2/rq2script.py *)

Module Rq2.

Definition TIMEOUT : Z := 60 * 15.

(** [(end - start).days + 1] for [since_date = "2022-01-01"] and
    [until_date = "2025-01-01"]. *)
Definition total_days : Z := 365 + 365 + 366 + 1.

Definition newline : ascii := "010".
Definition tab : ascii := "009".

(** An entry of [os.listdir(projects_folder)] and what the world does with
    it: the two file-system tests of [main], the two [git log] commands run
    in it, and the seconds the worker process takes. *)
Record entry := {
  name : string;
  is_dir : bool;
  has_git : bool;
  log_dates : Subprocess.run;
  log_numstat : Subprocess.run;
  elapsed : Z
}.

Record row := {
  project : string;
  avg_commits_per_day : Q;
  avg_lines_added_per_commit : Q;
  avg_lines_deleted_per_commit : Q
}.

Definition ratio (a b : Z) : Q := (inject_Z a / inject_Z b)%Q.

(** [get_commit_frequency(project_path)] *)
Definition get_commit_frequency (e : entry) : result Q :=
  match Subprocess.checked (log_dates e) with
  | Ok stdout =>
      let dates := Py.split_on newline (Py.strip stdout) in
      let total_commits :=
        Z.of_nat (length (List.filter (fun d => negb (Py.is_empty (Py.strip d))) dates)) in
      Ok (if 0 <? total_days then ratio total_commits total_days else 0%Q)
  | Raise (CalledProcessError _ _) => Ok 0%Q
  | Raise e => Raise e
  end.

Definition is_hex (c : ascii) : bool :=
  Py.is_digit c || ((97 <=? Py.code c)%N && (Py.code c <=? 102)%N).

Fixpoint all_chars (f : ascii -> bool) (s : string) : bool :=
  match s with
  | EmptyString => true
  | String c s' => f c && all_chars f s'
  end.

(** [re.match(r"^[0-9a-f]{40}$", line)] on a stripped line. *)
Definition is_commit_hash (line : string) : bool :=
  (String.length line =? 40)%nat && all_chars is_hex line.

(** [s.isdigit()] on code points below 256: the decimal digits and the
    superscripts one, two and three, which [int] does not accept. *)
Definition isdigit_char (c : ascii) : bool :=
  Py.is_digit c || (Py.code c =? 178)%N || (Py.code c =? 179)%N || (Py.code c =? 185)%N.

Definition isdigit (s : string) : bool :=
  negb (Py.is_empty s) && all_chars isdigit_char s.

Record churn := {
  total_additions : Z;
  total_deletions : Z;
  total_commits : Z;
  current_commit : option string
}.

(** [int(parts[0]) if parts[0].isdigit() else 0]; the count is taken to
    have at most 4300 digits. *)
Definition count_field (s : string) : result Z :=
  if isdigit s then Py.int_of_str s else Ok 0.

(** The body of the loop over the lines of [git log --numstat]. *)
Definition churn_line (raw : string) (st : churn) : result churn :=
  let line := Py.strip raw in
  if is_commit_hash line then
    Ok {| total_additions := total_additions st;
          total_deletions := total_deletions st;
          total_commits := total_commits st + 1;
          current_commit := Some line |}
  else if negb (Py.is_empty line) && bool_decide (is_Some (current_commit st)) then
    match Py.split_on tab line with
    | [p0; p1; _] =>
        do added <- count_field p0;
        do deleted <- count_field p1;
        Ok {| total_additions := total_additions st + added;
              total_deletions := total_deletions st + deleted;
              total_commits := total_commits st;
              current_commit := current_commit st |}
    | _ => Ok st
    end
  else Ok st.

Fixpoint churn_lines (lines : list string) (st : churn) : result churn :=
  match lines with
  | [] => Ok st
  | l :: ls => do st' <- churn_line l st; churn_lines ls st'
  end.

(** [get_code_churn(project_path)] *)
Definition get_code_churn (e : entry) : result (Q * Q) :=
  match Subprocess.checked (log_numstat e) with
  | Ok stdout =>
      do st <- churn_lines (Py.split_on newline (Py.strip stdout))
                 {| total_additions := 0; total_deletions := 0;
                    total_commits := 0; current_commit := None |};
      Ok (if total_commits st =? 0 then (0%Q, 0%Q)
          else (ratio (total_additions st) (total_commits st),
                ratio (total_deletions st) (total_commits st)))
  | Raise (CalledProcessError _ _) => Ok (0%Q, 0%Q)
  | Raise e => Raise e
  end.

(** [process_project(project_path, project_name)]: [None] on any exception. *)
Definition process_project (e : entry) : option row :=
  match
    (do avg_commits <- get_commit_frequency e;
     do churn <- get_code_churn e;
     Ok {| project := name e;
           avg_commits_per_day := avg_commits;
           avg_lines_added_per_commit := fst churn;
           avg_lines_deleted_per_commit := snd churn |})
  with
  | Ok info => Some info
  | Raise _ => None
  end.

(** [process_with_timeout(process_project, args=(project_path, project_name))]:
    the worker's value when it arrives within [TIMEOUT] seconds, else the
    worker is terminated and the result is [None]. *)
Definition process_with_timeout (e : entry) : option row :=
  if elapsed e <=? TIMEOUT then process_project e else None.

(** The two lists [main] fills. *)
Definition collected : Type := list row * list string.

(** The [for] loop of [main]; a row is a non-empty dict, hence true. *)
Fixpoint main_loop (entries : list entry) (acc : collected) : collected :=
  match entries with
  | [] => acc
  | e :: rest =>
      if is_dir e && has_git e then
        match process_with_timeout e with
        | Some project_info => main_loop rest (fst acc ++ [project_info], snd acc)
        | None => main_loop rest (fst acc, snd acc ++ [name e])
        end
      else main_loop rest acc
  end.

(** The files [main] writes: [new/post_commit_analysis_summary.csv] and
    [skipped_projects.txt], absent or with their rows and lines; [to_csv]
    fails when the directory [new] does not exist. *)
Record files := {
  new_dir_exists : bool;
  summary_csv : option (list row);
  skipped_txt : option (list string)
}.

(** [main()] *)
Definition main (entries : list entry) (fs : files) : result files :=
  let '(project_data, skipped_projects) := main_loop entries ([], []) in
  do fs1 <-
    (match project_data with
     | [] => Ok fs
     | _ :: _ =>
         if new_dir_exists fs then
           Ok {| new_dir_exists := true;
                 summary_csv := Some project_data;
                 skipped_txt := skipped_txt fs |}
         else Raise (OSError "Cannot save file into a non-existent directory: 'new'")
     end);
  Ok (match skipped_projects with
      | [] => fs1
      | _ :: _ =>
          {| new_dir_exists := new_dir_exists fs1;
             summary_csv := summary_csv fs1;
             skipped_txt := Some skipped_projects |}
      end).

(** Vocabulary for the statements. The enumerated git projects; the items
    that give no row (timed out, or an exception other than a git command's
    non-zero exit); the items one of whose git commands did not succeed. *)
Definition git_project (e : entry) : bool := is_dir e && has_git e.

Definition gives_row (e : entry) : bool :=
  match process_with_timeout e with Some _ => true | None => false end.

Definition succeeded (r : Subprocess.run) : bool :=
  match r with
  | Subprocess.Completed rc _ _ => rc =? 0
  | Subprocess.Fails _ => false
  end.

Definition fails_or_times_out (e : entry) : bool :=
  negb (succeeded (log_dates e)) || negb (succeeded (log_numstat e))
  || (TIMEOUT <? elapsed e).

(** The property as the specification words it, for the items that fail or
    time out: the CSV holds one row for each of the other items and the log
    lists the names of these. *)
Definition batch_resilient (entries : list entry) (fs : files) : Prop :=
  let items := List.filter git_project entries in
  let failures := List.filter fails_or_times_out items in
  exists fs' rows,
    main entries fs = Ok fs'
    /\ summary_csv fs' = Some rows
    /\ length rows = (length items - length failures)%nat
    /\ skipped_txt fs' = Some (map name failures).

(** The rows and the skipped names of a batch, in enumeration order. *)
Definition rows_of (entries : list entry) : list row :=
  omap process_with_timeout (List.filter git_project entries).

Definition kept (entries : list entry) : list entry :=
  List.filter gives_row (List.filter git_project entries).

Definition dropped (entries : list entry) : list entry :=
  List.filter (fun e => negb (gives_row e)) (List.filter git_project entries).

Definition no_files : files :=
  {| new_dir_exists := true; summary_csv := None; skipped_txt := None |}.

(** The files a previous run has left. *)
Definition stale_files : files :=
  {| new_dir_exists := true;
     summary_csv :=
       Some [ {| project := "earlier"; avg_commits_per_day := 1;
                 avg_lines_added_per_commit := 2;
                 avg_lines_deleted_per_commit := 3 |} ];
     skipped_txt := Some ["earlier-skipped"] |}.

(** A repository in which [git log] exits with 128, one that takes too long,
    and one where all works. *)
Definition broken_repo : entry :=
  {| name := "broken"; is_dir := true; has_git := true;
     log_dates := Subprocess.Completed 128 "" "fatal: bad default revision 'HEAD'";
     log_numstat := Subprocess.Completed 128 "" "fatal: bad default revision 'HEAD'";
     elapsed := 1 |}.

Definition slow_repo : entry :=
  {| name := "slow"; is_dir := true; has_git := true;
     log_dates := Subprocess.Completed 0 "2023-05-01" "";
     log_numstat := Subprocess.Completed 0 "" "";
     elapsed := 901 |}.

Definition good_repo : entry :=
  {| name := "good"; is_dir := true; has_git := true;
     log_dates := Subprocess.Completed 0 "2023-05-01" "";
     log_numstat := Subprocess.Completed 0 "" "";
     elapsed := 2 |}.

End Rq2.

(** ** RQ1/Data Collection/github_spider.py *)

Module Spider.

Definition BASE_URL : string := "https://api.github.com".

(** What [_make_request] reads of a [requests.Response]: the status code,
    the text, the [X-RateLimit-Reset] header when there is one, and what
    [response.json()] gives. *)
Record response := {
  status_code : Z;
  text : string;
  rate_limit_reset : option string;
  json : result value
}.

(** One [self.session.get(url, params=params)]: the call raises, or it
    answers; [now] is what [time.time()] reads while the answer is handled. *)
Inductive reply : Type :=
| GetRaises (e : exn)
| Responds (r : response) (now : Q).

Definition params : Type := list (string * string).

(** What the client does, in order. *)
Inductive event : Type :=
| Get (url : string) (p : params)
| Sleep (seconds : Q)
| WarnRateLimit (sleep_time : Q)
| WarnLimitReached
| ErrorRequestFailed (status : Z) (body : string)
| ErrorMakingRequest (e : exn).

(** How the [while True] loop ends: with a [return], with an exception, or
    not within the replies at hand. *)
Inductive loop_end : Type :=
| Returns (v : option value)
| Raises (e : exn)
| StillLooping.

Definition is_rate_limited (r : response) : bool :=
  (status_code r =? 403) && Py.contains "rate limit exceeded" (Py.lower (text r)).

Definition is_limit_reached (r : response) : bool :=
  (status_code r =? 422)
  && Py.contains "Only the first 1000 search results are available" (text r).

(** [int(response.headers.get('X-RateLimit-Reset', 0))] *)
Definition reset_time (r : response) : result Z :=
  match rate_limit_reset r with
  | Some h => Py.int h
  | None => Ok 0
  end.

(** [max(reset_time - time.time(), 0) + 1] *)
Definition sleep_time (reset : Z) (now : Q) : Q :=
  (Qmax (inject_Z reset - now) 0 + 1)%Q.

(** [response.raise_for_status()] *)
Definition raise_for_status (r : response) : result unit :=
  if (400 <=? status_code r) && (status_code r <? 600)
  then Raise (HTTPError (status_code r)) else Ok tt.

(** The [while True] loop of [_make_request], run against the replies the
    server gives in order. *)
Fixpoint request_loop (url : string) (p : params) (replies : list reply)
  : loop_end * list event * list reply :=
  match replies with
  | [] => (StillLooping, [], [])
  | GetRaises e :: rest => (Raises e, [Get url p], rest)
  | Responds r now :: rest =>
      if status_code r =? 200 then
        match json r with
        | Ok v => (Returns (Some v), [Get url p], rest)
        | Raise e => (Raises e, [Get url p], rest)
        end
      else if is_rate_limited r then
        match reset_time r with
        | Raise e => (Raises e, [Get url p], rest)
        | Ok reset =>
            let d := sleep_time reset now in
            let '(fin, evs, rest') := request_loop url p rest in
            (fin, Get url p :: WarnRateLimit d :: Sleep d :: evs, rest')
        end
      else if is_limit_reached r then
        (Returns None, [Get url p; WarnLimitReached], rest)
      else
        match raise_for_status r with
        | Raise e =>
            (Raises e, [Get url p; ErrorRequestFailed (status_code r) (text r)], rest)
        | Ok _ =>
            let '(fin, evs, rest') := request_loop url p rest in
            (fin, Get url p :: ErrorRequestFailed (status_code r) (text r) :: evs, rest')
        end
  end.

(** [_make_request(endpoint, params)]: what it returns, if it returns within
    the replies at hand; what it did; the replies left. *)
Definition make_request (endpoint : string) (p : params) (replies : list reply)
  : option (option value) * list event * list reply :=
  let url := BASE_URL +:+ "/" +:+ endpoint in
  let '(fin, evs, rest) := request_loop url p replies in
  match fin with
  | Returns v => (Some v, evs, rest)
  | Raises e => (Some None, evs ++ [ErrorMakingRequest e], rest)
  | StillLooping => (None, evs, rest)
  end.





Definition prepend (evs : list event)
    (out : option (option value) * list event * list reply)
  : option (option value) * list event * list reply :=
  let '(v, evs', rest) := out in (v, evs ++ evs', rest).


Definition ok_reply (v : value) : reply :=
  Responds {| status_code := 200; text := "{}"; rate_limit_reset := None;
              json := Ok v |} 0.

Definition window_reply : reply :=
  Responds {| status_code := 422;
              text := "Only the first 1000 search results are available";
              rate_limit_reset := None;
              json := Raise ValueError |} 0.

End Spider.

(** ** RQ1/Data Collection/revert_repos.py *)

Module Revert.

Definition command : Type := list string.

Definition dquote : string := String "034" EmptyString.

Definition symbolic_ref_cmd : command :=
  ["git"; "symbolic-ref"; "refs/remotes/origin/HEAD"].
Definition branch_list_cmd (branch : string) : command :=
  ["git"; "branch"; "--list"; branch].
Definition show_current_cmd : command := ["git"; "branch"; "--show-current"].
Definition checkout_cmd (branch : string) : command := ["git"; "checkout"; branch].
Definition rev_list_cmd (git_date_format : string) : command :=
  ["git"; "rev-list"; "-n"; "1";
   "--before=" +:+ dquote +:+ git_date_format +:+ " 23:59:59" +:+ dquote;
   "--all"].
Definition show_cmd (commit_hash : string) : command :=
  ["git"; "show"; "-s"; "--format=%ci"; commit_hash].
Definition reset_cmd (commit_hash : string) : command :=
  ["git"; "reset"; "--hard"; commit_hash].

(** A git repository of the folder, as the script meets it: its name, the
    tree in its working directory, how git answers each command the script
    runs in it, and the tree a checkout or a reset leaves behind. *)
Record repo := {
  name : string;
  worktree : string;
  symbolic_ref : Subprocess.run;
  branch_list : string -> Subprocess.run;
  show_current : Subprocess.run;
  checkout : string -> Subprocess.run;
  tree_after_checkout : string -> string;
  rev_list : Subprocess.run;
  show : string -> Subprocess.run;
  reset : string -> Subprocess.run;
  tree_after_reset : string -> string
}.

(** [subprocess.run(cmd, check=False, capture_output=True, text=True)] *)
Definition unchecked (r : Subprocess.run) : result (Z * string) :=
  match r with
  | Subprocess.Completed rc out _ => Ok (rc, out)
  | Subprocess.Fails e => Raise e
  end.

(** [for branch in ['main', 'master']: ... break]: the commands run and the
    branch found, [None] when the loop runs to its [else]. *)
Fixpoint first_branch (r : repo) (candidates : list string)
  : list command * result (option string) :=
  match candidates with
  | [] => ([], Ok None)
  | branch :: rest =>
      match unchecked (branch_list r branch) with
      | Raise e => ([branch_list_cmd branch], Raise e)
      | Ok (_, out) =>
          if negb (Py.is_empty (Py.strip out)) then
            ([branch_list_cmd branch], Ok (Some branch))
          else
            let '(cmds, found) := first_branch r rest in
            (branch_list_cmd branch :: cmds, found)
      end
  end.

(** [s.split('/')[-1]] *)
Definition last_component (s : string) : string :=
  List.last (Py.split_on "/" s) EmptyString.

(** The part of the inner [try] that sets [default_branch]: the commands run
    and the branch, or the exception that sends control to the inner
    [except]. *)
Definition resolve_default_branch (r : repo) : list command * result string :=
  match unchecked (symbolic_ref r) with
  | Raise e => ([symbolic_ref_cmd], Raise e)
  | Ok (returncode, out) =>
      if returncode =? 0 then
        ([symbolic_ref_cmd], Ok (last_component (Py.strip out)))
      else
        let '(cmds, found) := first_branch r ["main"; "master"] in
        match found with
        | Raise e => (symbolic_ref_cmd :: cmds, Raise e)
        | Ok (Some branch) => (symbolic_ref_cmd :: cmds, Ok branch)
        | Ok None =>
            match Subprocess.checked (show_current r) with
            | Ok out' =>
                (symbolic_ref_cmd :: cmds ++ [show_current_cmd], Ok (Py.strip out'))
            | Raise e =>
                (symbolic_ref_cmd :: cmds ++ [show_current_cmd], Raise e)
            end
        end
  end.

(** What the script has done to one repository: the commands it ran there,
    the tree it leaves in the working directory, and the entry it appended to
    [failed_projects], if any. *)
Record report := {
  repo_name : string;
  commands : list command;
  tree : string;
  failure : option string
}.

(** [repr] of a list of strings without quotes or backslashes in them. *)
Definition repr_command (cmd : command) : string :=
  "[" +:+ Py.join ", " (map (fun a => "'" +:+ a +:+ "'") cmd) +:+ "]".

(** [str(e)] for a [CalledProcessError] whose return code is not negative;
    the code is taken to have at most 4300 digits. *)
Definition str_called_process_error (cmd : command) (returncode : Z) : string :=
  "Command '" +:+ repr_command cmd +:+ "' returned non-zero exit status "
  +:+ Py.str_of_Z returncode +:+ ".".

Definition str_exn (e : exn) : string :=
  match e with
  | OSError msg => msg
  | _ => EmptyString
  end.

(** The two [except] clauses around the body of the loop, for a command run
    with [check=True]. With [text=True] the captured [stderr] is a [str],
    which has no [decode]: the first clause then raises [AttributeError]
    itself, and nothing catches that. *)
Definition handle (text : bool) (cmd : command) (e : exn) : result string :=
  match e with
  | CalledProcessError returncode stderr =>
      if negb (Py.is_empty stderr) then
        if text then Raise AttributeError else Ok stderr
      else Ok (str_called_process_error cmd returncode)
  | _ => Ok (str_exn e)
  end.

Definition failing (r : repo) (cmds : list command) (t : string) (text : bool)
    (cmd : command) (e : exn) : report * option exn :=
  match handle text cmd e with
  | Ok error_message =>
      ({| repo_name := name r; commands := cmds; tree := t;
          failure := Some error_message |}, None)
  | Raise e' =>
      ({| repo_name := name r; commands := cmds; tree := t; failure := None |},
       Some e')
  end.

(** The body of [for repo_path in repos]: the report on the repository, and
    the exception that leaves the loop, if any. *)
Definition process_repo (git_date_format : string) (r : repo) : report * option exn :=
  (* the inner try: default branch and checkout *)
  let '(cmds0, default_branch) := resolve_default_branch r in
  let '(cmds1, tree1) :=
    match default_branch with
    | Ok branch =>
        (cmds0 ++ [checkout_cmd branch],
         match checkout r branch with
         | Subprocess.Completed _ _ _ => tree_after_checkout r branch
         | Subprocess.Fails _ => worktree r
         end)
    | Raise _ => (cmds0, worktree r)
    end in
  (* the most recent commit before the target date *)
  let get_commit_cmd := rev_list_cmd git_date_format in
  let cmds2 := cmds1 ++ [get_commit_cmd] in
  match Subprocess.checked (rev_list r) with
  | Raise e => failing r cmds2 tree1 true get_commit_cmd e
  | Ok out =>
      let commit_hash := Py.strip out in
      if Py.is_empty commit_hash then
        ({| repo_name := name r; commands := cmds2; tree := tree1;
            failure := Some "No commits found before target date" |}, None)
      else
        let cmds3 := cmds2 ++ [show_cmd commit_hash] in
        match Subprocess.checked (show r commit_hash) with
        | Raise e => failing r cmds3 tree1 true (show_cmd commit_hash) e
        | Ok _ =>
            let cmds4 := cmds3 ++ [reset_cmd commit_hash] in
            match Subprocess.checked (reset r commit_hash) with
            | Raise e =>
                failing r cmds4 (tree_after_reset r commit_hash) false
                  (reset_cmd commit_hash) e
            | Ok _ =>
                ({| repo_name := name r; commands := cmds4;
                    tree := tree_after_reset r commit_hash;
                    failure := None |}, None)
            end
        end
  end.

(** The loop over the repositories. *)
Fixpoint revert_loop (git_date_format : string) (repos : list repo)
  : list report * option exn :=
  match repos with
  | [] => ([], None)
  | r :: rest =>
      match process_repo git_date_format r with
      | (rep, Some e) => ([rep], Some e)
      | (rep, None) =>
          let '(reps, raised) := revert_loop git_date_format rest in
          (rep :: reps, raised)
      end
  end.

Definition failed_projects (reports : list report) : list (string * string) :=
  omap (fun rep => (fun msg => (repo_name rep, msg)) <$> failure rep) reports.

(** The lines of [logs/failed_projects_<target_date>.log]. *)
Definition log_lines (failed : list (string * string)) : list string :=
  "Projects that failed to revert:"
  :: map (fun pe => fst pe +:+ ": " +:+ snd pe) failed.

(** How [revert_repos_to_date] ends: [sys.exit(1)], an exception nothing
    catches, or its last line, with the log file it wrote, if any. *)
Inductive outcome : Type :=
| Exits (code : Z)
| Crashes (e : exn) (reports : list report)
| Finishes (reports : list report) (log_file : option (list string)).

(** [revert_repos_to_date(repos_folder, target_date)], on the git
    repositories of the folder; [git_date_format] is [target_date] written
    as [%Y-%m-%d]. *)
Definition revert_repos_to_date (folder_exists : bool) (repos : list repo)
    (git_date_format : string) : outcome :=
  if negb folder_exists then Exits 1
  else match repos with
  | [] => Exits 1
  | _ :: _ =>
      match revert_loop git_date_format repos with
      | (reports, Some e) => Crashes e reports
      | (reports, None) =>
          Finishes reports
            (match failed_projects reports with
             | [] => None
             | failed => Some (log_lines failed)
             end)
      end
  end.

(** Vocabulary for the statements. *)
Definition no_commits_reason : string := "No commits found before target date".

(** No commit at or before the target date: [git rev-list] succeeds and
    prints nothing. *)
Definition no_commit_before (r : repo) : Prop :=
  exists out err,
    rev_list r = Subprocess.Completed 0 out err
    /\ Py.is_empty (Py.strip out) = true.

Definition is_reset (cmd : command) : bool :=
  match cmd with
  | "git" :: "reset" :: _ => true
  | _ => false
  end.

(** The tree the script's checkout leaves: the default branch's when one was
    resolved and the checkout ran. *)
Definition tree_after_branch_checkout (r : repo) : string :=
  match snd (resolve_default_branch r) with
  | Ok branch =>
      match checkout r branch with
      | Subprocess.Completed _ _ _ => tree_after_checkout r branch
      | Subprocess.Fails _ => worktree r
      end
  | Raise _ => worktree r
  end.

(** The property as the specification words it, for one repository: no
    reset, the working tree untouched, the failure recorded. *)
Definition skipped_untouched (git_date_format : string) (r : repo) : Prop :=
  let rep := fst (process_repo git_date_format r) in
  List.existsb is_reset (commands rep) = false
  /\ tree rep = worktree r
  /\ failure rep = Some no_commits_reason.

(** And for the batch: the run goes through every repository and the log
    it writes has the entry. *)
Definition skipped_and_logged (git_date_format : string) (repos : list repo)
    (r : repo) : Prop :=
  exists reports lines,
    revert_repos_to_date true repos git_date_format = Finishes reports (Some lines)
    /\ map repo_name reports = map name repos
    /\ In (name r +:+ ": " +:+ no_commits_reason) lines.

(** The default branch in the words of the specification: the remote HEAD
    when it resolves, else the first of main and master that exists locally,
    else the branch checked out. *)
Definition resolves (r : Subprocess.run) : option string :=
  match r with
  | Subprocess.Completed rc out _ => if rc =? 0 then Some (Py.strip out) else None
  | Subprocess.Fails _ => None
  end.

Definition local_branch_exists (r : repo) (branch : string) : bool :=
  match branch_list r branch with
  | Subprocess.Completed _ out _ => negb (Py.is_empty (Py.strip out))
  | Subprocess.Fails _ => false
  end.

Definition spec_default_branch (r : repo) : option string :=
  match resolves (symbolic_ref r) with
  | Some ref => Some (last_component ref)
  | None =>
      match List.find (local_branch_exists r) ["main"; "master"] with
      | Some branch => Some branch
      | None => resolves (show_current r)
      end
  end.

Definition resolution_order : list command :=
  [symbolic_ref_cmd; branch_list_cmd "main"; branch_list_cmd "master";
   show_current_cmd].

(** How many of these the script gets to run: it stops at the first source
    that gives a branch. *)
Definition resolution_steps (r : repo) : nat :=
  if bool_decide (is_Some (resolves (symbolic_ref r))) then 1
  else if local_branch_exists r "main" then 2
  else if local_branch_exists r "master" then 3
  else 4.

(** Git itself can be run in the repository. *)
Definition git_runs (r : repo) : Prop :=
  (exists rc out err, symbolic_ref r = Subprocess.Completed rc out err)
  /\ forall b, exists rc out err, branch_list r b = Subprocess.Completed rc out err.

Definition as_option {A} (x : result A) : option A :=
  match x with Ok a => Some a | Raise _ => None end.

(** A repository created after the target date, with [dev] checked out and
    [main] as the remote's default branch. *)
Definition young_repo : repo :=
  {| name := "young";
     worktree := "tree of dev";
     symbolic_ref := Subprocess.Completed 0 "refs/remotes/origin/main" "";
     branch_list := fun _ => Subprocess.Completed 0 "" "";
     show_current := Subprocess.Completed 0 "dev" "";
     checkout := fun _ => Subprocess.Completed 0 "" "Switched to branch 'main'";
     tree_after_checkout := fun b => "tree of " +:+ b;
     rev_list := Subprocess.Completed 0 "" "";
     show := fun _ => Subprocess.Completed 0 "" "";
     reset := fun _ => Subprocess.Completed 0 "" "";
     tree_after_reset := fun h => "tree of " +:+ h |}.

(** A repository without remote HEAD, with a local [master]. *)
Definition master_repo : repo :=
  {| name := "old";
     worktree := "tree of master";
     symbolic_ref := Subprocess.Completed 128 ""
       "fatal: ref refs/remotes/origin/HEAD is not a symbolic ref";
     branch_list := fun b =>
       Subprocess.Completed 0 (if String.eqb b "master" then "* master" else "") "";
     show_current := Subprocess.Completed 0 "master" "";
     checkout := fun _ => Subprocess.Completed 0 "" "Already on 'master'";
     tree_after_checkout := fun b => "tree of " +:+ b;
     rev_list := Subprocess.Completed 0 "0123456789abcdef0123456789abcdef01234567" "";
     show := fun _ => Subprocess.Completed 0 "2018-12-30 10:00:00 +0000" "";
     reset := fun _ => Subprocess.Completed 0 "" "";
     tree_after_reset := fun h => "tree of " +:+ h |}.

(** A repository in which [git rev-list] fails and says why on stderr. *)
Definition dubious_repo : repo :=
  {| name := "dubious";
     worktree := "tree of main";
     symbolic_ref := Subprocess.Completed 0 "refs/remotes/origin/main" "";
     branch_list := fun _ => Subprocess.Completed 0 "" "";
     show_current := Subprocess.Completed 0 "main" "";
     checkout := fun _ => Subprocess.Completed 0 "" "Already on 'main'";
     tree_after_checkout := fun b => "tree of " +:+ b;
     rev_list := Subprocess.Completed 128 ""
       "fatal: detected dubious ownership in repository";
     show := fun _ => Subprocess.Completed 0 "" "";
     reset := fun _ => Subprocess.Completed 0 "" "";
     tree_after_reset := fun h => "tree of " +:+ h |}.

End Revert.

(** ** [urllib.parse.urlparse] *)

Module Url.

(** The prefix of [s] before the first character that satisfies [f], and the
    rest from that character on. *)
Fixpoint break_at (f : ascii -> bool) (s : string) : string * string :=
  match s with
  | EmptyString => (EmptyString, EmptyString)
  | String c s' =>
      if f c then (EmptyString, s)
      else let '(a, b) := break_at f s' in (String c a, b)
  end.

Definition tail (s : string) : string :=
  match s with EmptyString => EmptyString | String _ s' => s' end.

Definition is_alpha (c : ascii) : bool :=
  ((65 <=? Py.code c)%N && (Py.code c <=? 90)%N)
  || ((97 <=? Py.code c)%N && (Py.code c <=? 122)%N).

Definition scheme_char (c : ascii) : bool :=
  is_alpha c || Py.is_digit c || Py.mem_char c "+-.".

Fixpoint all_chars (f : ascii -> bool) (s : string) : bool :=
  match s with
  | EmptyString => true
  | String c s' => f c && all_chars f s'
  end.

Definition uses_params : list string :=
  [""; "ftp"; "hdl"; "prospero"; "http"; "imap"; "https"; "shttp"; "rtsp";
   "rtspu"; "sip"; "sips"; "mms"; "sftp"; "tel"].

Record parsed := {
  scheme : string;
  netloc : string;
  path : string;
  params : string;
  query : string;
  fragment : string
}.

(** The position of the last ["/"]: the path up to and including it, and the
    last segment. *)
Fixpoint last_segment (s : string) : string * string :=
  match s with
  | EmptyString => (EmptyString, EmptyString)
  | String c s' =>
      if Py.contains "/" s' then
        let '(dir, seg) := last_segment s' in (String c dir, seg)
      else if Ascii.eqb c "/" then (String c EmptyString, s')
      else (EmptyString, s)
  end.

(** [urlparse(url)] on a [str]: leading control characters and spaces are
    stripped and tabs and newlines removed; the scheme is what precedes the
    first colon when it is a letter followed by scheme characters; the
    network location follows ["//"] up to the next ["/"], ["?"] or ["#"], and
    unbalanced square brackets in it raise [ValueError]; then the fragment,
    the query and the parameters of the last path segment are split off. *)
Definition urlparse (url0 : string) : result parsed :=
  let url1 :=
    Py.remove_char "009" (Py.remove_char "010" (Py.remove_char "013"
      (Py.lstrip_by (fun c => (Py.code c <=? 32)%N) url0))) in
  let '(sch, url2) :=
    match break_at (fun c => Ascii.eqb c ":") url1 with
    | (String c0 pre, String _ post) =>
        if is_alpha c0 && all_chars scheme_char pre
        then (Py.lower (String c0 pre), post) else (EmptyString, url1)
    | _ => (EmptyString, url1)
    end in
  let '(loc, url3) :=
    if Py.starts_with "//" url2
    then break_at (fun c => Py.mem_char c "/?#") (tail (tail url2))
    else (EmptyString, url2) in
  if xorb (Py.contains "[" loc) (Py.contains "]" loc) then Raise ValueError
  else
    let '(url4, frag) :=
      let '(a, b) := break_at (fun c => Ascii.eqb c "#") url3 in (a, tail b) in
    let '(url5, qry) :=
      let '(a, b) := break_at (fun c => Ascii.eqb c "?") url4 in (a, tail b) in
    let '(pth, prm) :=
      if bool_decide (sch ∈ uses_params) && Py.contains ";" url5 then
        let '(dir, seg) := last_segment url5 in
        let '(a, b) := break_at (fun c => Ascii.eqb c ";") seg in
        match b with
        | EmptyString => (url5, EmptyString)
        | String _ b' => (dir +:+ a, b')
        end
      else (url5, EmptyString) in
    Ok {| scheme := sch; netloc := loc; path := pth; params := prm;
          query := qry; fragment := frag |}.

End Url.

(** ** RQ1/Data Collection/get_contributors.py *)

Module Contributors.

(** [parse_github_url(html_url)]: [(None, None)] or the owner and the
    repository name. *)
Definition parse_github_url (html_url : string)
  : result (option string * option string) :=
  do parsed_url <- Url.urlparse html_url;
  let path_parts := Py.split_on "/" (Py.strip_chars "/" (Url.path parsed_url)) in
  match path_parts with
  | owner :: repo :: _ =>
      if negb (String.eqb (Url.netloc parsed_url) "github.com")
      then Ok (None, None) else Ok (Some owner, Some repo)
  | _ => Ok (None, None)
  end.

(** The GitHub API for one repository: what the GraphQL request gives, and
    the pages of the REST contributors list in order (a request past the
    last of them gives 200 with an empty list). *)
Inductive graphql_reply : Type :=
| PostRaises (e : exn)
| PostResponds (status_code : Z) (json : result value).

Inductive rest_reply : Type :=
| RestRaises (e : exn)
| RestResponds (status_code : Z) (json : result value)
    (rate_limit_remaining rate_limit_reset : option string).

Record network := {
  graphql : string -> string -> graphql_reply;
  rest_pages : string -> string -> list rest_reply
}.

Definition per_page : Z := 100.

(** The end of the body of the REST loop: the check of the remaining quota. *)
Definition respect_rate_limits (remaining reset : option string) : result unit :=
  match remaining with
  | None => Ok tt
  | Some rem =>
      do n <- Py.int rem;
      if n <? 5 then
        match reset with
        | None => Raise KeyError
        | Some rs => do reset_time <- Py.int rs; Ok tt
        end
      else Ok tt
  end.

(** The [while True] loop of [get_repo_contributors_count_rest]. *)
Fixpoint rest_loop (pages : list rest_reply) (contributors_count : Z) : result Z :=
  match pages with
  | [] => Ok contributors_count
  | RestRaises e :: _ => Raise e
  | RestResponds status_code json remaining reset :: rest =>
      if status_code =? 200 then
        do contributors <- json;
        if negb (Val.truthy contributors) then Ok contributors_count
        else
          do n <- Val.len contributors;
          if n <? per_page then Ok (contributors_count + n)
          else
            do _ <- respect_rate_limits remaining reset;
            rest_loop rest (contributors_count + n)
      else Ok contributors_count
  end.

(** [get_repo_contributors_count_rest(owner, repo, token)] *)
Definition get_repo_contributors_count_rest (net : network) (owner repo : string)
  : value :=
  match rest_loop (rest_pages net owner repo) 0 with
  | Ok contributors_count => Val.of_int contributors_count
  | Raise _ => Val.of_int 0
  end.

(** [get_repo_contributors_count_graphql(owner, repo, token)]; [None] in the
    inner computation stands for the fallback on ['errors' in result]. *)
Definition get_repo_contributors_count_graphql (net : network) (owner repo : string)
  : value :=
  match graphql net owner repo with
  | PostRaises _ => get_repo_contributors_count_rest net owner repo
  | PostResponds status_code json =>
      if status_code =? 200 then
        match
          (do result <- json;
           do errors <- Val.has "errors" result;
           if errors then Ok None
           else
             do data <- Val.get result "data" (VDict []);
             do repo_data <- Val.get data "repository" (VDict []);
             if Val.truthy repo_data then
               do users <- Val.get repo_data "mentionableUsers" (VDict []);
               do total <- Val.get users "totalCount" (Val.of_int 0);
               Ok (Some total)
             else Ok (Some (Val.of_int 0)))
        with
        | Ok (Some count) => count
        | Ok None => get_repo_contributors_count_rest net owner repo
        | Raise _ => get_repo_contributors_count_rest net owner repo
        end
      else get_repo_contributors_count_rest net owner repo
  end.

(** The input as [csv.DictReader] presents it: the field names ([None] for an
    empty file) and the rows; a cell a short row lacks is [None]. *)
Record csv_file := {
  fieldnames : option (list string);
  rows : list (gmap string value)
}.

Definition required_columns (url_column : string) : list string :=
  [url_column; "stargazers_count"; "forks_count"; "open_issues_count"].

(** [{col: row.get(col, '') for col in required_columns if col in fieldnames}] *)
Definition project_row (columns fields : list string) (row : gmap string value)
  : gmap string value :=
  fold_left
    (fun new_row col =>
       if bool_decide (col ∈ fields)
       then <[col := default (VStr "") (row !! col)]> new_row else new_row)
    columns ∅.

(** The body of [for row in csv_reader]. *)
Definition process_row (net : network) (url_column : string) (fields : list string)
    (row : gmap string value) : result (gmap string value) :=
  let new_row := project_row (required_columns url_column) fields row in
  do cell <- Val.as_str (default (VStr "") (row !! url_column));
  let html_url := Py.strip cell in
  if negb (Py.is_empty html_url) && Py.contains "github.com" html_url then
    do parsed <- parse_github_url html_url;
    match parsed with
    | (Some owner, Some repo) =>
        if negb (Py.is_empty owner) && negb (Py.is_empty repo) then
          let count := get_repo_contributors_count_graphql net owner repo in
          Ok (<["contributors_count" := count]> new_row)
        else Ok (<["contributors_count" := Val.of_int 0]> new_row)
    | _ => Ok (<["contributors_count" := Val.of_int 0]> new_row)
    end
  else Ok (<["contributors_count" := Val.of_int 0]> new_row).

(** [process_csv_with_specific_columns(csv_path, url_column, token)];
    [file] is [None] when the path cannot be opened. *)
Definition process_csv_with_specific_columns (file : option csv_file)
    (net : network) (url_column : string)
  : list (gmap string value) * list string :=
  let output_columns := required_columns url_column ++ ["contributors_count"] in
  match
    (do f <- match file with
             | Some f => Ok f
             | None => Raise (OSError "No such file or directory")
             end;
     do fields <- match fieldnames f with
                  | Some fields => Ok fields
                  | None => Raise TypeError
                  end;
     Val.map_result (process_row net url_column fields) (rows f))
  with
  | Ok processed_rows => (processed_rows, output_columns)
  | Raise _ => ([], [])
  end.

(** The input of the scenario. *)
Definition two_rows : csv_file :=
  {| fieldnames := Some ["html_url"];
     rows := [ {[ "html_url" := VStr "https://github.com/a/b" ]};
               {[ "html_url" := VStr "" ]} ] |}.

End Contributors.

(** ** RQ1/Data Collection/github_csv_filter.py *)

Module CsvFilter.

(** The object: [self.input_file] and [self.repositories], the rows
    [load_csv] read with [csv.DictReader]. *)
Record GitHubCSVFilter := {
  input_file : string;
  repositories : list (gmap string value)
}.

Definition single_quote : ascii := "039".
Definition double_quote : ascii := "034".

(** The [try] block on the topics and its [except]: the number of topics,
    0 when the field is not a string. *)
Definition topic_count (repo : gmap string value) : Z :=
  match default (VStr "[]") (repo !! "topics") with
  | VStr topics_str =>
      let cleaned :=
        Py.remove_char double_quote
          (Py.remove_char single_quote (Py.strip_chars "[]" topics_str)) in
      let topics :=
        List.filter (fun t => negb (Py.is_empty (Py.strip t)))
          (Py.split_on "," cleaned) in
      Z.of_nat (length topics)
  | _ => 0
  end.

(** The loop of [filter_repositories], appending to [filtered_repos]. *)
Fixpoint filter_loop (min_stars min_open_issues min_topics : Z)
    (repos filtered_repos : list (gmap string value))
  : result (list (gmap string value)) :=
  match repos with
  | [] => Ok filtered_repos
  | repo :: rest =>
      do stars <- Val.int (default (Val.of_int 0) (repo !! "stargazers_count"));
      do open_issues <- Val.int (default (Val.of_int 0) (repo !! "open_issues_count"));
      let count := topic_count repo in
      if (min_stars <=? stars) && (min_open_issues <=? open_issues)
         && (min_topics <=? count)
      then filter_loop min_stars min_open_issues min_topics rest (filtered_repos ++ [repo])
      else filter_loop min_stars min_open_issues min_topics rest filtered_repos
  end.

(** [self.filter_repositories(min_stars, min_open_issues, min_topics)]: what
    the call returns or raises, and the object after it. *)
Definition filter_repositories (self : GitHubCSVFilter)
    (min_stars min_open_issues min_topics : Z)
  : result (list (gmap string value)) * GitHubCSVFilter :=
  (filter_loop min_stars min_open_issues min_topics (repositories self) [], self).

(** Vocabulary for the statements: the two counts of a row, where [int]
    reads them, and the test a row has to pass. *)
Definition count_of (field : string) (repo : gmap string value) : result Z :=
  Val.int (default (Val.of_int 0) (repo !! field)).

Definition readable (repo : gmap string value) : Prop :=
  (exists z, count_of "stargazers_count" repo = Ok z)
  /\ (exists z, count_of "open_issues_count" repo = Ok z).

Definition number_of (field : string) (repo : gmap string value) : Z :=
  match count_of field repo with Ok z => z | Raise _ => 0 end.

Definition meets (min_stars min_open_issues min_topics : Z)
    (repo : gmap string value) : bool :=
  (min_stars <=? number_of "stargazers_count" repo)
  && (min_open_issues <=? number_of "open_issues_count" repo)
  && (min_topics <=? topic_count repo).

(** The property as the specification words it: for the list at hand the
    call returns the rows that pass the test. *)
Definition returns_filtered (self : GitHubCSVFilter)
    (min_stars min_open_issues min_topics : Z) : Prop :=
  exists filtered,
    fst (filter_repositories self min_stars min_open_issues min_topics) = Ok filtered
    /\ filtered = List.filter (meets min_stars min_open_issues min_topics)
                    (repositories self).

(** A file with a row whose star count is an empty cell, and one with a row
    that lacks its topics cell. *)
Definition blank_stars : GitHubCSVFilter :=
  {| input_file := "repos.csv";
     repositories :=
       [ {[ "full_name" := VStr "a/b"; "stargazers_count" := VStr "";
            "open_issues_count" := VStr "3"; "topics" := VStr "[]" ]} ] |}.

Definition sample : GitHubCSVFilter :=
  {| input_file := "repos.csv";
     repositories :=
       [ {[ "full_name" := VStr "a/b"; "stargazers_count" := VStr "12";
            "open_issues_count" := VStr "3"; "topics" := VStr "['web', 'api']" ]};
         {[ "full_name" := VStr "c/d"; "stargazers_count" := VStr "2";
            "open_issues_count" := VStr "9"; "topics" := VStr "['cli']" ]};
         {[ "full_name" := VStr "e/f"; "stargazers_count" := VStr "40";
            "open_issues_count" := VStr "5"; "topics" := VNone ]} ] |}.

End CsvFilter.

(** ** Further vocabulary for [ow.py] *)

Module OwaspRows.

(** A detailed row whose severity is the one its own score gives. *)
Definition rated_by_score (row : Owasp.detail_row) : Prop :=
  exists q,
    Val.as_number (Owasp.cvssScore row) = Ok q
    /\ Owasp.severity row = Owasp.severity_of q.

(** The rows a loop state holds beyond [before] are all of that kind. *)
Definition rows_rated (before : list Owasp.detail_row) (st : Owasp.loop_state) : Prop :=
  exists rows, snd st = before ++ rows /\ Forall rated_by_score rows.

End OwaspRows.

(** ** Further vocabulary for [revert_repos.py] *)

Module RevertRuns.

(** A command run with [check=True] that exits non-zero and says why on
    stderr. *)
Definition fails_with_text (run : Subprocess.run) : Prop :=
  exists rc out err,
    run = Subprocess.Completed rc out err /\ rc <> 0 /\ Py.is_empty err = false.

Definition succeeds (run : Subprocess.run) : Prop :=
  exists out err, run = Subprocess.Completed 0 out err.

(** The commit [git rev-list] prints for the repository. *)
Definition found_commit (r : Revert.repo) : string :=
  match r with
  | {| Revert.rev_list := Subprocess.Completed _ out _ |} => Py.strip out
  | _ => EmptyString
  end.

(** A repository with a commit before the date in which the three commands
    that follow the checkout all succeed. *)
Definition reverts_cleanly (r : Revert.repo) : Prop :=
  succeeds (Revert.rev_list r)
  /\ Py.is_empty (found_commit r) = false
  /\ succeeds (Revert.show r (found_commit r))
  /\ succeeds (Revert.reset r (found_commit r)).

(** The report of a repository that was reset to the commit found. *)
Definition reverted (r : Revert.repo) (rep : Revert.report) : Prop :=
  Revert.repo_name rep = Revert.name r
  /\ Revert.failure rep = None
  /\ Revert.tree rep = Revert.tree_after_reset r (found_commit r)
  /\ last (Revert.commands rep) = Some (Revert.reset_cmd (found_commit r))
  /\ length (List.filter Revert.is_reset (Revert.commands rep)) = 1%nat.

End RevertRuns.

(** ** Further vocabulary for [get_contributors.py] *)

Module ContributorsPages.






(** A row that stops [process_csv_with_specific_columns]: its URL cell is
    not text, or it is a GitHub URL that [urlparse] rejects. *)
Definition breaks (url_column : string) (row : gmap string value) : Prop :=
  (exists v, row !! url_column = Some v /\ forall s, v <> VStr s)
  \/ (exists s e,
        row !! url_column = Some (VStr s)
        /\ Py.contains "github.com" (Py.strip s) = true
        /\ Url.urlparse (Py.strip s) = Raise e).

(** A row whose URL cell is absent or text without square brackets. *)
Definition readable (url_column : string) (row : gmap string value) : Prop :=
  exists s,
    default (VStr "") (row !! url_column) = VStr s
    /\ Py.mem_char "[" s = false /\ Py.mem_char "]" s = false.

(** An output row for an input row: the required columns the file has, with
    the cells of the input row, and a count. *)
Definition kept_row (url_column : string) (fields : list string)
    (row out : gmap string value) : Prop :=
  is_Some (out !! "contributors_count")
  /\ forall col, col <> "contributors_count" ->
       out !! col
       = if bool_decide (col ∈ Contributors.required_columns url_column)
            && bool_decide (col ∈ fields)
         then Some (default (VStr "") (row !! col)) else None.

Definition rows_file (fields : list string) (rows : list (gmap string value))
  : option Contributors.csv_file :=
  Some {| Contributors.fieldnames := Some fields; Contributors.rows := rows |}.

Definition page_of (n : nat) : Contributors.rest_reply :=
  Contributors.RestResponds 200 (Ok (VList (repeat VNone n))) None None.

Definition three_pages : Contributors.network :=
  {| Contributors.graphql := fun _ _ => Contributors.PostResponds 502 (Raise ValueError);
     Contributors.rest_pages := fun _ _ => [page_of 100; page_of 100; page_of 37; page_of 100] |}.


End ContributorsPages.

(** ** Further vocabulary for [github_spider.py] *)

Module SpiderStatuses.

(** An answer with a client or server error status that is neither the
    throttling answer nor the answer on the 1000-results limit. *)
Definition error_status (r : Spider.response) : Prop :=
  400 <= Spider.status_code r < 600
  /\ Spider.is_rate_limited r = false
  /\ Spider.is_limit_reached r = false.

(** An answer whose status is not 200 and for which [raise_for_status] does
    nothing: 1xx, 2xx other than 200, 3xx. *)
Definition unhandled (rp : Spider.reply) : Prop :=
  match rp with
  | Spider.Responds r _ =>
      Spider.status_code r <> 200
      /\ (Spider.status_code r < 400 \/ 600 <= Spider.status_code r)
  | Spider.GetRaises _ => False
  end.

(** What the client does on such an answer. *)
Definition complaint (url : string) (p : Spider.params) (rp : Spider.reply)
  : list Spider.event :=
  match rp with
  | Spider.Responds r _ =>
      [Spider.Get url p; Spider.ErrorRequestFailed (Spider.status_code r) (Spider.text r)]
  | Spider.GetRaises _ => []
  end.

Definition is_sleep (ev : Spider.event) : bool :=
  match ev with Spider.Sleep _ => true | _ => false end.

Definition accepted_reply (body : string) : Spider.reply :=
  Spider.Responds {| Spider.status_code := 202; Spider.text := body;
                     Spider.rate_limit_reset := None;
                     Spider.json := Ok (VDict []) |} 0.

Definition forbidden : Spider.response :=
  {| Spider.status_code := 403; Spider.text := "Resource not accessible";
     Spider.rate_limit_reset := None; Spider.json := Raise ValueError |}.

End SpiderStatuses.


(** ** Further vocabulary for [rq2script.py] *)

Module Rq2Logs.

(** A line of text: not empty, no white space at either end, no line break
    inside. *)
Definition line (s : string) : Prop :=
  Py.is_empty s = false /\ Py.strip s = s /\ Py.mem_char Rq2.newline s = false.

(** The text of lines, one after the other. *)
Definition text_of (lines : list string) : string :=
  Py.join (String Rq2.newline EmptyString) lines.

(** One line of [git log --numstat] for a file: the lines added and deleted,
    [None] where git prints a dash for a binary file, and the path. *)
Record stat := {
  added : option N;
  deleted : option N;
  file : string
}.

(** A commit of the log: its hash and one entry per file. *)
Record commit := {
  hash : string;
  stats : list stat
}.

Definition count_text (n : option N) : string :=
  match n with Some n => Py.str_of_N n | None => "-" end.

Definition tab_text : string := String Rq2.tab EmptyString.

Definition stat_line (s : stat) : string :=
  count_text (added s) +:+ tab_text +:+ count_text (deleted s) +:+ tab_text +:+ file s.

Definition commit_lines (c : commit) : list string :=
  hash c :: map stat_line (stats c).

(** The lines of a log: each commit's hash line and numstat lines, with an
    empty line between two commits. *)
Fixpoint log_lines (commits : list commit) : list string :=
  match commits with
  | [] => []
  | [c] => commit_lines c
  | c :: later => commit_lines c ++ EmptyString :: log_lines later
  end.

Definition path_text (f : string) : Prop :=
  line f /\ Py.mem_char Rq2.tab f = false.

Definition well_formed (c : commit) : Prop :=
  Rq2.is_commit_hash (hash c) = true
  /\ Forall (fun s => path_text (file s)) (stats c).

Definition count_of (n : option N) : Z :=
  match n with Some n => Z.of_N n | None => 0 end.

Definition sum_stats (count : stat -> option N) (entries : list stat) : Z :=
  fold_right Z.add 0 (map (fun s => count_of (count s)) entries).

Definition sum_of (count : stat -> option N) (commits : list commit) : Z :=
  fold_right Z.add 0 (map (fun c => sum_stats count (stats c)) commits).

(** The lines added and deleted per commit; [(0, 0)] for a log without
    commits. *)
Definition averages (commits : list commit) : Q * Q :=
  match commits with
  | [] => (0%Q, 0%Q)
  | _ :: _ =>
      (Rq2.ratio (sum_of added commits) (Z.of_nat (length commits)),
       Rq2.ratio (sum_of deleted commits) (Z.of_nat (length commits)))
  end.

Definition with_dates (stdout : string) : Rq2.entry :=
  {| Rq2.name := "project"; Rq2.is_dir := true; Rq2.has_git := true;
     Rq2.log_dates := Subprocess.Completed 0 stdout "";
     Rq2.log_numstat := Subprocess.Completed 0 "" "";
     Rq2.elapsed := 1 |}.

Definition with_numstat (stdout : string) : Rq2.entry :=
  {| Rq2.name := "project"; Rq2.is_dir := true; Rq2.has_git := true;
     Rq2.log_dates := Subprocess.Completed 0 "" "";
     Rq2.log_numstat := Subprocess.Completed 0 stdout "";
     Rq2.elapsed := 1 |}.

Definition two_commits : list commit :=
  [ {| hash := "0123456789abcdef0123456789abcdef01234567";
       stats := [ {| added := Some 12%N; deleted := Some 3%N; file := "src/app.js" |};
                  {| added := None; deleted := None; file := "logo.png" |} ] |};
    {| hash := "89abcdef0123456789abcdef0123456789abcdef";
       stats := [ {| added := Some 4%N; deleted := Some 0%N; file := "my notes.md" |} ] |} ].

End Rq2Logs.

(** ** [main] of [ow.py] and the functions it calls *)

Module OwaspMain.

(** A project directory as [scan_project] meets it: its name; whether the
    report directory is there or can be made; the run of Dependency-Check;
    the report file, absent or with what [json.load] makes of it. *)
Record project := {
  name : string;
  report_dir : result unit;
  run : Subprocess.run;
  report : option (result value)
}.

(** [scan_project(project_path, project_name)]; [VNone] is the [None] it
    returns. Only the creation of the report directory is outside its [try].
    Here and in [main] the messages [log_message] prints and appends to the
    log file are left out, and writing them is taken to succeed. *)
Definition scan_project (p : project) : result value :=
  do _ <- report_dir p;
  Ok (match run p with
      | Subprocess.Fails _ => VNone
      | Subprocess.Completed returncode _ _ =>
          if negb (returncode =? 0) then VNone
          else match report p with
               | None => VNone
               | Some (Raise _) => VNone
               | Some (Ok scan_result) => scan_result
               end
      end).

(** [scan_result is not None] *)
Definition is_not_none (v : value) : bool :=
  match v with VNone => false | _ => true end.

(** The lists and the two counters of [main]. *)
Record tally := {
  data : Owasp.store;
  success_count : Z;
  failure_count : Z
}.

Definition start : tally :=
  {| data := Owasp.empty_store; success_count := 0; failure_count := 0 |}.

(** The row of a project that was not scanned. *)
Definition zero_row (project_name : string) : Owasp.summary_row :=
  {| Owasp.s_projectName := project_name;
     Owasp.criticalSeverityCount := 0;
     Owasp.highSeverityCount := 0;
     Owasp.mediumSeverityCount := 0;
     Owasp.lowSeverityCount := 0;
     Owasp.totalVulnerabilities := 0 |}.

Definition add_failure (row : Owasp.summary_row) (t : tally) : tally :=
  {| data := {| Owasp.summary_data := Owasp.summary_data (data t) ++ [row];
                Owasp.detailed_data := Owasp.detailed_data (data t);
                Owasp.log := Owasp.log (data t) |};
     success_count := success_count t;
     failure_count := failure_count t + 1 |}.

(** The body of [for project_path, project_name in projects]. *)
Definition scan_one (t : tally) (p : project) : tally :=
  match scan_project p with
  | Ok scan_result =>
      if is_not_none scan_result then
        {| data := Owasp.process_scan_results (name p) scan_result (data t);
           success_count := success_count t + 1;
           failure_count := failure_count t |}
      else add_failure (zero_row (name p)) t
  | Raise _ => add_failure (zero_row (name p +:+ " (SCAN FAILED)")) t
  end.

(** The two report files, absent or with their rows. *)
Record reports := {
  summary_csv : option (list Owasp.summary_row);
  details_csv : option (list Owasp.detail_row)
}.

(** [write_csv_report(summary_data, detailed_data)]; the directory of the
    two files is that of the log file, which [setup_logging] has made. *)
Definition write_csv_report (w : Owasp.store) (fs : reports) : reports :=
  {| summary_csv := Some (Owasp.summary_data w);
     details_csv := match Owasp.detailed_data w with
                    | [] => details_csv fs
                    | _ :: _ => Some (Owasp.detailed_data w)
                    end |}.

(** [max(items, key=key)]: the first item with the greatest key. *)
Fixpoint max_from {A} (key : A -> Z) (best : A) (items : list A) : A :=
  match items with
  | [] => best
  | x :: rest => max_from key (if key best <? key x then x else best) rest
  end.

Definition sum_of (field : Owasp.summary_row -> Z) (rows : list Owasp.summary_row) : Z :=
  fold_right Z.add 0 (map field rows).

(** What [generate_statistics] logs. *)
Record statistics := {
  total_projects : Z;
  projects_with_vulnerabilities : Z;
  total_vulnerabilities : Z;
  total_critical : Z;
  total_high : Z;
  total_medium : Z;
  total_low : Z;
  most_vulnerable_project : string * Z
}.

(** [generate_statistics(summary_data)]: [None] when it logs that there is no
    data. *)
Definition generate_statistics (summary_data : list Owasp.summary_row)
  : option statistics :=
  match summary_data with
  | [] => None
  | first :: rest =>
      let with_vulnerabilities :=
        Z.of_nat (length (List.filter
                            (fun item => 0 <? Owasp.totalVulnerabilities item)
                            summary_data)) in
      Some {| total_projects := Z.of_nat (length summary_data);
              projects_with_vulnerabilities := with_vulnerabilities;
              total_vulnerabilities := sum_of Owasp.totalVulnerabilities summary_data;
              total_critical := sum_of Owasp.criticalSeverityCount summary_data;
              total_high := sum_of Owasp.highSeverityCount summary_data;
              total_medium := sum_of Owasp.mediumSeverityCount summary_data;
              total_low := sum_of Owasp.lowSeverityCount summary_data;
              most_vulnerable_project :=
                if 0 <? with_vulnerabilities then
                  let most := max_from Owasp.totalVulnerabilities first rest in
                  (Owasp.s_projectName most, Owasp.totalVulnerabilities most)
                else ("None", 0) |}
  end.

(** An entry of the projects folder. *)
Record entry := {
  is_dir : bool;
  dir : project
}.

(** [find_projects(root_dir)]; [None] is a folder that does not exist. *)
Definition find_projects (root_dir : option (list entry)) : list project :=
  match root_dir with
  | None => []
  | Some items => map dir (List.filter is_dir items)
  end.

(** [main()]: the exit status, the report files, and for a run that got to
    the scans the tally and the statistics. *)
Definition main (installed : bool) (root_dir : option (list entry)) (fs : reports)
  : Z * reports * option (tally * option statistics) :=
  if negb installed then (1, fs, None)
  else
    match find_projects root_dir with
    | [] => (1, fs, None)
    | projects =>
        let t := fold_left scan_one projects start in
        (0, write_csv_report (data t) fs,
         Some (t, generate_statistics (Owasp.summary_data (data t))))
    end.

(** Vocabulary for the statements: whether the scan of a project gives a
    report, and the name its summary row carries. *)
Definition scanned (p : project) : bool :=
  match scan_project p with
  | Ok scan_result => is_not_none scan_result
  | Raise _ => false
  end.

Definition row_name (p : project) : string :=
  match scan_project p with
  | Ok _ => name p
  | Raise _ => name p +:+ " (SCAN FAILED)"
  end.

Definition count_of (f : project -> bool) (projects : list project) : Z :=
  Z.of_nat (length (List.filter f projects)).

(** What the loop of [main] keeps, for the projects done so far. *)
Record scans_agree (done : list project) (t : tally) : Prop := {
  names_agree :
    map Owasp.s_projectName (Owasp.summary_data (data t))
    = map row_name done;
  successes_agree :
    success_count t = count_of scanned done;
  failures_agree :
    failure_count t
    = count_of (fun p => negb (scanned p)) done;
  rows_agree :
    Forall2 (fun p row =>
               0 <= Owasp.criticalSeverityCount row
               /\ 0 <= Owasp.highSeverityCount row
               /\ 0 <= Owasp.mediumSeverityCount row
               /\ 0 <= Owasp.lowSeverityCount row
               /\ Owasp.severity_sum row = Owasp.totalVulnerabilities row
               /\ (scanned p = false ->
                   row = zero_row (row_name p)))
      done (Owasp.summary_data (data t));
  details_agree :
    Forall (fun r => exists p, In p done /\ scanned p = true
                               /\ Owasp.d_projectName r = name p)
      (Owasp.detailed_data (data t))
}.

(** A project whose report is [Owasp.mixed_report], one whose scanner exits
    with 1, one whose report directory cannot be made, and a file. *)
Definition scanned_project : entry :=
  {| is_dir := true;
     dir := {| name := "alpha"; report_dir := Ok tt;
               run := Subprocess.Completed 0 "" "";
               report := Some (Ok Owasp.mixed_report) |} |}.

Definition failed_project : entry :=
  {| is_dir := true;
     dir := {| name := "beta"; report_dir := Ok tt;
               run := Subprocess.Completed 1 "" "error";
               report := None |} |}.

Definition locked_project : entry :=
  {| is_dir := true;
     dir := {| name := "gamma"; report_dir := Raise (OSError "Permission denied");
               run := Subprocess.Completed 0 "" "";
               report := None |} |}.

Definition plain_file : entry :=
  {| is_dir := false;
     dir := {| name := "README.md"; report_dir := Ok tt;
               run := Subprocess.Completed 0 "" "";
               report := None |} |}.

Definition folder : option (list entry) :=
  Some [scanned_project; plain_file; failed_project; locked_project].

Definition no_reports : reports := {| summary_csv := None; details_csv := None |}.

End OwaspMain.

(** ** The page loop, the CSV file and [main] of [github_spider.py] *)

Module SpiderPages.

(** The search criteria; the three dates as [strftime("%Y-%m-%d")] prints
    them. *)
Record criteria := {
  language : string;
  created_start_str : string;
  created_end_str : string;
  pushed_after_str : string
}.

Definition query (c : criteria) : string :=
  "language:" +:+ language c +:+ " created:" +:+ created_start_str c +:+ ".."
  +:+ created_end_str c +:+ " pushed:>=" +:+ pushed_after_str c.

(** [search_repositories(language, created_start, created_end, pushed_after,
    page, per_page)]: the parameters, the two numbers as [requests] writes
    them into the query string, and the request. *)
Definition search_params (c : criteria) (page per_page : Z) : Spider.params :=
  [("q", query c); ("sort", "updated"); ("order", "desc");
   ("page", Py.str_of_Z page); ("per_page", Py.str_of_Z per_page)].

Definition search_repositories (c : criteria) (page per_page : Z)
    (replies : list Spider.reply)
  : option (option value) * list Spider.event * list Spider.reply :=
  Spider.make_request "search/repositories" (search_params c page per_page) replies.

(** [range(start, stop)] *)
Definition range (start stop : Z) : list Z :=
  map (fun i => start + Z.of_nat i) (seq 0 (Z.to_nat (stop - start))).

(** How [get_repositories_by_page_range] ends: it returns [all_repos], an
    exception leaves it, or it is still waiting for an answer when the
    replies at hand are used up. *)
Inductive outcome : Type :=
| Collected (all_repos : list value)
| Crashed (e : exn)
| Waiting.

(** [results.get("items", [])] followed by [all_repos.extend(items)]: the
    items added. *)
Definition new_items (results : value) : result (list value) :=
  do items <- Val.get results "items" (VList []);
  Val.iter items.

(** The [for current_page in range(start_page, end_page + 1)] loop, without
    its log lines; the pause after a page is [Sleep 1]. [results is None]
    holds when [_make_request] gave up and also when the body of a 200 answer
    is the JSON [null]. *)
Fixpoint page_loop (c : criteria) (per_page : Z) (pages : list Z)
    (replies : list Spider.reply) (all_repos : list value)
  : outcome * list Spider.event * list Spider.reply :=
  match pages with
  | [] => (Collected all_repos, [], replies)
  | current_page :: later =>
      let '(results, evs, rest) := search_repositories c current_page per_page replies in
      match results with
      | None => (Waiting, evs, rest)
      | Some None | Some (Some VNone) => (Collected all_repos, evs, rest)
      | Some (Some results) =>
          match new_items results with
          | Raise e => (Crashed e, evs, rest)
          | Ok [] => (Collected all_repos, evs, rest)
          | Ok items =>
              let '(fin, evs', rest') :=
                page_loop c per_page later rest (all_repos ++ items) in
              (fin, evs ++ Spider.Sleep 1 :: evs', rest')
          end
      end
  end.

(** [get_repositories_by_page_range(language, created_start, created_end,
    pushed_after, start_page, end_page, per_page)] *)
Definition get_repositories_by_page_range (c : criteria)
    (start_page end_page per_page : Z) (replies : list Spider.reply)
  : outcome * list Spider.event * list Spider.reply :=
  page_loop c per_page (range start_page (end_page + 1)) replies [].

(** [extract_repository_data(repo)]: the cleaned dict, in the order of its
    keys. *)
Definition extract_repository_data (repo : value) : result (list (string * value)) :=
  do id <- Val.get repo "id" VNone;
  do name <- Val.get repo "name" VNone;
  do full_name <- Val.get repo "full_name" VNone;
  do html_url <- Val.get repo "html_url" VNone;
  do description <- Val.get repo "description" VNone;
  do lang <- Val.get repo "language" VNone;
  do created_at <- Val.get repo "created_at" VNone;
  do updated_at <- Val.get repo "updated_at" VNone;
  do pushed_at <- Val.get repo "pushed_at" VNone;
  do stargazers_count <- Val.get repo "stargazers_count" VNone;
  do forks_count <- Val.get repo "forks_count" VNone;
  do open_issues_count <- Val.get repo "open_issues_count" VNone;
  do has_license <- Val.get repo "license" VNone;
  do license <-
    (if Val.truthy has_license then
       do l <- Val.get repo "license" (VDict []);
       Val.get l "name" VNone
     else Ok VNone);
  do topics <- Val.get repo "topics" (VList []);
  Ok [("id", id); ("name", name); ("full_name", full_name); ("html_url", html_url);
      ("description", description); ("language", lang); ("created_at", created_at);
      ("updated_at", updated_at); ("pushed_at", pushed_at);
      ("stargazers_count", stargazers_count); ("forks_count", forks_count);
      ("open_issues_count", open_issues_count); ("license", license);
      ("topics", topics)].

(** A CSV file as [csv.DictWriter] is asked to write it: the field names of
    the header and the rows. *)
Record table := {
  header : list string;
  body : list (list (string * value))
}.

(** The files: which paths can be opened for writing, and what each file
    holds. *)
Record disk := {
  can_open : string -> bool;
  content : string -> option table
}.

Definition write (d : disk) (filename : string) (t : table) : disk :=
  {| can_open := can_open d;
     content := fun f => if String.eqb f filename then Some t else content d f |}.

(** [save_to_csv(repositories, filename)] *)
Definition save_to_csv (repositories : list value) (filename : string) (d : disk)
  : result disk :=
  match repositories with
  | [] => Ok d
  | _ :: _ =>
      do cleaned_repos <- Val.map_result extract_repository_data repositories;
      if can_open d filename then
        match cleaned_repos with
        | [] => Ok (write d filename {| header := []; body := [] |})
        | first :: _ =>
            Ok (write d filename {| header := map fst first; body := cleaned_repos |})
        end
      else Raise (OSError "No such file or directory")
  end.

Definition main_criteria : criteria :=
  {| language := "javascript"; created_start_str := "2022-01-01";
     created_end_str := "2022-01-31"; pushed_after_str := "2025-02-01" |}.

Definition main_file : string :=
  "spider_output/javascript_projects_jan2022_active2025.csv".
Definition partial_file : string :=
  "spider_output/javascript_projects_jan2022_active2025_partial.csv".

(** How the script ends. *)
Inductive exit : Type :=
| Returns
| Raises (e : exn)
| Hangs.

(** [main()]: in the handler [repos] is bound only when the page loop has
    returned. *)
Definition main (replies : list Spider.reply) (d : disk) : exit * disk :=
  match fst (fst (get_repositories_by_page_range main_criteria 1 3 100 replies)) with
  | Waiting => (Hangs, d)
  | Crashed _ => (Returns, d)
  | Collected repos =>
      match save_to_csv repos main_file d with
      | Ok d' => (Returns, d')
      | Raise _ =>
          if Val.truthy (VList repos) then
            match save_to_csv repos partial_file d with
            | Ok d' => (Returns, d')
            | Raise e => (Raises e, d)
            end
          else (Returns, d)
      end
  end.

(** Vocabulary for the statements. A page of results with its items; an
    answer that makes [_make_request] return [None]. *)
Definition item_page (rp : Spider.reply) (items : list value) : Prop :=
  exists r now fields,
    rp = Spider.Responds r now
    /\ Spider.status_code r = 200
    /\ Spider.json r = Ok (VDict fields)
    /\ Val.lookup "items" fields = Some (VList items)
    /\ items <> [].

Definition gives_none (rp : Spider.reply) : Prop :=
  match rp with
  | Spider.GetRaises _ => True
  | Spider.Responds r _ =>
      Spider.is_limit_reached r = true \/ SpiderStatuses.error_status r
  end.

(** A page without items. *)
Definition empty_page (rp : Spider.reply) : Prop :=
  exists r now fields,
    rp = Spider.Responds r now
    /\ Spider.status_code r = 200
    /\ Spider.json r = Ok (VDict fields)
    /\ default (VList []) (Val.lookup "items" fields) = VList [].

(** An answer with status 200 whose JSON is neither an object nor [null]:
    a boolean, a number, a string or an array. *)
Definition odd_page (rp : Spider.reply) : Prop :=
  exists r now v,
    rp = Spider.Responds r now
    /\ Spider.status_code r = 200
    /\ Spider.json r = Ok v
    /\ v <> VNone
    /\ forall fields, v <> VDict fields.

(** An answer with status 200 whose JSON is [null]. *)
Definition null_page (rp : Spider.reply) : Prop :=
  exists r now,
    rp = Spider.Responds r now
    /\ Spider.status_code r = 200
    /\ Spider.json r = Ok VNone.

Definition fieldnames : list string :=
  ["id"; "name"; "full_name"; "html_url"; "description"; "language"; "created_at";
   "updated_at"; "pushed_at"; "stargazers_count"; "forks_count";
   "open_issues_count"; "license"; "topics"].

(** A repository [extract_repository_data] can clean: an object whose
    licence is an object, or is absent, null or otherwise false. *)
Definition cleanable (repo : value) : Prop :=
  exists fields,
    repo = VDict fields
    /\ (Val.truthy (default VNone (Val.lookup "license" fields)) = true ->
        exists l, Val.lookup "license" fields = Some (VDict l)).

Definition page_reply (items : list value) : Spider.reply :=
  Spider.Responds {| Spider.status_code := 200; Spider.text := "{}";
                     Spider.rate_limit_reset := None;
                     Spider.json := Ok (VDict [("total_count", Val.of_int 2);
                                               ("items", VList items)]) |} 0.

Definition repo_a : value :=
  VDict [("id", Val.of_int 1); ("full_name", VStr "a/b");
         ("license", VDict [("key", VStr "mit"); ("name", VStr "MIT License")]);
         ("topics", VList [VStr "web"; VStr "api"])].

Definition repo_b : value :=
  VDict [("id", Val.of_int 2); ("full_name", VStr "c/d"); ("license", VNone)].

(** A repository whose licence is a string. *)
Definition repo_c : value :=
  VDict [("id", Val.of_int 3); ("license", VStr "MIT")].

Definition fresh_disk : disk :=
  {| can_open := fun _ => true; content := fun _ => None |}.

End SpiderPages.

(** ** [repr] and [str] of strings and lists, as [csv] writes a list cell *)

Module PyRepr.

Definition single_quote : ascii := "039".
Definition double_quote : ascii := "034".
Definition backslash : ascii := "092".

(** [str.isprintable] on a code point below 256. *)
Definition is_printable (c : ascii) : bool :=
  let n := Py.code c in
  negb ((n <? 32)%N || ((127 <=? n)%N && (n <=? 160)%N) || (n =? 173)%N).

Definition hex_digit (n : N) : ascii :=
  if (n <? 10)%N then ascii_of_N (48 + n) else ascii_of_N (87 + n).

(** One character inside the quotes of [repr(s)]. *)
Definition repr_char (quote c : ascii) : string :=
  if Ascii.eqb c quote || Ascii.eqb c backslash then String backslash (String c EmptyString)
  else if Ascii.eqb c "009" then String backslash "t"
  else if Ascii.eqb c "010" then String backslash "n"
  else if Ascii.eqb c "013" then String backslash "r"
  else if is_printable c then String c EmptyString
  else String backslash
         (String "x" (String (hex_digit (Py.code c / 16))
                        (String (hex_digit (Py.code c mod 16)) EmptyString))).

Fixpoint repr_chars (quote : ascii) (s : string) : string :=
  match s with
  | EmptyString => EmptyString
  | String c s' => repr_char quote c +:+ repr_chars quote s'
  end.

(** [repr(s)] for a [str]: double quotes when the string has a single quote
    and no double quote, single quotes otherwise. *)
Definition repr_str (s : string) : string :=
  let quote :=
    if Py.mem_char single_quote s && negb (Py.mem_char double_quote s)
    then double_quote else single_quote in
  String quote (repr_chars quote s +:+ String quote EmptyString).

(** [str(l)] for a list of strings. *)
Definition str_of_list (l : list string) : string :=
  "[" +:+ Py.join ", " (map repr_str l) +:+ "]".

(** A string between single quotes. *)
Definition quoted (t : string) : string :=
  String single_quote (t +:+ String single_quote EmptyString).

(** A GitHub topic: lower-case letters, digits and hyphens, not empty. *)
Definition topic_char (c : ascii) : bool :=
  ((97 <=? Py.code c)%N && (Py.code c <=? 122)%N) || Py.is_digit c || Ascii.eqb c "-".

Definition topic (s : string) : Prop :=
  Py.is_empty s = false /\ Rq2.all_chars topic_char s = true.

End PyRepr.

(** ** Vocabulary for GitHub URLs *)

Module GithubUrls.

(** A character of an owner or repository name: a letter, a digit, a hyphen,
    an underscore or a dot. *)
Definition name_char (c : ascii) : bool :=
  Url.is_alpha c || Py.is_digit c || Py.mem_char c "-_.".

Definition name (s : string) : Prop :=
  Py.is_empty s = false /\ Rq2.all_chars name_char s = true.

(** The URL of a repository as GitHub gives it in [html_url]. *)
Definition canonical (owner repo : string) : string :=
  "https://github.com/" +:+ owner +:+ "/" +:+ repo.

Definition names (r : string * string) : Prop := name (fst r) /\ name (snd r).

End GithubUrls.

(** ** Further vocabulary for the accounting of [revert_repos.py] *)

Module RevertLog.

(** A command that, when it fails under [check=True], leaves no text on
    stderr. *)
Definition quiet (run : Subprocess.run) : Prop :=
  forall rc err,
    Subprocess.checked run = Raise (CalledProcessError rc err) ->
    Py.is_empty err = true.

(** A repository whose [rev-list] and [show] are of that kind. *)
Definition no_stderr_text (r : Revert.repo) : Prop :=
  quiet (Revert.rev_list r)
  /\ quiet (Revert.show r (RevertRuns.found_commit r)).

(** The report of a repository: it carries the repository's name, and it
    records a failure unless the repository was reverted cleanly. *)
Definition accounts_for (r : Revert.repo) (rep : Revert.report) : Prop :=
  Revert.repo_name rep = Revert.name r
  /\ (Revert.failure rep = None <-> RevertRuns.reverts_cleanly r).

(** A repository in which the reset fails. *)
Definition stuck_repo : Revert.repo :=
  {| Revert.name := "stuck";
     Revert.worktree := "tree of main";
     Revert.symbolic_ref := Subprocess.Completed 0 "refs/remotes/origin/main" "";
     Revert.branch_list := fun _ => Subprocess.Completed 0 "" "";
     Revert.show_current := Subprocess.Completed 0 "main" "";
     Revert.checkout := fun _ => Subprocess.Completed 0 "" "Already on 'main'";
     Revert.tree_after_checkout := fun b => "tree of " +:+ b;
     Revert.rev_list :=
       Subprocess.Completed 0 "89abcdef0123456789abcdef0123456789abcdef" "";
     Revert.show := fun _ => Subprocess.Completed 0 "2018-11-02 09:30:00 +0000" "";
     Revert.reset := fun _ =>
       Subprocess.Completed 1 "" "error: unable to unlink old 'package.json'";
     Revert.tree_after_reset := fun _ => "tree of main" |}.

End RevertLog.

(** ** RQ3/rq3_1script.py and RQ3/rq3_2script.py: repository names and
    issue categories *)

Module Rq3.

(** [s.split(sep)] for a separator of any length (not empty): the text is
    scanned from the left, and [skip] counts the characters of a separator
    just found that are still to be passed over. *)
Fixpoint split_scan (sep : string) (skip : nat) (s : string) : list string :=
  match s with
  | EmptyString => [EmptyString]
  | String c s' =>
      match skip with
      | S k => split_scan sep k s'
      | O =>
          if Py.starts_with sep s then
            EmptyString :: split_scan sep (String.length sep - 1) s'
          else
            match split_scan sep 0 s' with
            | w :: ws => String c w :: ws
            | [] => [String c EmptyString]
            end
      end
  end.

Definition split_str (sep s : string) : list string := split_scan sep 0 s.

(** [l[-1]] and [l[-2]] *)
Definition last_item (l : list string) : option string := last l.

Definition last_but_one (l : list string) : option string :=
  match rev l with
  | _ :: x :: _ => Some x
  | _ => None
  end.

(** [JavaScriptIssueCategorizer.parse_github_url(url)]: every exception
    leaves it as a [ValueError]. *)
Definition parse_github_url (url : string) : result string :=
  match Url.urlparse url with
  | Raise _ => Raise ValueError
  | Ok parsed_url =>
      match Py.split_on "/" (Py.strip_chars "/" (Url.path parsed_url)) with
      | p0 :: p1 :: _ => Ok (p0 +:+ "/" +:+ p1)
      | _ =>
          if Py.contains "github.com" url then
            match last_item (split_str "github.com/" url) with
            | Some tail =>
                match Py.split_on "/" tail with
                | u0 :: u1 :: _ => Ok (u0 +:+ "/" +:+ u1)
                | _ => Raise ValueError
                end
            | None => Raise ValueError
            end
          else Raise ValueError
      end
  end.

(** The first lines of [IssueResolutionAnalyzer.get_repo_issues]: the name
    handed to [get_repo]. *)
Definition repo_name_of (repo_url : string) : result string :=
  let parts :=
    List.filter (fun p => negb (Py.is_empty p))
      (Py.split_on "/" (Py.strip_chars "/" repo_url)) in
  match last_but_one parts, last_item parts with
  | Some owner, Some repo => Ok (owner +:+ "/" +:+ repo)
  | _, _ => Raise ValueError
  end.

Definition ISSUE_CATEGORIES : list (string * list string) :=
  [("Runtime Errors",
    ["undefined"; "null"; "type error"; "reference error"; "syntax error";
     "runtime exception"]);
   ("Performance Issues",
    ["memory leak"; "performance"; "slow"; "cpu usage"; "rendering"; "optimization"]);
   ("Async Programming",
    ["promise"; "async"; "callback"; "race condition"; "await"; "event loop"]);
   ("State Management",
    ["state"; "props"; "redux"; "context"; "vuex"; "mobx"; "store"; "mutation"]);
   ("Browser Compatibility",
    ["cross-browser"; "browser"; "dom"; "safari"; "chrome"; "firefox"; "ie"; "edge"]);
   ("Security Vulnerabilities",
    ["xss"; "csrf"; "injection"; "security"; "vulnerability"; "authentication"]);
   ("Dependency Management",
    ["npm"; "package"; "dependency"; "version"; "install"; "conflict"]);
   ("Framework-Specific",
    ["react"; "vue"; "angular"; "svelte"; "framework"; "component"]);
   ("Network & API",
    ["fetch"; "axios"; "api"; "http"; "request"; "response"; "timeout"]);
   ("Configuration & Build",
    ["webpack"; "babel"; "config"; "build"; "compile"; "transpile"; "setup"])].

(** [sum(keyword in text for keyword in keywords)] *)
Definition matches (keywords : list string) (text : string) : Z :=
  Z.of_nat (length (List.filter (fun keyword => Py.contains keyword text) keywords)).

(** [categorize_issue(issue_text)]: the scores in the order of the
    categories. *)
Definition categorize_issue (issue_text : string) : list (string * Z) :=
  let text := Py.lower issue_text in
  map (fun ck => (fst ck, matches (snd ck) text)) ISSUE_CATEGORIES.

(** [f"{issue['title']} {issue['body']}"] *)
Definition full_text (title body : string) : string := title +:+ " " +:+ body.

End Rq3.

(** ** RQ1/Data Collection/clone_repos.py *)

Module Clone.

Inductive encoding : Type := utf_8 | latin1 | utf_16 | cp1252.

Definition encodings : list encoding := [utf_8; latin1; utf_16; cp1252].

(** What the reader yields next: a row, or the decoder fails on the bytes it
    has got to ([UnicodeDecodeError], a [ValueError]). *)
Inductive item : Type :=
| Row (row : gmap string value)
| DecodeFails.

(** The file read under an encoding: opening it or reading its first 4096
    characters raises, or there are the field names ([None] for an empty
    file) and what follows. *)
Inductive reading : Type :=
| OpenFails (e : exn)
| Reads (fieldnames : option (list string)) (items : list item).

(** One [git clone] run with [check=True]: it succeeds, it exits non-zero
    with the bytes on stderr ([None] when they are not UTF-8), or the call
    raises. *)
Inductive clone_result : Type :=
| Cloned
| CloneFails (stderr : option string)
| CloneRaises (e : exn).

(** The world of a run: whether [repos/post-repos] is there or can be made,
    the file under each encoding, and the outcome of the clone of a URL into
    a directory when [n] clones have been run before. *)
Record world := {
  repos_dir : result unit;
  read : encoding -> reading;
  git : nat -> string -> string -> clone_result
}.

Definition command : Type := list string.

Definition clone_cmd (repo_url repo_name : string) : command :=
  ["git"; "clone"; repo_url; "repos/post-repos/" +:+ repo_name].

(** [repo_url.split('/')[-1]] *)
Definition repo_name_of (repo_url : string) : string :=
  List.last (Py.split_on "/" repo_url) EmptyString.

(** The body of [for row in csv_reader], when [n] clones have been run: the
    command run, if any, and the exception that leaves the loop, if any. *)
Definition clone_row (w : world) (n : nat) (row : gmap string value)
  : list command * option exn :=
  match row !! "html_url" with
  | None => ([], Some KeyError)
  | Some repo_url =>
      if negb (Val.truthy repo_url) then ([], None)
      else
        match repo_url with
        | VStr url =>
            let repo_name := repo_name_of url in
            ([clone_cmd url repo_name],
             match git w n url ("repos/post-repos/" +:+ repo_name) with
             | Cloned => None
             | CloneFails (Some _) => None
             | CloneFails None => Some ValueError
             | CloneRaises e => Some e
             end)
        | _ => ([], Some AttributeError)
        end
  end.

Fixpoint clone_rows (w : world) (n : nat) (items : list item)
  : list command * option exn :=
  match items with
  | [] => ([], None)
  | DecodeFails :: _ => ([], Some ValueError)
  | Row row :: rest =>
      match clone_row w n row with
      | (cmds, Some e) => (cmds, Some e)
      | (cmds, None) =>
          let '(cmds', raised) := clone_rows w (n + length cmds) rest in
          (cmds ++ cmds', raised)
      end
  end.

(** The body of [for encoding in encodings]: the commands run, and whether
    the function returns ([true]) or goes on to the next encoding. *)
Definition attempt (w : world) (enc : encoding) (n : nat) : list command * bool :=
  match read w enc with
  | OpenFails _ => ([], false)
  | Reads None _ => ([], false)
  | Reads (Some fieldnames) items =>
      if bool_decide ("html_url" ∈ fieldnames) then
        match clone_rows w n items with
        | (cmds, None) => (cmds, true)
        | (cmds, Some _) => (cmds, false)
        end
      else ([], false)
  end.

(** How [clone_github_repos] ends. *)
Inductive outcome : Type :=
| Returns
| Exits (code : Z)
| Crashes (e : exn).

Fixpoint try_encodings (w : world) (encs : list encoding) (done : list command)
  : outcome * list command :=
  match encs with
  | [] => (Exits 1, done)
  | enc :: rest =>
      match attempt w enc (length done) with
      | (cmds, true) => (Returns, done ++ cmds)
      | (cmds, false) => try_encodings w rest (done ++ cmds)
      end
  end.

(** [clone_github_repos(csv_file)]: how it ends and the clones it ran. *)
Definition clone_github_repos (w : world) : outcome * list command :=
  match repos_dir w with
  | Raise e => (Crashes e, [])
  | Ok _ => try_encodings w encodings []
  end.

(** Vocabulary for the statements. The URL of a row, when it has one that is
    not empty; the clones of a list of rows. *)
Definition url_of (row : gmap string value) : option string :=
  match row !! "html_url" with
  | Some (VStr url) => if Py.is_empty url then None else Some url
  | _ => None
  end.

Definition clones_of (rows : list (gmap string value)) : list command :=
  omap (fun row => (fun url => clone_cmd url (repo_name_of url)) <$> url_of row) rows.

(** A row as [csv.DictReader] gives it for a file with an [html_url] column:
    the cell is text, or [None] in a short row. *)
Definition csv_row (row : gmap string value) : Prop :=
  row !! "html_url" = Some VNone \/ exists url, row !! "html_url" = Some (VStr url).

(** Clones that succeed or fail with readable text on stderr. *)
Definition git_behaves (w : world) : Prop :=
  forall n url dest,
    git w n url dest = Cloned \/ exists text, git w n url dest = CloneFails (Some text).

Definition url_row (url : string) : gmap string value :=
  {[ "html_url" := VStr url; "stargazers_count" := VStr "10" ]}.

(** A file of three rows, the second without URL; every second clone
    fails. *)
Definition sample_rows : list (gmap string value) :=
  [url_row "https://github.com/a/b"; url_row ""; url_row "https://github.com/c/d"].

Definition sample_world : world :=
  {| repos_dir := Ok tt;
     read := fun enc =>
       match enc with
       | utf_8 => Reads (Some ["html_url"; "stargazers_count"]) (map Row sample_rows)
       | _ => OpenFails ValueError
       end;
     git := fun n _ _ =>
       if Nat.even n then Cloned else CloneFails (Some "fatal: repository not found") |}.

(** The same file with a byte that is not UTF-8 after its first row. *)
Definition latin_world : world :=
  {| repos_dir := Ok tt;
     read := fun enc =>
       match enc with
       | utf_8 =>
           Reads (Some ["html_url"; "stargazers_count"])
             [Row (url_row "https://github.com/a/b"); DecodeFails]
       | _ => Reads (Some ["html_url"; "stargazers_count"]) (map Row sample_rows)
       end;
     git := fun n _ _ =>
       if (n =? 0)%nat then Cloned
       else CloneFails (Some "fatal: destination path already exists") |}.

End Clone.

(* ===================================================================== *)
(** * Part II: lemmas and theorems *)
(* ===================================================================== *)

(** ** The embedded built-ins on sample inputs *)

Example parse_time_1h12min : Sonar.parse_time "1h12min" = Ok 72.
Proof. reflexivity. Qed.

Example parse_time_samples :
  map Sonar.parse_time
    ["12min3h"; "h5min"; "5hmin"; "1 h 2h"; "12 34min"; "007h"; "3hh4min5min";
     "min"; "1h2h"; "12m34min"; "5h5"]
  = map Ok [192; 5; 300; 120; 34; 420; 184; 0; 60; 34; 300].
Proof. reflexivity. Qed.

Example int_of_str_samples :
  map Py.int_of_str [""; " 12 "; "+5"; "-0"; "1_000"; "_1"; "1_"; "1__0"; "12.0"]
  = [Raise ValueError; Ok 12; Ok 5; Ok 0; Ok 1000; Raise ValueError;
     Raise ValueError; Raise ValueError; Raise ValueError].
Proof. reflexivity. Qed.

Example split_on_samples :
  Py.split_on "," " a,b ,,c" = [" a"; "b "; ""; "c"]
  /\ Py.split_on "," "" = [""]
  /\ Py.strip_chars "[]" "[['a']]" = "'a'".
Proof. repeat split; reflexivity. Qed.

Example format_time_72 : Sonar.format_time 72 = Ok "1h12min".
Proof. reflexivity. Qed.

Example format_time_samples :
  map Sonar.format_time [0; 5; 60; 61; 600; -1; -60; -61]
  = map Ok ["0min"; "5min"; "1h"; "1h1min"; "10h"; "59min"; "0min"; "59min"].
Proof. reflexivity. Qed.

Example digit_limit_samples :
  Py.int (Py.repeat_char "0" 4301) = Raise ValueError
  /\ Py.int (" -" +:+ Py.repeat_char "0" 4300 +:+ " ") = Ok 0
  /\ Py.int ("0_" +:+ Py.repeat_char "0" 4300) = Raise ValueError
  /\ Py.str 72 = Ok "72"
  /\ Py.str (-5) = Ok "-5".
Proof. repeat split; vm_compute; reflexivity. Qed.

Example str_of_N_ex : map Py.str_of_N [0; 7; 9; 10; 99; 100; 1023; 1024; 65535]%N = ["0"; "7"; "9"; "10"; "99"; "100"; "1023"; "1024"; "65535"].
Proof. reflexivity. Qed.

(** ** Strings *)

Lemma app_cons (c : ascii) (s t : string) : String c s +:+ t = String c (s +:+ t).
Proof. reflexivity. Qed.

Lemma app_empty_l (s : string) : "" +:+ s = s.
Proof. reflexivity. Qed.

Lemma app_empty_r (s : string) : s +:+ "" = s.
Proof. induction s as [|c s IH]; [reflexivity|]. rewrite app_cons, IH. reflexivity. Qed.

Lemma app_assoc_str (s t u : string) : (s +:+ t) +:+ u = s +:+ (t +:+ u).
Proof. induction s as [|c s IH]; [reflexivity|]. rewrite !app_cons, IH. reflexivity. Qed.

Lemma is_digit_bounds (c : ascii) :
  Py.is_digit c = true <-> (48 <= Py.code c <= 57)%N.
Proof.
  unfold Py.is_digit. rewrite andb_true_iff, !N.leb_le. tauto.
Qed.

Lemma digit_not_space (c : ascii) : Py.is_digit c = true -> Py.is_space c = false.
Proof.
  intros H. apply is_digit_bounds in H. unfold Py.is_space. cbv zeta.
  set (n := Py.code c) in *.
  destruct (N.leb_spec 9 n), (N.leb_spec n 13), (N.leb_spec 28 n),
    (N.leb_spec n 32), (N.eqb_spec n 133), (N.eqb_spec n 160);
    simpl; try reflexivity; lia.
Qed.

Lemma digit_neq (c d : ascii) :
  Py.is_digit c = true -> Py.is_digit d = false -> Ascii.eqb c d = false.
Proof.
  intros Hc Hd. destruct (Ascii.eqb c d) eqn:E; [|reflexivity].
  apply Ascii.eqb_eq in E. subst. congruence.
Qed.

Lemma digit_char_is_digit (n : N) : Py.is_digit (Py.digit_char (n mod 10)) = true.
Proof.
  apply is_digit_bounds. unfold Py.digit_char, Py.code.
  assert (n mod 10 < 10)%N by (apply N.mod_lt; discriminate).
  generalize dependent (n mod 10)%N. intros d Hd.
  rewrite N_ascii_embedding by lia. lia.
Qed.

Lemma digit_char_val (n : N) : Py.digit_val (Py.digit_char (n mod 10)) = (n mod 10)%N.
Proof.
  unfold Py.digit_val, Py.digit_char, Py.code.
  assert (n mod 10 < 10)%N by (apply N.mod_lt; discriminate).
  generalize dependent (n mod 10)%N. intros d Hd.
  rewrite N_ascii_embedding by lia. lia.
Qed.

(** ** Decimal digits: [int] of a digit string, [str] of a number *)

Lemma int_digits_all (s : string) :
  forall acc b, Py.all_digits s = true ->
  Py.int_digits acc b s =
    if Py.is_empty s then (if b then Some acc else None)
    else Some (Py.dec_value acc s).
Proof.
  induction s as [|c s IH]; intros acc b H; [reflexivity|].
  simpl in H. apply andb_true_iff in H as [Hc Hs].
  simpl. rewrite Hc, (IH _ _ Hs).
  destruct s; reflexivity.
Qed.

Lemma digit_not_int_space (c : ascii) :
  Py.is_digit c = true -> Py.is_int_space c = false.
Proof.
  intros H. unfold Py.is_int_space. rewrite (digit_not_space _ H). reflexivity.
Qed.

Lemma rstrip_digits (s : string) :
  Py.all_digits s = true -> Py.rstrip_by Py.is_int_space s = s.
Proof.
  induction s as [|c s IH]; intros H; [reflexivity|].
  simpl in H. apply andb_true_iff in H as [Hc Hs].
  simpl. rewrite (IH Hs). destruct s; [|reflexivity].
  rewrite (digit_not_int_space _ Hc). reflexivity.
Qed.

Lemma strip_digits (s : string) :
  Py.all_digits s = true -> Py.strip_by Py.is_int_space s = s.
Proof.
  intros H. unfold Py.strip_by.
  destruct s as [|c s]; [reflexivity|].
  pose proof H as H'. simpl in H'. apply andb_true_iff in H' as [Hc _].
  simpl. rewrite (digit_not_int_space _ Hc). apply rstrip_digits, H.
Qed.

(** [int] never fails on what [\d+] has matched. *)
Lemma int_of_str_digits (g : string) :
  Py.all_digits g = true -> Py.is_empty g = false ->
  Py.int_of_str g = Ok (Z.of_N (Py.dec_value 0 g)).
Proof.
  intros H Hne. unfold Py.int_of_str. rewrite (strip_digits _ H).
  destruct g as [|c g]; [discriminate|].
  pose proof H as H'. simpl in H'. apply andb_true_iff in H' as [Hc _].
  rewrite !(digit_neq c) by (assumption || reflexivity).
  rewrite (int_digits_all _ _ _ H). reflexivity.
Qed.

Lemma dec_value_acc (s : string) :
  forall acc, Py.dec_value acc s
    = (acc * 10 ^ N.of_nat (String.length s) + Py.dec_value 0 s)%N.
Proof.
  induction s as [|c s IH]; intros acc.
  - simpl. lia.
  - cbn [Py.dec_value String.length]. rewrite IH, (IH (10 * 0 + _)%N).
    rewrite Nat2N.inj_succ, N.pow_succ_r'. lia.
Qed.

Lemma digits_of_all (fuel : nat) :
  forall n acc, Py.all_digits acc = true ->
  Py.all_digits (Py.digits_of fuel n acc) = true.
Proof.
  induction fuel as [|fuel IH]; intros n acc H; simpl.
  - rewrite digit_char_is_digit. exact H.
  - destruct (n / 10 =? 0)%N.
    + simpl. rewrite digit_char_is_digit. exact H.
    + apply IH. simpl. rewrite digit_char_is_digit. exact H.
Qed.

Lemma digits_of_nonempty (fuel : nat) (n : N) (acc : string) :
  Py.is_empty (Py.digits_of fuel n acc) = false.
Proof.
  revert n acc. induction fuel as [|fuel IH]; intros n acc; simpl; [reflexivity|].
  destruct (n / 10 =? 0)%N; [reflexivity | apply IH].
Qed.

Lemma small_div_mod (n : N) : (n / 10 = 0 -> n mod 10 = n)%N.
Proof.
  intros H. pose proof (N.div_mod n 10 ltac:(discriminate)) as E.
  rewrite H in E. lia.
Qed.

Lemma digits_of_value (fuel : nat) :
  forall n acc, (N.log2 n <= N.of_nat fuel)%N ->
  Py.dec_value 0 (Py.digits_of fuel n acc)
    = (n * 10 ^ N.of_nat (String.length acc) + Py.dec_value 0 acc)%N.
Proof.
  induction fuel as [|fuel IH]; intros n acc Hlog.
  - assert (Hn : (n < 2)%N).
    { destruct (N.lt_ge_cases n 2) as [|Hge]; [assumption|].
      apply N.log2_le_mono in Hge. change (N.log2 2) with 1%N in Hge. lia. }
    assert (Hm : (n mod 10 = n)%N) by (apply N.mod_small; lia).
    cbn [Py.digits_of Py.dec_value]. rewrite digit_char_val, Hm.
    rewrite dec_value_acc. lia.
  - cbn [Py.digits_of]. destruct (N.eqb_spec (n / 10) 0) as [Hz|Hnz].
    + cbn [Py.dec_value]. rewrite digit_char_val, (small_div_mod _ Hz).
      rewrite dec_value_acc. lia.
    + rewrite IH.
      * cbn [Py.dec_value String.length].
        rewrite digit_char_val, (dec_value_acc acc).
        rewrite Nat2N.inj_succ, N.pow_succ_r'.
        pose proof (N.div_mod n 10 ltac:(discriminate)) as E.
        generalize dependent (n mod 10)%N. generalize dependent (n / 10)%N.
        intros q Hq r E. subst n. lia.
      * assert (H2 : (2 * (n / 10) <= n)%N).
        { pose proof (N.div_mod n 10 ltac:(discriminate)) as E.
          generalize dependent (n mod 10)%N. generalize dependent (n / 10)%N.
          intros q Hq r E. lia. }
        apply N.log2_le_mono in H2.
        rewrite N.log2_double in H2 by (apply N.neq_0_lt_0, Hnz).
        rewrite Nat2N.inj_succ in Hlog.
        generalize dependent (N.log2 (n / 10)). generalize dependent (N.log2 n).
        intros; lia.
Qed.

Lemma str_of_N_all (n : N) : Py.all_digits (Py.str_of_N n) = true.
Proof. apply digits_of_all. reflexivity. Qed.

Lemma str_of_N_nonempty (n : N) : Py.is_empty (Py.str_of_N n) = false.
Proof. apply digits_of_nonempty. Qed.

Lemma str_of_N_value (n : N) : Py.dec_value 0 (Py.str_of_N n) = n.
Proof.
  unfold Py.str_of_N. rewrite digits_of_value by (rewrite N2Nat.id; lia).
  simpl. lia.
Qed.

(** [int(str(n)) == n] for a natural number. *)
Lemma int_of_str_of_N (n : N) : Py.int_of_str (Py.str_of_N n) = Ok (Z.of_N n).
Proof.
  rewrite int_of_str_digits by (apply str_of_N_all || apply str_of_N_nonempty).
  rewrite str_of_N_value. reflexivity.
Qed.

(** ** The regular expressions of [parse_time] *)

Lemma contains_unfold (p s : string) :
  Py.contains p s =
    Py.starts_with p s
    || match s with EmptyString => false | String _ s' => Py.contains p s' end.
Proof. destruct s; reflexivity. Qed.

(** What the group matches is a non-empty string of digits. *)
Lemma re_match_digits_sound (lit s : string) :
  forall g, Py.re_match_digits lit s = Some g ->
  Py.all_digits g = true /\ Py.is_empty g = false.
Proof.
  induction s as [|c s IH]; intros g H; [discriminate|].
  simpl in H. destruct (Py.is_digit c) eqn:Hc; [|discriminate].
  destruct (Py.re_match_digits lit s) as [g'|].
  - injection H as <-. destruct (IH g' eq_refl) as [Ha _].
    simpl. rewrite Hc, Ha. split; reflexivity.
  - destruct (Py.starts_with lit s); [|discriminate].
    injection H as <-. simpl. rewrite Hc. split; reflexivity.
Qed.

Lemma re_search_digits_sound (lit s : string) :
  forall g, Py.re_search_digits lit s = Some g ->
  Py.all_digits g = true /\ Py.is_empty g = false.
Proof.
  induction s as [|c s IH]; intros g H.
  - discriminate.
  - cbn [Py.re_search_digits] in H.
    destruct (Py.re_match_digits lit (String c s)) as [g'|] eqn:E.
    + injection H as <-. eapply re_match_digits_sound, E.
    + apply IH, H.
Qed.

(** A match contains the literal, so the [in] tests that guard the two
    searches never hide a match. *)
Lemma re_match_digits_contains (lit s : string) :
  forall g, Py.re_match_digits lit s = Some g -> Py.contains lit s = true.
Proof.
  induction s as [|c s IH]; intros g H; [discriminate|].
  simpl in H. destruct (Py.is_digit c); [|discriminate].
  cbn [Py.contains]. apply orb_true_iff. right.
  destruct (Py.re_match_digits lit s) as [g'|].
  - eapply IH. reflexivity.
  - destruct (Py.starts_with lit s) eqn:Hs; [|discriminate].
    rewrite contains_unfold, Hs. reflexivity.
Qed.

Lemma re_search_digits_contains (lit s : string) :
  forall g, Py.re_search_digits lit s = Some g -> Py.contains lit s = true.
Proof.
  induction s as [|c s IH]; intros g H.
  - discriminate.
  - cbn [Py.re_search_digits] in H.
    destruct (Py.re_match_digits lit (String c s)) as [g'|] eqn:E.
    + eapply re_match_digits_contains, E.
    + cbn [Py.contains]. rewrite (IH _ H). apply orb_true_r.
Qed.

(** ** The limit on the digits of a number *)

Lemma count_digits_all (s : string) :
  Py.all_digits s = true -> Py.count_digits s = String.length s.
Proof.
  induction s as [|c s IH]; intros H; [reflexivity|].
  cbn [Py.all_digits] in H. apply andb_true_iff in H as [Hc Hs].
  cbn [Py.count_digits String.length]. rewrite Hc, (IH Hs). reflexivity.
Qed.

(** On what [\d+] has matched, [int] fails only for too many digits. *)
Lemma int_digits_limit (g : string) :
  Py.all_digits g = true -> Py.is_empty g = false ->
  Py.int g
  = if (String.length g <=? Py.max_str_digits)%nat
    then Ok (Z.of_N (Py.dec_value 0 g)) else Raise ValueError.
Proof.
  intros H Hne. unfold Py.int. rewrite (count_digits_all _ H).
  destruct (String.length g <=? Py.max_str_digits)%nat; [|reflexivity].
  apply int_of_str_digits; assumption.
Qed.

Lemma re_match_digits_length (lit s : string) :
  forall g, Py.re_match_digits lit s = Some g ->
  (String.length g <= String.length s)%nat.
Proof.
  induction s as [|c s IH]; intros g H; [discriminate|].
  cbn [Py.re_match_digits] in H. destruct (Py.is_digit c); [|discriminate].
  destruct (Py.re_match_digits lit s) as [g'|].
  - injection H as <-. specialize (IH g' eq_refl). cbn [String.length]. lia.
  - destruct (Py.starts_with lit s); [|discriminate].
    injection H as <-. cbn [String.length]. lia.
Qed.

Lemma digits_captured_length (lit s : string) :
  (Sonar.digits_captured lit s <= String.length s)%nat.
Proof.
  unfold Sonar.digits_captured. induction s as [|c s IH].
  - cbn. lia.
  - cbn [Py.re_search_digits].
    destruct (Py.re_match_digits lit (String c s)) as [g|] eqn:E.
    + eapply re_match_digits_length, E.
    + cbn [String.length]. destruct (Py.re_search_digits lit s); lia.
Qed.

(** One guarded search of [parse_time]: the captured number, else 0, unless
    the number has too many digits for [int]. *)
Lemma guarded_search (lit s : string) :
  (if Py.contains lit s then
     match Py.re_search_digits lit s with
     | Some g => Py.int g
     | None => Ok 0
     end
   else Ok 0)
  = if (Sonar.digits_captured lit s <=? Py.max_str_digits)%nat
    then Ok (Sonar.matched lit s) else Raise ValueError.
Proof.
  unfold Sonar.matched, Sonar.digits_captured.
  destruct (Py.re_search_digits lit s) as [g|] eqn:E.
  - rewrite (re_search_digits_contains _ _ _ E).
    destruct (re_search_digits_sound _ _ _ E) as [Ha Hne].
    apply int_digits_limit; assumption.
  - destruct (Py.contains lit s); reflexivity.
Qed.

Lemma matched_nonneg (lit s : string) : 0 <= Sonar.matched lit s.
Proof. unfold Sonar.matched. destruct (Py.re_search_digits lit s); lia. Qed.

Lemma parse_time_value (s : string) :
  Sonar.parse_time s
  = if (Sonar.digits_captured "h" s <=? Py.max_str_digits)%nat
       && (Sonar.digits_captured "min" s <=? Py.max_str_digits)%nat
    then Ok (60 * Sonar.matched "h" s + Sonar.matched "min" s)
    else Raise ValueError.
Proof.
  unfold Sonar.parse_time. destruct s as [|c s]; [reflexivity|].
  cbn [Py.is_empty]. rewrite !guarded_search.
  destruct (Sonar.digits_captured "h" (String c s) <=? Py.max_str_digits)%nat;
    [|reflexivity].
  destruct (Sonar.digits_captured "min" (String c s) <=? Py.max_str_digits)%nat;
    [|reflexivity].
  cbn [rbind andb]. f_equal. lia.
Qed.

Lemma parse_time_within (s : string) :
  (Sonar.digits_captured "h" s <= Py.max_str_digits)%nat ->
  (Sonar.digits_captured "min" s <= Py.max_str_digits)%nat ->
  Sonar.parse_time s = Ok (60 * Sonar.matched "h" s + Sonar.matched "min" s).
Proof.
  intros Hh Hm. rewrite parse_time_value.
  apply Nat.leb_le in Hh, Hm. rewrite Hh, Hm. reflexivity.
Qed.

Lemma parse_time_beyond (s : string) :
  (Py.max_str_digits < Sonar.digits_captured "h" s)%nat
  \/ (Py.max_str_digits < Sonar.digits_captured "min" s)%nat ->
  Sonar.parse_time s = Raise ValueError.
Proof.
  intros H. rewrite parse_time_value.
  destruct H as [H|H]; apply Nat.leb_gt in H; rewrite H; [reflexivity|].
  rewrite andb_false_r. reflexivity.
Qed.

(** C9: [parse_time] returns on every string in which the number captured
    by [(\d+)h] and the number captured by [(\d+)min] have at most 4300
    digits each, so on every string of at most 4300 characters: the result is
    60 times the first number plus the second, each 0 when its pattern
    matches nowhere, and it is not negative; the empty string, a string
    without digits and strings with only one of the two components are
    instances. When one of the two numbers has more than 4300 digits, [int]
    refuses it and [parse_time] raises [ValueError]. *)
Theorem parse_time_total (s : string) :
  ((Sonar.digits_captured "h" s <= Py.max_str_digits)%nat ->
   (Sonar.digits_captured "min" s <= Py.max_str_digits)%nat ->
   exists n : Z,
     Sonar.parse_time s = Ok n
     /\ n = 60 * Sonar.matched "h" s + Sonar.matched "min" s
     /\ 0 <= Sonar.matched "h" s /\ 0 <= Sonar.matched "min" s
     /\ 0 <= n)
  /\ ((Py.max_str_digits < Sonar.digits_captured "h" s)%nat
      \/ (Py.max_str_digits < Sonar.digits_captured "min" s)%nat ->
      Sonar.parse_time s = Raise ValueError)
  /\ ((String.length s <= Py.max_str_digits)%nat ->
      exists n : Z, Sonar.parse_time s = Ok n /\ 0 <= n)
  /\ Sonar.parse_time "" = Ok 0
  /\ Sonar.parse_time "no digits here" = Ok 0
  /\ Sonar.parse_time "2h" = Ok 120
  /\ Sonar.parse_time "10min" = Ok 10.
Proof.
  pose proof (matched_nonneg "h" s) as Nh. pose proof (matched_nonneg "min" s) as Nm.
  split; [|split; [|split; [|repeat split; reflexivity]]].
  - intros Hh Hm. exists (60 * Sonar.matched "h" s + Sonar.matched "min" s).
    split; [apply parse_time_within; assumption|]. repeat split; lia.
  - apply parse_time_beyond.
  - intros Hlen.
    pose proof (digits_captured_length "h" s). pose proof (digits_captured_length "min" s).
    exists (60 * Sonar.matched "h" s + Sonar.matched "min" s).
    split; [apply parse_time_within; lia | lia].
Qed.

Lemma parse_time_total_witness :
  (Sonar.digits_captured "h" "1h12min" <= Py.max_str_digits)%nat
  /\ (Sonar.digits_captured "min" "1h12min" <= Py.max_str_digits)%nat
  /\ exists n : Z, Sonar.parse_time "1h12min" = Ok n /\ n = 72.
Proof.
  assert (Hh : (Sonar.digits_captured "h" "1h12min" <= Py.max_str_digits)%nat)
    by (apply Nat.leb_le; reflexivity).
  assert (Hm : (Sonar.digits_captured "min" "1h12min" <= Py.max_str_digits)%nat)
    by (apply Nat.leb_le; reflexivity).
  split; [exact Hh|]. split; [exact Hm|].
  destruct (parse_time_total "1h12min") as [H _].
  destruct (H Hh Hm) as (n & E & V & _).
  exists n. split; [exact E|]. rewrite V. reflexivity.
Defined.

(** A number of 4301 digits before ["h"]: [parse_time] raises, so it does
    not return on every string. *)
Lemma long_number_raises :
  Sonar.parse_time (Py.repeat_char "1" 4301 +:+ "h") = Raise ValueError
  /\ ~ (forall s : string, exists n : Z, Sonar.parse_time s = Ok n).
Proof.
  assert (E : Sonar.parse_time (Py.repeat_char "1" 4301 +:+ "h") = Raise ValueError)
    by (vm_compute; reflexivity).
  split; [exact E|].
  intros H. destruct (H (Py.repeat_char "1" 4301 +:+ "h")) as [n Hn].
  rewrite E in Hn. discriminate Hn.
Qed.

(** ** The two searches on a duration string *)

Lemma is_empty_app (s t : string) :
  Py.is_empty s = false -> Py.is_empty (s +:+ t) = false.
Proof. destruct s; [discriminate | reflexivity]. Qed.

(** [(\d+)lit] matches at the start of a digit string followed by [lit],
    when [lit] does not begin with a digit, and captures the whole string. *)
Lemma re_match_digits_app (l0 : ascii) (lit' ds : string) :
  Py.is_digit l0 = false ->
  forall rest, Py.all_digits ds = true -> Py.is_empty ds = false ->
  Py.re_match_digits (String l0 lit') (ds +:+ String l0 lit' +:+ rest) = Some ds.
Proof.
  intros Hl rest. induction ds as [|c ds IH]; intros Ha Hne; [discriminate|].
  simpl in Ha. apply andb_true_iff in Ha as [Hc Ha].
  rewrite app_cons. cbn [Py.re_match_digits]. rewrite Hc.
  destruct ds as [|d ds].
  - rewrite app_empty_l. rewrite app_cons. cbn [Py.re_match_digits]. rewrite Hl.
    replace (Py.starts_with (String l0 lit') (String l0 (lit' +:+ rest))) with true;
      [reflexivity|].
    symmetry. cbn [Py.starts_with]. rewrite Ascii.eqb_refl. simpl.
    clear. induction lit' as [|a l IH]; [reflexivity|].
    rewrite app_cons. cbn [Py.starts_with]. rewrite Ascii.eqb_refl. exact IH.
  - rewrite (IH Ha eq_refl). reflexivity.
Qed.

(** It matches at no position of a digit string that is followed by
    something else than [lit] or a digit. *)
Definition stops (l0 : ascii) (lit' rest : string) : Prop :=
  Py.starts_with (String l0 lit') rest = false
  /\ match rest with
     | EmptyString => True
     | String c _ => Py.is_digit c = false
     end.

Lemma re_match_digits_stops (l0 : ascii) (lit' ds rest : string) :
  Py.is_digit l0 = false -> stops l0 lit' rest ->
  Py.all_digits ds = true ->
  Py.re_match_digits (String l0 lit') (ds +:+ rest) = None.
Proof.
  intros Hl [Hs Hr]. induction ds as [|c ds IH]; intros Ha.
  - rewrite app_empty_l. destruct rest as [|r rest]; [reflexivity|].
    cbn [Py.re_match_digits]. rewrite Hr. reflexivity.
  - simpl in Ha. apply andb_true_iff in Ha as [Hc Ha].
    rewrite app_cons. cbn [Py.re_match_digits]. rewrite Hc, (IH Ha).
    destruct ds as [|d ds].
    + rewrite app_empty_l, Hs. reflexivity.
    + simpl in Ha. apply andb_true_iff in Ha as [Hd _].
      rewrite app_cons. cbn [Py.starts_with].
      rewrite Ascii.eqb_sym, (digit_neq d l0 Hd Hl). reflexivity.
Qed.

Lemma re_search_digits_skip (l0 : ascii) (lit' ds rest : string) :
  Py.is_digit l0 = false -> stops l0 lit' rest ->
  Py.all_digits ds = true ->
  Py.re_search_digits (String l0 lit') (ds +:+ rest)
    = Py.re_search_digits (String l0 lit') rest.
Proof.
  intros Hl Hst. induction ds as [|c ds IH]; intros Ha; [reflexivity|].
  pose proof (re_match_digits_stops l0 lit' (String c ds) rest Hl Hst Ha) as E.
  rewrite app_cons in *. cbn [Py.re_search_digits]. rewrite E.
  apply IH. simpl in Ha. apply andb_true_iff in Ha as [_ Ha]. exact Ha.
Qed.

Lemma re_search_digits_app (l0 : ascii) (lit' ds rest : string) :
  Py.is_digit l0 = false ->
  Py.all_digits ds = true -> Py.is_empty ds = false ->
  Py.re_search_digits (String l0 lit') (ds +:+ String l0 lit' +:+ rest) = Some ds.
Proof.
  intros Hl Ha Hne.
  pose proof (re_match_digits_app l0 lit' ds Hl rest Ha Hne) as E.
  destruct ds as [|c ds]; [discriminate|].
  rewrite app_cons in *. cbn [Py.re_search_digits]. rewrite E. reflexivity.
Qed.

(** What the two searches capture in a well-formed duration string. *)
Lemma search_h_hm (H M : string) :
  Py.all_digits H = true -> Py.is_empty H = false ->
  Py.re_search_digits "h" (H +:+ "h" +:+ M +:+ "min") = Some H.
Proof.
  intros Ha Hne.
  apply (re_search_digits_app "h" "" H (M +:+ "min")); assumption || reflexivity.
Qed.

Lemma search_min_hm (H M : string) :
  Py.all_digits H = true -> Py.all_digits M = true -> Py.is_empty M = false ->
  Py.re_search_digits "min" (H +:+ "h" +:+ M +:+ "min") = Some M.
Proof.
  intros Ha Hm Hne.
  rewrite (re_search_digits_skip "m" "in" H) by
    (try assumption; try reflexivity; split; reflexivity).
  change ("h" +:+ M +:+ "min") with (String "h" (M +:+ "min")).
  cbn [Py.re_search_digits Py.re_match_digits]. change (Py.is_digit "h") with false.
  cbn iota.
  rewrite <- (app_empty_r (M +:+ "min")), app_assoc_str.
  apply (re_search_digits_app "m" "in" M ""); assumption || reflexivity.
Qed.

Lemma search_h_h (H : string) :
  Py.all_digits H = true -> Py.is_empty H = false ->
  Py.re_search_digits "h" (H +:+ "h") = Some H.
Proof.
  intros Ha Hne.
  rewrite <- (app_empty_r (H +:+ "h")), app_assoc_str.
  apply (re_search_digits_app "h" "" H ""); assumption || reflexivity.
Qed.

Lemma search_min_h (H : string) :
  Py.all_digits H = true -> Py.re_search_digits "min" (H +:+ "h") = None.
Proof.
  intros Ha.
  rewrite (re_search_digits_skip "m" "in" H) by
    (try assumption; try reflexivity; split; reflexivity).
  reflexivity.
Qed.

Lemma search_h_min (M : string) :
  Py.all_digits M = true -> Py.re_search_digits "h" (M +:+ "min") = None.
Proof.
  intros Ha.
  rewrite (re_search_digits_skip "h" "" M) by
    (try assumption; try reflexivity; split; reflexivity).
  reflexivity.
Qed.

Lemma search_min_min (M : string) :
  Py.all_digits M = true -> Py.is_empty M = false ->
  Py.re_search_digits "min" (M +:+ "min") = Some M.
Proof.
  intros Ha Hne.
  rewrite <- (app_empty_r (M +:+ "min")), app_assoc_str.
  apply (re_search_digits_app "m" "in" M ""); assumption || reflexivity.
Qed.

(** [parse_time] on a duration string. *)
Lemma parse_time_captures (s : string) (h m : option string) :
  Py.re_search_digits "h" s = h -> Py.re_search_digits "min" s = m ->
  Sonar.parse_time s
  = if (from_option String.length O h <=? Py.max_str_digits)%nat
       && (from_option String.length O m <=? Py.max_str_digits)%nat
    then Ok (60 * from_option (fun g => Z.of_N (Py.dec_value 0 g)) 0 h
             + from_option (fun g => Z.of_N (Py.dec_value 0 g)) 0 m)
    else Raise ValueError.
Proof.
  intros <- <-. rewrite parse_time_value.
  unfold Sonar.digits_captured, Sonar.matched.
  destruct (Py.re_search_digits "h" s), (Py.re_search_digits "min" s); reflexivity.
Qed.

Lemma parse_duration_string (s : string) (t : Z) (d : nat) :
  Sonar.duration_string s t d ->
  0 <= t
  /\ ((d <= Py.max_str_digits)%nat -> Sonar.parse_time s = Ok t)
  /\ ((Py.max_str_digits < d)%nat -> Sonar.parse_time s = Raise ValueError).
Proof.
  intros D. split; [destruct D; lia|].
  destruct D as [H M [aH nH] [aM nM] | H [aH nH] | M [aM nM]].
  - rewrite (parse_time_captures _ (Some H) (Some M))
      by (apply search_h_hm || apply search_min_hm; assumption).
    cbn [from_option].
    destruct (Nat.leb_spec (String.length H) Py.max_str_digits) as [Lh|Lh];
      destruct (Nat.leb_spec (String.length M) Py.max_str_digits) as [Lm|Lm];
      cbn [andb]; split; intros L; try reflexivity; exfalso; lia.
  - rewrite (parse_time_captures _ (Some H) None)
      by (apply search_h_h || apply search_min_h; assumption).
    cbn [from_option]. change (0 <=? Py.max_str_digits)%nat with true.
    rewrite andb_true_r.
    destruct (Nat.leb_spec (String.length H) Py.max_str_digits) as [Lh|Lh];
      split; intros L; try (f_equal; lia); try reflexivity; exfalso; lia.
  - rewrite (parse_time_captures _ None (Some M))
      by (apply search_h_min || apply search_min_min; assumption).
    cbn [from_option]. change (0 <=? Py.max_str_digits)%nat with true.
    cbn [andb].
    destruct (Nat.leb_spec (String.length M) Py.max_str_digits) as [Lm|Lm];
      split; intros L; try reflexivity; exfalso; lia.
Qed.

(** ** The digits [str] writes *)

Lemma str_of_Z_nonneg (z : Z) : 0 <= z -> Py.str_of_Z z = Py.str_of_N (Z.to_N z).
Proof. destruct z; [reflexivity | reflexivity | lia]. Qed.

Lemma digits_of_longer (fuel : nat) :
  forall n acc, (String.length acc < String.length (Py.digits_of fuel n acc))%nat.
Proof.
  induction fuel as [|fuel IH]; intros n acc; cbn [Py.digits_of].
  - cbn [String.length]. lia.
  - destruct (n / 10 =? 0)%N; [cbn [String.length]; lia|].
    specialize (IH (n / 10)%N (String (Py.digit_char (n mod 10)) acc)).
    cbn [String.length] in IH. lia.
Qed.

Lemma div10_lt_pow (n : N) (k : nat) :
  (n / 10 < 10 ^ N.of_nat (S k) <-> n < 10 ^ N.of_nat (S (S k)))%N.
Proof.
  rewrite (Nat2N.inj_succ (S k)), N.pow_succ_r'.
  pose proof (N.div_mod n 10 ltac:(discriminate)) as E.
  pose proof (N.mod_lt n 10 ltac:(discriminate)) as Hm.
  generalize dependent (n mod 10)%N. generalize dependent (n / 10)%N.
  generalize (10 ^ N.of_nat (S k))%N. intros B q r E Hr. subst n. lia.
Qed.

(** A natural number is written with at most [k + 1] digits exactly when
    it is below [10 ^ (k + 1)]. *)
Lemma digits_of_length (fuel : nat) :
  forall n acc k, (N.log2 n <= N.of_nat fuel)%N ->
  (String.length (Py.digits_of fuel n acc) <= String.length acc + S k)%nat
  <-> (n < 10 ^ N.of_nat (S k))%N.
Proof.
  induction fuel as [|fuel IH]; intros n acc k Hlog.
  - assert (Hn : (n < 2)%N).
    { destruct (N.lt_ge_cases n 2) as [|Hge]; [assumption|].
      apply N.log2_le_mono in Hge. change (N.log2 2) with 1%N in Hge. lia. }
    cbn [Py.digits_of String.length].
    rewrite Nat2N.inj_succ, N.pow_succ_r'.
    assert (0 < 10 ^ N.of_nat k)%N by (apply N.neq_0_lt_0, N.pow_nonzero; discriminate).
    split; intros _; lia.
  - cbn [Py.digits_of]. destruct (N.eqb_spec (n / 10) 0) as [Hz|Hnz].
    + cbn [String.length].
      assert (Hn : (n < 10)%N).
      { pose proof (small_div_mod _ Hz) as E.
        pose proof (N.mod_lt n 10 ltac:(discriminate)). lia. }
      rewrite Nat2N.inj_succ, N.pow_succ_r'.
      assert (0 < 10 ^ N.of_nat k)%N by (apply N.neq_0_lt_0, N.pow_nonzero; discriminate).
      split; intros _; lia.
    + assert (Hlog' : (N.log2 (n / 10) <= N.of_nat fuel)%N).
      { assert (H2 : (2 * (n / 10) <= n)%N).
        { pose proof (N.div_mod n 10 ltac:(discriminate)) as E.
          generalize dependent (n mod 10)%N. generalize dependent (n / 10)%N.
          intros q Hq r E. lia. }
        apply N.log2_le_mono in H2.
        rewrite N.log2_double in H2 by (apply N.neq_0_lt_0, Hnz).
        rewrite Nat2N.inj_succ in Hlog.
        generalize dependent (N.log2 (n / 10)). generalize dependent (N.log2 n).
        intros; lia. }
      destruct k as [|k].
      * pose proof (digits_of_longer fuel (n / 10)%N
                      (String (Py.digit_char (n mod 10)) acc)) as L.
        cbn [String.length] in L.
        assert (Hge : (10 <= n)%N).
        { pose proof (N.div_mod n 10 ltac:(discriminate)) as E.
          generalize dependent (n mod 10)%N. generalize dependent (n / 10)%N.
          intros q Hq _ r E. lia. }
        change (10 ^ N.of_nat 1)%N with 10%N.
        split; intros; lia.
      * rewrite <- div10_lt_pow.
        rewrite <- (IH (n / 10)%N (String (Py.digit_char (n mod 10)) acc) k Hlog').
        cbn [String.length]. split; intros; lia.
Qed.

Lemma str_of_N_length (n : N) (k : nat) :
  (String.length (Py.str_of_N n) <= S k)%nat <-> (n < 10 ^ N.of_nat (S k))%N.
Proof.
  unfold Py.str_of_N.
  rewrite <- (digits_of_length (N.to_nat (N.log2 n)) n EmptyString k)
    by (rewrite N2Nat.id; lia).
  reflexivity.
Qed.

Lemma str_bound_pow : Z.of_N (10 ^ N.of_nat Py.max_str_digits)%N = Py.str_bound.
Proof. rewrite N2Z.inj_pow. reflexivity. Qed.

Lemma str_bound_large : 60 <= Py.str_bound.
Proof.
  apply Z.le_trans with (10 ^ 2); [apply Z.leb_le; reflexivity|].
  apply Z.pow_le_mono_r; [reflexivity | apply Z.leb_le; reflexivity].
Qed.

(** The greatest number of 4300 digits. *)
Lemma dec_value_nines (n : nat) :
  forall acc,
  Py.dec_value acc (Py.repeat_char "9" n) = ((acc + 1) * 10 ^ N.of_nat n - 1)%N.
Proof.
  induction n as [|n IH]; intros acc.
  - cbn [Py.repeat_char Py.dec_value]. change (10 ^ N.of_nat 0)%N with 1%N. lia.
  - cbn [Py.repeat_char Py.dec_value]. rewrite IH.
    change (Py.digit_val "9") with 9%N.
    rewrite Nat2N.inj_succ, N.pow_succ_r'. f_equal. ring.
Qed.

Lemma nines_value :
  Z.of_N (Py.dec_value 0 (Py.repeat_char "9" Py.max_str_digits)) = Py.str_bound - 1.
Proof.
  rewrite dec_value_nines, N.add_0_l, N.mul_1_l.
  assert (0 < 10 ^ N.of_nat Py.max_str_digits)%N
    by (apply N.neq_0_lt_0, N.pow_nonzero; discriminate).
  rewrite N2Z.inj_sub by lia. rewrite str_bound_pow. reflexivity.
Qed.

(** [str] of a natural number: its digits below [10 ^ 4300], [ValueError]
    from there on. *)
Lemma str_within (z : Z) :
  0 <= z < Py.str_bound -> Py.str z = Ok (Py.str_of_N (Z.to_N z)).
Proof.
  intros [H0 Hb]. unfold Py.str. rewrite (str_of_Z_nonneg _ H0).
  rewrite (count_digits_all _ (str_of_N_all _)).
  replace (String.length (Py.str_of_N (Z.to_N z)) <=? Py.max_str_digits)%nat with true;
    [reflexivity|].
  symmetry. apply Nat.leb_le. change Py.max_str_digits with (S 4299).
  apply str_of_N_length. change (S 4299) with Py.max_str_digits.
  apply N2Z.inj_lt. rewrite str_bound_pow, Z2N.id by exact H0. exact Hb.
Qed.

Lemma str_beyond (z : Z) :
  Py.str_bound <= z -> Py.str z = Raise ValueError.
Proof.
  intros Hb. pose proof str_bound_large as Hl.
  unfold Py.str. rewrite str_of_Z_nonneg by lia.
  rewrite (count_digits_all _ (str_of_N_all _)).
  replace (String.length (Py.str_of_N (Z.to_N z)) <=? Py.max_str_digits)%nat with false;
    [reflexivity|].
  symmetry. apply Nat.leb_gt.
  destruct (Nat.le_gt_cases (String.length (Py.str_of_N (Z.to_N z))) Py.max_str_digits)
    as [Hle|Hgt]; [|exact Hgt].
  exfalso. change Py.max_str_digits with (S 4299) in Hle.
  apply str_of_N_length in Hle. change (S 4299) with Py.max_str_digits in Hle.
  apply N2Z.inj_lt in Hle. rewrite str_bound_pow, Z2N.id in Hle by lia. lia.
Qed.

(** ** [format_time] followed by [parse_time] *)

Lemma hours_bound (t : Z) :
  (t / 60 < Py.str_bound <-> t < 60 * Py.str_bound)
  /\ 0 <= t mod 60 < Py.str_bound.
Proof.
  pose proof str_bound_large as Hl.
  pose proof (Z.div_mod t 60 ltac:(discriminate)) as E.
  pose proof (Z.mod_pos_bound t 60 ltac:(reflexivity)) as Hm.
  generalize dependent (t / 60). generalize dependent (t mod 60).
  generalize dependent Py.str_bound. intros; lia.
Qed.

(** [format_time] of a total of minutes: the total written with its
    zero-valued components dropped, as long as the hours have at most 4300
    digits. *)
Lemma format_time_within (t : Z) :
  0 <= t < 60 * Py.str_bound -> Sonar.format_time t = Ok (Sonar.dropping_zeros t).
Proof.
  intros [H0 Hb]. unfold Sonar.format_time, Sonar.dropping_zeros.
  destruct (Z.eqb_spec t 0) as [->|Hnz]; [reflexivity|].
  destruct (hours_bound t) as [[_ Hh] Hm]. specialize (Hh Hb). clear Hb.
  rename Hh into Hb.
  pose proof (Z.div_pos t 60 H0 ltac:(reflexivity)) as Hq.
  pose proof (Z.div_mod t 60 ltac:(discriminate)) as E.
  rewrite (str_within (t mod 60)) by exact Hm.
  rewrite (str_within (t / 60)) by (split; assumption).
  rewrite !str_of_Z_nonneg by lia. cbn [rbind].
  destruct (Z.ltb_spec 0 (t / 60)) as [Lq|Lq];
    destruct (Z.ltb_spec 0 (t mod 60)) as [Lr|Lr]; cbn [andb].
  - rewrite app_assoc_str. reflexivity.
  - rewrite app_empty_r. reflexivity.
  - reflexivity.
  - exfalso. generalize dependent (t / 60). generalize dependent (t mod 60).
    intros; lia.
Qed.

Lemma format_time_beyond (t : Z) :
  60 * Py.str_bound <= t -> Sonar.format_time t = Raise ValueError.
Proof.
  intros Hb. pose proof str_bound_large as Hl.
  destruct (hours_bound t) as [[Hh _] Hm].
  assert (Hq : Py.str_bound <= t / 60).
  { destruct (Z.lt_ge_cases (t / 60) Py.str_bound) as [L|L]; [|exact L].
    specialize (Hh L). exfalso. revert Hb Hh. generalize Py.str_bound. intros; lia. }
  unfold Sonar.format_time.
  replace (t =? 0) with false by (symmetry; apply Z.eqb_neq; lia).
  replace (0 <? t / 60) with true by (symmetry; apply Z.ltb_lt; lia).
  rewrite (str_beyond _ Hq).
  destruct (0 <? t mod 60); reflexivity.
Qed.

Lemma parse_dropping_zeros (t : Z) :
  0 <= t < 60 * Py.str_bound -> Sonar.parse_time (Sonar.dropping_zeros t) = Ok t.
Proof.
  intros [H0 Hb]. unfold Sonar.dropping_zeros.
  destruct (Z.eqb_spec t 0) as [->|Hnz]; [reflexivity|].
  destruct (hours_bound t) as [[_ Hh] Hm]. specialize (Hh Hb). clear Hb.
  rename Hh into Hb.
  pose proof (Z.div_pos t 60 H0 ltac:(reflexivity)) as Hq.
  pose proof (Z.div_mod t 60 ltac:(discriminate)) as E.
  rewrite !str_of_Z_nonneg by lia.
  assert (LH : (String.length (Py.str_of_N (Z.to_N (t / 60))) <= Py.max_str_digits)%nat).
  { change Py.max_str_digits with (S 4299). apply str_of_N_length.
    change (S 4299) with Py.max_str_digits.
    apply N2Z.inj_lt. rewrite str_bound_pow, Z2N.id by exact Hq. exact Hb. }
  assert (LM : (String.length (Py.str_of_N (Z.to_N (t mod 60))) <= Py.max_str_digits)%nat).
  { change Py.max_str_digits with (S 4299). apply str_of_N_length.
    change (S 4299) with Py.max_str_digits.
    apply N2Z.inj_lt. rewrite str_bound_pow, Z2N.id by lia. lia. }
  pose proof (str_of_N_value (Z.to_N (t / 60))) as VH.
  pose proof (str_of_N_value (Z.to_N (t mod 60))) as VM.
  pose proof (str_of_N_all (Z.to_N (t / 60))) as aH.
  pose proof (str_of_N_all (Z.to_N (t mod 60))) as aM.
  pose proof (str_of_N_nonempty (Z.to_N (t / 60))) as nH.
  pose proof (str_of_N_nonempty (Z.to_N (t mod 60))) as nM.
  set (H := Py.str_of_N (Z.to_N (t / 60))) in *.
  set (M := Py.str_of_N (Z.to_N (t mod 60))) in *.
  apply Nat.leb_le in LH, LM.
  destruct (Z.ltb_spec 0 (t / 60)) as [Lq|Lq];
    destruct (Z.ltb_spec 0 (t mod 60)) as [Lr|Lr].
  - rewrite app_assoc_str.
    rewrite (parse_time_captures _ (Some H) (Some M))
      by (apply search_h_hm || apply search_min_hm; assumption).
    cbn [from_option]. rewrite LH, LM, VH, VM. cbn [andb]. f_equal.
    rewrite !Z2N.id by lia. lia.
  - rewrite app_empty_r.
    rewrite (parse_time_captures _ (Some H) None)
      by (apply search_h_h || apply search_min_h; assumption).
    cbn [from_option]. rewrite LH, VH. cbn [andb]. f_equal.
    rewrite !Z2N.id by lia. lia.
  - rewrite app_empty_l.
    rewrite (parse_time_captures _ None (Some M))
      by (apply search_h_min || apply search_min_min; assumption).
    cbn [from_option]. rewrite LM, VM. cbn [andb]. f_equal.
    rewrite !Z2N.id by lia. lia.
  - exfalso. lia.
Qed.

(** C2: a duration string ["<N>h<N>min"], ["<N>h"] or ["<N>min"] whose
    numbers have at most 4300 digits parses to the total minutes [t] it
    denotes; when [t] is below [60 * 10 ^ 4300], [format_time] of that total
    is the total written with its zero-valued components dropped, a string
    that parses to [t] again; ["0min"] parses to 0 and 0 is formatted as
    ["0min"]. Beyond these bounds the interpreter converts no number:
    [parse_time] raises [ValueError] on a duration string with a number of
    more than 4300 digits, and [format_time] raises it on a total from
    [60 * 10 ^ 4300] up. *)
Theorem format_parse_round_trip (s : string) (t : Z) (d : nat) :
  Sonar.duration_string s t d ->
  ((d <= Py.max_str_digits)%nat ->
   Sonar.parse_time s = Ok t
   /\ (t < 60 * Py.str_bound ->
       Sonar.format_time t = Ok (Sonar.dropping_zeros t)
       /\ Sonar.parse_time (Sonar.dropping_zeros t) = Ok t
       /\ (do n <- Sonar.parse_time s;
           do out <- Sonar.format_time n;
           Sonar.parse_time out) = Sonar.parse_time s)
   /\ (60 * Py.str_bound <= t -> Sonar.format_time t = Raise ValueError))
  /\ ((Py.max_str_digits < d)%nat -> Sonar.parse_time s = Raise ValueError)
  /\ Sonar.parse_time "0min" = Ok 0
  /\ Sonar.format_time 0 = Ok "0min".
Proof.
  intros D. destruct (parse_duration_string s t d D) as (Ht & Hin & Hout).
  split; [|split; [exact Hout | split; reflexivity]].
  intros Hd. specialize (Hin Hd).
  split; [exact Hin|]. split; [|apply format_time_beyond].
  intros Hb.
  pose proof (format_time_within t (conj Ht Hb)) as F.
  pose proof (parse_dropping_zeros t (conj Ht Hb)) as P.
  split; [exact F|]. split; [exact P|].
  rewrite Hin. cbn [rbind]. rewrite F. cbn [rbind]. exact P.
Qed.

Lemma format_parse_round_trip_witness :
  Sonar.duration_string "1h12min" 72 2
  /\ (2 <= Py.max_str_digits)%nat
  /\ 72 < 60 * Py.str_bound
  /\ Sonar.parse_time "1h12min" = Ok 72
  /\ Sonar.format_time 72 = Ok "1h12min"
  /\ Sonar.parse_time (Sonar.dropping_zeros 72) = Ok 72.
Proof.
  assert (D : Sonar.duration_string "1h12min" 72 2).
  { apply (Sonar.duration_h_min "1" "12"); split; reflexivity. }
  assert (Hd : (2 <= Py.max_str_digits)%nat) by (apply Nat.leb_le; reflexivity).
  assert (Hb : 72 < 60 * Py.str_bound) by (apply Z.ltb_lt; vm_compute; reflexivity).
  split; [exact D|]. split; [exact Hd|]. split; [exact Hb|].
  destruct (format_parse_round_trip "1h12min" 72 2 D) as [H _].
  destruct (H Hd) as (H1 & H2 & _). destruct (H2 Hb) as (H3 & H4 & _).
  split; [exact H1|]. split; [exact H3 | exact H4].
Defined.

(** Two valid duration strings outside the bounds: a number of 4301 digits,
    which [parse_time] does not read, and 4300 nines before ["h60min"],
    which [parse_time] reads as [60 * 10 ^ 4300] minutes, a total that
    [format_time] does not write. *)
Lemma long_duration_not_round_tripped :
  (exists t : Z,
     Sonar.duration_string (Py.repeat_char "1" 4301 +:+ "h") t 4301
     /\ Sonar.parse_time (Py.repeat_char "1" 4301 +:+ "h") = Raise ValueError)
  /\ (exists t : Z,
        Sonar.duration_string (Py.repeat_char "9" 4300 +:+ "h60min") t 4300
        /\ Sonar.parse_time (Py.repeat_char "9" 4300 +:+ "h60min") = Ok t
        /\ t = 60 * Py.str_bound
        /\ Sonar.format_time t = Raise ValueError).
Proof.
  split.
  - eexists. split.
    + apply (Sonar.duration_h (Py.repeat_char "1" 4301)).
      split; vm_compute; reflexivity.
    + vm_compute. reflexivity.
  - assert (D : Sonar.duration_string (Py.repeat_char "9" 4300 +:+ "h60min")
                  (60 * Z.of_N (Py.dec_value 0 (Py.repeat_char "9" 4300))
                   + Z.of_N (Py.dec_value 0 "60")) 4300).
    { apply (Sonar.duration_h_min (Py.repeat_char "9" 4300) "60");
        split; vm_compute; reflexivity. }
    assert (V : 60 * Z.of_N (Py.dec_value 0 (Py.repeat_char "9" 4300))
                + Z.of_N (Py.dec_value 0 "60") = 60 * Py.str_bound).
    { change 4300%nat with Py.max_str_digits. rewrite nines_value.
      change (Z.of_N (Py.dec_value 0 "60")) with 60.
      generalize Py.str_bound. intros; lia. }
    eexists. split; [exact D|].
    destruct (parse_duration_string _ _ _ D) as (_ & Hin & _).
    split; [apply Hin, Nat.leb_le; vm_compute; reflexivity|].
    split; [exact V|].
    apply format_time_beyond. rewrite V. lia.
Qed.

(** ** Severity thresholds of [process_scan_results] *)

Lemma Qle_bool_false (x y : Q) : Qle_bool x y = false <-> (y < x)%Q.
Proof.
  split.
  - intros H. apply Qnot_le_lt. intros Hle. apply Qle_bool_iff in Hle. congruence.
  - intros H. destruct (Qle_bool x y) eqn:E; [|reflexivity].
    apply Qle_bool_iff in E. lra.
Qed.

Ltac q_cases s :=
  unfold Owasp.severity_of, Owasp.classify;
  destruct (Qle_bool 9 s) eqn:E9; [apply Qle_bool_iff in E9 | apply Qle_bool_false in E9];
  (destruct (Qle_bool 7 s) eqn:E7; [apply Qle_bool_iff in E7 | apply Qle_bool_false in E7]);
  (destruct (Qle_bool 4 s) eqn:E4; [apply Qle_bool_iff in E4 | apply Qle_bool_false in E4]);
  (destruct (Qle_bool s 0) eqn:E0; [apply Qle_bool_iff in E0 | apply Qle_bool_false in E0]);
  cbn [negb fst].

(** The severity does not depend on the counters it is computed next to. *)
Lemma classify_severity (s : Q) (c : Owasp.counters) :
  fst (Owasp.classify s c) = Owasp.severity_of s.
Proof.
  unfold Owasp.severity_of, Owasp.classify.
  destruct (Qle_bool 9 s), (Qle_bool 7 s), (Qle_bool 4 s), (Qle_bool s 0); reflexivity.
Qed.

(** The five buckets on any number: UNKNOWN is the [else] branch. *)
Lemma severity_buckets (s : Q) :
  (Owasp.severity_of s = "CRITICAL" <-> (9 <= s)%Q)
  /\ (Owasp.severity_of s = "HIGH" <-> (7 <= s /\ s < 9)%Q)
  /\ (Owasp.severity_of s = "MEDIUM" <-> (4 <= s /\ s < 7)%Q)
  /\ (Owasp.severity_of s = "LOW" <-> (0 < s /\ s < 4)%Q)
  /\ (Owasp.severity_of s = "UNKNOWN" <-> (s <= 0)%Q).
Proof.
  q_cases s; repeat split; intros; try discriminate; try reflexivity; try lra.
Qed.

(** C1: on a CVSS score [s] (a number from 0 up), the derived severity is
    CRITICAL iff [s >= 9.0], HIGH iff [7.0 <= s < 9.0], MEDIUM iff
    [4.0 <= s < 7.0], LOW iff [0 < s < 4.0] and UNKNOWN iff [s == 0]; a score
    at a threshold falls in the higher bucket. *)
Theorem severity_thresholds (s : Q) :
  (0 <= s)%Q ->
  (Owasp.severity_of s = "CRITICAL" <-> (9 <= s)%Q)
  /\ (Owasp.severity_of s = "HIGH" <-> (7 <= s /\ s < 9)%Q)
  /\ (Owasp.severity_of s = "MEDIUM" <-> (4 <= s /\ s < 7)%Q)
  /\ (Owasp.severity_of s = "LOW" <-> (0 < s /\ s < 4)%Q)
  /\ (Owasp.severity_of s = "UNKNOWN" <-> (s == 0)%Q)
  /\ Owasp.severity_of 9 = "CRITICAL"
  /\ Owasp.severity_of 7 = "HIGH"
  /\ Owasp.severity_of 4 = "MEDIUM".
Proof.
  intros H0. destruct (severity_buckets s) as (Hc & Hh & Hm & Hl & Hu).
  split; [exact Hc|]. split; [exact Hh|]. split; [exact Hm|]. split; [exact Hl|].
  split; [|repeat split; reflexivity].
  split.
  - intros E. apply Hu in E. lra.
  - intros E. apply Hu. lra.
Qed.

Lemma severity_thresholds_witness :
  (0 <= 7.5)%Q /\ Owasp.severity_of 7.5 = "HIGH".
Proof.
  assert (H : (0 <= 7.5)%Q) by (vm_compute; discriminate).
  split; [exact H|].
  destruct (severity_thresholds 7.5 H) as (_ & Hh & _).
  apply Hh. split; vm_compute; [discriminate | reflexivity].
Defined.

(** ** Counters and detailed rows of [process_scan_results] *)

Lemma for_each_keeps {A S : Type} (body : A -> S -> S * option exn)
    (I : S -> Prop) (E : S -> Prop) (l : list A) :
  (forall x s, I s ->
     match snd (body x s) with None => I (fst (body x s)) | Some _ => E (fst (body x s)) end) ->
  forall s, I s ->
  match snd (for_each body l s) with
  | None => I (fst (for_each body l s))
  | Some _ => E (fst (for_each body l s))
  end.
Proof.
  intros Hbody. induction l as [|x l IH]; intros s Hs; [exact Hs|].
  cbn [for_each]. specialize (Hbody x s Hs).
  destruct (body x s) as [s' [e|]]; cbn [fst snd] in *.
  - exact Hbody.
  - apply IH, Hbody.
Qed.

Lemma count_rated_app (rows : list Owasp.detail_row) (r : Owasp.detail_row) :
  Owasp.count_rated (rows ++ [r])
    = Owasp.count_rated rows + (if Owasp.rated r then 1 else 0).
Proof.
  unfold Owasp.count_rated. rewrite List.filter_app, length_app.
  cbn [List.filter]. destruct (Owasp.rated r); cbn [length]; lia.
Qed.

(** One pass through the [if/elif] chain and the [total_count] update. *)
Lemma classify_counts (q : Q) (c : Owasp.counters) :
  let sev := fst (Owasp.classify q c) in
  let c2 := Owasp.count_total sev (snd (Owasp.classify q c)) in
  let one := if negb (String.eqb sev "UNKNOWN") then 1 else 0 in
  Owasp.total_count c2 = Owasp.total_count c + one
  /\ Owasp.critical_count c <= Owasp.critical_count c2
  /\ Owasp.high_count c <= Owasp.high_count c2
  /\ Owasp.medium_count c <= Owasp.medium_count c2
  /\ Owasp.low_count c <= Owasp.low_count c2
  /\ Owasp.critical_count c2 + Owasp.high_count c2
     + Owasp.medium_count c2 + Owasp.low_count c2
     = Owasp.critical_count c + Owasp.high_count c
       + Owasp.medium_count c + Owasp.low_count c + one.
Proof.
  unfold Owasp.classify.
  destruct (Qle_bool 9 q); [|destruct (Qle_bool 7 q); [|destruct (Qle_bool 4 q);
    [|destruct (Qle_bool q 0)]]]; cbn; repeat split; lia.
Qed.

Lemma process_vuln_keeps (p : string) (before : list Owasp.detail_row)
    (dn dp vuln : value) (st : Owasp.loop_state) :
  Owasp.agrees p before 0 st ->
  Owasp.keeps p before (Owasp.process_vuln p dn dp vuln st).
Proof.
  intros Hst. destruct st as [c detailed]. unfold Owasp.process_vuln.
  match goal with
  | |- context [match ?x with Ok _ => _ | Raise _ => _ end] => destruct x as [[score q]|e]
  end; [|left; exact Hst].
  pose proof (classify_counts q c) as Hc. cbv zeta in Hc.
  destruct (Owasp.classify q c) as [sev c1]. cbn [fst snd] in Hc.
  set (c2 := Owasp.count_total sev c1) in *.
  destruct Hst as (rows & Hrows & Hall & H1 & H2 & H3 & H4 & Hsum & Htot).
  cbn [fst snd] in *.
  destruct Hc as (Ht & G1 & G2 & G3 & G4 & Gs).
  match goal with
  | |- context [match ?x with Ok _ => _ | Raise _ => _ end] => destruct x as [row|e] eqn:Erow
  end.
  - (* the row is appended *)
    unfold Owasp.keeps. cbn [fst snd]. exists (rows ++ [row]). cbn [fst snd].
    assert (Hsev : Owasp.severity row = sev /\ Owasp.d_projectName row = p).
    { revert Erow. clear.
      repeat match goal with
      | |- context [rbind ?m _] => destruct m; cbn [rbind]; try discriminate
      end.
      intros [= <-]. split; reflexivity. }
    destruct Hsev as [Hsev Hp].
    rewrite count_rated_app. unfold Owasp.rated. rewrite Hsev.
    split; [rewrite Hrows, app_assoc; reflexivity|].
    split; [apply Forall_app; split; [exact Hall | constructor; [exact Hp | constructor]]|].
    repeat split; lia.
  - (* building the row raised, after the counters were updated *)
    unfold Owasp.keeps, Owasp.raising. cbn [fst snd].
    destruct (negb (String.eqb sev "UNKNOWN")).
    + right. exists rows. cbn [fst snd]. repeat split; try assumption; lia.
    + left. exists rows. cbn [fst snd]. repeat split; try assumption; lia.
Qed.

Lemma keeps_for_each {A : Type} (p : string) (before : list Owasp.detail_row)
    (body : A -> Owasp.loop_state -> Owasp.loop_state * option exn) (l : list A) :
  (forall x st, Owasp.agrees p before 0 st -> Owasp.keeps p before (body x st)) ->
  forall st, Owasp.agrees p before 0 st -> Owasp.keeps p before (for_each body l st).
Proof.
  intros Hbody st Hst. unfold Owasp.keeps.
  apply (for_each_keeps body (Owasp.agrees p before 0)
           (fun s => Owasp.agrees p before 0 s \/ Owasp.agrees p before 1 s)).
  - intros x s Hs. apply (Hbody x s Hs).
  - exact Hst.
Qed.

Lemma process_dependency_keeps (p : string) (before : list Owasp.detail_row)
    (dependency : value) (st : Owasp.loop_state) :
  Owasp.agrees p before 0 st ->
  Owasp.keeps p before (Owasp.process_dependency p dependency st).
Proof.
  intros Hst. unfold Owasp.process_dependency.
  destruct (Val.get dependency "vulnerabilities" (VList [])) as [vulnerabilities|e];
    [|left; exact Hst].
  destruct (negb (Val.truthy vulnerabilities)); [exact Hst|].
  match goal with
  | |- context [match ?x with Ok _ => _ | Raise _ => _ end] =>
      destruct x as [[[dn dp] vulns]|e]
  end; [|left; exact Hst].
  apply keeps_for_each; [|exact Hst].
  intros vuln st' Hst'. apply process_vuln_keeps, Hst'.
Qed.

Lemma try_block_keeps (p : string) (before : list Owasp.detail_row)
    (scan_result : value) (st : Owasp.loop_state) :
  Owasp.agrees p before 0 st ->
  Owasp.keeps p before (Owasp.try_block p scan_result st).
Proof.
  intros Hst. unfold Owasp.try_block.
  match goal with
  | |- context [match ?x with Ok _ => _ | Raise _ => _ end] => destruct x as [deps|e]
  end; [|left; exact Hst].
  apply keeps_for_each; [|exact Hst].
  intros dependency st' Hst'. apply process_dependency_keeps, Hst'.
Qed.

Lemma agrees_start (p : string) (before : list Owasp.detail_row) :
  Owasp.agrees p before 0 (Owasp.no_counts, before).
Proof.
  exists []. cbn. rewrite app_nil_r. repeat split; try lia. constructor.
Qed.

Lemma appended_app {A : Type} (before rows : list A) :
  Owasp.appended before (before ++ rows) = rows.
Proof. apply drop_app_length. Qed.

Lemma app_singleton_neq {A : Type} (l : list A) (x : A) : l ++ [x] <> l.
Proof.
  intros H. apply (f_equal (@length A)) in H. rewrite length_app in H.
  cbn in H. lia.
Qed.

(** C3, as the code has it: each call appends one summary row for the
    project; its counters are not negative and its four severity counters add
    up to [totalVulnerabilities]; every detailed row the call appends is the
    project's; and when the call logs no processing error, that sum is the
    number of appended detailed rows whose severity is not UNKNOWN (rows of
    severity UNKNOWN are appended but counted nowhere). *)
Theorem summary_counts_rated_findings (project_name : string) (scan_result : value)
    (w : Owasp.store) :
  let w' := Owasp.process_scan_results project_name scan_result w in
  let rows := Owasp.appended (Owasp.detailed_data w) (Owasp.detailed_data w') in
  exists row,
    Owasp.summary_data w' = Owasp.summary_data w ++ [row]
    /\ Owasp.s_projectName row = project_name
    /\ 0 <= Owasp.criticalSeverityCount row
    /\ 0 <= Owasp.highSeverityCount row
    /\ 0 <= Owasp.mediumSeverityCount row
    /\ 0 <= Owasp.lowSeverityCount row
    /\ 0 <= Owasp.totalVulnerabilities row
    /\ Owasp.severity_sum row = Owasp.totalVulnerabilities row
    /\ Owasp.detailed_data w' = Owasp.detailed_data w ++ rows
    /\ Forall (fun r => Owasp.d_projectName r = project_name) rows
    /\ Owasp.count_rated rows <= Owasp.severity_sum row <= Owasp.count_rated rows + 1
    /\ (Owasp.log w' = Owasp.log w ->
        Owasp.severity_sum row = Owasp.count_rated rows).
Proof.
  cbv zeta. unfold Owasp.process_scan_results.
  destruct (negb (Val.truthy scan_result)).
  - exists (Owasp.summary_of project_name Owasp.no_counts).
    cbn [Owasp.summary_data Owasp.detailed_data Owasp.log].
    replace (Owasp.appended (Owasp.detailed_data w) (Owasp.detailed_data w))
      with (@nil Owasp.detail_row)
      by (symmetry; rewrite <- (app_nil_r (Owasp.detailed_data w)) at 2;
          apply appended_app).
    rewrite app_nil_r.
    repeat split; try (cbn; lia); try constructor; vm_compute; congruence.
  - pose proof (try_block_keeps project_name (Owasp.detailed_data w) scan_result
                  _ (agrees_start project_name (Owasp.detailed_data w))) as K.
    destruct (Owasp.try_block project_name scan_result
                (Owasp.no_counts, Owasp.detailed_data w)) as [[c detailed] raised].
    exists (Owasp.summary_of project_name c).
    cbn [Owasp.summary_data Owasp.detailed_data Owasp.log].
    unfold Owasp.keeps in K. cbn [fst snd] in K.
    assert (G : exists slack, (slack = 0 \/ (slack = 1 /\ raised <> None))
                /\ Owasp.agrees project_name (Owasp.detailed_data w) slack (c, detailed)).
    { destruct raised as [e|].
      - destruct K as [K|K]; [exists 0 | exists 1]; split; try exact K;
          [left; reflexivity | right; split; [reflexivity | discriminate]].
      - exists 0. split; [left; reflexivity | exact K]. }
    destruct G as (slack & Hslack & rows & Hrows & Hall & H1 & H2 & H3 & H4 & Hsum & Htot).
    cbn [fst snd] in *. subst detailed. rewrite appended_app.
    unfold Owasp.severity_sum, Owasp.summary_of. cbn.
    repeat split; try assumption; try lia.
    intros Hlog. destruct Hslack as [->|[-> Hr]]; [lia|].
    destruct raised as [e|]; [|congruence].
    exfalso. exact (app_singleton_neq _ _ Hlog).
Qed.

Lemma summary_counts_rated_findings_witness :
  let w' := Owasp.process_scan_results "proj" Owasp.mixed_report Owasp.empty_store in
  Owasp.log w' = Owasp.log Owasp.empty_store
  /\ length (Owasp.detailed_data w') = 2%nat
  /\ exists row,
       Owasp.summary_data w' = [row]
       /\ Owasp.severity_sum row
          = Owasp.count_rated (Owasp.appended [] (Owasp.detailed_data w')).
Proof.
  cbv zeta. split; [reflexivity|]. split; [reflexivity|].
  destruct (summary_counts_rated_findings "proj" Owasp.mixed_report Owasp.empty_store)
    as (row & Hrow & _ & _ & _ & _ & _ & _ & _ & _ & _ & _ & Heq).
  exists row. split; [exact Hrow|]. apply Heq. reflexivity.
Defined.

(** C3 as worded fails: a vulnerability without a score is appended to the
    detailed rows with severity UNKNOWN, and no counter counts it. *)
Lemma unscored_finding_not_counted :
  ~ Owasp.counts_every_finding "proj" Owasp.unscored_report Owasp.empty_store.
Proof.
  intros H.
  specialize (H (Owasp.summary_of "proj" Owasp.no_counts) eq_refl).
  vm_compute in H. discriminate H.
Qed.

Example unscored_report_rows :
  let w' := Owasp.process_scan_results "proj" Owasp.unscored_report Owasp.empty_store in
  map Owasp.severity (Owasp.detailed_data w') = ["UNKNOWN"]
  /\ Owasp.summary_data w' = [Owasp.summary_of "proj" Owasp.no_counts]
  /\ Owasp.log w' = [].
Proof. repeat split; reflexivity. Qed.

(** Where building the row raises, the counter is already bumped. *)
Example malformed_report_outcome :
  let w' := Owasp.process_scan_results "proj" Owasp.malformed_report Owasp.empty_store in
  Owasp.detailed_data w' = []
  /\ map Owasp.severity_sum (Owasp.summary_data w') = [1]
  /\ Owasp.log w' = [Owasp.ErrorProcessing "proj" TypeError].
Proof. repeat split; reflexivity. Qed.

(** ** The batch loop of [rq2script.main] *)

Lemma main_loop_collects (entries : list Rq2.entry) :
  forall acc,
  Rq2.main_loop entries acc
    = (fst acc ++ Rq2.rows_of entries,
       snd acc ++ map Rq2.name (Rq2.dropped entries)).
Proof.
  unfold Rq2.rows_of, Rq2.dropped.
  induction entries as [|e rest IH]; intros [pd sk]; cbn [fst snd].
  - cbn. rewrite !app_nil_r. reflexivity.
  - cbn [Rq2.main_loop List.filter].
    change (Rq2.is_dir e && Rq2.has_git e) with (Rq2.git_project e).
    destruct (Rq2.git_project e); [|apply IH].
    cbn [List.filter omap list_omap]. unfold Rq2.gives_row at 1.
    destruct (Rq2.process_with_timeout e) as [info|]; rewrite IH; cbn [fst snd negb map].
    + rewrite <- app_assoc. reflexivity.
    + rewrite <- app_assoc. reflexivity.
Qed.

(** The loop never stops early: a batch in two parts is the second part
    run after the first. *)
Lemma main_loop_app (l1 l2 : list Rq2.entry) (acc : Rq2.collected) :
  Rq2.main_loop (l1 ++ l2) acc = Rq2.main_loop l2 (Rq2.main_loop l1 acc).
Proof.
  revert acc. induction l1 as [|e l1 IH]; intros acc; [reflexivity|].
  cbn [app Rq2.main_loop].
  destruct (Rq2.is_dir e && Rq2.has_git e); [|apply IH].
  destruct (Rq2.process_with_timeout e); apply IH.
Qed.

Lemma rows_of_kept (entries : list Rq2.entry) :
  map Rq2.project (Rq2.rows_of entries) = map Rq2.name (Rq2.kept entries).
Proof.
  unfold Rq2.rows_of, Rq2.kept.
  induction (List.filter Rq2.git_project entries) as [|e l IH]; [reflexivity|].
  cbn [omap list_omap List.filter]. unfold Rq2.gives_row at 1.
  destruct (Rq2.process_with_timeout e) as [info|] eqn:E; [|exact IH].
  cbn [map]. rewrite <- IH. f_equal.
  unfold Rq2.process_with_timeout in E.
  destruct (Rq2.elapsed e <=? Rq2.TIMEOUT); [|discriminate].
  unfold Rq2.process_project in E.
  destruct (Rq2.get_commit_frequency e); cbn [rbind] in E; [|discriminate].
  destruct (Rq2.get_code_churn e); cbn [rbind] in E; [|discriminate].
  injection E as <-. reflexivity.
Qed.

Lemma kept_dropped_length (entries : list Rq2.entry) :
  (length (Rq2.kept entries) + length (Rq2.dropped entries)
   = length (List.filter Rq2.git_project entries))%nat.
Proof.
  unfold Rq2.kept, Rq2.dropped.
  induction (List.filter Rq2.git_project entries) as [|e l IH]; [reflexivity|].
  cbn [List.filter]. destruct (Rq2.gives_row e); cbn [negb length]; lia.
Qed.

(** An item gives no row exactly when it times out or one of its two
    measurements raises. *)
Lemma gives_no_row (e : Rq2.entry) :
  Rq2.gives_row e = false <->
  Rq2.TIMEOUT < Rq2.elapsed e
  \/ (exists x, Rq2.get_commit_frequency e = Raise x)
  \/ (exists x, Rq2.get_code_churn e = Raise x).
Proof.
  unfold Rq2.gives_row, Rq2.process_with_timeout, Rq2.process_project.
  destruct (Z.leb_spec (Rq2.elapsed e) Rq2.TIMEOUT) as [Ht|Ht].
  - destruct (Rq2.get_commit_frequency e) as [f|x]; cbn [rbind].
    + destruct (Rq2.get_code_churn e) as [c|x]; cbn [rbind].
      * split; [discriminate|]. intros [H|[[x H]|[x H]]]; [lia | discriminate..].
      * split; [|reflexivity]. intros _. right. right. exists x. reflexivity.
    + split; [|reflexivity]. intros _. right. left. exists x. reflexivity.
  - split; [|reflexivity]. intros _. left. exact Ht.
Qed.

(** A git command that exits non-zero is caught inside the item: the item
    still gives a row, of zeros. *)
Lemma nonzero_exit_gives_zero_row (e : Rq2.entry) (rc1 rc2 : Z) (o1 e1 o2 e2 : string) :
  Rq2.log_dates e = Subprocess.Completed rc1 o1 e1 -> rc1 <> 0 ->
  Rq2.log_numstat e = Subprocess.Completed rc2 o2 e2 -> rc2 <> 0 ->
  Rq2.elapsed e <= Rq2.TIMEOUT ->
  Rq2.process_with_timeout e
    = Some {| Rq2.project := Rq2.name e;
              Rq2.avg_commits_per_day := 0;
              Rq2.avg_lines_added_per_commit := 0;
              Rq2.avg_lines_deleted_per_commit := 0 |}.
Proof.
  intros H1 N1 H2 N2 Ht. unfold Rq2.process_with_timeout.
  destruct (Z.leb_spec (Rq2.elapsed e) Rq2.TIMEOUT); [|lia].
  unfold Rq2.process_project, Rq2.get_commit_frequency, Rq2.get_code_churn.
  rewrite H1, H2. cbn [Subprocess.checked].
  destruct (Z.eqb_spec rc1 0); [contradiction|].
  destruct (Z.eqb_spec rc2 0); [contradiction|].
  reflexivity.
Qed.

(** C4, as the code has it: with the output directory in place, a batch of
    N enumerated git projects of which k give no row (they time out, or raise
    something other than a git command's non-zero exit, which is caught and
    yields a row of zeros) collects exactly N-k rows, one per other project
    in enumeration order, and exactly the k names; the CSV is written with
    the rows when there is one, the log with the names when there is one, and
    each file stays as it was otherwise; the loop runs over every entry. *)
Theorem batch_accounting (entries : list Rq2.entry) (fs : Rq2.files) :
  Rq2.new_dir_exists fs = true ->
  exists fs',
    Rq2.main entries fs = Ok fs'
    /\ length (Rq2.rows_of entries)
       = (length (List.filter Rq2.git_project entries)
          - length (Rq2.dropped entries))%nat
    /\ map Rq2.project (Rq2.rows_of entries) = map Rq2.name (Rq2.kept entries)
    /\ Rq2.summary_csv fs'
       = match Rq2.rows_of entries with
         | [] => Rq2.summary_csv fs
         | _ :: _ => Some (Rq2.rows_of entries)
         end
    /\ Rq2.skipped_txt fs'
       = match Rq2.dropped entries with
         | [] => Rq2.skipped_txt fs
         | _ :: _ => Some (map Rq2.name (Rq2.dropped entries))
         end
    /\ Rq2.main_loop entries ([], [])
       = (Rq2.rows_of entries, map Rq2.name (Rq2.dropped entries)).
Proof.
  intros Hdir. unfold Rq2.main.
  pose proof (main_loop_collects entries ([], [])) as L. cbn [fst snd app] in L.
  rewrite L.
  pose proof (rows_of_kept entries) as K.
  pose proof (kept_dropped_length entries) as N.
  assert (Hlen : length (Rq2.rows_of entries) = length (Rq2.kept entries)).
  { rewrite <- (length_map Rq2.project), K, length_map. reflexivity. }
  destruct (Rq2.rows_of entries) as [|r rows] eqn:Er;
    destruct (Rq2.dropped entries) as [|d ds] eqn:Ed;
    cbn [rbind map]; rewrite ?Hdir; cbn [rbind];
    eexists; (split; [reflexivity|]);
    cbn [Rq2.summary_csv Rq2.skipped_txt];
    repeat split; try assumption; try reflexivity; cbn [length] in *; lia.
Qed.

Lemma batch_accounting_witness :
  Rq2.new_dir_exists Rq2.no_files = true
  /\ exists fs',
       Rq2.main [Rq2.good_repo; Rq2.slow_repo; Rq2.broken_repo] Rq2.no_files = Ok fs'
       /\ option_map (map Rq2.project) (Rq2.summary_csv fs') = Some ["good"; "broken"]
       /\ Rq2.skipped_txt fs' = Some ["slow"].
Proof.
  split; [reflexivity|].
  destruct (batch_accounting [Rq2.good_repo; Rq2.slow_repo; Rq2.broken_repo]
              Rq2.no_files eq_refl) as (fs' & Hmain & _ & _ & Hcsv & Hskip & _).
  exists fs'. split; [exact Hmain|]. rewrite Hcsv, Hskip. split; reflexivity.
Defined.

(** C4 as worded fails: an item whose git commands exit non-zero has failed,
    yet it contributes a row of zeros to the CSV and its name reaches no log;
    and when every item times out no CSV is written, so that the file of an
    earlier run stays, with its row. *)
Lemma failed_git_item_emits_row :
  ~ Rq2.batch_resilient [Rq2.broken_repo] Rq2.no_files
  /\ ~ Rq2.batch_resilient [Rq2.slow_repo] Rq2.stale_files.
Proof.
  split.
  - intros (fs' & rows & Hmain & Hcsv & Hlen & Hskip).
    vm_compute in Hmain. injection Hmain as <-.
    cbn in Hskip. discriminate Hskip.
  - intros (fs' & rows & Hmain & Hcsv & Hlen & Hskip).
    vm_compute in Hmain. injection Hmain as <-.
    cbn in Hcsv. injection Hcsv as <-. cbn in Hlen. discriminate Hlen.
Qed.

Example broken_repo_outcome :
  Rq2.fails_or_times_out Rq2.broken_repo = true
  /\ exists fs',
       Rq2.main [Rq2.broken_repo] Rq2.no_files = Ok fs'
       /\ option_map (map Rq2.project) (Rq2.summary_csv fs') = Some ["broken"]
       /\ Rq2.skipped_txt fs' = None.
Proof. split; [reflexivity|]. eexists. repeat split; reflexivity. Qed.

(** ** Rate-limit handling of [GitHubScraper._make_request] *)

Lemma rate_limited_status (r : Spider.response) :
  Spider.is_rate_limited r = true -> Spider.status_code r = 403.
Proof.
  unfold Spider.is_rate_limited. intros H.
  apply andb_true_iff in H as [H _]. apply Z.eqb_eq, H.
Qed.

Lemma limit_reached_status (r : Spider.response) :
  Spider.is_limit_reached r = true -> Spider.status_code r = 422.
Proof.
  unfold Spider.is_limit_reached. intros H.
  apply andb_true_iff in H as [H _]. apply Z.eqb_eq, H.
Qed.





Example connection_error_is_logged :
  Spider.make_request "search/repositories" [] [Spider.GetRaises ConnectionError]
  = (Some None,
     [Spider.Get "https://api.github.com/search/repositories" [];
      Spider.ErrorMakingRequest ConnectionError], []).
Proof. reflexivity. Qed.

Example server_error_is_logged :
  Spider.make_request "search/repositories" []
    [Spider.Responds {| Spider.status_code := 500; Spider.text := "oops";
                        Spider.rate_limit_reset := None;
                        Spider.json := Raise ValueError |} 0]
  = (Some None,
     [Spider.Get "https://api.github.com/search/repositories" [];
      Spider.ErrorRequestFailed 500 "oops";
      Spider.ErrorMakingRequest (HTTPError 500)], []).
Proof. reflexivity. Qed.



(** ** Default branch and historical state in [revert_repos_to_date] *)

Lemma current_branch_resolves (r : Subprocess.run) :
  match Subprocess.checked r with
  | Ok out => Revert.resolves r = Some (Py.strip out)
  | Raise _ => Revert.resolves r = None
  end.
Proof.
  destruct r as [rc out err|e]; cbn; [|reflexivity].
  destruct (rc =? 0); reflexivity.
Qed.

(** C7: where git can be run, the default branch is the one the remote HEAD
    symbolic reference names when that resolves; otherwise the first of main
    and master that [git branch --list] finds; otherwise the branch checked
    out; and the commands are run in this order, up to the first that gives
    a branch. *)
Theorem default_branch_order (r : Revert.repo) :
  Revert.git_runs r ->
  Revert.as_option (snd (Revert.resolve_default_branch r))
    = Revert.spec_default_branch r
  /\ fst (Revert.resolve_default_branch r)
     = take (Revert.resolution_steps r) Revert.resolution_order.
Proof.
  intros [(rc & out & err & Hs) Hb].
  destruct (Hb "main") as (rc1 & out1 & err1 & H1).
  destruct (Hb "master") as (rc2 & out2 & err2 & H2).
  unfold Revert.resolve_default_branch, Revert.spec_default_branch,
    Revert.resolution_steps, Revert.local_branch_exists.
  rewrite Hs. cbn [Revert.unchecked Revert.resolves].
  destruct (rc =? 0); [split; reflexivity|].
  cbn [Revert.first_branch List.find]. unfold Revert.local_branch_exists.
  rewrite H1, H2. cbn [Revert.unchecked].
  destruct (negb (Py.is_empty (Py.strip out1))); [split; reflexivity|].
  destruct (negb (Py.is_empty (Py.strip out2))); [split; reflexivity|].
  pose proof (current_branch_resolves (Revert.show_current r)) as Hc.
  destruct (Subprocess.checked (Revert.show_current r)) as [out'|e];
    cbn [fst snd Revert.as_option]; rewrite Hc; split; reflexivity.
Qed.

Lemma default_branch_order_witness :
  Revert.git_runs Revert.master_repo
  /\ snd (Revert.resolve_default_branch Revert.master_repo) = Ok "master"
  /\ fst (Revert.resolve_default_branch Revert.master_repo)
     = [Revert.symbolic_ref_cmd; Revert.branch_list_cmd "main";
        Revert.branch_list_cmd "master"].
Proof.
  assert (G : Revert.git_runs Revert.master_repo).
  { split; [do 3 eexists; reflexivity | intros b; do 3 eexists; reflexivity]. }
  split; [exact G|].
  destruct (default_branch_order Revert.master_repo G) as [Hb Hc].
  split; [|exact Hc].
  destruct (snd (Revert.resolve_default_branch Revert.master_repo)) as [b|e] eqn:E;
    cbn in Hb; [injection Hb as ->; reflexivity | discriminate Hb].
Defined.

Lemma first_branch_no_reset (r : Revert.repo) (candidates : list string) :
  List.existsb Revert.is_reset (fst (Revert.first_branch r candidates)) = false.
Proof.
  induction candidates as [|b rest IH]; [reflexivity|].
  cbn [Revert.first_branch].
  destruct (Revert.unchecked (Revert.branch_list r b)) as [[rc out]|e]; [|reflexivity].
  destruct (negb (Py.is_empty (Py.strip out))); [reflexivity|].
  destruct (Revert.first_branch r rest) as [cmds found]. exact IH.
Qed.

Lemma resolve_no_reset (r : Revert.repo) :
  List.existsb Revert.is_reset (fst (Revert.resolve_default_branch r)) = false.
Proof.
  unfold Revert.resolve_default_branch.
  destruct (Revert.unchecked (Revert.symbolic_ref r)) as [[rc out]|e]; [|reflexivity].
  destruct (rc =? 0); [reflexivity|].
  pose proof (first_branch_no_reset r ["main"; "master"]) as H.
  destruct (Revert.first_branch r ["main"; "master"]) as [cmds found].
  cbn [fst] in H.
  destruct found as [[b|]|e]; cbn [fst]; try exact H.
  destruct (Subprocess.checked (Revert.show_current r));
    cbn [fst List.existsb Revert.is_reset];
    rewrite List.existsb_app, H; reflexivity.
Qed.

(** What the script does in a repository without a commit before the date. *)
Lemma process_repo_no_commit (git_date_format : string) (r : Revert.repo) :
  Revert.no_commit_before r ->
  Revert.process_repo git_date_format r
    = ({| Revert.repo_name := Revert.name r;
          Revert.commands :=
            fst (Revert.resolve_default_branch r)
            ++ match snd (Revert.resolve_default_branch r) with
               | Ok branch => [Revert.checkout_cmd branch]
               | Raise _ => []
               end
            ++ [Revert.rev_list_cmd git_date_format];
          Revert.tree := Revert.tree_after_branch_checkout r;
          Revert.failure := Some Revert.no_commits_reason |}, None).
Proof.
  intros (out & err & Hrev & Hempty).
  unfold Revert.process_repo, Revert.tree_after_branch_checkout.
  destruct (Revert.resolve_default_branch r) as [cmds0 [branch|e]];
    rewrite Hrev; cbn [Subprocess.checked Z.eqb fst snd]; rewrite Hempty;
    rewrite <- ?app_assoc; reflexivity.
Qed.

Lemma revert_loop_app (git_date_format : string) (before rest : list Revert.repo) :
  snd (Revert.revert_loop git_date_format before) = None ->
  Revert.revert_loop git_date_format (before ++ rest)
    = (fst (Revert.revert_loop git_date_format before)
       ++ fst (Revert.revert_loop git_date_format rest),
       snd (Revert.revert_loop git_date_format rest)).
Proof.
  induction before as [|r before IH]; intros H.
  - cbn. destruct (Revert.revert_loop git_date_format rest). reflexivity.
  - cbn [app Revert.revert_loop] in *.
    destruct (Revert.process_repo git_date_format r) as [rep [e|]]; [discriminate|].
    destruct (Revert.revert_loop git_date_format before) as [reps raised].
    cbn [snd] in H. subst raised. rewrite (IH eq_refl). reflexivity.
Qed.

Lemma failed_projects_app (l1 l2 : list Revert.report) :
  Revert.failed_projects (l1 ++ l2)
    = Revert.failed_projects l1 ++ Revert.failed_projects l2.
Proof. unfold Revert.failed_projects. apply omap_app. Qed.

(** C6, as the code has it: in a repository for which [git rev-list] finds
    no commit at or before the target date the script runs no [git reset];
    the only command it has run there that can change the working tree is the
    checkout of the resolved default branch; it appends the repository to
    [failed_projects] with the reason "No commits found before target date"
    and goes on with the next repository; and the entry is in the
    failed-projects log the script writes when it runs to its end. *)
Theorem no_commit_repo_is_skipped (git_date_format : string)
    (before after : list Revert.repo) (r : Revert.repo) :
  Revert.no_commit_before r ->
  snd (Revert.revert_loop git_date_format before) = None ->
  let rep := fst (Revert.process_repo git_date_format r) in
  let rest := Revert.revert_loop git_date_format after in
  snd (Revert.process_repo git_date_format r) = None
  /\ List.existsb Revert.is_reset (Revert.commands rep) = false
  /\ Revert.tree rep = Revert.tree_after_branch_checkout r
  /\ Revert.repo_name rep = Revert.name r
  /\ Revert.failure rep = Some Revert.no_commits_reason
  /\ Revert.revert_loop git_date_format (before ++ r :: after)
     = (fst (Revert.revert_loop git_date_format before) ++ rep :: fst rest, snd rest)
  /\ match Revert.revert_repos_to_date true (before ++ r :: after) git_date_format with
     | Revert.Finishes reports log_file =>
         exists lines,
           log_file = Some lines
           /\ In (Revert.name r +:+ ": " +:+ Revert.no_commits_reason) lines
     | Revert.Crashes _ reports =>
         In (Revert.name r, Revert.no_commits_reason) (Revert.failed_projects reports)
     | Revert.Exits _ => False
     end.
Proof.
  intros Hno Hbefore rep rest.
  pose proof (process_repo_no_commit git_date_format r Hno) as E.
  assert (Hrep : rep = fst (Revert.process_repo git_date_format r)) by reflexivity.
  rewrite E in Hrep. cbn [fst] in Hrep.
  assert (Hloop : Revert.revert_loop git_date_format (before ++ r :: after)
          = (fst (Revert.revert_loop git_date_format before) ++ rep :: fst rest,
             snd rest)).
  { rewrite (revert_loop_app _ _ _ Hbefore). cbn [Revert.revert_loop].
    rewrite E. fold rest. destruct rest as [reps raised]. rewrite Hrep. reflexivity. }
  assert (Hin : In (Revert.name r, Revert.no_commits_reason)
                  (Revert.failed_projects
                     (fst (Revert.revert_loop git_date_format before) ++ rep :: fst rest))).
  { rewrite failed_projects_app. apply in_or_app. right.
    unfold Revert.failed_projects. cbn [omap list_omap]. rewrite Hrep. cbn. left. reflexivity. }
  split; [rewrite E; reflexivity|].
  split.
  { rewrite Hrep. cbn [Revert.commands]. rewrite !List.existsb_app, resolve_no_reset.
    destruct (snd (Revert.resolve_default_branch r)); reflexivity. }
  split; [rewrite Hrep; reflexivity|].
  split; [rewrite Hrep; reflexivity|].
  split; [rewrite Hrep; reflexivity|].
  split; [exact Hloop|].
  unfold Revert.revert_repos_to_date. cbn [negb].
  destruct (before ++ r :: after) as [|r0 l0] eqn:El.
  { destruct before; discriminate El. }
  cbv iota. rewrite Hloop.
  destruct (snd rest) as [e|]; [exact Hin|].
  set (reports := fst (Revert.revert_loop git_date_format before) ++ rep :: fst rest) in *.
  destruct (Revert.failed_projects reports) as [|f fs] eqn:Ef; [contradiction|].
  eexists. split; [reflexivity|].
  unfold Revert.log_lines. right.
  apply (in_map (fun pe => fst pe +:+ ": " +:+ snd pe)) in Hin. exact Hin.
Qed.

Lemma no_commit_repo_is_skipped_witness :
  Revert.no_commit_before Revert.young_repo
  /\ snd (Revert.revert_loop "2019-01-01" [Revert.master_repo]) = None
  /\ List.existsb Revert.is_reset
       (Revert.commands (fst (Revert.process_repo "2019-01-01" Revert.young_repo)))
     = false
  /\ match Revert.revert_repos_to_date true
            [Revert.master_repo; Revert.young_repo; Revert.master_repo] "2019-01-01"
     with
     | Revert.Finishes reports (Some lines) =>
         map Revert.repo_name reports = ["old"; "young"; "old"]
         /\ In "young: No commits found before target date" lines
     | _ => False
     end.
Proof.
  assert (N : Revert.no_commit_before Revert.young_repo).
  { exists "", "". split; reflexivity. }
  split; [exact N|]. split; [reflexivity|].
  destruct (no_commit_repo_is_skipped "2019-01-01" [Revert.master_repo]
              [Revert.master_repo] Revert.young_repo N eq_refl)
    as (_ & Hreset & _ & _ & _ & _ & Hend).
  split; [exact Hreset|].
  cbn [app] in Hend.
  destruct (Revert.revert_repos_to_date true
              [Revert.master_repo; Revert.young_repo; Revert.master_repo] "2019-01-01")
    as [code|e reports|reports log_file] eqn:E;
    vm_compute in E; try discriminate E.
  injection E as <- <-.
  destruct Hend as (lines & Hl & Hin). injection Hl as <-.
  split; [reflexivity | exact Hin].
Defined.

(** C6 as worded fails: before it looks for the commit, the script checks
    out the default branch, so a repository that had another branch checked
    out does not keep its working tree; and where a later repository ends the
    run, the log with the entry is never written. *)
Lemma checkout_moves_working_tree :
  ~ Revert.skipped_untouched "2019-01-01" Revert.young_repo
  /\ ~ Revert.skipped_and_logged "2019-01-01"
        [Revert.young_repo; Revert.dubious_repo; Revert.master_repo]
        Revert.young_repo.
Proof.
  split.
  - intros (_ & Htree & _). vm_compute in Htree. discriminate Htree.
  - intros (reports & lines & Hend & _). vm_compute in Hend. discriminate Hend.
Qed.

(** A [rev-list] that fails with text on stderr ends the whole run: the
    handler calls [decode] on a [str]. No log is written. *)
Example stderr_text_crashes_batch :
  exists reports,
    Revert.revert_repos_to_date true
      [Revert.young_repo; Revert.dubious_repo; Revert.master_repo] "2019-01-01"
    = Revert.Crashes AttributeError reports
    /\ map Revert.repo_name reports = ["young"; "dubious"].
Proof. eexists. split; reflexivity. Qed.

Example young_repo_report :
  Revert.process_repo "2019-01-01" Revert.young_repo
  = ({| Revert.repo_name := "young";
        Revert.commands :=
          [Revert.symbolic_ref_cmd; Revert.checkout_cmd "main";
           Revert.rev_list_cmd "2019-01-01"];
        Revert.tree := "tree of main";
        Revert.failure := Some "No commits found before target date" |}, None).
Proof. reflexivity. Qed.

(** ** The two-row scenario of [process_csv_with_specific_columns] *)

Example urlparse_github :
  Url.urlparse "https://github.com/a/b"
  = Ok {| Url.scheme := "https"; Url.netloc := "github.com"; Url.path := "/a/b";
          Url.params := ""; Url.query := ""; Url.fragment := "" |}.
Proof. reflexivity. Qed.

Example urlparse_parts :
  Url.urlparse "HTTP://example.org:80/x/y;p=1?q=2#frag"
  = Ok {| Url.scheme := "http"; Url.netloc := "example.org:80"; Url.path := "/x/y";
          Url.params := "p=1"; Url.query := "q=2"; Url.fragment := "frag" |}.
Proof. reflexivity. Qed.

Example urlparse_samples :
  map (fun u => match Url.urlparse u with
                | Ok p => [Url.scheme p; Url.netloc p; Url.path p; Url.params p;
                           Url.query p; Url.fragment p]
                | Raise _ => []
                end)
    ["github.com/a/b"; "//github.com/a/b"; "https://github.com/a/b/c;x/d;y?z";
     "a:b"; "1a:b"; "  https://github.com/a"; "http://[::1]/x"; "x;y";
     "https://github.com"; "http://[::1/x"]
  = [[""; ""; "github.com/a/b"; ""; ""; ""];
     [""; "github.com"; "/a/b"; ""; ""; ""];
     ["https"; "github.com"; "/a/b/c;x/d"; "y"; "z"; ""];
     ["a"; ""; "b"; ""; ""; ""];
     [""; ""; "1a:b"; ""; ""; ""];
     ["https"; "github.com"; "/a"; ""; ""; ""];
     ["http"; "[::1]"; "/x"; ""; ""; ""];
     [""; ""; "x"; "y"; ""; ""];
     ["https"; "github.com"; ""; ""; ""; ""];
     []].
Proof. reflexivity. Qed.

Example parse_github_url_ab :
  Contributors.parse_github_url "https://github.com/a/b" = Ok (Some "a", Some "b").
Proof. reflexivity. Qed.

Example parse_github_url_other_host :
  Contributors.parse_github_url "https://gitlab.com/a/b" = Ok (None, None).
Proof. reflexivity. Qed.

(** A row whose URL names a GitHub repository gets the count fetched for it. *)
Lemma process_row_github (net : Contributors.network) (url_column : string)
    (fields : list string) (row : gmap string value) (cell owner repo : string) :
  row !! url_column = Some (VStr cell) ->
  negb (Py.is_empty (Py.strip cell)) && Py.contains "github.com" (Py.strip cell) = true ->
  Contributors.parse_github_url (Py.strip cell) = Ok (Some owner, Some repo) ->
  negb (Py.is_empty owner) && negb (Py.is_empty repo) = true ->
  Contributors.process_row net url_column fields row
    = Ok (<["contributors_count" :=
              Contributors.get_repo_contributors_count_graphql net owner repo]>
            (Contributors.project_row
               (Contributors.required_columns url_column) fields row)).
Proof.
  intros Hcell Hurl Hparse Hboth. unfold Contributors.process_row.
  rewrite Hcell. change (default (VStr "") (Some (VStr cell))) with (VStr cell).
  cbn [Val.as_str rbind]. cbv zeta.
  rewrite Hurl, Hparse. cbn [rbind]. rewrite Hboth. reflexivity.
Qed.

(** A row without a URL gets the count 0. *)
Lemma process_row_no_url (net : Contributors.network) (url_column : string)
    (fields : list string) (row : gmap string value) (cell : string) :
  row !! url_column = Some (VStr cell) ->
  Py.is_empty (Py.strip cell) = true ->
  Contributors.process_row net url_column fields row
    = Ok (<["contributors_count" := Val.of_int 0]>
            (Contributors.project_row
               (Contributors.required_columns url_column) fields row)).
Proof.
  intros Hcell Hempty. unfold Contributors.process_row.
  rewrite Hcell. change (default (VStr "") (Some (VStr cell))) with (VStr cell).
  cbn [Val.as_str rbind]. cbv zeta.
  rewrite Hempty. reflexivity.
Qed.

(** C8: for the input rows [{html_url: "https://github.com/a/b"}] and
    [{html_url: ""}] the output has exactly two rows, in the order of the
    input: the first carries the count fetched for the repository a/b, the
    second the count 0, and each keeps its [html_url]. *)
Theorem two_rows_preserved (net : Contributors.network) :
  Contributors.process_csv_with_specific_columns (Some Contributors.two_rows) net "html_url"
  = ([ {[ "html_url" := VStr "https://github.com/a/b";
          "contributors_count" :=
            Contributors.get_repo_contributors_count_graphql net "a" "b" ]};
       {[ "html_url" := VStr "";
          "contributors_count" := Val.of_int 0 ]} ],
     ["html_url"; "stargazers_count"; "forks_count"; "open_issues_count";
      "contributors_count"]).
Proof.
  unfold Contributors.process_csv_with_specific_columns, Contributors.two_rows.
  cbn [Contributors.fieldnames Contributors.rows rbind Val.map_result].
  rewrite (process_row_github net "html_url" ["html_url"] _
             "https://github.com/a/b" "a" "b")
    by (vm_compute; reflexivity).
  rewrite (process_row_no_url net "html_url" ["html_url"] _ "")
    by (vm_compute; reflexivity).
  cbn [rbind].
  generalize (Contributors.get_repo_contributors_count_graphql net "a" "b").
  intros count. reflexivity.
Qed.

(** ** [GitHubCSVFilter.filter_repositories] *)

Lemma filter_loop_readable (a b c : Z) (repos : list (gmap string value)) :
  Forall CsvFilter.readable repos ->
  forall filtered,
  CsvFilter.filter_loop a b c repos filtered
    = Ok (filtered ++ List.filter (CsvFilter.meets a b c) repos).
Proof.
  induction 1 as [|repo repos [[s Hs] [i Hi]] _ IH]; intros filtered.
  - cbn. rewrite app_nil_r. reflexivity.
  - cbn [CsvFilter.filter_loop List.filter].
    unfold CsvFilter.meets at 1, CsvFilter.number_of.
    unfold CsvFilter.count_of in Hs, Hi. unfold CsvFilter.count_of.
    rewrite Hs, Hi. cbn [rbind].
    destruct ((a <=? s) && (b <=? i) && (c <=? CsvFilter.topic_count repo));
      rewrite IH; [rewrite <- app_assoc|]; reflexivity.
Qed.

Lemma filter_sublist {A : Type} (f : A -> bool) (l : list A) :
  sublist (List.filter f l) l.
Proof.
  induction l as [|x l IH]; cbn; [constructor|].
  destruct (f x); [apply sublist_skip | apply sublist_cons]; exact IH.
Qed.

(** C10, as the code has it: when [int] can read the star and open-issue
    counts of every loaded row, the call returns, in their original order,
    exactly the rows whose stars, open issues and topic count reach the three
    thresholds (a row whose topics field is not text counts 0 topics), and it
    leaves the object, with its repository list, as it was. *)
Theorem filter_repositories_correct (self : CsvFilter.GitHubCSVFilter)
    (min_stars min_open_issues min_topics : Z) :
  Forall CsvFilter.readable (CsvFilter.repositories self) ->
  let kept := List.filter (CsvFilter.meets min_stars min_open_issues min_topics)
                (CsvFilter.repositories self) in
  CsvFilter.filter_repositories self min_stars min_open_issues min_topics
    = (Ok kept, self)
  /\ sublist kept (CsvFilter.repositories self)
  /\ (forall repo, In repo kept <->
        In repo (CsvFilter.repositories self)
        /\ min_stars <= CsvFilter.number_of "stargazers_count" repo
        /\ min_open_issues <= CsvFilter.number_of "open_issues_count" repo
        /\ min_topics <= CsvFilter.topic_count repo).
Proof.
  intros H kept. split; [|split].
  - unfold CsvFilter.filter_repositories.
    rewrite (filter_loop_readable _ _ _ _ H). reflexivity.
  - apply filter_sublist.
  - intros repo. unfold kept. rewrite List.filter_In. unfold CsvFilter.meets.
    rewrite !andb_true_iff, !Z.leb_le. tauto.
Qed.

Lemma filter_repositories_correct_witness :
  Forall CsvFilter.readable (CsvFilter.repositories CsvFilter.sample)
  /\ (exists kept,
        CsvFilter.filter_repositories CsvFilter.sample 10 1 0
          = (Ok kept, CsvFilter.sample)
        /\ map (fun repo => repo !! "full_name") kept
           = [Some (VStr "a/b"); Some (VStr "e/f")]).
Proof.
  assert (R : Forall CsvFilter.readable (CsvFilter.repositories CsvFilter.sample)).
  { repeat apply List.Forall_cons; try apply List.Forall_nil;
      (split; eexists; vm_compute; reflexivity). }
  split; [exact R|].
  destruct (filter_repositories_correct CsvFilter.sample 10 1 0 R) as (E & _ & _).
  eexists. split; [exact E|]. vm_compute. reflexivity.
Defined.

(** C10 as worded fails: a loaded row whose star count is an empty cell makes
    [int] raise [ValueError], and the call returns nothing. *)
Lemma blank_count_raises :
  ~ CsvFilter.returns_filtered CsvFilter.blank_stars 0 0 0.
Proof.
  intros (filtered & H & _). vm_compute in H. discriminate H.
Qed.

Example blank_stars_outcome :
  CsvFilter.filter_repositories CsvFilter.blank_stars 0 0 0
  = (Raise ValueError, CsvFilter.blank_stars).
Proof. vm_compute. reflexivity. Qed.

Example sample_topic_counts :
  map CsvFilter.topic_count (CsvFilter.repositories CsvFilter.sample) = [2; 1; 0].
Proof. vm_compute. reflexivity. Qed.

(* ===================================================================== *)
(** * Part III: further properties of the scripts *)
(* ===================================================================== *)

(** ** [format_time] and [parse_time] on every total *)

(** X1: every total of minutes from 0 to below [60 * 10 ^ 4300] survives
    [format_time] followed by [parse_time], so that two different such totals
    are never formatted alike. From [60 * 10 ^ 4300] up the hours have more
    than 4300 digits and [format_time] raises [ValueError]. *)
Theorem format_time_faithful (a b : Z) :
  0 <= a < 60 * Py.str_bound -> 0 <= b < 60 * Py.str_bound ->
  (exists out : string, Sonar.format_time a = Ok out /\ Sonar.parse_time out = Ok a)
  /\ (Sonar.format_time a = Sonar.format_time b -> a = b)
  /\ (forall c : Z, 60 * Py.str_bound <= c -> Sonar.format_time c = Raise ValueError).
Proof.
  intros Ha Hb. split; [|split; [|apply format_time_beyond]].
  - exists (Sonar.dropping_zeros a).
    split; [apply format_time_within, Ha | apply parse_dropping_zeros, Ha].
  - rewrite !format_time_within by assumption. intros E. injection E as E.
    apply (f_equal Sonar.parse_time) in E.
    rewrite !parse_dropping_zeros in E by assumption. injection E as E. exact E.
Qed.

Lemma format_time_faithful_witness :
  0 <= 125 < 60 * Py.str_bound /\ 0 <= 60 < 60 * Py.str_bound
  /\ exists out : string,
       Sonar.format_time 125 = Ok out /\ Sonar.parse_time out = Ok 125
       /\ out = "2h5min".
Proof.
  assert (Ha : 0 <= 125 < 60 * Py.str_bound)
    by (split; apply Z.leb_le || apply Z.ltb_lt; vm_compute; reflexivity).
  assert (Hb : 0 <= 60 < 60 * Py.str_bound)
    by (split; apply Z.leb_le || apply Z.ltb_lt; vm_compute; reflexivity).
  split; [exact Ha|]. split; [exact Hb|].
  destruct (format_time_faithful 125 60 Ha Hb) as [(out & F & P) _].
  exists out. split; [exact F|]. split; [exact P|].
  assert (E : Sonar.format_time 125 = Ok "2h5min") by reflexivity.
  rewrite E in F. injection F as F. symmetry. exact F.
Defined.

(** ** Severity and score of the detailed rows *)

Lemma process_vuln_rows_rated (p : string) (before : list Owasp.detail_row)
    (dn dp vuln : value) (st : Owasp.loop_state) :
  OwaspRows.rows_rated before st ->
  OwaspRows.rows_rated before (fst (Owasp.process_vuln p dn dp vuln st)).
Proof.
  intros Hst. destruct st as [c detailed]. unfold Owasp.process_vuln.
  destruct (Val.get vuln "cvssv3" (VDict [])) as [v3|e]; cbn [rbind]; [|exact Hst].
  destruct (Val.get vuln "cvssv2" (VDict [])) as [v2|e]; cbn [rbind]; [|exact Hst].
  destruct (Val.get v2 "score" (VNum 0)) as [s2|e]; cbn [rbind]; [|exact Hst].
  destruct (Val.get v3 "baseScore" s2) as [score|e]; cbn [rbind]; [|exact Hst].
  destruct (Val.as_number score) as [q|e] eqn:Eq; cbn [rbind]; [|exact Hst].
  pose proof (classify_severity q c) as Hsev.
  destruct (Owasp.classify q c) as [sev c1]. cbn [fst] in Hsev.
  match goal with
  | |- context [match ?x with Ok _ => _ | Raise _ => _ end] => destruct x as [row|e] eqn:Erow
  end; cbn [fst Owasp.raising]; [|exact Hst].
  assert (Hrow : Owasp.severity row = sev /\ Owasp.cvssScore row = score).
  { revert Erow. clear.
    repeat match goal with
    | |- context [rbind ?m _] => destruct m; cbn [rbind]; try discriminate
    end.
    intros [= <-]. split; reflexivity. }
  destruct Hrow as [Hs Hc].
  destruct Hst as (rows & Hrows & Hall). cbn [snd] in Hrows.
  exists (rows ++ [row]). cbn [snd]. split; [rewrite Hrows, app_assoc; reflexivity|].
  apply Forall_app. split; [exact Hall|].
  constructor; [|constructor]. exists q. rewrite Hc, Hs, Hsev. split; [exact Eq | reflexivity].
Qed.

Lemma for_each_preserves {A S : Type} (body : A -> S -> S * option exn)
    (I : S -> Prop) (l : list A) :
  (forall x s, I s -> I (fst (body x s))) ->
  forall s, I s -> I (fst (for_each body l s)).
Proof.
  intros Hbody. induction l as [|x l IH]; intros s Hs; [exact Hs|].
  cbn [for_each]. specialize (Hbody x s Hs).
  destruct (body x s) as [s' [e|]]; cbn [fst] in *; [exact Hbody | apply IH, Hbody].
Qed.

Lemma try_block_rows_rated (p : string) (before : list Owasp.detail_row)
    (scan_result : value) (st : Owasp.loop_state) :
  OwaspRows.rows_rated before st ->
  OwaspRows.rows_rated before (fst (Owasp.try_block p scan_result st)).
Proof.
  intros Hst. unfold Owasp.try_block.
  match goal with
  | |- context [match ?x with Ok _ => _ | Raise _ => _ end] => destruct x as [deps|e]
  end; [|exact Hst].
  apply for_each_preserves; [|exact Hst].
  intros dependency st' Hst'. unfold Owasp.process_dependency.
  destruct (Val.get dependency "vulnerabilities" (VList [])) as [vs|e]; [|exact Hst'].
  destruct (negb (Val.truthy vs)); [exact Hst'|].
  match goal with
  | |- context [match ?x with Ok _ => _ | Raise _ => _ end] =>
      destruct x as [[[dn dp] vulns]|e]
  end; [|exact Hst'].
  apply for_each_preserves; [|exact Hst'].
  intros vuln st'' Hst''. apply process_vuln_rows_rated, Hst''.
Qed.

(** X2: every detailed row a call of [process_scan_results] appends carries
    a score that is a number and the severity the thresholds give for that
    very score, whatever the report looks like and whether or not the call
    was interrupted by an exception. *)
Theorem detail_rows_rated_by_score (project_name : string) (scan_result : value)
    (w : Owasp.store) :
  Forall OwaspRows.rated_by_score
    (Owasp.appended (Owasp.detailed_data w)
       (Owasp.detailed_data (Owasp.process_scan_results project_name scan_result w))).
Proof.
  unfold Owasp.process_scan_results.
  destruct (negb (Val.truthy scan_result)).
  - cbn [Owasp.detailed_data].
    replace (Owasp.appended (Owasp.detailed_data w) (Owasp.detailed_data w))
      with (@nil Owasp.detail_row); [constructor|].
    symmetry. rewrite <- (app_nil_r (Owasp.detailed_data w)) at 2. apply appended_app.
  - pose proof (try_block_rows_rated project_name (Owasp.detailed_data w) scan_result
                  (Owasp.no_counts, Owasp.detailed_data w)) as K.
    destruct (Owasp.try_block project_name scan_result
                (Owasp.no_counts, Owasp.detailed_data w)) as [[c detailed] raised].
    cbn [Owasp.detailed_data fst] in *.
    destruct K as (rows & Hrows & Hall).
    { exists []. split; [cbn; rewrite app_nil_r; reflexivity | constructor]. }
    cbn [snd] in Hrows. subst detailed. rewrite appended_app. exact Hall.
Qed.

(** ** Runs of [revert_repos_to_date] that crash, and runs that succeed *)

Lemma process_repo_stderr_text (git_date_format : string) (r : Revert.repo) :
  RevertRuns.fails_with_text (Revert.rev_list r) ->
  snd (Revert.process_repo git_date_format r) = Some AttributeError
  /\ Revert.failure (fst (Revert.process_repo git_date_format r)) = None
  /\ List.existsb Revert.is_reset
       (Revert.commands (fst (Revert.process_repo git_date_format r))) = false.
Proof.
  intros (rc & out & err & Hrun & Hrc & Herr).
  unfold Revert.process_repo.
  pose proof (resolve_no_reset r) as Hres.
  destruct (Revert.resolve_default_branch r) as [cmds0 [branch|e]];
    cbn [fst] in Hres; rewrite Hrun; cbn [Subprocess.checked];
    destruct (Z.eqb_spec rc 0) as [|_]; try contradiction;
    unfold Revert.failing, Revert.handle; rewrite Herr; cbn [negb fst snd Revert.failure Revert.commands];
    repeat split; rewrite !List.existsb_app, Hres; reflexivity.
Qed.

(** X3: when [git rev-list] exits non-zero with text on stderr in some
    repository, the [except] clause calls [decode] on a [str] and the
    [AttributeError] ends the whole run: the repositories after it are not
    processed, the failing repository is not recorded, it is not reset, and
    no failed-projects log is written. *)
Theorem stderr_text_ends_run (git_date_format : string)
    (before after : list Revert.repo) (r : Revert.repo) :
  snd (Revert.revert_loop git_date_format before) = None ->
  RevertRuns.fails_with_text (Revert.rev_list r) ->
  let rep := fst (Revert.process_repo git_date_format r) in
  Revert.revert_repos_to_date true (before ++ r :: after) git_date_format
    = Revert.Crashes AttributeError
        (fst (Revert.revert_loop git_date_format before) ++ [rep])
  /\ Revert.failure rep = None
  /\ List.existsb Revert.is_reset (Revert.commands rep) = false.
Proof.
  intros Hbefore Hfail rep.
  destruct (process_repo_stderr_text git_date_format r Hfail) as (Hraise & Hnone & Hreset).
  split; [|split; assumption].
  unfold Revert.revert_repos_to_date. cbn [negb].
  destruct (before ++ r :: after) as [|r0 l0] eqn:El.
  { destruct before; discriminate El. }
  rewrite <- El. rewrite (revert_loop_app _ _ _ Hbefore).
  cbn [Revert.revert_loop]. fold rep.
  destruct (Revert.process_repo git_date_format r) as [rep' raised] eqn:E.
  cbn [fst snd] in *. subst raised. subst rep. reflexivity.
Qed.

Lemma stderr_text_ends_run_witness :
  snd (Revert.revert_loop "2019-01-01" [Revert.young_repo]) = None
  /\ RevertRuns.fails_with_text (Revert.rev_list Revert.dubious_repo)
  /\ exists reports,
       Revert.revert_repos_to_date true
         [Revert.young_repo; Revert.dubious_repo; Revert.master_repo] "2019-01-01"
       = Revert.Crashes AttributeError reports
       /\ length reports = 2%nat.
Proof.
  assert (F : RevertRuns.fails_with_text (Revert.rev_list Revert.dubious_repo)).
  { do 3 eexists. split; [reflexivity|]. split; [discriminate | reflexivity]. }
  split; [reflexivity|]. split; [exact F|].
  destruct (stderr_text_ends_run "2019-01-01" [Revert.young_repo] [Revert.master_repo]
              Revert.dubious_repo eq_refl F) as (H & _ & _).
  eexists. split; [exact H | reflexivity].
Defined.

Lemma filter_none {A : Type} (f : A -> bool) (l : list A) :
  List.existsb f l = false -> List.filter f l = [].
Proof.
  induction l as [|x l IH]; [reflexivity|]. cbn.
  destruct (f x); [discriminate | exact IH].
Qed.

Lemma process_repo_reverted (git_date_format : string) (r : Revert.repo) :
  RevertRuns.reverts_cleanly r ->
  snd (Revert.process_repo git_date_format r) = None
  /\ RevertRuns.reverted r (fst (Revert.process_repo git_date_format r)).
Proof.
  intros ((out & err & Hrev) & Hne & (o1 & e1 & Hshow) & (o2 & e2 & Hreset)).
  unfold RevertRuns.found_commit in *. destruct r as [nm wt sr bl sc co tac rl sh rs tar].
  cbn [Revert.rev_list Revert.show Revert.reset] in *. subst rl.
  unfold Revert.process_repo, RevertRuns.reverted, RevertRuns.found_commit.
  pose proof (resolve_no_reset
                {| Revert.name := nm; Revert.worktree := wt; Revert.symbolic_ref := sr;
                   Revert.branch_list := bl; Revert.show_current := sc;
                   Revert.checkout := co; Revert.tree_after_checkout := tac;
                   Revert.rev_list := Subprocess.Completed 0 out err;
                   Revert.show := sh; Revert.reset := rs;
                   Revert.tree_after_reset := tar |}) as Hres.
  destruct (Revert.resolve_default_branch _) as [cmds0 [branch|e]];
    cbn [Revert.rev_list Revert.show Revert.reset Revert.name
         Revert.tree_after_reset Subprocess.checked Z.eqb fst] in *;
    rewrite Hne, Hshow; cbn [Subprocess.checked Z.eqb]; rewrite Hreset;
    cbn [Subprocess.checked Z.eqb fst snd Revert.repo_name Revert.failure
         Revert.tree Revert.commands];
    (split; [reflexivity|]); (split; [reflexivity|]); (split; [reflexivity|]);
    (split; [reflexivity|]);
    (split; [rewrite last_snoc; reflexivity|]);
    rewrite !List.filter_app, (filter_none _ _ Hres); reflexivity.
Qed.

Lemma revert_loop_clean (git_date_format : string) (repos : list Revert.repo) :
  Forall RevertRuns.reverts_cleanly repos ->
  exists reports,
    Revert.revert_loop git_date_format repos = (reports, None)
    /\ Forall2 RevertRuns.reverted repos reports
    /\ Revert.failed_projects reports = [].
Proof.
  induction 1 as [|r repos Hr _ (reports & Hloop & Hall & Hfailed)].
  - exists []. repeat split; constructor.
  - destruct (process_repo_reverted git_date_format r Hr) as [Hnone Hrep].
    destruct (Revert.process_repo git_date_format r) as [rep raised] eqn:E.
    cbn [fst snd] in *. subst raised.
    exists (rep :: reports). cbn [Revert.revert_loop]. rewrite E, Hloop.
    split; [reflexivity|]. split; [constructor; assumption|].
    unfold Revert.failed_projects in *. cbn [omap list_omap].
    destruct Hrep as (_ & Hf & _). rewrite Hf. exact Hfailed.
Qed.

(** X4: when every repository of a non-empty batch has a commit before the
    date and its [rev-list], [show] and [reset] succeed, the run ends
    normally without writing a failed-projects log, and each repository, in
    order, has been reset exactly once, by [git reset --hard] on the commit
    [rev-list] printed for it (stripped of white space), as the last command
    run in it. *)
Theorem clean_batch_reverted (git_date_format : string) (repos : list Revert.repo) :
  repos <> [] ->
  Forall RevertRuns.reverts_cleanly repos ->
  exists reports,
    Revert.revert_repos_to_date true repos git_date_format
      = Revert.Finishes reports None
    /\ Forall2 RevertRuns.reverted repos reports.
Proof.
  intros Hne Hall.
  destruct (revert_loop_clean git_date_format repos Hall) as (reports & Hloop & H2 & Hf).
  exists reports. split; [|exact H2].
  unfold Revert.revert_repos_to_date. cbn [negb].
  destruct repos as [|r repos]; [contradiction|].
  rewrite Hloop, Hf. reflexivity.
Qed.

Lemma clean_batch_reverted_witness :
  [Revert.master_repo; Revert.master_repo] <> []
  /\ Forall RevertRuns.reverts_cleanly [Revert.master_repo; Revert.master_repo]
  /\ exists reports,
       Revert.revert_repos_to_date true [Revert.master_repo; Revert.master_repo]
         "2019-01-01" = Revert.Finishes reports None
       /\ map Revert.tree reports
          = ["tree of 0123456789abcdef0123456789abcdef01234567";
             "tree of 0123456789abcdef0123456789abcdef01234567"].
Proof.
  assert (C : RevertRuns.reverts_cleanly Revert.master_repo).
  { split; [do 2 eexists; reflexivity|]. split; [reflexivity|].
    split; do 2 eexists; reflexivity. }
  assert (F : Forall RevertRuns.reverts_cleanly [Revert.master_repo; Revert.master_repo]).
  { apply List.Forall_cons; [exact C|]. apply List.Forall_cons; [exact C|].
    apply List.Forall_nil. }
  split; [discriminate|]. split; [exact F|].
  destruct (clean_batch_reverted "2019-01-01" [Revert.master_repo; Revert.master_repo]
              ltac:(discriminate) F) as (reports & Hrun & _).
  exists reports. split; [exact Hrun|].
  assert (E : Revert.revert_repos_to_date true [Revert.master_repo; Revert.master_repo]
                "2019-01-01"
              = Revert.Finishes
                  [fst (Revert.process_repo "2019-01-01" Revert.master_repo);
                   fst (Revert.process_repo "2019-01-01" Revert.master_repo)] None)
    by reflexivity.
  rewrite E in Hrun. injection Hrun as <-. reflexivity.
Defined.

(** ** Pagination of [get_repo_contributors_count_rest] *)






(** ** Rows of [process_csv_with_specific_columns] *)

Lemma map_result_raises {A B : Type} (f : A -> result B) (l : list A) (x : A) :
  In x l -> (exists e, f x = Raise e) -> exists e, Val.map_result f l = Raise e.
Proof.
  induction l as [|y l IH]; intros Hin Hx; [contradiction|].
  cbn [Val.map_result]. destruct (f y) as [b|e] eqn:E; cbn [rbind]; [|eauto].
  destruct Hin as [->|Hin].
  - destruct Hx as [e He]. congruence.
  - destruct (IH Hin Hx) as [e He]. rewrite He. cbn [rbind]. eauto.
Qed.

Lemma map_result_all {A B : Type} (f : A -> result B) (g : A -> B) (l : list A) :
  Forall (fun x => f x = Ok (g x)) l -> Val.map_result f l = Ok (map g l).
Proof.
  induction 1 as [|x l Hx _ IH]; [reflexivity|].
  cbn [Val.map_result map]. rewrite Hx, IH. reflexivity.
Qed.

Lemma process_row_breaks (net : Contributors.network) (url_column : string)
    (fields : list string) (row : gmap string value) :
  ContributorsPages.breaks url_column row ->
  exists e, Contributors.process_row net url_column fields row = Raise e.
Proof.
  unfold Contributors.process_row.
  intros [(v & Hv & Hnot)|(s & e & Hs & Hgit & Hparse)].
  - rewrite Hv. change (default (VStr "") (Some v)) with v.
    destruct v; cbn [Val.as_str rbind]; eauto. exfalso. eapply Hnot. reflexivity.
  - rewrite Hs. change (default (VStr "") (Some (VStr s))) with (VStr s).
    cbn [Val.as_str rbind]. cbv zeta.
    assert (Hne : Py.is_empty (Py.strip s) = false).
    { destruct (Py.strip s); [discriminate Hgit | reflexivity]. }
    rewrite Hne, Hgit. cbn [negb andb].
    unfold Contributors.parse_github_url. rewrite Hparse. cbn [rbind]. eauto.
Qed.

(** X7: one row is enough to lose them all: when the URL cell of any row is
    not text (a cell a short row lacks is [None]) or holds a GitHub URL that
    [urlparse] rejects, the function returns no rows and no columns, and the
    counts fetched for the rows before it are dropped. *)
Theorem one_bad_row_loses_all (net : Contributors.network) (url_column : string)
    (fields : list string) (rows : list (gmap string value)) (row : gmap string value) :
  In row rows ->
  ContributorsPages.breaks url_column row ->
  Contributors.process_csv_with_specific_columns
    (ContributorsPages.rows_file fields rows) net url_column = ([], []).
Proof.
  intros Hin Hbad.
  unfold Contributors.process_csv_with_specific_columns, ContributorsPages.rows_file.
  cbn [rbind Contributors.fieldnames Contributors.rows].
  destruct (map_result_raises (Contributors.process_row net url_column fields) rows row
              Hin (process_row_breaks net url_column fields row Hbad)) as [e He].
  rewrite He. reflexivity.
Qed.

Lemma one_bad_row_loses_all_witness :
  ContributorsPages.breaks "html_url" {[ "html_url" := VNone ]}
  /\ ContributorsPages.breaks "html_url" {[ "html_url" := VStr "https://github.com[/a/b" ]}
  /\ Contributors.process_csv_with_specific_columns
       (ContributorsPages.rows_file ["html_url"]
          [ {[ "html_url" := VStr "https://github.com/a/b" ]};
            {[ "html_url" := VNone ]} ])
       ContributorsPages.three_pages "html_url" = ([], []).
Proof.
  assert (B : ContributorsPages.breaks "html_url" {[ "html_url" := VNone ]}).
  { left. exists VNone. split; [reflexivity | discriminate]. }
  split; [exact B|]. split.
  - right. exists "https://github.com[/a/b", ValueError.
    split; [reflexivity|]. split; reflexivity.
  - apply (one_bad_row_loses_all _ _ _ _ {[ "html_url" := VNone ]}); [|exact B].
    right. left. reflexivity.
Defined.

Lemma contains_char (c : ascii) (s : string) :
  Py.contains (String c EmptyString) s = Py.mem_char c s.
Proof.
  induction s as [|d s IH]; [reflexivity|].
  cbn [Py.contains Py.starts_with Py.mem_char]. rewrite IH.
  destruct s; rewrite andb_true_r; reflexivity.
Qed.

Lemma mem_lstrip (c : ascii) (f : ascii -> bool) (s : string) :
  Py.mem_char c s = false -> Py.mem_char c (Py.lstrip_by f s) = false.
Proof.
  induction s as [|d s IH]; intros H; [reflexivity|].
  cbn [Py.lstrip_by]. destruct (f d); [|exact H].
  apply IH. cbn in H. apply orb_false_iff in H as [_ H]. exact H.
Qed.

Lemma mem_rstrip (c : ascii) (f : ascii -> bool) (s : string) :
  Py.mem_char c s = false -> Py.mem_char c (Py.rstrip_by f s) = false.
Proof.
  induction s as [|d s IH]; intros H; [reflexivity|].
  cbn in H. apply orb_false_iff in H as [Hd H]. specialize (IH H).
  cbn [Py.rstrip_by]. destruct (Py.rstrip_by f s) as [|e r].
  - destruct (f d); [reflexivity|]. cbn. rewrite Hd. reflexivity.
  - cbn [Py.mem_char]. rewrite Hd. exact IH.
Qed.

Lemma mem_strip (c : ascii) (s : string) :
  Py.mem_char c s = false -> Py.mem_char c (Py.strip s) = false.
Proof. intros H. apply mem_rstrip, mem_lstrip, H. Qed.

Lemma mem_remove_char (c d : ascii) (s : string) :
  Py.mem_char c s = false -> Py.mem_char c (Py.remove_char d s) = false.
Proof.
  induction s as [|e s IH]; intros H; [reflexivity|].
  cbn in H. apply orb_false_iff in H as [He H].
  cbn [Py.remove_char]. destruct (Ascii.eqb d e); [apply IH, H|].
  cbn. rewrite He. apply IH, H.
Qed.

Lemma mem_break_at (c : ascii) (f : ascii -> bool) (s : string) :
  Py.mem_char c s = false ->
  Py.mem_char c (fst (Url.break_at f s)) = false
  /\ Py.mem_char c (snd (Url.break_at f s)) = false.
Proof.
  induction s as [|d s IH]; intros H; [split; reflexivity|].
  cbn [Url.break_at]. destruct (f d); [split; [reflexivity | exact H]|].
  cbn in H. apply orb_false_iff in H as [Hd H]. destruct (IH H) as [H1 H2].
  destruct (Url.break_at f s) as [a b]. cbn [fst snd] in *.
  split; [cbn; rewrite Hd; exact H1 | exact H2].
Qed.

Lemma mem_tail (c : ascii) (s : string) :
  Py.mem_char c s = false -> Py.mem_char c (Url.tail s) = false.
Proof.
  destruct s as [|d s]; intros H; [reflexivity|].
  cbn in H. apply orb_false_iff in H as [_ H]. exact H.
Qed.

(** The network location of a URL has no character the URL has not. *)
Lemma netloc_chars (c : ascii) (s : string) (p : Url.parsed) :
  Py.mem_char c s = false -> Url.urlparse s = Ok p ->
  Py.mem_char c (Url.netloc p) = false.
Proof.
  intros H. unfold Url.urlparse.
  set (url1 := Py.remove_char _ _).
  assert (H1 : Py.mem_char c url1 = false).
  { unfold url1. do 3 apply mem_remove_char. apply mem_lstrip, H. }
  clearbody url1.
  set (split1 := match Url.break_at _ url1 with (String c0 pre, String _ post) => _ | _ => _ end).
  assert (H2 : Py.mem_char c (snd split1) = false).
  { unfold split1. destruct (mem_break_at c (fun c => Ascii.eqb c ":") url1 H1) as [_ Hb].
    destruct (Url.break_at _ url1) as [[|c0 pre] [|d post]]; try exact H1.
    destruct (Url.is_alpha c0 && Url.all_chars Url.scheme_char pre); [|exact H1].
    cbn [snd] in *. cbn in Hb. apply orb_false_iff in Hb as [_ Hb]. exact Hb. }
  destruct split1 as [sch url2]. cbn [snd] in H2.
  set (split2 := if Py.starts_with "//" url2 then _ else _).
  assert (H3 : Py.mem_char c (fst split2) = false).
  { unfold split2. destruct (Py.starts_with "//" url2); [|reflexivity].
    apply mem_break_at. do 2 apply mem_tail. exact H2. }
  destruct split2 as [loc url3]. cbn [fst] in H3.
  destruct (xorb (Py.contains "[" loc) (Py.contains "]" loc)); [discriminate|].
  repeat match goal with
  | |- context [let '(_, _) := ?x in _] => destruct x
  end.
  intros [= <-]. exact H3.
Qed.

Lemma urlparse_no_brackets (s : string) :
  Py.mem_char "[" s = false -> Py.mem_char "]" s = false ->
  exists p, Url.urlparse s = Ok p.
Proof.
  intros Ho Hc.
  destruct (Url.urlparse s) as [p|e] eqn:E; [eauto|]. exfalso.
  revert E. unfold Url.urlparse.
  set (url1 := Py.remove_char _ _).
  assert (H1 : forall c, Py.mem_char c s = false -> Py.mem_char c url1 = false).
  { intros c H. unfold url1. do 3 apply mem_remove_char. apply mem_lstrip, H. }
  clearbody url1.
  set (split1 := match Url.break_at _ url1 with (String c0 pre, String _ post) => _ | _ => _ end).
  assert (H2 : forall c, Py.mem_char c s = false -> Py.mem_char c (snd split1) = false).
  { intros c H. specialize (H1 c H). unfold split1.
    destruct (mem_break_at c (fun c => Ascii.eqb c ":") url1 H1) as [_ Hb].
    destruct (Url.break_at _ url1) as [[|c0 pre] [|d post]]; try exact H1.
    destruct (Url.is_alpha c0 && Url.all_chars Url.scheme_char pre); [|exact H1].
    cbn [snd] in *. cbn in Hb. apply orb_false_iff in Hb as [_ Hb]. exact Hb. }
  destruct split1 as [sch url2]. cbn [snd] in H2.
  set (split2 := if Py.starts_with "//" url2 then _ else _).
  assert (H3 : forall c, Py.mem_char c s = false -> Py.mem_char c (fst split2) = false).
  { intros c H. specialize (H2 c H). unfold split2.
    destruct (Py.starts_with "//" url2); [|reflexivity].
    apply mem_break_at. do 2 apply mem_tail. exact H2. }
  destruct split2 as [loc url3]. cbn [fst] in H3.
  rewrite !contains_char, (H3 _ Ho), (H3 _ Hc). cbn [xorb].
  repeat match goal with
  | |- context [let '(_, _) := ?x in _] => destruct x
  end.
  discriminate.
Qed.

Lemma project_row_lookup (columns fields : list string) (row : gmap string value)
    (col : string) :
  Contributors.project_row columns fields row !! col
  = if bool_decide (col ∈ columns) && bool_decide (col ∈ fields)
    then Some (default (VStr "") (row !! col)) else None.
Proof.
  unfold Contributors.project_row.
  assert (G : forall (acc : gmap string value),
    fold_left
      (fun new_row c =>
         if bool_decide (c ∈ fields)
         then <[c := default (VStr "") (row !! c)]> new_row else new_row)
      columns acc !! col
    = if bool_decide (col ∈ columns) && bool_decide (col ∈ fields)
      then Some (default (VStr "") (row !! col)) else acc !! col).
  { induction columns as [|c columns IH]; intros acc; [reflexivity|].
    cbn [fold_left]. rewrite IH.
    destruct (decide (col = c)) as [->|Hne].
    - rewrite (bool_decide_eq_true_2 (c ∈ c :: columns)) by (apply elem_of_cons; auto).
      destruct (bool_decide (c ∈ fields)); [|rewrite !andb_false_r; reflexivity].
      rewrite !andb_true_r. rewrite lookup_insert_eq.
      destruct (bool_decide (c ∈ columns)); reflexivity.
    - assert (E : bool_decide (col ∈ c :: columns) = bool_decide (col ∈ columns)).
      { apply bool_decide_ext. rewrite elem_of_cons. tauto. }
      rewrite E.
      destruct (bool_decide (col ∈ columns) && bool_decide (col ∈ fields));
        [reflexivity|].
      destruct (bool_decide (c ∈ fields)); [|reflexivity].
      apply lookup_insert_ne. congruence. }
  rewrite G. rewrite lookup_empty.
  destruct (bool_decide (col ∈ columns) && bool_decide (col ∈ fields)); reflexivity.
Qed.

Lemma process_row_readable (net : Contributors.network) (url_column : string)
    (fields : list string) (row : gmap string value) :
  ContributorsPages.readable url_column row ->
  exists count,
    Contributors.process_row net url_column fields row
    = Ok (<["contributors_count" := count]>
            (Contributors.project_row (Contributors.required_columns url_column)
               fields row)).
Proof.
  intros (s & Hs & Ho & Hc). unfold Contributors.process_row.
  rewrite Hs. cbn [Val.as_str rbind]. cbv zeta.
  destruct (negb (Py.is_empty (Py.strip s)) && Py.contains "github.com" (Py.strip s));
    [|eauto].
  unfold Contributors.parse_github_url.
  destruct (urlparse_no_brackets (Py.strip s)) as [p Hp];
    [apply mem_strip, Ho | apply mem_strip, Hc |].
  rewrite Hp. cbn [rbind]. cbv zeta.
  destruct (Py.split_on "/" (Py.strip_chars "/" (Url.path p))) as [|owner [|repo rest]];
    cbn [rbind]; eauto.
  destruct (negb (String.eqb (Url.netloc p) "github.com")); cbn [rbind]; eauto.
  destruct (negb (Py.is_empty owner) && negb (Py.is_empty repo)); eauto.
Qed.

Lemma kept_row_of_insert (url_column : string) (fields : list string)
    (row : gmap string value) (count : value) :
  ContributorsPages.kept_row url_column fields row
    (<["contributors_count" := count]>
       (Contributors.project_row (Contributors.required_columns url_column) fields row)).
Proof.
  split.
  - rewrite lookup_insert_eq. eauto.
  - intros col Hcol. rewrite lookup_insert_ne by congruence.
    apply project_row_lookup.
Qed.

Lemma map_result_readable (net : Contributors.network) (url_column : string)
    (fields : list string) (rows : list (gmap string value)) :
  Forall (ContributorsPages.readable url_column) rows ->
  exists out,
    Val.map_result (Contributors.process_row net url_column fields) rows = Ok out
    /\ Forall2 (ContributorsPages.kept_row url_column fields) rows out.
Proof.
  induction 1 as [|row rows Hrow _ IH].
  - exists []. split; [reflexivity | constructor].
  - destruct IH as (out & Hout & Hall).
    destruct (process_row_readable net url_column fields row Hrow) as (count & Hc).
    eexists (_ :: out). cbn [Val.map_result]. rewrite Hc. cbn [rbind].
    rewrite Hout. cbn [rbind]. split; [reflexivity|].
    constructor; [apply kept_row_of_insert | exact Hall].
Qed.

(** X8: when every row's URL cell is absent or text without square
    brackets, [process_csv_with_specific_columns] returns one output row per
    input row, in order: each holds the required columns that the file has,
    with the input row's cells (an empty string for a cell the row lacks),
    and a contributors count; the column list is the four required columns
    followed by [contributors_count], whatever the file's columns are. *)
Theorem readable_rows_kept (net : Contributors.network) (url_column : string)
    (fields : list string) (rows : list (gmap string value)) :
  Forall (ContributorsPages.readable url_column) rows ->
  exists out,
    Contributors.process_csv_with_specific_columns
      (ContributorsPages.rows_file fields rows) net url_column
    = (out, [url_column; "stargazers_count"; "forks_count"; "open_issues_count";
             "contributors_count"])
    /\ Forall2 (ContributorsPages.kept_row url_column fields) rows out.
Proof.
  intros H.
  destruct (map_result_readable net url_column fields rows H) as (out & Hout & Hall).
  exists out. split; [|exact Hall].
  unfold Contributors.process_csv_with_specific_columns, ContributorsPages.rows_file.
  cbn [rbind Contributors.fieldnames Contributors.rows]. rewrite Hout. reflexivity.
Qed.

Lemma readable_rows_kept_witness :
  Forall (ContributorsPages.readable "html_url")
    (Contributors.rows Contributors.two_rows)
  /\ exists out,
       Contributors.process_csv_with_specific_columns
         (ContributorsPages.rows_file ["html_url"] (Contributors.rows Contributors.two_rows))
         ContributorsPages.three_pages "html_url"
       = (out, ["html_url"; "stargazers_count"; "forks_count"; "open_issues_count";
                "contributors_count"])
       /\ Forall2 (ContributorsPages.kept_row "html_url" ["html_url"])
            (Contributors.rows Contributors.two_rows) out.
Proof.
  assert (H : Forall (ContributorsPages.readable "html_url")
                (Contributors.rows Contributors.two_rows)).
  { apply List.Forall_cons; [|apply List.Forall_cons; [|apply List.Forall_nil]].
    - exists "https://github.com/a/b". repeat split; reflexivity.
    - exists "". repeat split; reflexivity. }
  split; [exact H|].
  apply (readable_rows_kept ContributorsPages.three_pages "html_url" ["html_url"]
           (Contributors.rows Contributors.two_rows) H).
Defined.

(** ** Thresholds of [GitHubCSVFilter.filter_repositories] *)

Lemma filter_filter_weaker {A : Type} (f g : A -> bool) (l : list A) :
  (forall x, g x = true -> f x = true) ->
  List.filter g (List.filter f l) = List.filter g l.
Proof.
  intros H. induction l as [|x l IH]; [reflexivity|].
  cbn [List.filter]. destruct (f x) eqn:Ef.
  - cbn [List.filter]. rewrite IH. reflexivity.
  - rewrite IH. destruct (g x) eqn:Eg; [|reflexivity].
    rewrite (H x Eg) in Ef. discriminate.
Qed.

Lemma filter_sublist_weaker {A : Type} (f g : A -> bool) (l : list A) :
  (forall x, g x = true -> f x = true) ->
  sublist (List.filter g l) (List.filter f l).
Proof.
  intros H. rewrite <- (filter_filter_weaker f g l H). apply filter_sublist.
Qed.

Lemma meets_weaker (a b c a' b' c' : Z) (repo : gmap string value) :
  a <= a' -> b <= b' -> c <= c' ->
  CsvFilter.meets a' b' c' repo = true -> CsvFilter.meets a b c repo = true.
Proof.
  unfold CsvFilter.meets. rewrite !andb_true_iff, !Z.leb_le. lia.
Qed.

(** X9: when [int] can read the counts of every loaded row, raising the
    three thresholds can only drop rows: the rows kept under the higher
    thresholds are, in order, among those kept under the lower ones, and
    filtering the rows kept under the lower thresholds once more with the
    higher ones gives the same rows as filtering the loaded rows with the
    higher ones at once. *)
Theorem stricter_thresholds_keep_fewer (self : CsvFilter.GitHubCSVFilter)
    (a b c a' b' c' : Z) :
  Forall CsvFilter.readable (CsvFilter.repositories self) ->
  a <= a' -> b <= b' -> c <= c' ->
  exists loose strict,
    fst (CsvFilter.filter_repositories self a b c) = Ok loose
    /\ fst (CsvFilter.filter_repositories self a' b' c') = Ok strict
    /\ sublist strict loose
    /\ fst (CsvFilter.filter_repositories
              {| CsvFilter.input_file := CsvFilter.input_file self;
                 CsvFilter.repositories := loose |} a' b' c') = Ok strict.
Proof.
  intros H Ha Hb Hc.
  exists (List.filter (CsvFilter.meets a b c) (CsvFilter.repositories self)),
         (List.filter (CsvFilter.meets a' b' c') (CsvFilter.repositories self)).
  assert (W : forall x, CsvFilter.meets a' b' c' x = true -> CsvFilter.meets a b c x = true).
  { intros x. apply meets_weaker; assumption. }
  unfold CsvFilter.filter_repositories. cbn [fst CsvFilter.repositories].
  rewrite !(filter_loop_readable _ _ _ _ H). cbn [app].
  split; [reflexivity|]. split; [reflexivity|].
  split; [apply filter_sublist_weaker, W|].
  rewrite filter_loop_readable.
  - cbn [app]. rewrite (filter_filter_weaker _ _ _ W). reflexivity.
  - apply List.Forall_forall. intros x Hx.
    apply List.filter_In in Hx as [Hx _].
    rewrite List.Forall_forall in H. apply H, Hx.
Qed.

Lemma stricter_thresholds_keep_fewer_witness :
  Forall CsvFilter.readable (CsvFilter.repositories CsvFilter.sample)
  /\ exists loose strict,
       fst (CsvFilter.filter_repositories CsvFilter.sample 2 3 0) = Ok loose
       /\ fst (CsvFilter.filter_repositories CsvFilter.sample 10 5 0) = Ok strict
       /\ sublist strict loose
       /\ fst (CsvFilter.filter_repositories
                 {| CsvFilter.input_file := CsvFilter.input_file CsvFilter.sample;
                    CsvFilter.repositories := loose |} 10 5 0) = Ok strict.
Proof.
  assert (R : Forall CsvFilter.readable (CsvFilter.repositories CsvFilter.sample)).
  { repeat apply List.Forall_cons; try apply List.Forall_nil;
      (split; eexists; vm_compute; reflexivity). }
  split; [exact R|].
  apply (stricter_thresholds_keep_fewer CsvFilter.sample 2 3 0 10 5 0 R); lia.
Defined.

Lemma filter_loop_unreadable (a b c : Z) (repo : gmap string value)
    (repos : list (gmap string value)) :
  In repo repos -> ~ CsvFilter.readable repo ->
  forall filtered, exists e, CsvFilter.filter_loop a b c repos filtered = Raise e.
Proof.
  intros Hin Hbad. induction repos as [|r repos IH]; [destruct Hin|].
  intros filtered. cbn [CsvFilter.filter_loop].
  destruct (Val.int (default (Val.of_int 0) (r !! "stargazers_count")))
    as [stars|e] eqn:Es; cbn [rbind]; [|eauto].
  destruct (Val.int (default (Val.of_int 0) (r !! "open_issues_count")))
    as [issues|e] eqn:Ei; cbn [rbind]; [|eauto].
  destruct Hin as [->|Hin].
  - exfalso. apply Hbad. split; eexists; unfold CsvFilter.count_of; eassumption.
  - destruct ((a <=? stars) && (b <=? issues) && (c <=? CsvFilter.topic_count r));
      apply IH, Hin.
Qed.

(** X10: one loaded row whose star count or open-issue count [int] cannot
    read makes [filter_repositories] raise, wherever the row stands and
    whatever the thresholds are: the rows that passed before it are not
    returned. *)
Theorem unreadable_row_stops_filter (self : CsvFilter.GitHubCSVFilter)
    (min_stars min_open_issues min_topics : Z) (repo : gmap string value) :
  In repo (CsvFilter.repositories self) ->
  ~ CsvFilter.readable repo ->
  exists e,
    CsvFilter.filter_repositories self min_stars min_open_issues min_topics
    = (Raise e, self).
Proof.
  intros Hin Hbad. unfold CsvFilter.filter_repositories.
  destruct (filter_loop_unreadable min_stars min_open_issues min_topics repo
              (CsvFilter.repositories self) Hin Hbad []) as [e He].
  exists e. rewrite He. reflexivity.
Qed.

Lemma unreadable_row_stops_filter_witness :
  exists e,
    CsvFilter.filter_repositories
      {| CsvFilter.input_file := "repos.csv";
         CsvFilter.repositories :=
           CsvFilter.repositories CsvFilter.sample
           ++ CsvFilter.repositories CsvFilter.blank_stars |} 0 0 0
    = (Raise e,
       {| CsvFilter.input_file := "repos.csv";
          CsvFilter.repositories :=
            CsvFilter.repositories CsvFilter.sample
            ++ CsvFilter.repositories CsvFilter.blank_stars |}).
Proof.
  apply (unreadable_row_stops_filter _ 0 0 0
           {[ "full_name" := VStr "a/b"; "stargazers_count" := VStr "";
              "open_issues_count" := VStr "3"; "topics" := VStr "[]" ]}).
  - cbn. right. right. right. left. reflexivity.
  - intros [[z Hz] _]. vm_compute in Hz. discriminate Hz.
Defined.

(** ** Other statuses in [GitHubScraper._make_request] *)

(** X11: an answer with a status from 400 to 599 that is neither the
    throttling answer nor the answer on the 1000-results limit ends the
    request at once: the client logs the status and the body,
    [raise_for_status] raises, the handler logs the error, and [None] is
    returned after a single request, without a retry or a sleep. *)
Theorem error_status_gives_none (endpoint : string) (p : Spider.params)
    (r : Spider.response) (now : Q) (replies : list Spider.reply) :
  SpiderStatuses.error_status r ->
  Spider.make_request endpoint p (Spider.Responds r now :: replies)
  = (Some None,
     [Spider.Get (Spider.BASE_URL +:+ "/" +:+ endpoint) p;
      Spider.ErrorRequestFailed (Spider.status_code r) (Spider.text r);
      Spider.ErrorMakingRequest (HTTPError (Spider.status_code r))],
     replies).
Proof.
  intros ([Hlo Hhi] & Hr & Hl). unfold Spider.make_request.
  cbn [Spider.request_loop]. rewrite Hr, Hl.
  replace (Spider.status_code r =? 200) with false by (symmetry; apply Z.eqb_neq; lia).
  unfold Spider.raise_for_status.
  replace (400 <=? Spider.status_code r) with true by (symmetry; apply Z.leb_le; lia).
  replace (Spider.status_code r <? 600) with true by (symmetry; apply Z.ltb_lt; lia).
  reflexivity.
Qed.

Lemma error_status_gives_none_witness :
  SpiderStatuses.error_status SpiderStatuses.forbidden
  /\ Spider.make_request "search/repositories" []
       [Spider.Responds SpiderStatuses.forbidden 0; Spider.ok_reply (VDict [])]
     = (Some None,
        [Spider.Get "https://api.github.com/search/repositories" [];
         Spider.ErrorRequestFailed 403 "Resource not accessible";
         Spider.ErrorMakingRequest (HTTPError 403)],
        [Spider.ok_reply (VDict [])]).
Proof.
  assert (H : SpiderStatuses.error_status SpiderStatuses.forbidden).
  { split; [cbn; lia | split; reflexivity]. }
  split; [exact H|].
  apply (error_status_gives_none "search/repositories" [] SpiderStatuses.forbidden 0
           [Spider.ok_reply (VDict [])] H).
Defined.

Lemma request_loop_unhandled (url : string) (p : Spider.params)
    (rp : Spider.reply) (replies : list Spider.reply) :
  SpiderStatuses.unhandled rp ->
  Spider.request_loop url p (rp :: replies)
    = let '(fin, evs, rest) := Spider.request_loop url p replies in
      (fin, SpiderStatuses.complaint url p rp ++ evs, rest).
Proof.
  destruct rp as [e|r now]; cbn [SpiderStatuses.unhandled]; [contradiction|].
  intros [Hne Hout]. cbn [Spider.request_loop].
  replace (Spider.status_code r =? 200) with false by (symmetry; apply Z.eqb_neq; lia).
  assert (Hr : Spider.is_rate_limited r = false).
  { destruct (Spider.is_rate_limited r) eqn:E; [|reflexivity].
    apply rate_limited_status in E. lia. }
  assert (Hl : Spider.is_limit_reached r = false).
  { destruct (Spider.is_limit_reached r) eqn:E; [|reflexivity].
    apply limit_reached_status in E. lia. }
  rewrite Hr, Hl. unfold Spider.raise_for_status.
  replace ((400 <=? Spider.status_code r) && (Spider.status_code r <? 600)) with false.
  2:{ symmetry. apply andb_false_iff. rewrite Z.leb_gt, Z.ltb_ge. lia. }
  destruct (Spider.request_loop url p replies) as [[fin evs] rest]. reflexivity.
Qed.

Lemma complaints_never_sleep (url : string) (p : Spider.params)
    (odd : list Spider.reply) :
  List.filter SpiderStatuses.is_sleep (flat_map (SpiderStatuses.complaint url p) odd) = [].
Proof.
  induction odd as [|rp odd IH]; [reflexivity|].
  cbn [flat_map]. rewrite List.filter_app, IH, app_nil_r.
  destruct rp; reflexivity.
Qed.

(** X12: answers whose status is neither 200 nor an error status (202 or 304,
    say) are each logged as a failed request and followed at once by the same
    request again, however many of them come in a row: the client neither
    sleeps nor gives up, and then goes on as for the next reply. *)
Theorem unhandled_status_retried_at_once (endpoint : string) (p : Spider.params)
    (odd replies : list Spider.reply) :
  let url := Spider.BASE_URL +:+ "/" +:+ endpoint in
  let retries := flat_map (SpiderStatuses.complaint url p) odd in
  Forall SpiderStatuses.unhandled odd ->
  Spider.make_request endpoint p (odd ++ replies)
    = Spider.prepend retries (Spider.make_request endpoint p replies)
  /\ List.filter SpiderStatuses.is_sleep retries = []
  /\ length retries = (2 * length odd)%nat
  /\ Spider.make_request endpoint p odd = (None, retries, []).
Proof.
  intros url retries H.
  assert (G : forall replies,
    Spider.request_loop url p (odd ++ replies)
    = let '(fin, evs, rest) := Spider.request_loop url p replies in
      (fin, retries ++ evs, rest)).
  { clear replies. intros replies. unfold retries. clear retries.
    induction H as [|rp odd Hrp _ IH].
    - cbn. destruct (Spider.request_loop url p replies) as [[fin evs] rest]. reflexivity.
    - cbn [app]. rewrite (request_loop_unhandled url p rp _ Hrp), IH.
      destruct (Spider.request_loop url p replies) as [[fin evs] rest].
      cbn [flat_map]. rewrite <- app_assoc. reflexivity. }
  assert (M : forall replies,
    Spider.make_request endpoint p (odd ++ replies)
    = Spider.prepend retries (Spider.make_request endpoint p replies)).
  { intros rs. unfold Spider.make_request. fold url. rewrite G.
    destruct (Spider.request_loop url p rs) as [[fin evs] rest].
    destruct fin; cbn [Spider.prepend]; rewrite <- ?app_assoc; reflexivity. }
  split; [apply M|]. split; [apply complaints_never_sleep|]. split.
  - unfold retries. clear G M. induction H as [|rp odd Hrp _ IH]; [reflexivity|].
    cbn [flat_map]. rewrite length_app, IH.
    destruct rp; [destruct Hrp|]. cbn [SpiderStatuses.complaint length]. lia.
  - rewrite <- (app_nil_r odd) at 1. rewrite M. cbn. rewrite app_nil_r. reflexivity.
Qed.

Lemma unhandled_status_retried_at_once_witness :
  Forall SpiderStatuses.unhandled
    [SpiderStatuses.accepted_reply "{}"; SpiderStatuses.accepted_reply "{}"]
  /\ Spider.make_request "search/repositories" []
       [SpiderStatuses.accepted_reply "{}"; SpiderStatuses.accepted_reply "{}";
        Spider.ok_reply (VDict [])]
     = (Some (Some (VDict [])),
        [Spider.Get "https://api.github.com/search/repositories" [];
         Spider.ErrorRequestFailed 202 "{}";
         Spider.Get "https://api.github.com/search/repositories" [];
         Spider.ErrorRequestFailed 202 "{}";
         Spider.Get "https://api.github.com/search/repositories" []],
        []).
Proof.
  assert (F : Forall SpiderStatuses.unhandled
                [SpiderStatuses.accepted_reply "{}"; SpiderStatuses.accepted_reply "{}"]).
  { repeat apply List.Forall_cons; try apply List.Forall_nil; cbn; lia. }
  split; [exact F|].
  destruct (unhandled_status_retried_at_once "search/repositories" []
              [SpiderStatuses.accepted_reply "{}"; SpiderStatuses.accepted_reply "{}"]
              [Spider.ok_reply (VDict [])] F) as (E & _).
  refine (eq_trans E _). reflexivity.
Defined.

(** ** Lines of text: [strip], [split] and [join] *)

Lemma lstrip_length (f : ascii -> bool) (s : string) :
  (String.length (Py.lstrip_by f s) <= String.length s)%nat.
Proof.
  induction s as [|c s IH]; cbn; [lia|]. destruct (f c); cbn; lia.
Qed.

Lemma rstrip_length (f : ascii -> bool) (s : string) :
  (String.length (Py.rstrip_by f s) <= String.length s)%nat.
Proof.
  induction s as [|c s IH]; cbn; [lia|].
  destruct (Py.rstrip_by f s); [destruct (f c)|]; cbn in *; lia.
Qed.

(** A string that [strip] leaves alone starts with a character that is not
    white space, and [rstrip] leaves it alone. *)
Lemma strip_fixed (c : ascii) (s : string) :
  Py.strip (String c s) = String c s ->
  Py.is_space c = false /\ Py.rstrip_by Py.is_space (String c s) = String c s.
Proof.
  unfold Py.strip, Py.strip_by. cbn [Py.lstrip_by].
  destruct (Py.is_space c) eqn:E; [|intros H; split; [reflexivity | exact H]].
  intros H. apply (f_equal String.length) in H.
  pose proof (rstrip_length Py.is_space (Py.lstrip_by Py.is_space s)).
  pose proof (lstrip_length Py.is_space s). cbn in H. lia.
Qed.

Lemma rstrip_app (f : ascii -> bool) (a b : string) :
  Py.is_empty b = false -> Py.rstrip_by f b = b ->
  Py.rstrip_by f (a +:+ b) = a +:+ b.
Proof.
  intros Hb Hr. induction a as [|c a IH]; [exact Hr|].
  rewrite app_cons. cbn [Py.rstrip_by]. rewrite IH.
  destruct (a +:+ b) eqn:E; [|reflexivity].
  destruct a; [|discriminate E]. rewrite app_empty_l in E. subst b. discriminate Hb.
Qed.

Lemma is_empty_app_r (s t : string) :
  Py.is_empty t = false -> Py.is_empty (s +:+ t) = false.
Proof. destruct s; [rewrite app_empty_l; auto | reflexivity]. Qed.

(** The text of lines is left alone by [strip] when its first line starts, and
    its last line ends, with something else than white space. *)
Lemma join_cons (sep p : string) (q : string) (ps : list string) :
  Py.join sep (p :: q :: ps) = p +:+ sep +:+ Py.join sep (q :: ps).
Proof. reflexivity. Qed.

Lemma rstrip_join (f : ascii -> bool) (sep : string) (lines : list string) (l : string) :
  Py.is_empty l = false -> Py.rstrip_by f l = l ->
  Py.is_empty (Py.join sep (lines ++ [l])) = false
  /\ Py.rstrip_by f (Py.join sep (lines ++ [l])) = Py.join sep (lines ++ [l]).
Proof.
  intros Hl Hr. induction lines as [|p ps IH]; [split; assumption|].
  destruct IH as [IH1 IH2].
  assert (E : Py.join sep ((p :: ps) ++ [l]) = p +:+ sep +:+ Py.join sep (ps ++ [l])).
  { cbn [app]. destruct (ps ++ [l]) eqn:Eps; [destruct ps; discriminate Eps|].
    reflexivity. }
  rewrite E. split.
  - do 2 apply is_empty_app_r. exact IH1.
  - rewrite <- app_assoc_str. apply rstrip_app; assumption.
Qed.

Lemma split_on_no_sep (sep : ascii) (s : string) :
  Py.mem_char sep s = false -> Py.split_on sep s = [s].
Proof.
  induction s as [|c s IH]; [reflexivity|].
  cbn [Py.mem_char Py.split_on]. intros H. apply orb_false_iff in H as [Hc H].
  rewrite Ascii.eqb_sym, Hc, (IH H). reflexivity.
Qed.

Lemma split_on_app_sep (sep : ascii) (a b : string) :
  Py.mem_char sep a = false ->
  Py.split_on sep (a +:+ String sep b) = a :: Py.split_on sep b.
Proof.
  induction a as [|c a IH]; intros H.
  - rewrite app_empty_l. cbn [Py.split_on]. rewrite Ascii.eqb_refl. reflexivity.
  - cbn [Py.mem_char] in H. apply orb_false_iff in H as [Hc H].
    rewrite app_cons. cbn [Py.split_on]. rewrite Ascii.eqb_sym, Hc, (IH H). reflexivity.
Qed.

Lemma split_join (sep : ascii) (lines : list string) :
  lines <> [] -> Forall (fun l => Py.mem_char sep l = false) lines ->
  Py.split_on sep (Py.join (String sep EmptyString) lines) = lines.
Proof.
  intros Hne H. induction H as [|l lines Hl H IH]; [congruence|].
  destruct lines as [|q lines]; [apply split_on_no_sep, Hl|].
  rewrite join_cons. rewrite app_cons, app_empty_l.
  rewrite (split_on_app_sep sep l _ Hl), IH by discriminate. reflexivity.
Qed.

(** [stdout.strip().split('\n')] gives back the lines of a text whose first
    and last lines are lines without surrounding white space. *)
Lemma lines_of_text (lines : list string) (first final : string) :
  head lines = Some first -> last lines = Some final ->
  Rq2Logs.line first -> Rq2Logs.line final ->
  Forall (fun l => Py.mem_char Rq2.newline l = false) lines ->
  Py.split_on Rq2.newline (Py.strip (Rq2Logs.text_of lines)) = lines.
Proof.
  intros Hh Hl (Hf1 & Hf2 & _) (Hl1 & Hl2 & _) Hn. unfold Rq2Logs.text_of.
  destruct first as [|c first]; [discriminate Hf1|].
  destruct final as [|d final]; [discriminate Hl1|].
  apply strip_fixed in Hf2 as [Hc _]. apply strip_fixed in Hl2 as [_ Hr].
  apply last_Some in Hl as [init ->].
  assert (S : Py.strip (Py.join (String Rq2.newline "") (init ++ [String d final]))
              = Py.join (String Rq2.newline "") (init ++ [String d final])).
  { unfold Py.strip, Py.strip_by.
    destruct (rstrip_join Py.is_space (String Rq2.newline "") init (String d final)
                eq_refl Hr) as [_ R].
    assert (L : Py.lstrip_by Py.is_space
                  (Py.join (String Rq2.newline "") (init ++ [String d final]))
                = Py.join (String Rq2.newline "") (init ++ [String d final])).
    { destruct (init ++ [String d final]) as [|p [|q rest]] eqn:E;
        cbn in Hh; inversion Hh; subst p.
      - cbn. rewrite Hc. reflexivity.
      - rewrite join_cons, app_cons. cbn [Py.lstrip_by]. rewrite Hc. reflexivity. }
    rewrite L. exact R. }
  rewrite S. apply split_join; [destruct init; discriminate | exact Hn].
Qed.

Lemma strip_by_none (f : ascii -> bool) (s : string) :
  Rq2.all_chars (fun c => negb (f c)) s = true -> Py.strip_by f s = s.
Proof.
  intros H. unfold Py.strip_by.
  assert (L : Py.lstrip_by f s = s).
  { destruct s as [|c s]; [reflexivity|]. cbn in *.
    apply andb_true_iff in H as [Hc _]. apply negb_true_iff in Hc. rewrite Hc.
    reflexivity. }
  rewrite L. clear L. induction s as [|c s IH]; [reflexivity|].
  cbn in H. apply andb_true_iff in H as [Hc H]. apply negb_true_iff in Hc.
  cbn [Py.rstrip_by]. rewrite (IH H). destruct s; [rewrite Hc|]; reflexivity.
Qed.

Lemma all_chars_impl (f g : ascii -> bool) (s : string) :
  (forall c, f c = true -> g c = true) ->
  Rq2.all_chars f s = true -> Rq2.all_chars g s = true.
Proof.
  intros H. induction s as [|c s IH]; [reflexivity|]. cbn.
  rewrite !andb_true_iff. intros [Hc Hs]. split; [apply H, Hc | apply IH, Hs].
Qed.

Lemma all_chars_mem (f : ascii -> bool) (c : ascii) (s : string) :
  Rq2.all_chars f s = true -> f c = false -> Py.mem_char c s = false.
Proof.
  intros H Hc. induction s as [|d s IH]; [reflexivity|].
  cbn in *. apply andb_true_iff in H as [Hd H]. rewrite (IH H), orb_false_r.
  apply Ascii.eqb_neq. intros ->. congruence.
Qed.

Lemma mem_all_chars (f : ascii -> bool) (c : ascii) (s : string) :
  Py.mem_char c s = true -> f c = false -> Rq2.all_chars f s = false.
Proof.
  intros H Hc. induction s as [|d s IH]; [discriminate H|].
  cbn in *. apply orb_true_iff in H as [H|H].
  - apply Ascii.eqb_eq in H. subst d. rewrite Hc. reflexivity.
  - rewrite (IH H). apply andb_false_r.
Qed.

Lemma mem_char_app (c : ascii) (a b : string) :
  Py.mem_char c (a +:+ b) = Py.mem_char c a || Py.mem_char c b.
Proof.
  induction a as [|d a IH]; [rewrite app_empty_l; reflexivity|].
  rewrite app_cons. cbn. rewrite IH, orb_assoc. reflexivity.
Qed.

Lemma all_digits_chars (s : string) :
  Py.all_digits s = Rq2.all_chars Py.is_digit s.
Proof. induction s as [|c s IH]; [reflexivity|]. cbn. rewrite IH. reflexivity. Qed.

Lemma hex_not_space (c : ascii) : Rq2.is_hex c = true -> negb (Py.is_space c) = true.
Proof.
  destruct c as [[] [] [] [] [] [] [] []]; vm_compute; congruence.
Qed.

Lemma line_no_newline (lines : list string) :
  Forall Rq2Logs.line lines ->
  Forall (fun l => Py.mem_char Rq2.newline l = false) lines.
Proof. induction 1 as [|l lines (_ & _ & H) _ IH]; constructor; assumption. Qed.

Lemma filter_lines (lines : list string) :
  Forall Rq2Logs.line lines ->
  List.filter (fun d => negb (Py.is_empty (Py.strip d))) lines = lines.
Proof.
  induction 1 as [|l lines (H1 & H2 & _) _ IH]; [reflexivity|].
  cbn [List.filter]. rewrite H2, H1, IH. reflexivity.
Qed.

(** ** [get_commit_frequency] on a log of dates *)

(** X13: when [git log] succeeds and prints one date per line (no empty
    line, no white space around a date), [get_commit_frequency] returns the
    number of lines divided by the 1097 days from 2022-01-01 to 2025-01-01,
    both included; an empty output gives 0. *)
Theorem commit_frequency_counts_lines (e : Rq2.entry) (dates : list string)
    (err : string) :
  Rq2.log_dates e = Subprocess.Completed 0 (Rq2Logs.text_of dates) err ->
  Forall Rq2Logs.line dates ->
  Rq2.get_commit_frequency e = Ok (Rq2.ratio (Z.of_nat (length dates)) 1097).
Proof.
  intros He H. unfold Rq2.get_commit_frequency. rewrite He.
  cbn [Subprocess.checked Z.eqb].
  destruct dates as [|d dates]; [reflexivity|].
  destruct (last (d :: dates)) as [final|] eqn:El.
  2:{ apply last_None in El. discriminate El. }
  assert (Hf : Rq2Logs.line final).
  { rewrite List.Forall_forall in H. apply H.
    apply last_Some in El as [init El]. rewrite El.
    apply List.in_or_app. right. left. reflexivity. }
  rewrite (lines_of_text (d :: dates) d final eq_refl El
             (Forall_inv H) Hf (line_no_newline _ H)).
  rewrite (filter_lines _ H). reflexivity.
Qed.

Lemma commit_frequency_counts_lines_witness :
  Forall Rq2Logs.line ["2024-03-02"; "2024-03-02"; "2023-11-20"]
  /\ Rq2.get_commit_frequency
       (Rq2Logs.with_dates
          (Rq2Logs.text_of ["2024-03-02"; "2024-03-02"; "2023-11-20"]))
     = Ok (Rq2.ratio 3 1097).
Proof.
  assert (H : Forall Rq2Logs.line ["2024-03-02"; "2024-03-02"; "2023-11-20"]).
  { repeat apply List.Forall_cons; try apply List.Forall_nil;
      repeat split; reflexivity. }
  split; [exact H|].
  apply (commit_frequency_counts_lines
           (Rq2Logs.with_dates (Rq2Logs.text_of ["2024-03-02"; "2024-03-02"; "2023-11-20"]))
           ["2024-03-02"; "2024-03-02"; "2023-11-20"] "" eq_refl H).
Defined.

(** ** [get_code_churn] on a numstat log *)

Lemma hash_line (h : string) :
  Rq2.is_commit_hash h = true -> Rq2Logs.line h.
Proof.
  unfold Rq2.is_commit_hash. intros H. apply andb_true_iff in H as [Hlen Hhex].
  split; [|split].
  - destruct h; [discriminate Hlen | reflexivity].
  - apply strip_by_none. apply (all_chars_impl Rq2.is_hex); [|exact Hhex].
    apply hex_not_space.
  - apply (all_chars_mem Rq2.is_hex); [exact Hhex | reflexivity].
Qed.

Lemma count_text_chars (n : option N) (c : ascii) :
  Py.is_digit c = false -> c <> "-"%char ->
  Py.mem_char c (Rq2Logs.count_text n) = false.
Proof.
  intros Hd Hm. destruct n as [n|]; cbn [Rq2Logs.count_text].
  - apply (all_chars_mem Py.is_digit); [|exact Hd].
    rewrite <- all_digits_chars. apply str_of_N_all.
  - cbn. rewrite orb_false_r. apply Ascii.eqb_neq, Hm.
Qed.

Lemma count_text_starts (n : option N) :
  exists c s, Rq2Logs.count_text n = String c s /\ Py.is_space c = false.
Proof.
  destruct n as [n|]; cbn [Rq2Logs.count_text]; [|exists "-"%char, ""; split; reflexivity].
  pose proof (str_of_N_all n) as Ha. pose proof (str_of_N_nonempty n) as He.
  destruct (Py.str_of_N n) as [|c s]; [discriminate He|].
  exists c, s. split; [reflexivity|]. cbn in Ha. apply andb_true_iff in Ha as [Ha _].
  apply digit_not_space, Ha.
Qed.

Lemma stat_line_shape (s : Rq2Logs.stat) :
  Rq2Logs.stat_line s
  = Rq2Logs.count_text (Rq2Logs.added s)
    +:+ String Rq2.tab (Rq2Logs.count_text (Rq2Logs.deleted s)
                        +:+ String Rq2.tab (Rq2Logs.file s)).
Proof.
  reflexivity.
Qed.

Lemma stat_line_line (s : Rq2Logs.stat) :
  Rq2Logs.path_text (Rq2Logs.file s) -> Rq2Logs.line (Rq2Logs.stat_line s).
Proof.
  intros [(Hne & Hstrip & Hnl) Htab]. rewrite stat_line_shape.
  destruct (count_text_starts (Rq2Logs.added s)) as (c & a & Ea & Hc).
  destruct (Rq2Logs.file s) as [|d f] eqn:Ef; [discriminate Hne|].
  apply strip_fixed in Hstrip as [_ Hr].
  split; [|split].
  - rewrite Ea. reflexivity.
  - unfold Py.strip, Py.strip_by. rewrite Ea at 1. rewrite app_cons.
    cbn [Py.lstrip_by]. rewrite Hc. rewrite <- app_cons, <- Ea.
    change (String Rq2.tab (Rq2Logs.count_text (Rq2Logs.deleted s)
                             +:+ String Rq2.tab (String d f)))
      with (String Rq2.tab "" +:+ (Rq2Logs.count_text (Rq2Logs.deleted s)
                             +:+ (String Rq2.tab "" +:+ String d f))).
    rewrite <- !app_assoc_str. apply rstrip_app; [reflexivity | exact Hr].
  - rewrite mem_char_app. cbn [Py.mem_char]. rewrite mem_char_app. cbn [Py.mem_char].
    rewrite !count_text_chars by (reflexivity || discriminate).
    cbn [Py.mem_char] in Hnl. rewrite Hnl. reflexivity.
Qed.

Lemma count_field_text (n : option N) :
  Rq2.count_field (Rq2Logs.count_text n) = Ok (Rq2Logs.count_of n).
Proof.
  destruct n as [n|]; [|reflexivity].
  cbn [Rq2Logs.count_text Rq2Logs.count_of]. unfold Rq2.count_field, Rq2.isdigit.
  rewrite str_of_N_nonempty.
  rewrite (all_chars_impl Py.is_digit Rq2.isdigit_char).
  - cbn [negb andb]. apply int_of_str_of_N.
  - intros c Hc. unfold Rq2.isdigit_char. rewrite Hc. reflexivity.
  - rewrite <- all_digits_chars. apply str_of_N_all.
Qed.

Lemma churn_line_hash (h : string) (st : Rq2.churn) :
  Rq2.is_commit_hash h = true ->
  Rq2.churn_line h st
  = Ok {| Rq2.total_additions := Rq2.total_additions st;
          Rq2.total_deletions := Rq2.total_deletions st;
          Rq2.total_commits := Rq2.total_commits st + 1;
          Rq2.current_commit := Some h |}.
Proof.
  intros H. unfold Rq2.churn_line.
  destruct (hash_line h H) as (_ & Hs & _). rewrite Hs, H. reflexivity.
Qed.

Lemma churn_line_stat (s : Rq2Logs.stat) (st : Rq2.churn) (h : string) :
  Rq2Logs.path_text (Rq2Logs.file s) ->
  Rq2.current_commit st = Some h ->
  Rq2.churn_line (Rq2Logs.stat_line s) st
  = Ok {| Rq2.total_additions :=
            Rq2.total_additions st + Rq2Logs.count_of (Rq2Logs.added s);
          Rq2.total_deletions :=
            Rq2.total_deletions st + Rq2Logs.count_of (Rq2Logs.deleted s);
          Rq2.total_commits := Rq2.total_commits st;
          Rq2.current_commit := Some h |}.
Proof.
  intros Hp Hc. unfold Rq2.churn_line.
  destruct (stat_line_line s Hp) as (Hne & Hs & _). rewrite Hs, Hne, Hc.
  assert (Hh : Rq2.is_commit_hash (Rq2Logs.stat_line s) = false).
  { unfold Rq2.is_commit_hash. apply andb_false_iff. right.
    apply (mem_all_chars _ Rq2.tab); [|reflexivity].
    rewrite stat_line_shape, mem_char_app. cbn. apply orb_true_r. }
  rewrite Hh. cbn [negb andb]. rewrite bool_decide_eq_true_2 by eauto.
  destruct Hp as [_ Htab].
  rewrite stat_line_shape.
  rewrite split_on_app_sep by (apply count_text_chars; [reflexivity | discriminate]).
  rewrite split_on_app_sep by (apply count_text_chars; [reflexivity | discriminate]).
  rewrite (split_on_no_sep _ _ Htab).
  rewrite !count_field_text. reflexivity.
Qed.

Lemma churn_stat_lines (entries : list Rq2Logs.stat) (rest : list string) :
  Forall (fun s => Rq2Logs.path_text (Rq2Logs.file s)) entries ->
  forall (st : Rq2.churn) (h : string),
  Rq2.current_commit st = Some h ->
  exists st',
    Rq2.churn_lines (map Rq2Logs.stat_line entries ++ rest) st = Rq2.churn_lines rest st'
    /\ Rq2.total_additions st'
       = Rq2.total_additions st + Rq2Logs.sum_stats Rq2Logs.added entries
    /\ Rq2.total_deletions st'
       = Rq2.total_deletions st + Rq2Logs.sum_stats Rq2Logs.deleted entries
    /\ Rq2.total_commits st' = Rq2.total_commits st
    /\ Rq2.current_commit st' = Some h.
Proof.
  induction 1 as [|s entries Hs _ IH]; intros st h Hc.
  - exists st. cbn. repeat split; try lia. exact Hc.
  - cbn [map app Rq2.churn_lines]. rewrite (churn_line_stat s st h Hs Hc). cbn [rbind].
    match goal with
    | |- context [Rq2.churn_lines _ ?s1] =>
        destruct (IH s1 h eq_refl) as (st' & E & Ha & Hd & Hn & Hcur)
    end.
    exists st'.
    cbn [Rq2.total_additions Rq2.total_deletions Rq2.total_commits
         Rq2.current_commit] in Ha, Hd, Hn, Hcur.
    change (Rq2Logs.sum_stats ?f (s :: entries))
      with (Rq2Logs.count_of (f s) + Rq2Logs.sum_stats f entries).
    repeat split; try assumption; lia.
Qed.

Lemma churn_commit_lines (c : Rq2Logs.commit) (rest : list string) (st : Rq2.churn) :
  Rq2Logs.well_formed c ->
  exists st',
    Rq2.churn_lines (Rq2Logs.commit_lines c ++ rest) st = Rq2.churn_lines rest st'
    /\ Rq2.total_additions st'
       = Rq2.total_additions st + Rq2Logs.sum_stats Rq2Logs.added (Rq2Logs.stats c)
    /\ Rq2.total_deletions st'
       = Rq2.total_deletions st + Rq2Logs.sum_stats Rq2Logs.deleted (Rq2Logs.stats c)
    /\ Rq2.total_commits st' = Rq2.total_commits st + 1.
Proof.
  intros [Hh Hs]. unfold Rq2Logs.commit_lines. cbn [app Rq2.churn_lines].
  rewrite (churn_line_hash _ st Hh). cbn [rbind].
  match goal with
  | |- context [Rq2.churn_lines _ ?s1] =>
      destruct (churn_stat_lines (Rq2Logs.stats c) rest Hs s1 (Rq2Logs.hash c) eq_refl)
        as (st' & E & Ha & Hd & Hn & _)
  end.
  exists st'.
  cbn [Rq2.total_additions Rq2.total_deletions Rq2.total_commits
       Rq2.current_commit] in Ha, Hd, Hn.
  repeat split; assumption.
Qed.

Lemma churn_log_lines (commits : list Rq2Logs.commit) :
  Forall Rq2Logs.well_formed commits ->
  forall st : Rq2.churn,
  exists st',
    Rq2.churn_lines (Rq2Logs.log_lines commits) st = Ok st'
    /\ Rq2.total_additions st'
       = Rq2.total_additions st + Rq2Logs.sum_of Rq2Logs.added commits
    /\ Rq2.total_deletions st'
       = Rq2.total_deletions st + Rq2Logs.sum_of Rq2Logs.deleted commits
    /\ Rq2.total_commits st' = Rq2.total_commits st + Z.of_nat (length commits).
Proof.
  induction 1 as [|c commits Hc _ IH]; intros st.
  - exists st. cbn. repeat split; lia.
  - destruct commits as [|c' commits].
    + destruct (churn_commit_lines c [] st Hc) as (st' & E & Ha & Hd & Hn).
      exists st'. cbn [Rq2Logs.log_lines]. rewrite app_nil_r in E.
      rewrite E. cbn. repeat split; lia.
    + destruct (churn_commit_lines c (EmptyString :: Rq2Logs.log_lines (c' :: commits))
                  st Hc) as (st1 & E & Ha & Hd & Hn).
      destruct (IH st1) as (st' & E' & Ha' & Hd' & Hn').
      exists st'. change (Rq2Logs.log_lines (c :: c' :: commits))
        with (Rq2Logs.commit_lines c ++ EmptyString :: Rq2Logs.log_lines (c' :: commits)).
      rewrite E. change (Rq2.churn_lines (EmptyString :: ?l) st1)
        with (Rq2.churn_lines l st1).
      split; [exact E'|].
      change (Rq2Logs.sum_of ?f (c :: ?l))
        with (Rq2Logs.sum_stats f (Rq2Logs.stats c) + Rq2Logs.sum_of f l).
      change (length (c :: ?l)) with (S (length l)).
      repeat split; lia.
Qed.

Lemma log_lines_no_newline (commits : list Rq2Logs.commit) :
  Forall Rq2Logs.well_formed commits ->
  Forall (fun l => Py.mem_char Rq2.newline l = false) (Rq2Logs.log_lines commits).
Proof.
  assert (C : forall c, Rq2Logs.well_formed c ->
            Forall (fun l => Py.mem_char Rq2.newline l = false) (Rq2Logs.commit_lines c)).
  { intros c [Hh Hs]. constructor; [apply hash_line, Hh|].
    induction Hs as [|s entries Hp _ IH]; constructor; [|exact IH].
    apply stat_line_line, Hp. }
  induction 1 as [|c commits Hc _ IH]; [constructor|].
  destruct commits as [|c' commits]; [apply C, Hc|].
  change (Rq2Logs.log_lines (c :: c' :: commits))
    with (Rq2Logs.commit_lines c ++ EmptyString :: Rq2Logs.log_lines (c' :: commits)).
  apply Forall_app. split; [apply C, Hc|]. constructor; [reflexivity | exact IH].
Qed.

Lemma commit_lines_last (c : Rq2Logs.commit) :
  Rq2Logs.well_formed c ->
  exists final, last (Rq2Logs.commit_lines c) = Some final /\ Rq2Logs.line final.
Proof.
  intros [Hh Hs]. unfold Rq2Logs.commit_lines.
  destruct (Rq2Logs.stats c) as [|s entries] using rev_ind.
  - exists (Rq2Logs.hash c). split; [reflexivity | apply hash_line, Hh].
  - exists (Rq2Logs.stat_line s). rewrite map_app. cbn [map].
    rewrite app_comm_cons, last_snoc. split; [reflexivity|].
    apply stat_line_line. apply Forall_app in Hs as [_ Hs].
    apply Forall_inv in Hs. exact Hs.
Qed.

Lemma log_lines_last (c : Rq2Logs.commit) (commits : list Rq2Logs.commit) :
  Forall Rq2Logs.well_formed (c :: commits) ->
  exists final, last (Rq2Logs.log_lines (c :: commits)) = Some final
                /\ Rq2Logs.line final.
Proof.
  revert c. induction commits as [|c' commits IH]; intros c H.
  - apply commit_lines_last. apply Forall_inv in H. exact H.
  - destruct (IH c') as (final & Hl & Hf).
    { apply Forall_inv_tail in H. exact H. }
    exists final. split; [|exact Hf].
    change (Rq2Logs.log_lines (c :: c' :: commits))
      with (Rq2Logs.commit_lines c ++ EmptyString :: Rq2Logs.log_lines (c' :: commits)).
    apply last_Some in Hl as [init Hl]. rewrite Hl.
    rewrite app_comm_cons, app_assoc. apply last_snoc.
Qed.

(** X14: on a log in which each commit's hash line is followed by one
    numstat line per file (counts or dashes, then the path, tab-separated)
    and an empty line stands between two commits, [get_code_churn] returns
    the lines added and the lines deleted, summed over all files of all
    commits with a dash counting 0, each divided by the number of commits;
    [(0, 0)] when the log has no commit. *)
Theorem churn_averages_numstat (e : Rq2.entry) (commits : list Rq2Logs.commit)
    (err : string) :
  Rq2.log_numstat e
    = Subprocess.Completed 0 (Rq2Logs.text_of (Rq2Logs.log_lines commits)) err ->
  Forall Rq2Logs.well_formed commits ->
  Rq2.get_code_churn e = Ok (Rq2Logs.averages commits).
Proof.
  intros He H. unfold Rq2.get_code_churn. rewrite He.
  cbn [Subprocess.checked Z.eqb].
  destruct commits as [|c commits]; [reflexivity|].
  destruct (log_lines_last c commits H) as (final & Hl & Hf).
  assert (Hhd : head (Rq2Logs.log_lines (c :: commits)) = Some (Rq2Logs.hash c)).
  { destruct commits; reflexivity. }
  rewrite (lines_of_text _ _ final Hhd Hl
             (hash_line _ (proj1 (Forall_inv H))) Hf (log_lines_no_newline _ H)).
  destruct (churn_log_lines (c :: commits) H
              {| Rq2.total_additions := 0; Rq2.total_deletions := 0;
                 Rq2.total_commits := 0; Rq2.current_commit := None |})
    as (st' & E & Ha & Hd & Hn).
  rewrite E. cbn [rbind]. cbn [Rq2.total_additions Rq2.total_deletions Rq2.total_commits] in *.
  rewrite Ha, Hd, Hn, !Z.add_0_l.
  replace (Z.of_nat (length (c :: commits)) =? 0) with false
    by (symmetry; apply Z.eqb_neq; cbn [length]; lia).
  reflexivity.
Qed.

Lemma churn_averages_numstat_witness :
  Forall Rq2Logs.well_formed Rq2Logs.two_commits
  /\ Rq2.get_code_churn
       (Rq2Logs.with_numstat (Rq2Logs.text_of (Rq2Logs.log_lines Rq2Logs.two_commits)))
     = Ok (Rq2.ratio 16 2, Rq2.ratio 3 2).
Proof.
  assert (H : Forall Rq2Logs.well_formed Rq2Logs.two_commits).
  { repeat apply List.Forall_cons; try apply List.Forall_nil;
      (split; [reflexivity|]);
      repeat apply List.Forall_cons; try apply List.Forall_nil;
      repeat split; reflexivity. }
  split; [exact H|].
  apply (churn_averages_numstat
           (Rq2Logs.with_numstat (Rq2Logs.text_of (Rq2Logs.log_lines Rq2Logs.two_commits)))
           Rq2Logs.two_commits "" eq_refl H).
Defined.

(** ** [main] of [ow.py] *)

Example main_on_folder :
  let '(status, fs, _) := OwaspMain.main true OwaspMain.folder OwaspMain.no_reports in
  status = 0
  /\ (map Owasp.s_projectName <$> OwaspMain.summary_csv fs)
     = Some ["alpha"; "beta"; "gamma (SCAN FAILED)"]
  /\ (map Owasp.severity <$> OwaspMain.details_csv fs) = Some ["UNKNOWN"; "HIGH"].
Proof. vm_compute. repeat split. Qed.

(** What one call of [process_scan_results] adds to the two lists. *)
Lemma process_scan_results_adds (project_name : string) (scan_result : value)
    (w : Owasp.store) :
  exists row rows,
    Owasp.summary_data (Owasp.process_scan_results project_name scan_result w)
      = Owasp.summary_data w ++ [row]
    /\ Owasp.detailed_data (Owasp.process_scan_results project_name scan_result w)
       = Owasp.detailed_data w ++ rows
    /\ Owasp.s_projectName row = project_name
    /\ 0 <= Owasp.criticalSeverityCount row
    /\ 0 <= Owasp.highSeverityCount row
    /\ 0 <= Owasp.mediumSeverityCount row
    /\ 0 <= Owasp.lowSeverityCount row
    /\ Owasp.severity_sum row = Owasp.totalVulnerabilities row
    /\ Forall (fun r => Owasp.d_projectName r = project_name) rows.
Proof.
  unfold Owasp.process_scan_results.
  destruct (negb (Val.truthy scan_result)).
  - exists (Owasp.summary_of project_name Owasp.no_counts), [].
    cbn [Owasp.summary_data Owasp.detailed_data]. rewrite app_nil_r.
    repeat split; try (cbn; lia). constructor.
  - pose proof (try_block_keeps project_name (Owasp.detailed_data w) scan_result
                  _ (agrees_start project_name (Owasp.detailed_data w))) as K.
    destruct (Owasp.try_block project_name scan_result
                (Owasp.no_counts, Owasp.detailed_data w)) as [[c detailed] raised].
    unfold Owasp.keeps in K. cbn [fst snd] in K.
    assert (G : exists slack, Owasp.agrees project_name (Owasp.detailed_data w) slack
                                (c, detailed)).
    { destruct raised as [e|]; [destruct K as [K|K]|]; eauto. }
    destruct G as (slack & rows & Hrows & Hall & H1 & H2 & H3 & H4 & Hsum & Htot).
    cbn [fst snd] in *.
    exists (Owasp.summary_of project_name c), rows.
    cbn [Owasp.summary_data Owasp.detailed_data].
    unfold Owasp.severity_sum, Owasp.summary_of. cbn.
    repeat split; try assumption; lia.
Qed.

Lemma count_of_snoc (f : OwaspMain.project -> bool) (done : list OwaspMain.project)
    (p : OwaspMain.project) :
  OwaspMain.count_of f (done ++ [p])
  = OwaspMain.count_of f done + (if f p then 1 else 0).
Proof.
  unfold OwaspMain.count_of. rewrite List.filter_app, length_app. cbn [List.filter].
  destruct (f p); cbn [length]; lia.
Qed.

Lemma details_agree_more (done : list OwaspMain.project) (p : OwaspMain.project)
    (rows : list Owasp.detail_row) :
  Forall (fun r => exists q, In q done /\ OwaspMain.scanned q = true
                             /\ Owasp.d_projectName r = OwaspMain.name q) rows ->
  Forall (fun r => exists q, In q (done ++ [p]) /\ OwaspMain.scanned q = true
                             /\ Owasp.d_projectName r = OwaspMain.name q) rows.
Proof.
  induction 1 as [|r rows (q & Hq & Hs & Hn) _ IH]; constructor; [|exact IH].
  exists q. split; [apply List.in_or_app; left; exact Hq | split; assumption].
Qed.

Lemma add_failure_agrees (done : list OwaspMain.project) (t : OwaspMain.tally)
    (p : OwaspMain.project) :
  OwaspMain.scanned p = false ->
  OwaspMain.scans_agree done t ->
  OwaspMain.scans_agree (done ++ [p])
    (OwaspMain.add_failure (OwaspMain.zero_row (OwaspMain.row_name p)) t).
Proof.
  intros Hp [Hn Hs Hf Hr Hd]. split; cbn [OwaspMain.add_failure OwaspMain.data
    OwaspMain.success_count OwaspMain.failure_count Owasp.summary_data
    Owasp.detailed_data].
  - rewrite !map_app, Hn. reflexivity.
  - rewrite count_of_snoc, Hp, Hs. lia.
  - rewrite count_of_snoc, Hp, Hf. reflexivity.
  - apply Forall2_app; [exact Hr|]. constructor; [|constructor].
    cbn. repeat split; lia.
  - apply details_agree_more, Hd.
Qed.

Lemma scan_one_agrees (done : list OwaspMain.project) (t : OwaspMain.tally)
    (p : OwaspMain.project) :
  OwaspMain.scans_agree done t ->
  OwaspMain.scans_agree (done ++ [p]) (OwaspMain.scan_one t p).
Proof.
  intros H. unfold OwaspMain.scan_one.
  destruct (OwaspMain.scan_project p) as [scan_result|e] eqn:Es.
  - destruct (OwaspMain.is_not_none scan_result) eqn:En.
    + assert (Hp : OwaspMain.scanned p = true).
      { unfold OwaspMain.scanned. rewrite Es. exact En. }
      assert (Hname : OwaspMain.row_name p = OwaspMain.name p).
      { unfold OwaspMain.row_name. rewrite Es. reflexivity. }
      destruct H as [Hn Hs Hf Hr Hd].
      destruct (process_scan_results_adds (OwaspMain.name p) scan_result
                  (OwaspMain.data t))
        as (row & rows & Esum & Edet & Hrn & H1 & H2 & H3 & H4 & Hsum & Hall).
      split; cbn [OwaspMain.data OwaspMain.success_count OwaspMain.failure_count].
      * rewrite Esum, !map_app, Hn. cbn [map]. rewrite Hrn, Hname. reflexivity.
      * rewrite count_of_snoc, Hp, Hs. reflexivity.
      * rewrite count_of_snoc, Hp, Hf. cbn [negb]. lia.
      * rewrite Esum. apply Forall2_app; [exact Hr|]. constructor; [|constructor].
        repeat split; try assumption. congruence.
      * rewrite Edet. apply Forall_app. split; [apply details_agree_more, Hd|].
        clear -Hall Hp.
        induction Hall as [|r rows Hr _ IH]; constructor; [|exact IH].
        exists p. split; [apply List.in_or_app; right; left; reflexivity|].
        split; [exact Hp | exact Hr].
    + replace (OwaspMain.name p) with (OwaspMain.row_name p)
        by (unfold OwaspMain.row_name; rewrite Es; reflexivity).
      apply add_failure_agrees; [|exact H].
      unfold OwaspMain.scanned. rewrite Es. exact En.
  - replace (OwaspMain.name p +:+ " (SCAN FAILED)") with (OwaspMain.row_name p)
      by (unfold OwaspMain.row_name; rewrite Es; reflexivity).
    apply add_failure_agrees; [|exact H].
    unfold OwaspMain.scanned. rewrite Es. reflexivity.
Qed.

Lemma scan_all_agrees (projects done : list OwaspMain.project) (t : OwaspMain.tally) :
  OwaspMain.scans_agree done t ->
  OwaspMain.scans_agree (done ++ projects) (fold_left OwaspMain.scan_one projects t).
Proof.
  revert done t. induction projects as [|p projects IH]; intros done t H.
  - rewrite app_nil_r. exact H.
  - cbn [fold_left]. replace (done ++ p :: projects) with ((done ++ [p]) ++ projects)
      by (rewrite <- app_assoc; reflexivity).
    apply IH, scan_one_agrees, H.
Qed.

Lemma scans_agree_start : OwaspMain.scans_agree [] OwaspMain.start.
Proof. split; try reflexivity; constructor. Qed.

Lemma main_runs (root_dir : option (list OwaspMain.entry)) (fs : OwaspMain.reports) :
  OwaspMain.find_projects root_dir <> [] ->
  let t := fold_left OwaspMain.scan_one (OwaspMain.find_projects root_dir) OwaspMain.start in
  OwaspMain.main true root_dir fs
  = (0, OwaspMain.write_csv_report (OwaspMain.data t) fs,
     Some (t, OwaspMain.generate_statistics (Owasp.summary_data (OwaspMain.data t))))
  /\ OwaspMain.scans_agree (OwaspMain.find_projects root_dir) t.
Proof.
  intros Hne t. split.
  - unfold OwaspMain.main. cbn [negb].
    destruct (OwaspMain.find_projects root_dir) eqn:E; [congruence | reflexivity].
  - apply (scan_all_agrees _ [] _ scans_agree_start).
Qed.

Lemma count_of_split (f : OwaspMain.project -> bool) (projects : list OwaspMain.project) :
  OwaspMain.count_of f projects + OwaspMain.count_of (fun p => negb (f p)) projects
  = Z.of_nat (length projects).
Proof.
  unfold OwaspMain.count_of. induction projects as [|p projects IH]; [reflexivity|].
  cbn [List.filter]. destruct (f p); cbn [negb length]; lia.
Qed.

(** X15: when Dependency-Check is installed and the folder has at least one
    project directory, [main] exits with status 0 and the summary report holds
    exactly one row per project directory, in the order of the listing: the
    row carries the project's name, with [ (SCAN FAILED)] appended when the
    scan raised, and is all zeros for a project whose scan gave no report; the
    success counter is the number of projects whose scan gave a report, and
    the two counters add up to the number of projects. *)
Theorem one_summary_row_per_project (root_dir : option (list OwaspMain.entry))
    (fs : OwaspMain.reports) :
  let projects := OwaspMain.find_projects root_dir in
  projects <> [] ->
  exists fs' t stats rows,
    OwaspMain.main true root_dir fs = (0, fs', Some (t, stats))
    /\ OwaspMain.summary_csv fs' = Some rows
    /\ map Owasp.s_projectName rows = map OwaspMain.row_name projects
    /\ Forall2 (fun p row => OwaspMain.scanned p = false ->
                             row = OwaspMain.zero_row (OwaspMain.row_name p))
         projects rows
    /\ OwaspMain.success_count t = OwaspMain.count_of OwaspMain.scanned projects
    /\ OwaspMain.success_count t + OwaspMain.failure_count t
       = Z.of_nat (length projects).
Proof.
  intros projects Hne.
  destruct (main_runs root_dir fs Hne) as [E [Hn Hs Hf Hr Hd]].
  eexists _, _, _, _. split; [exact E|].
  split; [reflexivity|]. split; [exact Hn|]. split; [|split].
  - eapply Forall2_impl; [exact Hr|]. cbn. intros p row H. apply H.
  - exact Hs.
  - rewrite Hs, Hf. apply count_of_split.
Qed.

Lemma one_summary_row_per_project_witness :
  OwaspMain.find_projects OwaspMain.folder <> []
  /\ exists fs' t stats rows,
       OwaspMain.main true OwaspMain.folder OwaspMain.no_reports
       = (0, fs', Some (t, stats))
       /\ OwaspMain.summary_csv fs' = Some rows
       /\ map Owasp.s_projectName rows = ["alpha"; "beta"; "gamma (SCAN FAILED)"]
       /\ OwaspMain.success_count t = 1
       /\ OwaspMain.failure_count t = 2.
Proof.
  assert (H : OwaspMain.find_projects OwaspMain.folder <> []) by discriminate.
  split; [exact H|].
  destruct (one_summary_row_per_project OwaspMain.folder OwaspMain.no_reports H)
    as (fs' & t & stats & rows & E & Hrows & Hnames & _ & Hs & Hsum).
  exists fs', t, stats, rows.
  split; [exact E|]. split; [exact Hrows|]. split; [exact Hnames|].
  assert (S1 : OwaspMain.success_count t = 1) by exact Hs.
  split; [exact S1|]. rewrite S1 in Hsum. cbn in Hsum. lia.
Defined.

Lemma max_from_greatest {A : Type} (key : A -> Z) (items : list A) :
  forall best,
  key best <= key (OwaspMain.max_from key best items)
  /\ Forall (fun x => key x <= key (OwaspMain.max_from key best items)) items.
Proof.
  induction items as [|x items IH]; intros best; cbn [OwaspMain.max_from].
  - split; [lia | constructor].
  - destruct (IH (if key best <? key x then x else best)) as [H1 H2].
    destruct (key best <? key x) eqn:E;
      [apply Z.ltb_lt in E | apply Z.ltb_ge in E];
      (split; [lia | constructor; [lia | exact H2]]).
Qed.

Lemma sums_add_up (rows : list Owasp.summary_row) :
  Forall (fun row => Owasp.severity_sum row = Owasp.totalVulnerabilities row) rows ->
  OwaspMain.sum_of Owasp.totalVulnerabilities rows
  = OwaspMain.sum_of Owasp.criticalSeverityCount rows
    + OwaspMain.sum_of Owasp.highSeverityCount rows
    + OwaspMain.sum_of Owasp.mediumSeverityCount rows
    + OwaspMain.sum_of Owasp.lowSeverityCount rows.
Proof.
  unfold OwaspMain.sum_of, Owasp.severity_sum.
  induction 1 as [|row rows Hrow _ IH]; [reflexivity|]. cbn [map fold_right]. lia.
Qed.

Lemma sum_of_nonneg (field : Owasp.summary_row -> Z) (rows : list Owasp.summary_row) :
  Forall (fun row => 0 <= field row) rows -> 0 <= OwaspMain.sum_of field rows.
Proof.
  unfold OwaspMain.sum_of.
  induction 1 as [|row rows Hrow _ IH]; cbn [map fold_right]; lia.
Qed.

Lemma vulnerable_rows_bound (rows : list Owasp.summary_row) :
  Forall (fun row => 0 <= Owasp.totalVulnerabilities row) rows ->
  Z.of_nat (length (List.filter (fun item => 0 <? Owasp.totalVulnerabilities item) rows))
  <= OwaspMain.sum_of Owasp.totalVulnerabilities rows.
Proof.
  unfold OwaspMain.sum_of.
  induction 1 as [|row rows Hrow _ IH]; cbn [List.filter map fold_right length]; [lia|].
  destruct (0 <? Owasp.totalVulnerabilities row) eqn:E;
    [apply Z.ltb_lt in E | apply Z.ltb_ge in E]; cbn [length]; lia.
Qed.

Lemma vulnerable_rows_scanned (projects : list OwaspMain.project)
    (rows : list Owasp.summary_row) :
  Forall2 (fun p row => OwaspMain.scanned p = false ->
                        row = OwaspMain.zero_row (OwaspMain.row_name p)) projects rows ->
  Z.of_nat (length (List.filter (fun item => 0 <? Owasp.totalVulnerabilities item) rows))
  <= OwaspMain.count_of OwaspMain.scanned projects.
Proof.
  unfold OwaspMain.count_of.
  induction 1 as [|p row projects rows H _ IH]; cbn [List.filter length]; [lia|].
  destruct (OwaspMain.scanned p).
  - destruct (0 <? Owasp.totalVulnerabilities row); cbn [length]; lia.
  - rewrite (H eq_refl). cbn [OwaspMain.zero_row Owasp.totalVulnerabilities Z.ltb Z.compare].
    exact IH.
Qed.

(** X16: the statistics [main] logs after a run agree with the summary
    report: the number of projects is the number of project directories; the
    total of vulnerabilities is the sum of the four severity totals, none of
    which is negative; the number of projects with vulnerabilities is at most
    the number of successful scans and at most the total of vulnerabilities;
    and no row of the summary has more vulnerabilities than the project
    reported as most vulnerable. *)
Theorem statistics_agree_with_summary (root_dir : option (list OwaspMain.entry))
    (fs : OwaspMain.reports) :
  let projects := OwaspMain.find_projects root_dir in
  projects <> [] ->
  exists fs' t s rows,
    OwaspMain.main true root_dir fs = (0, fs', Some (t, Some s))
    /\ OwaspMain.summary_csv fs' = Some rows
    /\ OwaspMain.total_projects s = Z.of_nat (length projects)
    /\ OwaspMain.total_vulnerabilities s
       = OwaspMain.total_critical s + OwaspMain.total_high s
         + OwaspMain.total_medium s + OwaspMain.total_low s
    /\ 0 <= OwaspMain.total_critical s /\ 0 <= OwaspMain.total_high s
    /\ 0 <= OwaspMain.total_medium s /\ 0 <= OwaspMain.total_low s
    /\ 0 <= OwaspMain.projects_with_vulnerabilities s <= OwaspMain.success_count t
    /\ OwaspMain.projects_with_vulnerabilities s <= OwaspMain.total_vulnerabilities s
    /\ Forall (fun row => Owasp.totalVulnerabilities row
                          <= snd (OwaspMain.most_vulnerable_project s)) rows.
Proof.
  intros projects Hne.
  destruct (main_runs root_dir fs Hne) as [E [Hn Hs Hf Hr Hd]].
  set (t := fold_left OwaspMain.scan_one (OwaspMain.find_projects root_dir)
              OwaspMain.start) in *.
  fold projects in Hn, Hs, Hf, Hr, Hd.
  set (rows := Owasp.summary_data (OwaspMain.data t)) in *.
  assert (Hlen : length rows = length projects).
  { symmetry. apply (Forall2_length _ _ _ Hr). }
  assert (R : Forall (fun row =>
                0 <= Owasp.criticalSeverityCount row
                /\ 0 <= Owasp.highSeverityCount row
                /\ 0 <= Owasp.mediumSeverityCount row
                /\ 0 <= Owasp.lowSeverityCount row
                /\ Owasp.severity_sum row = Owasp.totalVulnerabilities row) rows).
  { clear -Hr. induction Hr as [|p row ps rs H _ IH]; constructor; [|exact IH].
    tauto. }
  assert (Z : OwaspMain.find_projects root_dir
              = projects) by reflexivity.
  destruct rows as [|first rest] eqn:Erows.
  { destruct projects; [congruence | discriminate Hlen]. }
  eexists _, t, _, (first :: rest). split.
  { rewrite E. cbn [OwaspMain.generate_statistics]. reflexivity. }
  cbn [OwaspMain.total_projects OwaspMain.total_vulnerabilities
       OwaspMain.total_critical OwaspMain.total_high OwaspMain.total_medium
       OwaspMain.total_low OwaspMain.projects_with_vulnerabilities
       OwaspMain.most_vulnerable_project].
  split; [cbn; fold rows; rewrite Erows; reflexivity|].
  split; [rewrite Hlen; reflexivity|].
  split; [apply sums_add_up; eapply Forall_impl; [exact R|]; cbn; tauto|].
  split; [apply sum_of_nonneg; eapply Forall_impl; [exact R|]; cbn; tauto|].
  split; [apply sum_of_nonneg; eapply Forall_impl; [exact R|]; cbn; tauto|].
  split; [apply sum_of_nonneg; eapply Forall_impl; [exact R|]; cbn; tauto|].
  split; [apply sum_of_nonneg; eapply Forall_impl; [exact R|]; cbn; tauto|].
  assert (T : Forall (fun row => 0 <= Owasp.totalVulnerabilities row) (first :: rest)).
  { eapply Forall_impl; [exact R|]. cbn. unfold Owasp.severity_sum. intros row. lia. }
  split; [split; [lia|]|split].
  - rewrite Hs. apply vulnerable_rows_scanned.
    eapply Forall2_impl; [exact Hr|]. cbn. intros p row H. apply H.
  - apply vulnerable_rows_bound, T.
  - destruct (0 <? Z.of_nat (length (List.filter
                 (fun item => 0 <? Owasp.totalVulnerabilities item) (first :: rest))))
      eqn:Ev; cbn [snd].
    + destruct (max_from_greatest Owasp.totalVulnerabilities rest first) as [H1 H2].
      constructor; assumption.
    + apply Z.ltb_ge in Ev.
      assert (N : List.filter (fun item => 0 <? Owasp.totalVulnerabilities item)
                    (first :: rest) = []).
      { destruct (List.filter _ (first :: rest)); [reflexivity | cbn [length] in Ev; lia]. }
      apply List.Forall_forall. intros row Hin.
      destruct (0 <? Owasp.totalVulnerabilities row) eqn:Er; [|apply Z.ltb_ge, Er].
      assert (In row (List.filter (fun item => 0 <? Owasp.totalVulnerabilities item)
                        (first :: rest))) as Hin'
        by (apply List.filter_In; split; assumption).
      rewrite N in Hin'. destruct Hin'.
Qed.

Lemma statistics_agree_with_summary_witness :
  OwaspMain.find_projects OwaspMain.folder <> []
  /\ exists fs' t s,
       OwaspMain.main true OwaspMain.folder OwaspMain.no_reports
       = (0, fs', Some (t, Some s))
       /\ OwaspMain.total_projects s = 3
       /\ OwaspMain.total_vulnerabilities s
          = OwaspMain.total_critical s + OwaspMain.total_high s
            + OwaspMain.total_medium s + OwaspMain.total_low s
       /\ OwaspMain.most_vulnerable_project s = ("alpha", 1).
Proof.
  assert (H : OwaspMain.find_projects OwaspMain.folder <> []) by discriminate.
  split; [exact H|].
  destruct (statistics_agree_with_summary OwaspMain.folder OwaspMain.no_reports H)
    as (fs' & t & s & rows & E & _ & Hp & Hsum & _).
  exists fs', t, s. split; [exact E|]. split; [exact Hp|]. split; [exact Hsum|].
  vm_compute in E. injection E as _ _ <-. reflexivity.
Defined.

(** X17: when no scan gives a report, [main] still exits with status 0: it
    writes a summary with an all-zero row per project directory and leaves
    the details report as it found it, so that rows of an earlier run
    stay in that file. *)
Theorem failed_scans_leave_details (root_dir : option (list OwaspMain.entry))
    (fs : OwaspMain.reports) :
  let projects := OwaspMain.find_projects root_dir in
  projects <> [] ->
  Forall (fun p => OwaspMain.scanned p = false) projects ->
  exists t stats,
    OwaspMain.main true root_dir fs
    = (0,
       {| OwaspMain.summary_csv :=
            Some (map (fun p => OwaspMain.zero_row (OwaspMain.row_name p)) projects);
          OwaspMain.details_csv := OwaspMain.details_csv fs |},
       Some (t, stats))
    /\ OwaspMain.success_count t = 0
    /\ OwaspMain.failure_count t = Z.of_nat (length projects).
Proof.
  intros projects Hne Hall.
  destruct (main_runs root_dir fs Hne) as [E [Hn Hs Hf Hr Hd]].
  set (t := fold_left OwaspMain.scan_one (OwaspMain.find_projects root_dir)
              OwaspMain.start) in *.
  fold projects in Hn, Hs, Hf, Hr, Hd.
  assert (S0 : OwaspMain.count_of OwaspMain.scanned projects = 0).
  { unfold OwaspMain.count_of. clear -Hall.
    induction Hall as [|p ps Hp _ IH]; [reflexivity|].
    cbn [List.filter]. rewrite Hp. exact IH. }
  exists t, (OwaspMain.generate_statistics (Owasp.summary_data (OwaspMain.data t))).
  split; [|split].
  - rewrite E. unfold OwaspMain.write_csv_report. f_equal. f_equal. f_equal.
    + f_equal. clear -Hr Hall. revert Hall.
      induction Hr as [|p row ps rs H _ IH]; intros Hall; [reflexivity|].
      apply Forall_cons in Hall as [Hp Hall]. cbn [map].
      destruct H as (_ & _ & _ & _ & _ & H). rewrite (H Hp), (IH Hall). reflexivity.
    + destruct (Owasp.detailed_data (OwaspMain.data t)) as [|r rows]; [reflexivity|].
      exfalso. apply Forall_inv in Hd. destruct Hd as (p & Hin & Hp & _).
      rewrite List.Forall_forall in Hall. rewrite (Hall p Hin) in Hp. discriminate Hp.
  - rewrite Hs. exact S0.
  - rewrite Hf. pose proof (count_of_split OwaspMain.scanned projects). lia.
Qed.

Lemma failed_scans_leave_details_witness :
  exists t stats,
    OwaspMain.main true (Some [OwaspMain.failed_project; OwaspMain.locked_project])
      {| OwaspMain.summary_csv := None;
         OwaspMain.details_csv := Some [] |}
    = (0,
       {| OwaspMain.summary_csv :=
            Some [OwaspMain.zero_row "beta"; OwaspMain.zero_row "gamma (SCAN FAILED)"];
          OwaspMain.details_csv := Some [] |},
       Some (t, stats))
    /\ OwaspMain.success_count t = 0
    /\ OwaspMain.failure_count t = 2.
Proof.
  apply (failed_scans_leave_details
           (Some [OwaspMain.failed_project; OwaspMain.locked_project])
           {| OwaspMain.summary_csv := None; OwaspMain.details_csv := Some [] |}).
  - discriminate.
  - repeat apply List.Forall_cons; try apply List.Forall_nil; reflexivity.
Defined.

(** X18: when [main] starts without a details report and writes one, the
    report is not empty and each of its rows carries the name of a project
    directory whose scan gave a report. *)
Theorem details_rows_of_scanned_projects (root_dir : option (list OwaspMain.entry))
    (fs : OwaspMain.reports) (rows : list Owasp.detail_row) :
  let projects := OwaspMain.find_projects root_dir in
  projects <> [] ->
  OwaspMain.details_csv fs = None ->
  OwaspMain.details_csv (snd (fst (OwaspMain.main true root_dir fs))) = Some rows ->
  rows <> []
  /\ Forall (fun r => exists p, In p projects /\ OwaspMain.scanned p = true
                                /\ Owasp.d_projectName r = OwaspMain.name p) rows.
Proof.
  intros projects Hne Hfs.
  destruct (main_runs root_dir fs Hne) as [E [Hn Hs Hf Hr Hd]].
  rewrite E. cbn [fst snd OwaspMain.write_csv_report OwaspMain.details_csv].
  destruct (Owasp.detailed_data _) as [|r rest] eqn:Ed.
  - rewrite Hfs. discriminate.
  - intros [= <-]. split; [discriminate | exact Hd].
Qed.

Lemma details_rows_of_scanned_projects_witness :
  exists rows,
    OwaspMain.details_csv
      (snd (fst (OwaspMain.main true OwaspMain.folder OwaspMain.no_reports))) = Some rows
    /\ Forall (fun r => exists p, In p (OwaspMain.find_projects OwaspMain.folder)
                                  /\ OwaspMain.scanned p = true
                                  /\ Owasp.d_projectName r = OwaspMain.name p) rows.
Proof.
  eexists. split; [vm_compute; reflexivity|].
  apply (details_rows_of_scanned_projects OwaspMain.folder OwaspMain.no_reports);
    [discriminate | reflexivity | vm_compute; reflexivity].
Defined.

(** ** Pages, files and [main] of [github_spider.py] *)

Example range_1_4 : SpiderPages.range 1 (3 + 1) = [1; 2; 3].
Proof. reflexivity. Qed.

Example extract_repo_a :
  SpiderPages.extract_repository_data SpiderPages.repo_a
  = Ok [("id", Val.of_int 1); ("name", VNone); ("full_name", VStr "a/b");
        ("html_url", VNone); ("description", VNone); ("language", VNone);
        ("created_at", VNone); ("updated_at", VNone); ("pushed_at", VNone);
        ("stargazers_count", VNone); ("forks_count", VNone);
        ("open_issues_count", VNone); ("license", VStr "MIT License");
        ("topics", VList [VStr "web"; VStr "api"])].
Proof. reflexivity. Qed.

Example extract_repo_c :
  SpiderPages.extract_repository_data SpiderPages.repo_c = Raise AttributeError.
Proof. reflexivity. Qed.

Example main_two_pages :
  let '(fin, d) :=
    SpiderPages.main [SpiderPages.page_reply [SpiderPages.repo_a];
                      SpiderPages.page_reply [SpiderPages.repo_b];
                      Spider.window_reply] SpiderPages.fresh_disk in
  fin = SpiderPages.Returns
  /\ (length <$> (SpiderPages.body <$> SpiderPages.content d SpiderPages.main_file))
     = Some 2%nat
  /\ SpiderPages.content d SpiderPages.partial_file = None.
Proof. vm_compute. repeat split. Qed.

Lemma make_request_ok (endpoint : string) (p : Spider.params) (r : Spider.response)
    (now : Q) (v : value) (replies : list Spider.reply) :
  Spider.status_code r = 200 -> Spider.json r = Ok v ->
  Spider.make_request endpoint p (Spider.Responds r now :: replies)
  = (Some (Some v), [Spider.Get (Spider.BASE_URL +:+ "/" +:+ endpoint) p], replies).
Proof.
  intros Hs Hj. unfold Spider.make_request. cbn [Spider.request_loop].
  rewrite Hs, Hj. reflexivity.
Qed.

Lemma make_request_gives_none (endpoint : string) (p : Spider.params)
    (rp : Spider.reply) (replies : list Spider.reply) :
  SpiderPages.gives_none rp ->
  exists evs,
    Spider.make_request endpoint p (rp :: replies) = (Some None, evs, replies)
    /\ List.filter SpiderStatuses.is_sleep evs = [].
Proof.
  destruct rp as [e|r now]; cbn [SpiderPages.gives_none].
  - intros _. eexists. split; reflexivity.
  - intros [Hl|([Hlo Hhi] & Hr & Hl)]; unfold Spider.make_request;
      cbn [Spider.request_loop].
    + pose proof (limit_reached_status r Hl) as E.
      unfold Spider.is_rate_limited. rewrite Hl, E. eexists. split; reflexivity.
    + rewrite Hr, Hl.
      replace (Spider.status_code r =? 200) with false
        by (symmetry; apply Z.eqb_neq; lia).
      unfold Spider.raise_for_status.
      replace (400 <=? Spider.status_code r) with true by (symmetry; apply Z.leb_le; lia).
      replace (Spider.status_code r <? 600) with true by (symmetry; apply Z.ltb_lt; lia).
      eexists. split; reflexivity.
Qed.

(** What the loop does on pages with items: one request and one pause per
    page. *)
Lemma page_loop_items (c : SpiderPages.criteria) (per_page : Z)
    (goods : list Spider.reply) (itemss : list (list value)) :
  Forall2 SpiderPages.item_page goods itemss ->
  forall (pages later : list Z) (replies : list Spider.reply) (all_repos : list value),
  length pages = length goods ->
  SpiderPages.page_loop c per_page (pages ++ later) (goods ++ replies) all_repos
  = let '(fin, evs, rest) :=
      SpiderPages.page_loop c per_page later replies (all_repos ++ concat itemss) in
    (fin,
     flat_map (fun page =>
                 [Spider.Get (Spider.BASE_URL +:+ "/" +:+ "search/repositories")
                    (SpiderPages.search_params c page per_page);
                  Spider.Sleep 1]) pages ++ evs,
     rest).
Proof.
  induction 1 as [|rp items goods itemss Hrp _ IH]; intros pages later replies all_repos Hlen.
  - destruct pages; [|discriminate Hlen]. cbn [app concat flat_map].
    rewrite app_nil_r.
    destruct (SpiderPages.page_loop c per_page later replies all_repos) as [[fin evs] rest].
    reflexivity.
  - destruct pages as [|page pages]; [discriminate Hlen|].
    destruct Hrp as (r & now & fields & -> & Hs & Hj & Hi & Hne).
    cbn [app SpiderPages.page_loop]. unfold SpiderPages.search_repositories.
    rewrite (make_request_ok _ _ r now _ _ Hs Hj).
    unfold SpiderPages.new_items. cbn [Val.get rbind]. rewrite Hi.
    change (default (VList []) (Some (VList items))) with (VList items).
    cbn [Val.iter]. destruct items as [|item items]; [congruence|]. cbv beta iota.
    rewrite IH by (cbn [length] in Hlen; lia).
    cbn [concat]. rewrite <- app_assoc.
    destruct (SpiderPages.page_loop c per_page later replies
                (all_repos ++ (item :: items) ++ concat itemss)) as [[fin evs] rest].
    reflexivity.
Qed.

(** X19: [get_repositories_by_page_range] returns the items of the pages it
    got, in order. When every page of the range has items, it asks for each
    page once and pauses a second after each, the last included. When an
    earlier page is empty, or the request for it ends with [None] (the
    1000-results limit, an error status, a failed connection), the loop stops
    there without a pause, the items of the pages before it are returned, and
    the later pages are not asked for. *)
Theorem pages_collected (c : SpiderPages.criteria) (start_page end_page per_page : Z)
    (goods replies : list Spider.reply) (itemss : list (list value)) :
  let pages := SpiderPages.range start_page (end_page + 1) in
  let trace :=
    flat_map (fun page =>
                [Spider.Get "https://api.github.com/search/repositories"
                   (SpiderPages.search_params c page per_page);
                 Spider.Sleep 1]) in
  Forall2 SpiderPages.item_page goods itemss ->
  (length goods = length pages ->
   SpiderPages.get_repositories_by_page_range c start_page end_page per_page
     (goods ++ replies)
   = (SpiderPages.Collected (concat itemss), trace pages, replies))
  /\ (forall stop,
      (length goods < length pages)%nat ->
      SpiderPages.gives_none stop \/ SpiderPages.empty_page stop ->
      exists evs,
        SpiderPages.get_repositories_by_page_range c start_page end_page per_page
          (goods ++ stop :: replies)
        = (SpiderPages.Collected (concat itemss),
           trace (take (length goods) pages) ++ evs, replies)
        /\ List.filter SpiderStatuses.is_sleep evs = []).
Proof.
  intros pages trace H. unfold SpiderPages.get_repositories_by_page_range.
  change (SpiderPages.range start_page (end_page + 1)) with pages. clearbody pages.
  split.
  - intros Hlen.
    pose proof (page_loop_items c per_page goods itemss H pages [] replies []
                  (eq_sym Hlen)) as E.
    rewrite app_nil_r in E. rewrite E.
    cbn [SpiderPages.page_loop app]. rewrite app_nil_r. reflexivity.
  - intros stop Hlen Hstop.
    pose proof (take_drop (length goods) pages) as Hp.
    destruct (drop (length goods) pages) as [|page later] eqn:Ed.
    { apply (f_equal (@length Z)) in Ed. rewrite length_drop in Ed. cbn in Ed. lia. }
    assert (Hpre : length (take (length goods) pages) = length goods)
      by (rewrite length_take; lia).
    remember (take (length goods) pages) as pre eqn:Epre. clear Epre Ed.
    subst pages.
    rewrite (page_loop_items c per_page goods itemss H) by exact Hpre.
    cbn [app SpiderPages.page_loop]. unfold SpiderPages.search_repositories.
    destruct Hstop as [Hnone|(r & now & fields & -> & Hs & Hj & Hi)].
    + destruct (make_request_gives_none "search/repositories"
                  (SpiderPages.search_params c page per_page) stop replies Hnone)
        as (evs & E & Hevs).
      rewrite E. exists evs. split; [reflexivity | exact Hevs].
    + rewrite (make_request_ok _ _ r now _ _ Hs Hj).
      unfold SpiderPages.new_items. cbn [Val.get rbind]. rewrite Hi.
      cbn [Val.iter]. eexists. split; reflexivity.
Qed.

Lemma pages_collected_witness :
  Forall2 SpiderPages.item_page
    [SpiderPages.page_reply [SpiderPages.repo_a];
     SpiderPages.page_reply [SpiderPages.repo_b]]
    [[SpiderPages.repo_a]; [SpiderPages.repo_b]]
  /\ exists evs,
       SpiderPages.get_repositories_by_page_range SpiderPages.main_criteria 1 3 100
         [SpiderPages.page_reply [SpiderPages.repo_a];
          SpiderPages.page_reply [SpiderPages.repo_b];
          Spider.window_reply;
          SpiderPages.page_reply [SpiderPages.repo_c]]
       = (SpiderPages.Collected [SpiderPages.repo_a; SpiderPages.repo_b],
          evs, [SpiderPages.page_reply [SpiderPages.repo_c]]).
Proof.
  assert (P : forall items, items <> [] ->
            SpiderPages.item_page (SpiderPages.page_reply items) items).
  { intros items Hne. eexists _, _, _. split; [reflexivity|].
    split; [reflexivity|]. split; [reflexivity|]. split; [reflexivity | exact Hne]. }
  assert (H : Forall2 SpiderPages.item_page
                [SpiderPages.page_reply [SpiderPages.repo_a];
                 SpiderPages.page_reply [SpiderPages.repo_b]]
                [[SpiderPages.repo_a]; [SpiderPages.repo_b]]).
  { repeat constructor; apply P; discriminate. }
  split; [exact H|].
  destruct (pages_collected SpiderPages.main_criteria 1 3 100
              [SpiderPages.page_reply [SpiderPages.repo_a];
               SpiderPages.page_reply [SpiderPages.repo_b]]
              [SpiderPages.page_reply [SpiderPages.repo_c]]
              [[SpiderPages.repo_a]; [SpiderPages.repo_b]] H) as [_ G].
  destruct (G Spider.window_reply) as (evs & E & _).
  - vm_compute. lia.
  - left. left. reflexivity.
  - eexists. exact E.
Defined.

Lemma extract_cleanable (repo : value) :
  SpiderPages.cleanable repo ->
  exists row,
    SpiderPages.extract_repository_data repo = Ok row
    /\ map fst row = SpiderPages.fieldnames.
Proof.
  intros (fields & -> & Hl). unfold SpiderPages.extract_repository_data.
  cbn [Val.get rbind].
  destruct (Val.truthy (default VNone (Val.lookup "license" fields))) eqn:Et.
  - destruct (Hl eq_refl) as [l El]. rewrite El.
    change (default (VDict []) (Some (VDict l))) with (VDict l).
    cbn [Val.get rbind]. eexists. split; reflexivity.
  - cbn [rbind]. eexists. split; reflexivity.
Qed.

Lemma extract_not_cleanable (repo : value) :
  ~ SpiderPages.cleanable repo ->
  SpiderPages.extract_repository_data repo = Raise AttributeError.
Proof.
  intros Hn. destruct repo as [| | | | |fields]; try reflexivity.
  unfold SpiderPages.extract_repository_data. cbn [Val.get rbind].
  destruct (Val.truthy (default VNone (Val.lookup "license" fields))) eqn:Et.
  - destruct (Val.lookup "license" fields) as [v|] eqn:El; [|discriminate Et].
    destruct v; try reflexivity.
    exfalso. apply Hn. exists fields. split; [reflexivity|].
    intros _. rewrite El. eauto.
  - exfalso. apply Hn. exists fields. split; [reflexivity|].
    rewrite Et. discriminate.
Qed.

Lemma clean_all (repos : list value) :
  Forall SpiderPages.cleanable repos ->
  exists rows,
    Val.map_result SpiderPages.extract_repository_data repos = Ok rows
    /\ Forall2 (fun repo row =>
                  SpiderPages.extract_repository_data repo = Ok row
                  /\ map fst row = SpiderPages.fieldnames) repos rows.
Proof.
  induction 1 as [|repo repos Hr _ IH].
  - exists []. split; [reflexivity | constructor].
  - destruct (extract_cleanable repo Hr) as (row & Er & Hf).
    destruct IH as (rows & Ers & H2).
    exists (row :: rows). cbn [Val.map_result]. rewrite Er. cbn [rbind].
    rewrite Ers. cbn [rbind]. split; [reflexivity|]. constructor; [split|]; assumption.
Qed.

Lemma save_unclean (repos : list value) (repo : value) (filename : string)
    (d : SpiderPages.disk) :
  In repo repos -> ~ SpiderPages.cleanable repo ->
  SpiderPages.save_to_csv repos filename d = Raise AttributeError.
Proof.
  intros Hin Hn. unfold SpiderPages.save_to_csv.
  destruct repos as [|r0 rest] eqn:E; [destruct Hin|]. rewrite <- E in *. clear E r0 rest.
  assert (G : Val.map_result SpiderPages.extract_repository_data repos
              = Raise AttributeError).
  { induction repos as [|r repos IH]; [destruct Hin|].
    cbn [Val.map_result].
    destruct (SpiderPages.extract_repository_data r) as [row|e] eqn:Er.
    - cbn [rbind]. destruct Hin as [->|Hin].
      + rewrite (extract_not_cleanable _ Hn) in Er. discriminate Er.
      + rewrite (IH Hin). reflexivity.
    - cbn [rbind]. f_equal.
      destruct r as [| | | | |fields]; try (cbn in Er; congruence).
      revert Er. unfold SpiderPages.extract_repository_data. cbn [Val.get rbind].
      destruct (Val.truthy (default VNone (Val.lookup "license" fields)));
        [|discriminate].
      destruct (default (VDict []) (Val.lookup "license" fields));
        cbn [Val.get rbind]; congruence. }
  rewrite G. reflexivity.
Qed.

(** X20: when the page loop has collected repositories that
    [extract_repository_data] can all clean and the output file can be
    opened, [main] returns after writing that file and no other: its header
    is the fourteen field names, and it has one row per collected repository,
    in order, which is the repository's cleaned record. *)
Theorem main_saves_collected (replies : list Spider.reply) (d : SpiderPages.disk)
    (repos : list value) :
  fst (fst (SpiderPages.get_repositories_by_page_range
              SpiderPages.main_criteria 1 3 100 replies))
    = SpiderPages.Collected repos ->
  repos <> [] ->
  Forall SpiderPages.cleanable repos ->
  SpiderPages.can_open d SpiderPages.main_file = true ->
  exists rows,
    SpiderPages.main replies d
    = (SpiderPages.Returns,
       SpiderPages.write d SpiderPages.main_file
         {| SpiderPages.header := SpiderPages.fieldnames; SpiderPages.body := rows |})
    /\ Forall2 (fun repo row =>
                  SpiderPages.extract_repository_data repo = Ok row
                  /\ map fst row = SpiderPages.fieldnames) repos rows.
Proof.
  intros Hloop Hne Hall Hopen. unfold SpiderPages.main. rewrite Hloop.
  destruct (clean_all repos Hall) as (rows & Er & H2).
  exists rows. split; [|exact H2].
  unfold SpiderPages.save_to_csv. rewrite Er, Hopen. cbn [rbind].
  destruct repos as [|repo repos]; [congruence|].
  inversion H2 as [|? row ? rows' [_ Hf] _]; subst. rewrite Hf. reflexivity.
Qed.

Lemma main_saves_collected_witness :
  exists rows,
    SpiderPages.main
      [SpiderPages.page_reply [SpiderPages.repo_a];
       SpiderPages.page_reply [SpiderPages.repo_b];
       Spider.window_reply] SpiderPages.fresh_disk
    = (SpiderPages.Returns,
       SpiderPages.write SpiderPages.fresh_disk SpiderPages.main_file
         {| SpiderPages.header := SpiderPages.fieldnames; SpiderPages.body := rows |})
    /\ Forall2 (fun repo row =>
                  SpiderPages.extract_repository_data repo = Ok row
                  /\ map fst row = SpiderPages.fieldnames)
         [SpiderPages.repo_a; SpiderPages.repo_b] rows.
Proof.
  apply (main_saves_collected _ SpiderPages.fresh_disk
           [SpiderPages.repo_a; SpiderPages.repo_b]).
  - reflexivity.
  - discriminate.
  - repeat apply List.Forall_cons; try apply List.Forall_nil.
    + eexists. split; [reflexivity|]. intros _. eexists. reflexivity.
    + eexists. split; [reflexivity|]. cbn. discriminate.
  - reflexivity.
Defined.

(** X21: when one of the collected repositories cannot be cleaned (it is not
    an object, or its licence is something true that is not an object),
    [save_to_csv] raises before it opens the file, the handler of [main]
    calls it again on the same list for the partial file, and the same
    [AttributeError] leaves the script: no file is written and nothing of
    what was collected is saved. *)
Theorem fallback_cannot_rescue (replies : list Spider.reply) (d : SpiderPages.disk)
    (repos : list value) (repo : value) :
  fst (fst (SpiderPages.get_repositories_by_page_range
              SpiderPages.main_criteria 1 3 100 replies))
    = SpiderPages.Collected repos ->
  In repo repos ->
  ~ SpiderPages.cleanable repo ->
  SpiderPages.main replies d = (SpiderPages.Raises AttributeError, d).
Proof.
  intros Hloop Hin Hn. unfold SpiderPages.main. rewrite Hloop.
  rewrite !(save_unclean repos repo _ d Hin Hn).
  destruct repos; [destruct Hin | reflexivity].
Qed.

Lemma fallback_cannot_rescue_witness :
  SpiderPages.main
    [SpiderPages.page_reply [SpiderPages.repo_a; SpiderPages.repo_c];
     Spider.window_reply] SpiderPages.fresh_disk
  = (SpiderPages.Raises AttributeError, SpiderPages.fresh_disk).
Proof.
  apply (fallback_cannot_rescue _ SpiderPages.fresh_disk
           [SpiderPages.repo_a; SpiderPages.repo_c] SpiderPages.repo_c).
  - reflexivity.
  - right. left. reflexivity.
  - intros (fields & E & H). injection E as <-.
    destruct (H eq_refl) as [l Hl]. discriminate Hl.
Defined.

(** X22: an answer with status 200 whose JSON is neither an object nor
    [null], met before the page range is done, makes
    [get_repositories_by_page_range] raise [AttributeError]; [main] then
    returns without writing any file, and the items of the pages collected
    before are lost. A [null] instead is taken for the [None] of a failed
    request: the loop stops and the items collected before are returned. *)
Theorem odd_answer_loses_pages (goods replies : list Spider.reply)
    (itemss : list (list value)) (stop : Spider.reply) (d : SpiderPages.disk) :
  Forall2 SpiderPages.item_page goods itemss ->
  (length goods < 3)%nat ->
  (SpiderPages.odd_page stop ->
   fst (fst (SpiderPages.get_repositories_by_page_range
               SpiderPages.main_criteria 1 3 100 (goods ++ stop :: replies)))
     = SpiderPages.Crashed AttributeError
   /\ SpiderPages.main (goods ++ stop :: replies) d = (SpiderPages.Returns, d))
  /\ (SpiderPages.null_page stop ->
      fst (fst (SpiderPages.get_repositories_by_page_range
                  SpiderPages.main_criteria 1 3 100 (goods ++ stop :: replies)))
        = SpiderPages.Collected (concat itemss)).
Proof.
  intros H Hlen.
  assert (P : exists pre page later,
            SpiderPages.range 1 (3 + 1) = pre ++ page :: later
            /\ length pre = length goods).
  { change (SpiderPages.range 1 (3 + 1)) with [1; 2; 3].
    destruct goods as [|g1 [|g2 [|g3 goods]]]; cbn [length] in *.
    - exists [], 1, [2; 3]. split; reflexivity.
    - exists [1], 2, [3]. split; reflexivity.
    - exists [1; 2], 3, []. split; reflexivity.
    - lia. }
  destruct P as (pre & page & later & Hr & Hpre).
  split.
  - intros (r & now & v & -> & Hs & Hj & Hnn & Hv).
    assert (G : fst (fst (SpiderPages.get_repositories_by_page_range
                            SpiderPages.main_criteria 1 3 100
                            (goods ++ Spider.Responds r now :: replies)))
                = SpiderPages.Crashed AttributeError).
    { unfold SpiderPages.get_repositories_by_page_range. rewrite Hr.
      rewrite (page_loop_items _ _ goods itemss H) by exact Hpre.
      cbn [app SpiderPages.page_loop]. unfold SpiderPages.search_repositories.
      rewrite (make_request_ok _ _ r now _ _ Hs Hj).
      destruct v as [|b|q|s|items|fields]; try reflexivity.
      - exfalso. apply Hnn. reflexivity.
      - exfalso. apply (Hv fields). reflexivity. }
    split; [exact G|]. unfold SpiderPages.main. rewrite G. reflexivity.
  - intros (r & now & -> & Hs & Hj).
    unfold SpiderPages.get_repositories_by_page_range. rewrite Hr.
    rewrite (page_loop_items _ _ goods itemss H) by exact Hpre.
    cbn [app SpiderPages.page_loop]. unfold SpiderPages.search_repositories.
    rewrite (make_request_ok _ _ r now _ _ Hs Hj). reflexivity.
Qed.

Lemma odd_answer_loses_pages_witness :
  SpiderPages.main
    [SpiderPages.page_reply [SpiderPages.repo_a]; Spider.ok_reply (VList [])]
    SpiderPages.fresh_disk
  = (SpiderPages.Returns, SpiderPages.fresh_disk)
  /\ fst (fst (SpiderPages.get_repositories_by_page_range
                 SpiderPages.main_criteria 1 3 100
                 [SpiderPages.page_reply [SpiderPages.repo_a]; Spider.ok_reply VNone]))
     = SpiderPages.Collected [SpiderPages.repo_a].
Proof.
  assert (H : Forall2 SpiderPages.item_page
                [SpiderPages.page_reply [SpiderPages.repo_a]] [[SpiderPages.repo_a]]).
  { repeat constructor. eexists _, _, _. split; [reflexivity|].
    split; [reflexivity|]. split; [reflexivity|]. split; [reflexivity | discriminate]. }
  assert (L : (length [SpiderPages.page_reply [SpiderPages.repo_a]] < 3)%nat)
    by (cbn; lia).
  split.
  - destruct (odd_answer_loses_pages [SpiderPages.page_reply [SpiderPages.repo_a]] []
                [[SpiderPages.repo_a]] (Spider.ok_reply (VList []))
                SpiderPages.fresh_disk H L) as [O _].
    apply O. eexists _, _, _. split; [reflexivity|]. split; [reflexivity|].
    split; [reflexivity|]. split; discriminate.
  - destruct (odd_answer_loses_pages [SpiderPages.page_reply [SpiderPages.repo_a]] []
                [[SpiderPages.repo_a]] (Spider.ok_reply VNone)
                SpiderPages.fresh_disk H L) as [_ N].
    apply N. eexists _, _. split; [reflexivity|]. split; reflexivity.
Defined.

(** ** The topics cell: written by the spider, counted by the filter *)

Example repr_str_samples :
  map PyRepr.repr_str ["web"; "it's"; "c++"; "a,b"; ""]
  = [String "039" ("web" +:+ String "039" "");
     String "034" ("it's" +:+ String "034" "");
     String "039" ("c++" +:+ String "039" "");
     String "039" ("a,b" +:+ String "039" "");
     String "039" (String "039" "")].
Proof. vm_compute. reflexivity. Qed.

Example repr_str_escapes :
  PyRepr.repr_str (String "009" (String "010" (String "092" (String "127" (String "233" "")))))
  = String "039" (String "092" ("t" +:+ String "092" ("n" +:+ String "092" (String "092"
      (String "092" ("x7f" +:+ String "233" (String "039" ""))))))).
Proof. vm_compute. reflexivity. Qed.

Lemma topic_char_repr (c : ascii) :
  PyRepr.topic_char c = true ->
  PyRepr.repr_char PyRepr.single_quote c = String c EmptyString
  /\ Ascii.eqb PyRepr.single_quote c = false
  /\ Ascii.eqb PyRepr.double_quote c = false
  /\ Ascii.eqb c "," = false
  /\ Py.is_space c = false.
Proof.
  destruct c as [[] [] [] [] [] [] [] []]; vm_compute; intros H;
    first [discriminate H | repeat split].
Qed.

Lemma repr_chars_topic (t : string) :
  Rq2.all_chars PyRepr.topic_char t = true ->
  PyRepr.repr_chars PyRepr.single_quote t = t.
Proof.
  induction t as [|c t IH]; [reflexivity|].
  cbn [Rq2.all_chars PyRepr.repr_chars]. intros H.
  apply andb_true_iff in H as [Hc H].
  destruct (topic_char_repr c Hc) as (-> & _). rewrite (IH H). reflexivity.
Qed.

Lemma topic_repr (t : string) :
  PyRepr.topic t -> PyRepr.repr_str t = PyRepr.quoted t.
Proof.
  intros [_ H]. unfold PyRepr.repr_str, PyRepr.quoted.
  assert (Q : Py.mem_char PyRepr.single_quote t = false).
  { apply (all_chars_mem PyRepr.topic_char); [exact H | reflexivity]. }
  rewrite Q. cbn [andb]. rewrite (repr_chars_topic t H). reflexivity.
Qed.

Lemma remove_char_app (c : ascii) (a b : string) :
  Py.remove_char c (a +:+ b) = Py.remove_char c a +:+ Py.remove_char c b.
Proof.
  induction a as [|d a IH]; [rewrite !app_empty_l; reflexivity|].
  rewrite app_cons. cbn [Py.remove_char]. rewrite IH.
  destruct (Ascii.eqb c d); [reflexivity | rewrite app_cons; reflexivity].
Qed.

Lemma remove_char_none (c : ascii) (s : string) :
  Py.mem_char c s = false -> Py.remove_char c s = s.
Proof.
  induction s as [|d s IH]; [reflexivity|].
  cbn. intros H. apply orb_false_iff in H as [Hd H]. rewrite Hd, (IH H). reflexivity.
Qed.

Lemma rstrip_drop_last (f : ascii -> bool) (a : string) (c : ascii) :
  f c = true -> Py.rstrip_by f (a +:+ String c "") = Py.rstrip_by f a.
Proof.
  intros Hc. induction a as [|d a IH].
  - rewrite app_empty_l. cbn. rewrite Hc. reflexivity.
  - rewrite app_cons. cbn [Py.rstrip_by]. rewrite IH. reflexivity.
Qed.

Lemma topic_no_char (t : string) (c : ascii) :
  PyRepr.topic t -> PyRepr.topic_char c = false -> Py.mem_char c t = false.
Proof. intros [_ H] Hc. apply (all_chars_mem PyRepr.topic_char); assumption. Qed.

Lemma topic_strip (t : string) : PyRepr.topic t -> Py.strip t = t.
Proof.
  intros [_ H]. apply strip_by_none.
  apply (all_chars_impl PyRepr.topic_char); [|exact H].
  intros c Hc. destruct (topic_char_repr c Hc) as (_ & _ & _ & _ & ->). reflexivity.
Qed.

Lemma unquote_join (topics : list string) :
  Forall PyRepr.topic topics ->
  Py.remove_char PyRepr.double_quote
    (Py.remove_char PyRepr.single_quote (Py.join ", " (map PyRepr.quoted topics)))
  = Py.join ", " topics.
Proof.
  assert (Q : forall t, PyRepr.topic t ->
            Py.remove_char PyRepr.double_quote
              (Py.remove_char PyRepr.single_quote (PyRepr.quoted t)) = t).
  { intros t Ht. unfold PyRepr.quoted. cbn [Py.remove_char].
    rewrite Ascii.eqb_refl, remove_char_app. cbn [Py.remove_char].
    rewrite Ascii.eqb_refl, app_empty_r.
    rewrite (remove_char_none PyRepr.single_quote t)
      by (apply topic_no_char; [exact Ht | reflexivity]).
    apply remove_char_none, topic_no_char; [exact Ht | reflexivity]. }
  induction 1 as [|t topics Ht Hts IH]; [reflexivity|].
  destruct topics as [|q topics]; [apply Q, Ht|].
  cbn [map]. rewrite !join_cons, !remove_char_app.
  change (map PyRepr.quoted (q :: topics)) with (PyRepr.quoted q :: map PyRepr.quoted topics) in IH.
  rewrite IH, (Q t Ht). reflexivity.
Qed.

Lemma split_join_comma (t : string) (topics : list string) :
  Forall PyRepr.topic (t :: topics) ->
  Py.split_on "," (Py.join ", " (t :: topics)) = t :: map (String " ") topics.
Proof.
  revert t. induction topics as [|q topics IH]; intros t H.
  - cbn [Py.join map]. apply split_on_no_sep.
    apply topic_no_char; [apply (Forall_inv H) | reflexivity].
  - rewrite join_cons.
    change (t +:+ ", " +:+ Py.join ", " (q :: topics))
      with (t +:+ String "," (String " " (Py.join ", " (q :: topics)))).
    rewrite split_on_app_sep
      by (apply topic_no_char; [apply (Forall_inv H) | reflexivity]).
    cbn [Py.split_on]. change (Ascii.eqb " " ",") with false. cbv iota.
    rewrite IH by (apply Forall_inv_tail in H; exact H). reflexivity.
Qed.

Lemma topics_not_blank (t : string) (topics : list string) :
  Forall PyRepr.topic (t :: topics) ->
  List.filter (fun s => negb (Py.is_empty (Py.strip s))) (t :: map (String " ") topics)
  = t :: map (String " ") topics.
Proof.
  intros H. apply Forall_cons in H as [Ht H].
  cbn [List.filter]. rewrite (topic_strip t Ht), (proj1 Ht). cbn [negb]. f_equal.
  induction H as [|q topics Hq _ IH]; [reflexivity|].
  cbn [map List.filter].
  change (Py.strip (String " " q)) with (Py.strip q).
  rewrite (topic_strip q Hq), (proj1 Hq). cbn [negb]. rewrite IH. reflexivity.
Qed.

Lemma strip_list_text (topics : list string) :
  Forall PyRepr.topic topics ->
  Py.strip_chars "[]" (PyRepr.str_of_list topics)
  = Py.join ", " (map PyRepr.quoted topics).
Proof.
  intros H. unfold PyRepr.str_of_list.
  rewrite (map_ext_in _ PyRepr.quoted).
  2:{ intros t Ht. apply topic_repr. rewrite List.Forall_forall in H. apply H, Ht. }
  destruct topics as [|t topics] using rev_ind; [reflexivity|]. clear IHtopics.
  rewrite map_app. cbn [map].
  destruct (rstrip_join (fun c => Py.mem_char c "[]") ", " (map PyRepr.quoted topics)
              (PyRepr.quoted t)) as [Hne Hr].
  { reflexivity. }
  { unfold PyRepr.quoted. rewrite <- app_cons.
    apply rstrip_app; reflexivity. }
  set (body := Py.join ", " (map PyRepr.quoted topics ++ [PyRepr.quoted t])) in *.
  unfold Py.strip_chars, Py.strip_by.
  assert (B : exists rest, body = String PyRepr.single_quote rest).
  { unfold body. destruct topics as [|q topics]; [eexists; reflexivity|].
    cbn [map app]. destruct (map PyRepr.quoted topics ++ [PyRepr.quoted t]) eqn:E.
    - destruct topics; discriminate E.
    - rewrite join_cons. eexists. reflexivity. }
  destruct B as [rest B].
  change ("[" +:+ body +:+ "]") with (String "[" (body +:+ "]")).
  cbn [Py.lstrip_by Py.mem_char Ascii.eqb Bool.eqb orb].
  rewrite B at 1. rewrite app_cons.
  cbn [Py.lstrip_by Py.mem_char Ascii.eqb Bool.eqb orb]. rewrite <- app_cons, <- B.
  change ((PyRepr.single_quote =? "[")%char || ((PyRepr.single_quote =? "]")%char || false))
    with false. cbv iota.
  rewrite rstrip_drop_last by reflexivity. exact Hr.
Qed.

(** X23: the topics cell survives the two scripts: for a list of topics
    (lower-case letters, digits and hyphens, as GitHub allows), the cell
    that [csv] writes for the list, which is its [str], is counted by
    [filter_repositories] as the number of topics in the list. *)
Theorem topics_cell_counted (repo : gmap string value) (topics : list string) :
  repo !! "topics" = Some (VStr (PyRepr.str_of_list topics)) ->
  Forall PyRepr.topic topics ->
  CsvFilter.topic_count repo = Z.of_nat (length topics).
Proof.
  intros Hrepo H. unfold CsvFilter.topic_count. rewrite Hrepo.
  change (default (VStr "[]") (Some (VStr (PyRepr.str_of_list topics))))
    with (VStr (PyRepr.str_of_list topics)). cbv iota.
  rewrite (strip_list_text topics H).
  change CsvFilter.single_quote with PyRepr.single_quote.
  change CsvFilter.double_quote with PyRepr.double_quote.
  rewrite (unquote_join topics H).
  destruct topics as [|t topics]; [reflexivity|].
  rewrite (split_join_comma t topics H), (topics_not_blank t topics H).
  cbn [length]. rewrite length_map. reflexivity.
Qed.

Lemma topics_cell_counted_witness :
  Forall PyRepr.topic ["web"; "rest-api"; "es6"]
  /\ CsvFilter.topic_count
       {[ "full_name" := VStr "a/b";
          "topics" := VStr (PyRepr.str_of_list ["web"; "rest-api"; "es6"]) ]} = 3.
Proof.
  assert (H : Forall PyRepr.topic ["web"; "rest-api"; "es6"]).
  { repeat apply List.Forall_cons; try apply List.Forall_nil; split; reflexivity. }
  split; [exact H|].
  apply (topics_cell_counted _ ["web"; "rest-api"; "es6"]); [reflexivity | exact H].
Defined.

(** ** URLs of repositories *)

Lemma rstrip_by_none (f : ascii -> bool) (s : string) :
  Rq2.all_chars (fun c => negb (f c)) s = true -> Py.rstrip_by f s = s.
Proof.
  induction s as [|c s IH]; [reflexivity|].
  cbn. intros H. apply andb_true_iff in H as [Hc H]. apply negb_true_iff in Hc.
  rewrite (IH H). destruct s; [rewrite Hc|]; reflexivity.
Qed.

Lemma break_at_none (f : ascii -> bool) (s : string) :
  Rq2.all_chars (fun c => negb (f c)) s = true ->
  Url.break_at f s = (s, EmptyString).
Proof.
  induction s as [|c s IH]; [reflexivity|].
  cbn. intros H. apply andb_true_iff in H as [Hc H]. apply negb_true_iff in Hc.
  rewrite Hc, (IH H). reflexivity.
Qed.

Lemma all_chars_app (f : ascii -> bool) (a b : string) :
  Rq2.all_chars f (a +:+ b) = Rq2.all_chars f a && Rq2.all_chars f b.
Proof.
  induction a as [|c a IH]; [rewrite app_empty_l; reflexivity|].
  rewrite app_cons. cbn. rewrite IH, andb_assoc. reflexivity.
Qed.

Lemma name_char_facts (c : ascii) :
  GithubUrls.name_char c = true ->
  Py.is_space c = false
  /\ (Py.code c <=? 32)%N = false
  /\ Py.mem_char c "/?#;[]:" = false
  /\ Ascii.eqb "009" c = false /\ Ascii.eqb "010" c = false /\ Ascii.eqb "013" c = false.
Proof.
  destruct c as [[] [] [] [] [] [] [] []]; vm_compute; intros H;
    first [discriminate H | repeat split].
Qed.

(** The path of a canonical URL: what follows the host. *)
Lemma path_chars (f : ascii -> bool) (owner repo : string) :
  GithubUrls.name owner -> GithubUrls.name repo ->
  f "/"%char = false ->
  (forall c, GithubUrls.name_char c = true -> f c = false) ->
  Rq2.all_chars (fun c => negb (f c)) ("/" +:+ owner +:+ "/" +:+ repo) = true.
Proof.
  intros [_ Ho] [_ Hr] Hs Hf.
  assert (N : forall s, Rq2.all_chars GithubUrls.name_char s = true ->
              Rq2.all_chars (fun c => negb (f c)) s = true).
  { intros s. apply all_chars_impl. intros c Hc. rewrite (Hf c Hc). reflexivity. }
  change ("/" +:+ owner +:+ "/" +:+ repo) with (String "/" (owner +:+ String "/" repo)).
  cbn [Rq2.all_chars]. rewrite Hs, all_chars_app. cbn [Rq2.all_chars negb andb].
  rewrite Hs, (N owner Ho), (N repo Hr). reflexivity.
Qed.

Lemma urlparse_canonical (owner repo : string) :
  GithubUrls.name owner -> GithubUrls.name repo ->
  Url.urlparse (GithubUrls.canonical owner repo)
  = Ok {| Url.scheme := "https"; Url.netloc := "github.com";
          Url.path := "/" +:+ owner +:+ "/" +:+ repo;
          Url.params := ""; Url.query := ""; Url.fragment := "" |}.
Proof.
  intros Ho Hr.
  assert (P : forall f, f "/"%char = false ->
            (forall c, GithubUrls.name_char c = true -> f c = false) ->
            Rq2.all_chars (fun c => negb (f c)) ("/" +:+ owner +:+ "/" +:+ repo) = true).
  { intros f. apply path_chars; assumption. }
  set (pth := "/" +:+ owner +:+ "/" +:+ repo) in *.
  assert (M : forall c, c <> "/"%char ->
            (forall d, GithubUrls.name_char d = true -> Ascii.eqb c d = false) ->
            Py.mem_char c pth = false).
  { intros c Hc Hd. apply (all_chars_mem (fun d => negb (Ascii.eqb c d))).
    - apply (P (fun d => Ascii.eqb c d)); [apply Ascii.eqb_neq, Hc | exact Hd].
    - rewrite Ascii.eqb_refl. reflexivity. }
  unfold Url.urlparse, GithubUrls.canonical.
  change ("https://github.com/" +:+ owner +:+ "/" +:+ repo)
    with ("https://github.com" +:+ pth).
  change (Py.lstrip_by (fun c => (Py.code c <=? 32)%N) ("https://github.com" +:+ pth))
    with ("https://github.com" +:+ pth).
  rewrite !remove_char_app.
  rewrite !(remove_char_none _ pth).
  2:{ apply M; [discriminate|]. intros d Hd. apply name_char_facts, Hd. }
  2:{ apply M; [discriminate|]. intros d Hd. apply name_char_facts, Hd. }
  2:{ apply M; [discriminate|]. intros d Hd. apply name_char_facts, Hd. }
  change (Py.remove_char "009" (Py.remove_char "010"
            (Py.remove_char "013" "https://github.com")))
    with "https://github.com".
  change (Url.break_at (fun c => Ascii.eqb c ":") ("https://github.com" +:+ pth))
    with ("https", String ":" ("//github.com" +:+ pth)).
  cbv iota beta.
  change (Url.is_alpha "h" && Url.all_chars Url.scheme_char "ttps") with true.
  cbv iota beta.
  change (Py.starts_with "//" ("//github.com" +:+ pth)) with true. cbv iota.
  change (Url.tail (Url.tail ("//github.com" +:+ pth))) with ("github.com" +:+ pth).
  change (Url.break_at (fun c => Py.mem_char c "/?#") ("github.com" +:+ pth))
    with ("github.com", pth).
  cbv iota beta.
  change (xorb (Py.contains "[" "github.com") (Py.contains "]" "github.com")) with false.
  cbv iota.
  rewrite (break_at_none (fun c => Ascii.eqb c "#") pth).
  2:{ apply P; [reflexivity|]. intros c Hc.
      destruct (name_char_facts c Hc) as (_ & _ & H & _).
      cbn in H. apply orb_false_iff in H as [_ H]. apply orb_false_iff in H as [_ H].
      apply orb_false_iff in H as [H _]. exact H. }
  cbv iota beta. change (Url.tail "") with "".
  rewrite (break_at_none (fun c => Ascii.eqb c "?") pth).
  2:{ apply P; [reflexivity|]. intros c Hc.
      destruct (name_char_facts c Hc) as (_ & _ & H & _).
      cbn in H. apply orb_false_iff in H as [_ H]. apply orb_false_iff in H as [H _].
      exact H. }
  cbv iota beta. change (Url.tail "") with "".
  rewrite contains_char.
  rewrite (M ";"%char).
  2:{ discriminate. }
  2:{ intros c Hc. destruct (name_char_facts c Hc) as (_ & _ & H & _).
      cbn in H. rewrite Ascii.eqb_sym.
      repeat (apply orb_false_iff in H as [? H]); assumption. }
  rewrite andb_false_r. reflexivity.
Qed.

Lemma name_no_char (s : string) (c : ascii) :
  GithubUrls.name s -> GithubUrls.name_char c = false -> Py.mem_char c s = false.
Proof. intros [_ H] Hc. apply (all_chars_mem GithubUrls.name_char); assumption. Qed.

Lemma name_rstrip (f : ascii -> bool) (s : string) :
  GithubUrls.name s ->
  (forall c, GithubUrls.name_char c = true -> f c = false) ->
  Py.rstrip_by f s = s.
Proof.
  intros [_ H] Hf. apply rstrip_by_none.
  apply (all_chars_impl GithubUrls.name_char); [|exact H].
  intros c Hc. rewrite (Hf c Hc). reflexivity.
Qed.

Lemma name_starts (s : string) :
  GithubUrls.name s ->
  exists c s', s = String c s' /\ GithubUrls.name_char c = true.
Proof.
  intros [Hne H]. destruct s as [|c s']; [discriminate Hne|].
  cbn in H. apply andb_true_iff in H as [Hc _]. eauto.
Qed.

Lemma slash_not_name (c : ascii) :
  GithubUrls.name_char c = true -> Py.mem_char c "/" = false.
Proof.
  intros Hc. destruct (name_char_facts c Hc) as (_ & _ & H & _).
  cbn in H. apply orb_false_iff in H as [H _]. cbn. rewrite H. reflexivity.
Qed.

(** [parse_github_url] of [get_contributors.py] on a canonical URL. *)
Lemma parse_github_url_canonical (owner repo : string) :
  GithubUrls.name owner -> GithubUrls.name repo ->
  Contributors.parse_github_url (GithubUrls.canonical owner repo)
  = Ok (Some owner, Some repo).
Proof.
  intros Ho Hr. unfold Contributors.parse_github_url.
  rewrite (urlparse_canonical owner repo Ho Hr). cbn [rbind Url.path Url.netloc].
  assert (S : Py.strip_chars "/" ("/" +:+ owner +:+ "/" +:+ repo)
              = owner +:+ String "/" repo).
  { unfold Py.strip_chars, Py.strip_by.
    destruct (name_starts owner Ho) as (c & o' & -> & Hc).
    change ("/" +:+ String c o' +:+ "/" +:+ repo)
      with (String "/" (String c (o' +:+ String "/" repo))).
    cbn [Py.lstrip_by]. change (Py.mem_char "/" "/") with true. cbv iota.
    rewrite (slash_not_name c Hc).
    change (String c (o' +:+ String "/" repo))
      with (String c o' +:+ String "/" repo).
    apply rstrip_app; [reflexivity|].
    cbn [Py.rstrip_by]. rewrite (name_rstrip _ repo Hr slash_not_name).
    destruct repo; [destruct Hr as [Hr _]; discriminate Hr | reflexivity]. }
  rewrite S.
  rewrite split_on_app_sep by (apply name_no_char; [exact Ho | reflexivity]).
  rewrite split_on_no_sep by (apply name_no_char; [exact Hr | reflexivity]).
  reflexivity.
Qed.

Lemma canonical_strip (owner repo : string) :
  GithubUrls.name owner -> GithubUrls.name repo ->
  Py.strip (GithubUrls.canonical owner repo) = GithubUrls.canonical owner repo.
Proof.
  intros Ho Hr. unfold Py.strip, Py.strip_by, GithubUrls.canonical.
  change (Py.lstrip_by Py.is_space ("https://github.com/" +:+ owner +:+ "/" +:+ repo))
    with ("https://github.com/" +:+ owner +:+ "/" +:+ repo).
  rewrite <- !app_assoc_str. apply rstrip_app; [apply Hr|].
  apply name_rstrip; [exact Hr|]. intros c Hc. apply name_char_facts, Hc.
Qed.

Lemma process_row_canonical (net : Contributors.network) (url_column : string)
    (fields : list string) (row : gmap string value) (owner repo : string) :
  GithubUrls.name owner -> GithubUrls.name repo ->
  row !! url_column = Some (VStr (GithubUrls.canonical owner repo)) ->
  Contributors.process_row net url_column fields row
    = Ok (<["contributors_count" :=
              Contributors.get_repo_contributors_count_graphql net owner repo]>
            (Contributors.project_row
               (Contributors.required_columns url_column) fields row)).
Proof.
  intros Ho Hr Hrow.
  apply (process_row_github net url_column fields row
           (GithubUrls.canonical owner repo) owner repo Hrow).
  - rewrite (canonical_strip owner repo Ho Hr). reflexivity.
  - rewrite (canonical_strip owner repo Ho Hr).
    apply parse_github_url_canonical; assumption.
  - rewrite (proj1 Ho), (proj1 Hr). reflexivity.
Qed.

(** X24: when the URL cell of every row is the canonical URL of a repository,
    [https://github.com/<owner>/<repo>] with names made of letters, digits,
    hyphens, underscores and dots, [process_csv_with_specific_columns]
    returns one row per input row, in order, whose contributors count is the
    one fetched for that very owner and repository. *)
Theorem canonical_urls_counted (net : Contributors.network) (url_column : string)
    (fields : list string) (rows : list (gmap string value))
    (repos : list (string * string)) :
  Forall GithubUrls.names repos ->
  Forall2 (fun r row =>
             row !! url_column = Some (VStr (GithubUrls.canonical (fst r) (snd r))))
    repos rows ->
  exists out,
    Contributors.process_csv_with_specific_columns
      (ContributorsPages.rows_file fields rows) net url_column
    = (out, [url_column; "stargazers_count"; "forks_count"; "open_issues_count";
             "contributors_count"])
    /\ Forall2 (fun r o =>
                  o !! "contributors_count"
                  = Some (Contributors.get_repo_contributors_count_graphql
                            net (fst r) (snd r)))
         repos out.
Proof.
  intros Hn H.
  assert (G : exists out,
            Val.map_result (Contributors.process_row net url_column fields) rows = Ok out
            /\ Forall2 (fun r o =>
                          o !! "contributors_count"
                          = Some (Contributors.get_repo_contributors_count_graphql
                                    net (fst r) (snd r))) repos out).
  { induction H as [|r row repos rows Hrow _ IH].
    - exists []. split; [reflexivity | constructor].
    - apply Forall_cons in Hn as [[Ho Hr] Hn].
      destruct (IH Hn) as (out & Eout & Hall).
      eexists (_ :: out). cbn [Val.map_result].
      rewrite (process_row_canonical net url_column fields row _ _ Ho Hr Hrow).
      cbn [rbind]. rewrite Eout. cbn [rbind]. split; [reflexivity|].
      constructor; [apply lookup_insert_eq | exact Hall]. }
  destruct G as (out & Eout & Hall). exists out. split; [|exact Hall].
  unfold Contributors.process_csv_with_specific_columns, ContributorsPages.rows_file.
  cbn [rbind Contributors.fieldnames Contributors.rows]. rewrite Eout. reflexivity.
Qed.

Lemma canonical_urls_counted_witness :
  Forall GithubUrls.names [("facebook", "react"); ("vuejs", "vue.js")]
  /\ exists out,
       Contributors.process_csv_with_specific_columns
         (ContributorsPages.rows_file ["html_url"]
            [ {[ "html_url" := VStr "https://github.com/facebook/react" ]};
              {[ "html_url" := VStr "https://github.com/vuejs/vue.js" ]} ])
         ContributorsPages.three_pages "html_url"
       = (out, ["html_url"; "stargazers_count"; "forks_count"; "open_issues_count";
                "contributors_count"])
       /\ map (fun o => o !! "contributors_count") out
          = [Some (Val.of_int 237); Some (Val.of_int 237)].
Proof.
  assert (H : Forall GithubUrls.names [("facebook", "react"); ("vuejs", "vue.js")]).
  { repeat apply List.Forall_cons; try apply List.Forall_nil; repeat split; reflexivity. }
  split; [exact H|].
  destruct (canonical_urls_counted ContributorsPages.three_pages "html_url" ["html_url"]
              [ {[ "html_url" := VStr "https://github.com/facebook/react" ]};
                {[ "html_url" := VStr "https://github.com/vuejs/vue.js" ]} ]
              [("facebook", "react"); ("vuejs", "vue.js")] H)
    as (out & E & Hall).
  { repeat constructor. }
  exists out. split; [exact E|].
  inversion Hall as [|r1 o1 rs1 os1 H1 Hall1]; subst.
  inversion Hall1 as [|r2 o2 rs2 os2 H2 Hall2]; subst.
  inversion Hall2; subst.
  cbn [map]. rewrite H1, H2. reflexivity.
Defined.

(** ** The failed-projects log of [revert_repos_to_date] *)

Lemma handle_quiet (run : Subprocess.run) (cmd : Revert.command) (e : exn) :
  RevertLog.quiet run -> Subprocess.checked run = Raise e ->
  exists msg, Revert.handle true cmd e = Ok msg.
Proof.
  intros Hq He. destruct e; try (eexists; reflexivity).
  cbn [Revert.handle]. rewrite (Hq _ _ He). eexists. reflexivity.
Qed.

Lemma handle_bytes (cmd : Revert.command) (e : exn) :
  exists msg, Revert.handle false cmd e = Ok msg.
Proof.
  destruct e; try (eexists; reflexivity).
  cbn [Revert.handle]. destruct (negb (Py.is_empty stderr)); eexists; reflexivity.
Qed.

Lemma checked_succeeds (run : Subprocess.run) (out : string) :
  Subprocess.checked run = Ok out -> exists err, run = Subprocess.Completed 0 out err.
Proof.
  destruct run as [rc o err|e]; cbn; [|discriminate].
  destruct (Z.eqb_spec rc 0) as [->|_]; [|discriminate].
  intros [= ->]. eauto.
Qed.

Lemma checked_fails (run : Subprocess.run) (e : exn) :
  Subprocess.checked run = Raise e -> ~ RevertRuns.succeeds run.
Proof. intros H (out & err & ->). discriminate H. Qed.

Lemma process_repo_accounts (git_date_format : string) (r : Revert.repo) :
  RevertLog.no_stderr_text r ->
  snd (Revert.process_repo git_date_format r) = None
  /\ RevertLog.accounts_for r (fst (Revert.process_repo git_date_format r)).
Proof.
  intros [Hq1 Hq2].
  destruct (Subprocess.checked (Revert.rev_list r)) as [out|e] eqn:Erev.
  - destruct (checked_succeeds _ _ Erev) as [err Hrev].
    assert (Hfound : RevertRuns.found_commit r = Py.strip out).
    { unfold RevertRuns.found_commit. destruct r. cbn in Hrev. rewrite Hrev. reflexivity. }
    destruct (Py.is_empty (Py.strip out)) eqn:Eempty.
    + (* no commit *)
      unfold Revert.process_repo.
      destruct (Revert.resolve_default_branch r) as [cmds0 [branch|e]];
        rewrite Erev, Eempty; cbn [fst snd];
        (split; [reflexivity|]); (split; [reflexivity|]);
        cbn [Revert.failure]; (split; [discriminate|]);
        intros (_ & Hne & _); rewrite Hfound in Hne; congruence.
    + rewrite Hfound in Hq2.
      destruct (Subprocess.checked (Revert.show r (Py.strip out))) as [o1|e1] eqn:Eshow.
      * destruct (Subprocess.checked (Revert.reset r (Py.strip out))) as [o2|e2] eqn:Ereset.
        -- (* reverted *)
           destruct (checked_succeeds _ _ Eshow) as [err1 Hshow].
           destruct (checked_succeeds _ _ Ereset) as [err2 Hreset].
           assert (Hclean : RevertRuns.reverts_cleanly r).
           { split; [exists out, err; exact Hrev|].
             split; [rewrite Hfound; exact Eempty|].
             rewrite Hfound.
             split; [exists o1, err1; exact Hshow | exists o2, err2; exact Hreset]. }
           destruct (process_repo_reverted git_date_format r Hclean) as [Hn (Hname & Hf & _)].
           split; [exact Hn|]. split; [exact Hname|]. split; [intros _; exact Hclean|].
           intros _. exact Hf.
        -- (* the reset fails *)
           destruct (handle_bytes (Revert.reset_cmd (Py.strip out)) e2) as [msg Hmsg].
           unfold Revert.process_repo.
           destruct (Revert.resolve_default_branch r) as [cmds0 [branch|e]];
             rewrite Erev, Eempty, Eshow, Ereset; unfold Revert.failing;
             rewrite Hmsg; cbn [fst snd];
             (split; [reflexivity|]); (split; [reflexivity|]);
             cbn [Revert.failure]; (split; [discriminate|]);
             intros (_ & _ & _ & Hs); rewrite Hfound in Hs;
             exfalso; exact (checked_fails _ _ Ereset Hs).
      * (* the show fails *)
        destruct (handle_quiet _ (Revert.show_cmd (Py.strip out)) e1 Hq2 Eshow)
          as [msg Hmsg].
        unfold Revert.process_repo.
        destruct (Revert.resolve_default_branch r) as [cmds0 [branch|e]];
          rewrite Erev, Eempty, Eshow; unfold Revert.failing;
          rewrite Hmsg; cbn [fst snd];
          (split; [reflexivity|]); (split; [reflexivity|]);
          cbn [Revert.failure]; (split; [discriminate|]);
          intros (_ & _ & Hs & _); rewrite Hfound in Hs;
          exfalso; exact (checked_fails _ _ Eshow Hs).
  - (* the rev-list fails *)
    destruct (handle_quiet _ (Revert.rev_list_cmd git_date_format) e Hq1 Erev)
      as [msg Hmsg].
    unfold Revert.process_repo.
    destruct (Revert.resolve_default_branch r) as [cmds0 [branch|e0]];
      rewrite Erev; unfold Revert.failing;
      rewrite Hmsg; cbn [fst snd];
      (split; [reflexivity|]); (split; [reflexivity|]);
      cbn [Revert.failure]; (split; [discriminate|]);
      intros (Hs & _); exfalso; exact (checked_fails _ _ Erev Hs).
Qed.

Lemma revert_loop_accounts (git_date_format : string) (repos : list Revert.repo) :
  Forall RevertLog.no_stderr_text repos ->
  exists reports,
    Revert.revert_loop git_date_format repos = (reports, None)
    /\ Forall2 RevertLog.accounts_for repos reports.
Proof.
  induction 1 as [|r repos Hr _ (reports & Hloop & Hall)].
  - exists []. split; [reflexivity | constructor].
  - destruct (process_repo_accounts git_date_format r Hr) as [Hnone Hrep].
    destruct (Revert.process_repo git_date_format r) as [rep raised] eqn:E.
    cbn [fst snd] in *. subst raised.
    exists (rep :: reports). cbn [Revert.revert_loop]. rewrite E, Hloop.
    split; [reflexivity | constructor; assumption].
Qed.

Lemma failed_projects_none (repos : list Revert.repo) (reports : list Revert.report) :
  Forall2 RevertLog.accounts_for repos reports ->
  Revert.failed_projects reports = [] <-> Forall RevertRuns.reverts_cleanly repos.
Proof.
  unfold Revert.failed_projects.
  induction 1 as [|r rep repos reports [_ Hrep] _ IH].
  - split; [constructor | reflexivity].
  - cbn [omap list_omap]. destruct (Revert.failure rep) as [msg|] eqn:Ef; cbn [fmap option_fmap option_map].
    + split; [discriminate|]. intros Hall. apply Forall_inv in Hall.
      apply Hrep in Hall. discriminate Hall.
    + rewrite IH. split.
      * intros Hall. constructor; [apply Hrep; reflexivity | exact Hall].
      * intros Hall. apply Forall_inv_tail in Hall. exact Hall.
Qed.

(** X25: when no [rev-list] or [show] fails with text on stderr, the run
    gets through every repository and ends normally; each repository is
    recorded as failed unless its [rev-list], [show] and [reset] all
    succeeded on a commit found, and the failed-projects log is written,
    with a header and one line per failed repository, unless all of them were
    reverted. *)
Theorem failed_log_lists_unreverted (git_date_format : string)
    (repos : list Revert.repo) :
  repos <> [] ->
  Forall RevertLog.no_stderr_text repos ->
  exists reports log,
    Revert.revert_repos_to_date true repos git_date_format
      = Revert.Finishes reports log
    /\ Forall2 RevertLog.accounts_for repos reports
    /\ (log = None <-> Forall RevertRuns.reverts_cleanly repos)
    /\ (forall lines, log = Some lines ->
        lines = "Projects that failed to revert:"
                :: map (fun pe => fst pe +:+ ": " +:+ snd pe)
                     (Revert.failed_projects reports)
        /\ (length lines
            = S (length (List.filter
                           (fun rep => bool_decide (is_Some (Revert.failure rep)))
                           reports)))).
Proof.
  intros Hne Hall.
  destruct (revert_loop_accounts git_date_format repos Hall) as (reports & Hloop & H2).
  exists reports. eexists. split; [|split; [exact H2|]].
  - unfold Revert.revert_repos_to_date. cbn [negb].
    destruct repos as [|r0 rest]; [congruence|]. rewrite Hloop. reflexivity.
  - pose proof (failed_projects_none repos reports H2) as Hnone.
    assert (Hlen : length (Revert.failed_projects reports)
                   = length (List.filter
                               (fun rep => bool_decide (is_Some (Revert.failure rep)))
                               reports)).
    { unfold Revert.failed_projects. clear. induction reports as [|rep reports IH];
        [reflexivity|].
      cbn [omap list_omap List.filter].
      destruct (Revert.failure rep) as [msg|]; cbn; rewrite IH; reflexivity. }
    destruct (Revert.failed_projects reports) as [|f failed] eqn:Ef.
    + split; [split; [intros _; apply Hnone; reflexivity | reflexivity]|].
      discriminate.
    + split.
      * split; [discriminate|]. intros Hc. apply Hnone in Hc. discriminate Hc.
      * intros lines [= <-]. split; [reflexivity|].
        unfold Revert.log_lines. cbn [length]. rewrite length_map, <- Hlen. reflexivity.
Qed.

Lemma failed_log_lists_unreverted_witness :
  Forall RevertLog.no_stderr_text
    [Revert.young_repo; Revert.master_repo; RevertLog.stuck_repo]
  /\ exists reports,
       Revert.revert_repos_to_date true
         [Revert.young_repo; Revert.master_repo; RevertLog.stuck_repo] "2019-01-01"
       = Revert.Finishes reports
           (Some ["Projects that failed to revert:";
                  "young: No commits found before target date";
                  "stuck: error: unable to unlink old 'package.json'"])
       /\ Forall2 RevertLog.accounts_for
            [Revert.young_repo; Revert.master_repo; RevertLog.stuck_repo] reports.
Proof.
  assert (Q : forall out err, RevertLog.quiet (Subprocess.Completed 0 out err)).
  { intros out err rc e H. discriminate H. }
  assert (F : Forall RevertLog.no_stderr_text
                [Revert.young_repo; Revert.master_repo; RevertLog.stuck_repo]).
  { repeat apply List.Forall_cons; try apply List.Forall_nil; split; apply Q. }
  split; [exact F|].
  destruct (failed_log_lists_unreverted "2019-01-01"
              [Revert.young_repo; Revert.master_repo; RevertLog.stuck_repo]
              ltac:(discriminate) F) as (reports & log & Hrun & H2 & _).
  exists reports. split; [|exact H2].
  assert (E : Revert.revert_repos_to_date true
                [Revert.young_repo; Revert.master_repo; RevertLog.stuck_repo] "2019-01-01"
              = Revert.Finishes
                  (map (fun r => fst (Revert.process_repo "2019-01-01" r))
                     [Revert.young_repo; Revert.master_repo; RevertLog.stuck_repo])
                  (Some ["Projects that failed to revert:";
                         "young: No commits found before target date";
                         "stuck: error: unable to unlink old 'package.json'"]))
    by reflexivity.
  rewrite E in Hrun. injection Hrun as <- <-. exact E.
Defined.

(** ** Repository names and issue categories in the RQ3 scripts *)

Example rq3_parse_github_url_samples :
  map Rq3.parse_github_url
    ["https://github.com/a/b"; "github.com/a/b"; "https://github.com/a";
     "https://x?y=github.com/a/b"; "https://github.com//a//b";
     "https://github.com[/a/b"; "github.com/github.com/a"; ""]
  = [Ok "a/b"; Ok "github.com/a"; Raise ValueError; Ok "a/b"; Ok "a/";
     Raise ValueError; Ok "github.com/github.com"; Raise ValueError].
Proof. vm_compute. reflexivity. Qed.

Example rq3_repo_name_of_samples :
  map Rq3.repo_name_of
    ["https://github.com/a/b"; "github.com/a/b"; "https://github.com/a";
     "https://github.com//a//b"; "http://github.com/a/b/issues/3";
     "https://github.com/a/b?tab=readme#top"; "a"; ""]
  = [Ok "a/b"; Ok "a/b"; Ok "github.com/a"; Ok "a/b"; Ok "issues/3";
     Ok "a/b?tab=readme#top"; Raise ValueError; Raise ValueError].
Proof. vm_compute. reflexivity. Qed.

Example split_str_samples :
  map (fun p => Rq3.split_str (snd p) (fst p))
    [("abcabc", "bc"); ("aaa", "aa"); ("aaaa", "aa"); ("", "ab"); ("ab", "ab");
     ("xabyabz", "ab"); ("github.com/github.com/a", "github.com/")]
  = [["a"; "a"; ""]; [""; "a"]; [""; ""; ""]; [""]; [""; ""]; ["x"; "y"; "z"];
     [""; ""; "a"]].
Proof. vm_compute. reflexivity. Qed.

Example categorize_issue_samples :
  map (fun t => map snd (Rq3.categorize_issue t))
    ["Promise never resolves in Safari"; "Random text";
     "VIEW the API request timeout; npm install conflict";
     "TypeError: undefined is not a function (React component state)"; ""]
  = [[0; 0; 1; 0; 1; 0; 0; 0; 0; 0];
     [0; 0; 0; 0; 1; 0; 0; 0; 0; 0];
     [0; 0; 0; 0; 1; 0; 3; 0; 3; 0];
     [1; 0; 0; 1; 0; 0; 0; 2; 0; 0];
     [0; 0; 0; 0; 0; 0; 0; 0; 0; 0]].
Proof. vm_compute. reflexivity. Qed.

Lemma rq3_parse_canonical (owner repo : string) :
  GithubUrls.name owner -> GithubUrls.name repo ->
  Rq3.parse_github_url (GithubUrls.canonical owner repo) = Ok (owner +:+ "/" +:+ repo).
Proof.
  intros Ho Hr.
  pose proof (parse_github_url_canonical owner repo Ho Hr) as H.
  unfold Contributors.parse_github_url in H. unfold Rq3.parse_github_url.
  destruct (Url.urlparse (GithubUrls.canonical owner repo)) as [p|e];
    cbn [rbind] in H; [|discriminate H].
  destruct (Py.split_on "/" (Py.strip_chars "/" (Url.path p))) as [|p0 [|p1 rest]];
    try discriminate H.
  destruct (negb (String.eqb (Url.netloc p) "github.com")); [discriminate H|].
  injection H as -> ->. reflexivity.
Qed.

Lemma strip_slashes_canonical (owner repo : string) :
  GithubUrls.name owner -> GithubUrls.name repo ->
  Py.strip_chars "/" (GithubUrls.canonical owner repo) = GithubUrls.canonical owner repo.
Proof.
  intros Ho Hr. unfold Py.strip_chars, Py.strip_by, GithubUrls.canonical.
  change (Py.lstrip_by (fun c => Py.mem_char c "/")
            ("https://github.com/" +:+ owner +:+ "/" +:+ repo))
    with ("https://github.com/" +:+ owner +:+ "/" +:+ repo).
  rewrite <- !app_assoc_str. apply rstrip_app; [apply Hr|].
  apply name_rstrip; [exact Hr | apply slash_not_name].
Qed.

Lemma split_owner_repo (owner repo : string) :
  GithubUrls.name owner -> GithubUrls.name repo ->
  Py.split_on "/" (owner +:+ String "/" repo) = [owner; repo].
Proof.
  intros Ho Hr.
  rewrite split_on_app_sep by (apply name_no_char; [exact Ho | reflexivity]).
  rewrite split_on_no_sep by (apply name_no_char; [exact Hr | reflexivity]).
  reflexivity.
Qed.

Lemma repo_name_of_canonical (owner repo : string) :
  GithubUrls.name owner -> GithubUrls.name repo ->
  Rq3.repo_name_of (GithubUrls.canonical owner repo) = Ok (owner +:+ "/" +:+ repo).
Proof.
  intros Ho Hr. unfold Rq3.repo_name_of.
  rewrite (strip_slashes_canonical owner repo Ho Hr). unfold GithubUrls.canonical.
  change ("https://github.com/" +:+ owner +:+ "/" +:+ repo)
    with ("https:" +:+ String "/" ("" +:+ String "/"
            ("github.com" +:+ String "/" (owner +:+ String "/" repo)))).
  rewrite !split_on_app_sep by reflexivity.
  rewrite (split_owner_repo owner repo Ho Hr).
  cbn [List.filter Py.is_empty negb]. rewrite (proj1 Ho), (proj1 Hr). reflexivity.
Qed.

(** X26: the three scripts that take a repository from its URL agree on
    canonical URLs: for [https://github.com/<owner>/<repo>] the two RQ3
    scripts both name the repository [<owner>/<repo>], and
    [get_contributors.py] returns that owner and that repository. *)
Theorem parsers_agree_on_canonical (owner repo : string) :
  GithubUrls.name owner -> GithubUrls.name repo ->
  Rq3.parse_github_url (GithubUrls.canonical owner repo) = Ok (owner +:+ "/" +:+ repo)
  /\ Rq3.repo_name_of (GithubUrls.canonical owner repo) = Ok (owner +:+ "/" +:+ repo)
  /\ Contributors.parse_github_url (GithubUrls.canonical owner repo)
     = Ok (Some owner, Some repo).
Proof.
  intros Ho Hr. split; [|split].
  - apply rq3_parse_canonical; assumption.
  - apply repo_name_of_canonical; assumption.
  - apply parse_github_url_canonical; assumption.
Qed.

Lemma parsers_agree_on_canonical_witness :
  Rq3.parse_github_url "https://github.com/vuejs/vue.js" = Ok "vuejs/vue.js"
  /\ Rq3.repo_name_of "https://github.com/vuejs/vue.js" = Ok "vuejs/vue.js"
  /\ Contributors.parse_github_url "https://github.com/vuejs/vue.js"
     = Ok (Some "vuejs", Some "vue.js").
Proof.
  apply (parsers_agree_on_canonical "vuejs" "vue.js"); split; reflexivity.
Defined.

Lemma name_chars_not (f : ascii -> bool) (s : string) :
  GithubUrls.name s ->
  (forall c, GithubUrls.name_char c = true -> f c = false) ->
  Rq2.all_chars (fun c => negb (f c)) s = true.
Proof.
  intros [_ H] Hf. apply (all_chars_impl GithubUrls.name_char); [|exact H].
  intros c Hc. rewrite (Hf c Hc). reflexivity.
Qed.

Lemma name_not_special (c d : ascii) :
  GithubUrls.name_char c = true -> Py.mem_char d "/?#;[]:" = true ->
  Ascii.eqb c d = false.
Proof.
  intros Hc Hd. apply Ascii.eqb_neq. intros ->.
  destruct (name_char_facts d Hc) as (_ & _ & H & _). congruence.
Qed.

(** [urlparse] of a URL without scheme: all of it is path. *)
Lemma urlparse_schemeless (owner repo : string) :
  GithubUrls.name owner -> GithubUrls.name repo ->
  Url.urlparse ("github.com/" +:+ owner +:+ "/" +:+ repo)
  = Ok {| Url.scheme := ""; Url.netloc := "";
          Url.path := "github.com/" +:+ owner +:+ "/" +:+ repo;
          Url.params := ""; Url.query := ""; Url.fragment := "" |}.
Proof.
  intros Ho Hr.
  set (url := "github.com/" +:+ owner +:+ "/" +:+ repo).
  assert (P : forall f, Rq2.all_chars (fun c => negb (f c)) "github.com/" = true ->
            (forall c, GithubUrls.name_char c = true -> f c = false) ->
            Rq2.all_chars (fun c => negb (f c)) url = true).
  { intros f Hl Hf. unfold url.
    change ("github.com/" +:+ owner +:+ "/" +:+ repo)
      with ("github.com/" +:+ (owner +:+ ("/" +:+ repo))).
    rewrite !all_chars_app, Hl, (name_chars_not f owner Ho Hf),
      (name_chars_not f repo Hr Hf).
    cbn [andb Rq2.all_chars]. rewrite andb_true_r.
    cbn in Hl. rewrite !andb_true_iff in Hl.
    destruct Hl as (_ & _ & _ & _ & _ & _ & _ & _ & _ & _ & Hl & _).
    rewrite Hl. reflexivity. }
  assert (M : forall c, Py.mem_char c "github.com/" = false ->
            (forall d, GithubUrls.name_char d = true -> Ascii.eqb c d = false) ->
            Py.mem_char c url = false).
  { intros c Hc Hd. apply (all_chars_mem (fun d => negb (Ascii.eqb c d))).
    - apply (P (fun d => Ascii.eqb c d)); [|exact Hd].
      clear -Hc. cbn in Hc. cbn.
      repeat (apply orb_false_iff in Hc as [-> Hc]). reflexivity.
    - rewrite Ascii.eqb_refl. reflexivity. }
  assert (Q : forall d, Py.mem_char d "/?#;[]:" = true -> d <> "/"%char ->
            Rq2.all_chars (fun c => negb (Ascii.eqb c d)) url = true).
  { intros d Hd Hs. apply (P (fun c => Ascii.eqb c d)).
    - cbn in Hd. cbn.
      repeat match goal with
      | H : _ || _ = true |- _ => apply orb_true_iff in H as [H|H]
      end; try discriminate Hd; try (apply Ascii.eqb_eq in Hd; subst d; try congruence;
        reflexivity).
    - intros c Hc. apply name_not_special; assumption. }
  unfold Url.urlparse.
  assert (L : Py.lstrip_by (fun c => (Py.code c <=? 32)%N) url = url) by reflexivity.
  rewrite L.
  rewrite !(remove_char_none _ url).
  2:{ apply M; [reflexivity|]. intros d Hd. apply name_char_facts, Hd. }
  2:{ apply M; [reflexivity|]. intros d Hd. apply name_char_facts, Hd. }
  2:{ apply M; [reflexivity|]. intros d Hd. apply name_char_facts, Hd. }
  rewrite (break_at_none (fun c => Ascii.eqb c ":") url) by (apply Q; [reflexivity | discriminate]).
  assert (U : exists rest, url = String "g" rest) by (eexists; reflexivity).
  destruct U as [rest U]. rewrite U at 1. cbv iota beta.
  assert (S : Py.starts_with "//" url = false) by reflexivity.
  rewrite S. cbv iota beta.
  change (xorb (Py.contains "[" "") (Py.contains "]" "")) with false. cbv iota.
  rewrite (break_at_none (fun c => Ascii.eqb c "#") url) by (apply Q; [reflexivity | discriminate]).
  cbv iota beta. change (Url.tail "") with "".
  rewrite (break_at_none (fun c => Ascii.eqb c "?") url) by (apply Q; [reflexivity | discriminate]).
  cbv iota beta. change (Url.tail "") with "".
  rewrite contains_char.
  rewrite (M ";"%char).
  2:{ reflexivity. }
  2:{ intros c Hc. rewrite Ascii.eqb_sym. apply name_not_special; [exact Hc | reflexivity]. }
  rewrite andb_false_r. reflexivity.
Qed.

Lemma strip_slashes_schemeless (owner repo : string) :
  GithubUrls.name owner -> GithubUrls.name repo ->
  Py.strip_chars "/" ("github.com/" +:+ owner +:+ "/" +:+ repo)
  = "github.com/" +:+ owner +:+ "/" +:+ repo.
Proof.
  intros Ho Hr. unfold Py.strip_chars, Py.strip_by.
  change (Py.lstrip_by (fun c => Py.mem_char c "/")
            ("github.com/" +:+ owner +:+ "/" +:+ repo))
    with ("github.com/" +:+ owner +:+ "/" +:+ repo).
  rewrite <- !app_assoc_str. apply rstrip_app; [apply Hr|].
  apply name_rstrip; [exact Hr | apply slash_not_name].
Qed.

Lemma split_schemeless (owner repo : string) :
  GithubUrls.name owner -> GithubUrls.name repo ->
  Py.split_on "/" ("github.com/" +:+ owner +:+ "/" +:+ repo)
  = ["github.com"; owner; repo].
Proof.
  intros Ho Hr.
  change ("github.com/" +:+ owner +:+ "/" +:+ repo)
    with ("github.com" +:+ String "/" (owner +:+ String "/" repo)).
  rewrite split_on_app_sep by reflexivity.
  rewrite (split_owner_repo owner repo Ho Hr). reflexivity.
Qed.

(** X27: on a URL without scheme, [github.com/<owner>/<repo>], the two RQ3
    scripts part ways: [urlparse] takes the whole of it as path, so that
    [parse_github_url] of [rq3_1script.py] returns [github.com/<owner>] and
    never gets to the branch written for such URLs, while [rq3_2script.py]
    names the repository [<owner>/<repo>]. *)
Theorem schemeless_url_names_host (owner repo : string) :
  GithubUrls.name owner -> GithubUrls.name repo ->
  Rq3.parse_github_url ("github.com/" +:+ owner +:+ "/" +:+ repo)
    = Ok ("github.com/" +:+ owner)
  /\ Rq3.repo_name_of ("github.com/" +:+ owner +:+ "/" +:+ repo)
     = Ok (owner +:+ "/" +:+ repo).
Proof.
  intros Ho Hr. split.
  - unfold Rq3.parse_github_url.
    rewrite (urlparse_schemeless owner repo Ho Hr). cbn [Url.path].
    rewrite (strip_slashes_schemeless owner repo Ho Hr),
      (split_schemeless owner repo Ho Hr). reflexivity.
  - unfold Rq3.repo_name_of.
    rewrite (strip_slashes_schemeless owner repo Ho Hr),
      (split_schemeless owner repo Ho Hr).
    cbn [List.filter Py.is_empty negb]. rewrite (proj1 Ho), (proj1 Hr). reflexivity.
Qed.

Lemma schemeless_url_names_host_witness :
  Rq3.parse_github_url "github.com/facebook/react" = Ok "github.com/facebook"
  /\ Rq3.repo_name_of "github.com/facebook/react" = Ok "facebook/react".
Proof.
  apply (schemeless_url_names_host "facebook" "react"); split; reflexivity.
Defined.

(** ** Issue categories *)

Lemma lower_app (a b : string) : Py.lower (a +:+ b) = Py.lower a +:+ Py.lower b.
Proof.
  induction a as [|c a IH]; [rewrite !app_empty_l; reflexivity|].
  rewrite app_cons. cbn [Py.lower]. rewrite IH, app_cons. reflexivity.
Qed.

Lemma lower_char_idem (c : ascii) : Py.lower_char (Py.lower_char c) = Py.lower_char c.
Proof. destruct c as [[] [] [] [] [] [] [] []]; vm_compute; reflexivity. Qed.

Lemma lower_idem (s : string) : Py.lower (Py.lower s) = Py.lower s.
Proof.
  induction s as [|c s IH]; [reflexivity|].
  cbn [Py.lower]. rewrite lower_char_idem, IH. reflexivity.
Qed.

Lemma starts_with_app (p s t : string) :
  Py.starts_with p s = true -> Py.starts_with p (s +:+ t) = true.
Proof.
  revert s. induction p as [|a p IH]; intros s H; [reflexivity|].
  destruct s as [|b s]; [discriminate H|].
  rewrite app_cons. cbn in *. apply andb_true_iff in H as [Hab H].
  rewrite Hab, (IH s H). reflexivity.
Qed.

Lemma contains_app_r (p s t : string) :
  Py.contains p s = true -> Py.contains p (s +:+ t) = true.
Proof.
  induction s as [|c s IH]; intros H.
  - cbn in H. rewrite orb_false_r in H. destruct p; [|discriminate H].
    destruct t; reflexivity.
  - rewrite app_cons. cbn [Py.contains] in *. apply orb_true_iff in H as [H|H].
    + rewrite <- app_cons, (starts_with_app _ _ t H). reflexivity.
    + rewrite (IH H). apply orb_true_r.
Qed.

Lemma contains_app_l (p s t : string) :
  Py.contains p t = true -> Py.contains p (s +:+ t) = true.
Proof.
  intros H. induction s as [|c s IH]; [rewrite app_empty_l; exact H|].
  rewrite app_cons. cbn [Py.contains]. rewrite IH. apply orb_true_r.
Qed.

Lemma matches_bounds (keywords : list string) (text : string) :
  0 <= Rq3.matches keywords text <= Z.of_nat (length keywords).
Proof.
  unfold Rq3.matches. pose proof (List.filter_length_le
    (fun keyword => Py.contains keyword text) keywords). lia.
Qed.

Lemma matches_mono (keywords : list string) (text text' : string) :
  (forall k, Py.contains k text = true -> Py.contains k text' = true) ->
  Rq3.matches keywords text <= Rq3.matches keywords text'.
Proof.
  intros H. unfold Rq3.matches. apply inj_le.
  induction keywords as [|k keywords IH]; [reflexivity|].
  cbn [List.filter]. destruct (Py.contains k text) eqn:E.
  - rewrite (H k E). cbn [length]. lia.
  - destruct (Py.contains k text'); cbn [length]; lia.
Qed.

(** X28: [categorize_issue] gives one score per category, in the order of
    [ISSUE_CATEGORIES], from 0 to the number of keywords of the category; the
    scores do not depend on the case of the text; and the scores of a title
    followed by a body, as [analyze_repository_issues] joins them, are at
    least those of the title alone and those of the body alone. *)
Theorem category_scores (title body : string) :
  let scores := Rq3.categorize_issue (Rq3.full_text title body) in
  Forall2 (fun ck cs => fst cs = fst ck /\ 0 <= snd cs <= Z.of_nat (length (snd ck)))
    Rq3.ISSUE_CATEGORIES scores
  /\ Rq3.categorize_issue (Py.lower (Rq3.full_text title body)) = scores
  /\ Forall2 (fun part whole => fst part = fst whole /\ snd part <= snd whole)
       (Rq3.categorize_issue title) scores
  /\ Forall2 (fun part whole => fst part = fst whole /\ snd part <= snd whole)
       (Rq3.categorize_issue body) scores.
Proof.
  cbv zeta. unfold Rq3.categorize_issue. rewrite lower_idem.
  split; [|split; [reflexivity|split]].
  - induction Rq3.ISSUE_CATEGORIES as [|ck cats IH]; constructor; [|exact IH].
    split; [reflexivity | apply matches_bounds].
  - induction Rq3.ISSUE_CATEGORIES as [|ck cats IH]; constructor; [|exact IH].
    split; [reflexivity|]. cbn [snd]. apply matches_mono.
    intros k Hk. unfold Rq3.full_text. rewrite lower_app. apply contains_app_r, Hk.
  - induction Rq3.ISSUE_CATEGORIES as [|ck cats IH]; constructor; [|exact IH].
    split; [reflexivity|]. cbn [snd]. apply matches_mono.
    intros k Hk. unfold Rq3.full_text. rewrite !lower_app.
    apply contains_app_l, contains_app_l, Hk.
Qed.

(** ** [clone_github_repos] *)

Example clone_sample :
  Clone.clone_github_repos Clone.sample_world
  = (Clone.Returns,
     [["git"; "clone"; "https://github.com/a/b"; "repos/post-repos/b"];
      ["git"; "clone"; "https://github.com/c/d"; "repos/post-repos/d"]]).
Proof. vm_compute. reflexivity. Qed.

Example clone_latin :
  Clone.clone_github_repos Clone.latin_world
  = (Clone.Returns,
     [["git"; "clone"; "https://github.com/a/b"; "repos/post-repos/b"];
      ["git"; "clone"; "https://github.com/a/b"; "repos/post-repos/b"];
      ["git"; "clone"; "https://github.com/c/d"; "repos/post-repos/d"]]).
Proof. vm_compute. reflexivity. Qed.

Lemma clone_row_csv (w : Clone.world) (n : nat) (row : gmap string value) :
  Clone.git_behaves w -> Clone.csv_row row ->
  Clone.clone_row w n row = (Clone.clones_of [row], None).
Proof.
  intros Hg Hrow. unfold Clone.clone_row, Clone.clones_of, Clone.url_of.
  cbn [omap list_omap].
  destruct Hrow as [->|[url ->]]; [reflexivity|].
  cbn [Val.truthy]. destruct (Py.is_empty url); [reflexivity|].
  cbn [negb fmap option_fmap option_map].
  destruct (Hg n url ("repos/post-repos/" +:+ Clone.repo_name_of url)) as [->|[text ->]];
    reflexivity.
Qed.

Lemma clones_of_app (rows more : list (gmap string value)) :
  Clone.clones_of (rows ++ more) = Clone.clones_of rows ++ Clone.clones_of more.
Proof. unfold Clone.clones_of. apply omap_app. Qed.

(** The rows before the point where the reader stops are cloned one by
    one. *)
Lemma clone_rows_csv (w : Clone.world) (rows : list (gmap string value))
    (rest : list Clone.item) :
  Clone.git_behaves w -> Forall Clone.csv_row rows ->
  forall n,
  Clone.clone_rows w n (map Clone.Row rows ++ rest)
  = (Clone.clones_of rows
       ++ fst (Clone.clone_rows w (n + length (Clone.clones_of rows)) rest),
     snd (Clone.clone_rows w (n + length (Clone.clones_of rows)) rest)).
Proof.
  intros Hg. induction 1 as [|row rows Hrow _ IH]; intros n.
  - cbn [map app Clone.clones_of omap list_omap length]. rewrite Nat.add_0_r.
    destruct (Clone.clone_rows w n rest). reflexivity.
  - cbn [map app Clone.clone_rows]. rewrite (clone_row_csv w n row Hg Hrow).
    rewrite IH. change (row :: rows) with ([row] ++ rows).
    rewrite clones_of_app, length_app, Nat.add_assoc, <- app_assoc. reflexivity.
Qed.

(** X29: when the file is read as UTF-8, has an [html_url] column and
    every clone succeeds or fails with readable text on stderr,
    [clone_github_repos] returns after one [git clone] per row that has a
    URL, in the order of the rows, into [repos/post-repos/] followed by the
    last component of the URL; a clone that fails does not stop the others,
    rows without URL are passed over, and no other encoding is tried. *)
Theorem clean_file_cloned_once (w : Clone.world) (fieldnames : list string)
    (rows : list (gmap string value)) :
  Clone.repos_dir w = Ok tt ->
  Clone.read w Clone.utf_8 = Clone.Reads (Some fieldnames) (map Clone.Row rows) ->
  In "html_url" fieldnames ->
  Forall Clone.csv_row rows ->
  Clone.git_behaves w ->
  Clone.clone_github_repos w = (Clone.Returns, Clone.clones_of rows).
Proof.
  intros Hdir Hread Hin Hrows Hg. unfold Clone.clone_github_repos. rewrite Hdir.
  cbn [Clone.encodings Clone.try_encodings Clone.attempt length]. unfold Clone.attempt.
  rewrite Hread, bool_decide_eq_true_2 by (apply list_elem_of_In, Hin).
  rewrite <- (app_nil_r (map Clone.Row rows)).
  rewrite (clone_rows_csv w rows [] Hg Hrows).
  cbn [Clone.clone_rows fst snd app]. rewrite app_nil_r. reflexivity.
Qed.

Lemma clean_file_cloned_once_witness :
  Forall Clone.csv_row Clone.sample_rows
  /\ Clone.git_behaves Clone.sample_world
  /\ Clone.clone_github_repos Clone.sample_world
     = (Clone.Returns,
        [["git"; "clone"; "https://github.com/a/b"; "repos/post-repos/b"];
         ["git"; "clone"; "https://github.com/c/d"; "repos/post-repos/d"]]).
Proof.
  assert (R : Forall Clone.csv_row Clone.sample_rows).
  { repeat apply List.Forall_cons; try apply List.Forall_nil;
      right; eexists; reflexivity. }
  assert (G : Clone.git_behaves Clone.sample_world).
  { intros n url dest. cbn. destruct (Nat.even n); [left | right; eexists]; reflexivity. }
  split; [exact R|]. split; [exact G|].
  apply (clean_file_cloned_once Clone.sample_world ["html_url"; "stargazers_count"]
           Clone.sample_rows eq_refl eq_refl); [left; reflexivity | exact R | exact G].
Defined.

(** X30: when the UTF-8 reader fails on some bytes after a number of rows,
    the rows before them have been cloned, and the function starts over with
    [latin1]: every row read under that encoding is cloned, those that were
    cloned already included. *)
Theorem decode_error_starts_over (w : Clone.world) (fieldnames fieldnames' : list string)
    (rows more : list (gmap string value)) (later : list Clone.item) :
  Clone.repos_dir w = Ok tt ->
  Clone.read w Clone.utf_8
    = Clone.Reads (Some fieldnames) (map Clone.Row rows ++ Clone.DecodeFails :: later) ->
  Clone.read w Clone.latin1 = Clone.Reads (Some fieldnames') (map Clone.Row more) ->
  In "html_url" fieldnames -> In "html_url" fieldnames' ->
  Forall Clone.csv_row rows -> Forall Clone.csv_row more ->
  Clone.git_behaves w ->
  Clone.clone_github_repos w
  = (Clone.Returns, Clone.clones_of rows ++ Clone.clones_of more).
Proof.
  intros Hdir Hutf Hlatin Hin Hin' Hrows Hmore Hg.
  unfold Clone.clone_github_repos. rewrite Hdir.
  cbn [Clone.encodings Clone.try_encodings length]. unfold Clone.attempt.
  rewrite Hutf, bool_decide_eq_true_2 by (apply list_elem_of_In, Hin).
  rewrite (clone_rows_csv w rows _ Hg Hrows).
  cbn [Clone.clone_rows fst snd app]. rewrite app_nil_r.
  rewrite Hlatin, bool_decide_eq_true_2 by (apply list_elem_of_In, Hin').
  rewrite <- (app_nil_r (map Clone.Row more)).
  rewrite (clone_rows_csv w more [] Hg Hmore).
  cbn [Clone.clone_rows fst snd app]. rewrite !app_nil_r. reflexivity.
Qed.

Lemma decode_error_starts_over_witness :
  Clone.git_behaves Clone.latin_world
  /\ Clone.clone_github_repos Clone.latin_world
     = (Clone.Returns,
        [["git"; "clone"; "https://github.com/a/b"; "repos/post-repos/b"];
         ["git"; "clone"; "https://github.com/a/b"; "repos/post-repos/b"];
         ["git"; "clone"; "https://github.com/c/d"; "repos/post-repos/d"]]).
Proof.
  assert (R : forall url, Clone.csv_row (Clone.url_row url)).
  { intros url. right. eexists. reflexivity. }
  assert (G : Clone.git_behaves Clone.latin_world).
  { intros n url dest. cbn. destruct (n =? 0)%nat; [left | right; eexists]; reflexivity. }
  split; [exact G|].
  apply (decode_error_starts_over Clone.latin_world
           ["html_url"; "stargazers_count"] ["html_url"; "stargazers_count"]
           [Clone.url_row "https://github.com/a/b"] Clone.sample_rows [] eq_refl eq_refl
           eq_refl);
    [left; reflexivity | left; reflexivity | | | exact G].
  - repeat apply List.Forall_cons; try apply List.Forall_nil; apply R.
  - repeat apply List.Forall_cons; try apply List.Forall_nil; apply R.
Defined.
